(** * JIRA hierarchy server: a shallow embedding and its properties

    The development follows the Python package [jira_hierarchy]:
    - [config.py]        : [get_jira_pat]
    - [jira_client.py]   : [run_jira_query], [get_jira_issue], [update_jira_labels]
    - [data_fetcher.py]  : [build_issue_data], [fetch_rfes], [fetch_strats_for_rfe],
                           [fetch_epics_for_strat], [fetch_tasks_for_epic]
    - [sse.py]           : [send_sse_event], [stream_hierarchy] and its two flows
    - [server.py]        : [serve_hierarchy_stream], [reload_item]

    Decoded JSON is kept dynamically typed, as the Python code sees it; the
    remote issue store is a function from HTTP requests to responses; a run
    either returns or raises, and leaves the events written to the client and
    the requests sent to the store. *)

From Stdlib Require Import List String Ascii ZArith Bool Lia DecimalString.
Import ListNotations.
Local Open Scope string_scope.
Local Open Scope list_scope.
Set Warnings "-register-all".

(** ** Decoded JSON values and the Python operations used on them

    A [string] stands for a Python [str], one [ascii] for one character of
    it, so that lengths, slices and iteration count characters as Python
    does; the texts covered are those of characters below U+0100. A number
    is an [int]: the issue data read here holds no fraction. *)

Inductive json : Type :=
| JNull
| JBool (b : bool)
| JNum (n : Z)
| JStr (s : string)
| JArr (items : list json)
| JObj (members : list (string * json)).

(** A Python [dict] with string keys, in insertion order. *)
Definition dict : Type := list (string * json).

(** What a subscript [o[k]] was: a name or a position. *)
Inductive subscript : Type :=
| Name (k : string)
| Position (n : Z).

Coercion Name : string >-> subscript.

(** Exceptions. Those the interpreter raises itself carry its message, in
    the wording of CPython 3.11; a [KeyError] carries the missing key. *)
Inductive exn : Type :=
| KeyError (k : subscript)
| TypeError (msg : string)
| AttributeError (msg : string)
| IndexError (msg : string)
| ValueError (msg : string)
| Exception (msg : string).

Inductive outcome (A : Type) : Type :=
| Returned (a : A)
| Raised (e : exn).

Arguments Returned {A} a.
Arguments Raised {A} e.

Definition obind {A B : Type} (c : outcome A) (k : A -> outcome B) : outcome B :=
  match c with
  | Returned a => k a
  | Raised e => Raised e
  end.

Notation "'let?' x ':=' c 'in' k" := (obind c (fun x => k))
  (at level 10, x name, c at level 100, k at level 200).

Fixpoint omap {A B : Type} (f : A -> outcome B) (l : list A) : outcome (list B) :=
  match l with
  | [] => Returned []
  | x :: xs =>
      let? y := f x in
      let? ys := omap f xs in
      Returned (y :: ys)
  end.

Fixpoint dict_get (k : string) (d : dict) : option json :=
  match d with
  | [] => None
  | (k', v) :: d' => if String.eqb k k' then Some v else dict_get k d'
  end.

(** [d[k] = v]: overwrite in place, or append a new key. *)
Fixpoint dict_set (k : string) (v : json) (d : dict) : dict :=
  match d with
  | [] => [(k, v)]
  | (k', v') :: d' =>
      if String.eqb k k' then (k', v) :: d' else (k', v') :: dict_set k v d'
  end.

(** [d[k]] on a dict the program built itself; [None] stands for a key that
    was never set. *)
Definition dict_item (k : string) (d : dict) : json :=
  match dict_get k d with
  | Some v => v
  | None => JNull
  end.

Definition nonempty {A : Type} (l : list A) : bool :=
  match l with
  | [] => false
  | _ :: _ => true
  end.

(** Python truth value. *)
Definition truthy (v : json) : bool :=
  match v with
  | JNull => false
  | JBool b => b
  | JNum n => negb (Z.eqb n 0)
  | JStr s => negb (String.eqb s "")
  | JArr l => nonempty l
  | JObj m => nonempty m
  end.

(** An f-string is the concatenation of its pieces. *)
Definition fstr (pieces : list string) : string := String.concat "" pieces.

(** The name of a value's type, as the interpreter's messages give it. *)
Definition type_name (v : json) : string :=
  match v with
  | JNull => "NoneType"
  | JBool _ => "bool"
  | JNum _ => "int"
  | JStr _ => "str"
  | JArr _ => "list"
  | JObj _ => "dict"
  end.

(** The interpreter's errors on a value of the wrong type. *)
Definition no_attribute (v : json) (name : string) : exn :=
  AttributeError (fstr ["'"; type_name v; "' object has no attribute '"; name; "'"]).

Definition not_subscriptable (v : json) : exn :=
  TypeError (fstr ["'"; type_name v; "' object is not subscriptable"]).

(** [o[k]] with a [str] subscript on something that is no dict. *)
Definition no_str_subscript (v : json) : exn :=
  match v with
  | JStr _ => TypeError "string indices must be integers, not 'str'"
  | JArr _ => TypeError "list indices must be integers or slices, not str"
  | _ => not_subscriptable v
  end.

Definition not_iterable (v : json) : exn :=
  TypeError (fstr ["'"; type_name v; "' object is not iterable"]).

Definition no_len (v : json) : exn :=
  TypeError (fstr ["object of type '"; type_name v; "' has no len()"]).

Definition not_a_container (v : json) : exn :=
  TypeError (fstr ["argument of type '"; type_name v; "' is not iterable"]).

(** [o.get(k, default)]: only a dict has the method. *)
Definition get (o : json) (k : string) (default : json) : outcome json :=
  match o with
  | JObj d =>
      match dict_get k d with
      | Some v => Returned v
      | None => Returned default
      end
  | _ => Raised (no_attribute o "get")
  end.

(** [o[k]] with a string subscript. *)
Definition item (o : json) (k : string) : outcome json :=
  match o with
  | JObj d =>
      match dict_get k d with
      | Some v => Returned v
      | None => Raised (KeyError k)
      end
  | _ => Raised (no_str_subscript o)
  end.

(** [for x in v]: the elements of a list, the keys of a dict, the characters
    of a string. *)
Definition iter (v : json) : outcome (list json) :=
  match v with
  | JArr l => Returned l
  | JObj m => Returned (map (fun kv => JStr (fst kv)) m)
  | JStr s => Returned (map (fun c => JStr (String c "")) (list_ascii_of_string s))
  | _ => Raised (not_iterable v)
  end.

(** [v[0]]. *)
Definition first_item (v : json) : outcome json :=
  match v with
  | JArr (x :: _) => Returned x
  | JArr [] => Raised (IndexError "list index out of range")
  | JStr (String c _) => Returned (JStr (String c ""))
  | JStr EmptyString => Raised (IndexError "string index out of range")
  | JObj _ => Raised (KeyError (Position 0))
  | _ => Raised (not_subscriptable v)
  end.

(** [len(v)]. *)
Definition len (v : json) : outcome Z :=
  match v with
  | JArr l => Returned (Z.of_nat (List.length l))
  | JObj m => Returned (Z.of_nat (List.length m))
  | JStr s => Returned (Z.of_nat (String.length s))
  | _ => Raised (no_len v)
  end.

(** [v == s] for a [str] [s]: nothing but an equal string compares equal. *)
Definition eq_str (v : json) (s : string) : bool :=
  match v with
  | JStr t => String.eqb t s
  | _ => false
  end.

(** [v in keys] for a list of strings; when it holds, the string [v] is. *)
Definition member (v : json) (keys : list string) : option string :=
  match v with
  | JStr k => if existsb (String.eqb k) keys then Some k else None
  | _ => None
  end.

Definition dq : string := String (ascii_of_nat 34) "".
Definition nl : string := String (ascii_of_nat 10) "".

Definition str_of_Z (n : Z) : string := NilZero.string_of_int (Z.to_int n).

(** [",".join(keys)] raises [TypeError] at the first item that is no [str],
    naming its position; the strings joined are returned. *)
Fixpoint strs_from (position : nat) (keys : list json) : outcome (list string) :=
  match keys with
  | [] => Returned []
  | JStr k :: rest =>
      let? ks := strs_from (S position) rest in
      Returned (k :: ks)
  | v :: _ =>
      Raised (TypeError (fstr ["sequence item "; str_of_Z (Z.of_nat position);
                               ": expected str instance, "; type_name v; " found"]))
  end.

Definition as_strs (keys : list json) : outcome (list string) := strs_from 0 keys.

(** [str(e)]: the message of an exception; for a [KeyError] the [repr] of
    the missing key, which for the names the program subscripts with (they
    hold no quote, backslash or control character) is the name between
    single quotes, and for a position its decimal. *)
Definition exn_str (e : exn) : string :=
  match e with
  | KeyError (Name k) => fstr ["'"; k; "'"]
  | KeyError (Position n) => str_of_Z n
  | TypeError msg => msg
  | AttributeError msg => msg
  | IndexError msg => msg
  | ValueError msg => msg
  | Exception msg => msg
  end.

(** ** The remote store, the client connection and runs *)

Inductive request : Type :=
| GET (url : string) (headers : list (string * string)) (params : dict)
| PUT (url : string) (headers : list (string * string)) (body : json).

Record response : Type := {
  status_code : Z;
  text : string;
  json_body : json  (* response.json() *)
}.

(** What the process reads from outside: the remote store, the two
    environment variables of [config.py], and the text Python prints for a
    non-string value inside an f-string. *)
Record environ : Type := {
  remote : request -> response;
  JIRA_BASE_URL : string;
  JIRA_PAT : option string;
  repr : json -> string
}.

(** What the handler writes to the client. *)
Inductive written : Type :=
| StreamHead                                  (* 200, text/event-stream *)
| Sse (event_type : string) (data : json)      (* one server-sent event *)
| Json (status : Z) (data : json).             (* send_json *)

(** What a run leaves behind: the writes to the client socket and the
    requests sent to the store, both in order. Neither can be taken back. *)
Record trace : Type := {
  wfile : list written;
  http_log : list request
}.

Definition quiet : trace := {| wfile := []; http_log := [] |}.

Definition tapp (t1 t2 : trace) : trace :=
  {| wfile := wfile t1 ++ wfile t2; http_log := http_log t1 ++ http_log t2 |}.

Definition M (A : Type) : Type := environ -> outcome A * trace.

Definition ret {A : Type} (a : A) : M A := fun _ => (Returned a, quiet).

Definition raise {A : Type} (e : exn) : M A := fun _ => (Raised e, quiet).

Definition bind {A B : Type} (c : M A) (k : A -> M B) : M B :=
  fun E =>
    match c E with
    | (Returned a, t) =>
        match k a E with
        | (r, t') => (r, tapp t t')
        end
    | (Raised e, t) => (Raised e, t)
    end.

Notation "x <- c ;; k" := (bind c (fun x => k))
  (at level 100, c at next level, right associativity).
Notation "c ;; k" := (bind c (fun _ => k))
  (at level 100, right associativity).

Definition lift {A : Type} (c : outcome A) : M A := fun _ => (c, quiet).

(** [try: c except Exception as e: handler(e)]. *)
Definition try_except {A : Type} (c : M A) (handler : exn -> M A) : M A :=
  fun E =>
    match c E with
    | (Returned a, t) => (Returned a, t)
    | (Raised e, t) =>
        match handler e E with
        | (r, t') => (r, tapp t t')
        end
    end.

Definition ask : M environ := fun E => (Returned E, quiet).

Definition write (x : written) : M unit :=
  fun _ => (Returned tt, {| wfile := [x]; http_log := [] |}).

Definition http (r : request) : M response :=
  fun E => (Returned (remote E r), {| wfile := []; http_log := [r] |}).

(** [for x in l: s = body(s, x)]. *)
Fixpoint for_each {A S : Type} (body : S -> A -> M S) (s : S) (l : list A) : M S :=
  match l with
  | [] => ret s
  | x :: xs => s' <- body s x ;; for_each body s' xs
  end.

(** ** config.py *)

Definition truthy_str (s : option string) : bool :=
  match s with
  | Some t => negb (String.eqb t "")
  | None => false
  end.

Definition get_jira_pat (override_pat : option string) : M string :=
  E <- ask ;;
  let pat := if truthy_str override_pat then override_pat else JIRA_PAT E in
  match pat with
  | Some p =>
      if negb (String.eqb p "") then ret p
      else raise (ValueError (fstr [
        "JIRA Personal Access Token not provided. Please configure in Settings or set:"; nl;
        "  export JIRA_PAT='your-personal-access-token'"; nl]))
  | None =>
      raise (ValueError (fstr [
        "JIRA Personal Access Token not provided. Please configure in Settings or set:"; nl;
        "  export JIRA_PAT='your-personal-access-token'"; nl]))
  end.

(** ** jira_client.py *)

Definition run_jira_query (jql fields : string) (jira_pat : option string) : M json :=
  pat <- get_jira_pat jira_pat ;;
  E <- ask ;;
  let url := fstr [JIRA_BASE_URL E; "/rest/api/2/search"] in
  let params := [("jql", JStr jql); ("fields", JStr fields); ("maxResults", JNum 100)] in
  let headers := [("Authorization", fstr ["Bearer "; pat]); ("Accept", "application/json")] in
  response <- http (GET url headers params) ;;
  if negb (Z.eqb (status_code response) 200) then
    raise (ValueError (fstr [
      "JIRA API error: "; str_of_Z (status_code response); nl;
      "URL: "; url; nl;
      "Response: "; substring 0 500 (text response)]))
  else
    lift (item (json_body response) "issues").

Definition get_jira_issue (issue_key fields : string) (jira_pat : option string) : M json :=
  pat <- get_jira_pat jira_pat ;;
  E <- ask ;;
  let headers := [("Authorization", fstr ["Bearer "; pat]); ("Accept", "application/json")] in
  let get_url := fstr [JIRA_BASE_URL E; "/rest/api/2/issue/"; issue_key; "?fields="; fields] in
  response <- http (GET get_url headers []) ;;
  if negb (Z.eqb (status_code response) 200) then
    raise (Exception (fstr ["Failed to fetch issue: "; str_of_Z (status_code response)]))
  else
    ret (json_body response).

(** [list.remove(x)]: drop the first item equal to the string. *)
Fixpoint remove_first (label : string) (l : list json) : list json :=
  match l with
  | [] => []
  | x :: xs => if eq_str x label then xs else x :: remove_first label xs
  end.

(** [label in current_labels] for whatever the store sent as [labels]. *)
Definition contains (current_labels : json) (label : string) : outcome bool :=
  match current_labels with
  | JArr l => Returned (existsb (fun x => eq_str x label) l)
  | JObj m => Returned (existsb (fun kv => String.eqb (fst kv) label) m)
  | JStr s => Returned (match index 0 label s with Some _ => true | None => false end)
  | _ => Raised (not_a_container current_labels)
  end.

Definition list_append (current_labels : json) (label : string) : outcome json :=
  match current_labels with
  | JArr l => Returned (JArr (l ++ [JStr label]))
  | _ => Raised (no_attribute current_labels "append")
  end.

Definition list_remove (current_labels : json) (label : string) : outcome json :=
  match current_labels with
  | JArr l => Returned (JArr (remove_first label l))
  | _ => Raised (no_attribute current_labels "remove")
  end.

(** The [# Update labels list] block: [add] appends a label that is not
    there, [remove] drops one that is, any other action leaves the list. *)
Definition update_labels_list (action label : string) (current_labels : json)
    : outcome json :=
  if String.eqb action "add" then
    let? present := contains current_labels label in
    if negb present then list_append current_labels label
    else Returned current_labels
  else if String.eqb action "remove" then
    let? present := contains current_labels label in
    if present then list_remove current_labels label
    else Returned current_labels
  else Returned current_labels.

Definition update_jira_labels (issue_key action label : string)
    (jira_pat : option string) : M json :=
  pat <- get_jira_pat jira_pat ;;
  E <- ask ;;
  let headers := [("Authorization", fstr ["Bearer "; pat]);
                  ("Content-Type", "application/json")] in
  (* First, get current labels *)
  issue_data <- get_jira_issue issue_key "labels" jira_pat ;;
  fields <- lift (item issue_data "fields") ;;
  current_labels <- lift (get fields "labels" (JArr [])) ;;
  (* Update labels list *)
  current_labels <- lift (update_labels_list action label current_labels) ;;
  (* Update issue with new labels *)
  let update_url := fstr [JIRA_BASE_URL E; "/rest/api/2/issue/"; issue_key] in
  let payload := JObj [("fields", JObj [("labels", current_labels)])] in
  response <- http (PUT update_url headers payload) ;;
  if negb (Z.eqb (status_code response) 204) then
    raise (Exception (fstr ["Failed to update labels: "; str_of_Z (status_code response);
                            " - "; text response]))
  else
    ret current_labels.

(** ** data_fetcher.py *)

Definition build_issue_data (issue : json) (issue_type : string) : outcome dict :=
  let? fields := item issue "fields" in
  let? assignee := get fields "assignee" JNull in
  let? reporter := get fields "reporter" JNull in
  let? key := item issue "key" in
  let? summary := get fields "summary" (JStr "No summary") in
  let? status_obj := get fields "status" (JObj []) in
  let? status := get status_obj "name" (JStr "Unknown") in
  let? priority_obj := get fields "priority" (JObj []) in
  let? priority := get priority_obj "name" (JStr "Undefined") in
  let? assignee_name :=
    (if truthy assignee then get assignee "displayName" (JStr "Unassigned")
     else Returned (JStr "Unassigned")) in
  let? assignee_username :=
    (if truthy assignee then get assignee "name" JNull else Returned JNull) in
  let? reporter_name :=
    (if truthy reporter then get reporter "displayName" (JStr "Unknown")
     else Returned (JStr "Unknown")) in
  let? description := get fields "description" (JStr "") in
  let? labels := get fields "labels" (JArr []) in
  let? components_field := get fields "components" (JArr []) in
  let? components_items := iter components_field in
  let? components := omap (fun c => get c "name" (JStr "")) components_items in
  let? comment_obj := get fields "comment" (JObj []) in
  let? comments_field := get comment_obj "comments" (JArr []) in
  let? comments_items := iter comments_field in
  let? comments :=
    omap (fun c =>
            let? body := get c "body" (JStr "") in
            let? author_obj := get c "author" (JObj []) in
            let? author := get author_obj "displayName" (JStr "Unknown") in
            let? created := get c "created" (JStr "") in
            Returned (JObj [("body", body); ("author", author); ("created", created)]))
         comments_items in
  let? created := get fields "created" (JStr "") in
  let? updated := get fields "updated" (JStr "") in
  Returned [
    ("key", key);
    ("summary", summary);
    ("status", status);
    ("priority", priority);
    ("assignee", assignee_name);
    ("assignee_username", assignee_username);
    ("reporter", reporter_name);
    ("description", description);
    ("labels", labels);
    ("components", JArr components);
    ("comments", JArr comments);
    ("created", created);
    ("updated", updated)
  ].

Definition base_field_list : string :=
  "summary,status,priority,assignee,reporter,description,labels,comment,created,updated,components".

Definition task_field_list : string :=
  "summary,status,priority,assignee,reporter,description,labels,comment,issuetype,created,updated,components,customfield_12311140".

Definition fetch_rfes (component : string) (jira_pat : option string) : M (list dict) :=
  let rfes_jql := fstr [
    "project = RHAIRFE ";
    "AND issuetype = "; dq; "Feature Request"; dq; " ";
    "AND component = "; dq; component; dq; " ";
    "AND status NOT IN (Closed, Resolved) ";
    "ORDER BY priority DESC, created DESC"] in
  rfe_issues <- run_jira_query rfes_jql base_field_list jira_pat ;;
  items <- lift (iter rfe_issues) ;;
  lift (omap (fun rfe => build_issue_data rfe "rfe") items).

(** A key inside an f-string: a [str] is printed as it is. *)
Definition format (E : environ) (v : json) : string :=
  match v with
  | JStr s => s
  | _ => repr E v
  end.

Definition fetch_strats_for_rfe (rfe_key : json) (jira_pat : option string) : M (list dict) :=
  E <- ask ;;
  let strats_jql := fstr [
    "project = RHAISTRAT ";
    "AND (issueFunction in linkedIssuesOf("; dq; "key = "; format E rfe_key; dq; ", ";
      dq; "is cloned by"; dq; ") ";
    "OR issueFunction in linkedIssuesOf("; dq; "key = "; format E rfe_key; dq; ", ";
      dq; "clones"; dq; ")) ";
    "AND status NOT IN (Closed, Resolved)"] in
  strat_issues <- run_jira_query strats_jql base_field_list jira_pat ;;
  items <- lift (iter strat_issues) ;;
  lift (omap (fun strat => build_issue_data strat "strat") items).

Definition fetch_epics_for_strat (strat_key : json) (jira_pat : option string) : M (list dict) :=
  E <- ask ;;
  let epics_jql := fstr [
    "project = RHOAIENG ";
    "AND issuetype = Epic ";
    "AND "; dq; "Parent Link"; dq; " = "; format E strat_key; " ";
    "AND status NOT IN (Closed, Resolved)"] in
  let field_list := fstr [base_field_list; ",customfield_12313140"] in
  epic_issues <- run_jira_query epics_jql field_list jira_pat ;;
  items <- lift (iter epic_issues) ;;
  lift (omap (fun epic => build_issue_data epic "epic") items).

(** [task['fields'].get('issuetype', {}).get('name', 'Task')] *)
Definition task_issuetype (task : json) : outcome json :=
  let? fields := item task "fields" in
  let? issuetype := get fields "issuetype" (JObj []) in
  get issuetype "name" (JStr "Task").

Definition fetch_tasks_for_epic (epic_key : json) (jira_pat : option string) : M (list dict) :=
  E <- ask ;;
  let tasks_jql := fstr [
    dq; "Epic Link"; dq; " = "; format E epic_key; " ";
    "AND issuetype NOT IN (Epic, Feature, "; dq; "Feature Request"; dq; ") ";
    "AND status NOT IN (Closed, Resolved)"] in
  try_except
    (task_issues <- run_jira_query tasks_jql task_field_list jira_pat ;;
     items <- lift (iter task_issues) ;;
     lift (omap (fun task =>
                   let? task_data := build_issue_data task "task" in
                   let? issuetype := task_issuetype task in
                   Returned (dict_set "issuetype" issuetype task_data))
                items))
    (fun e => ret []).

(** ** sse.py *)

Definition send_sse_event (event_type : string) (data : json) : M unit :=
  write (Sse event_type data).

Definition progress (message : string) : json := JObj [("message", JStr message)].

Definition totals (total_rfes total_strats total_epics total_tasks : Z) : json :=
  JObj [("total_rfes", JNum total_rfes); ("total_strats", JNum total_strats);
        ("total_epics", JNum total_epics); ("total_tasks", JNum total_tasks)].

(** [strats_by_rfe], [epics_by_strat], [tasks_by_epic]: parent key to the
    children found so far, entries in insertion order. *)
Definition by_parent : Type := list (string * list dict).

(** [if k not in m: m[k] = []] followed by [m[k].append(child)]. *)
Fixpoint add_child (parent : string) (child : dict) (m : by_parent) : by_parent :=
  match m with
  | [] => [(parent, [child])]
  | (k, children) :: m' =>
      if String.eqb parent k then (k, children ++ [child]) :: m'
      else (k, children) :: add_child parent child m'
  end.

(** [for k, children in m.items(): if any(c['key'] == child_key for c in
    children): found = k; break] *)
Fixpoint parent_of (m : by_parent) (child_key : string) : option string :=
  match m with
  | [] => None
  | (k, children) :: m' =>
      if existsb (fun c => eq_str (dict_item "key" c) child_key) children then Some k
      else parent_of m' child_key
  end.

(** The scan of a STRAT's issue links, inward before outward, stopping at
    the first key that is an RFE. *)
Fixpoint find_rfe (links : list json) (rfe_keys : list string) : outcome (option string) :=
  match links with
  | [] => Returned None
  | link :: rest =>
      let? inward_issue := get link "inwardIssue" (JObj []) in
      let? outward_issue := get link "outwardIssue" (JObj []) in
      let? inward_key := get inward_issue "key" JNull in
      match member inward_key rfe_keys with
      | Some found_rfe => Returned (Some found_rfe)
      | None =>
          let? outward_key := get outward_issue "key" JNull in
          match member outward_key rfe_keys with
          | Some found_rfe => Returned (Some found_rfe)
          | None => find_rfe rest rfe_keys
          end
      end
  end.

(** The lookups the WARNING line of an unlinked STRAT evaluates per link. *)
Definition warn_links (links : list json) : outcome unit :=
  let? printed :=
    omap (fun link =>
            let? type_obj := get link "type" (JObj []) in
            let? type_name := get type_obj "name" JNull in
            let? inward_issue := get link "inwardIssue" (JObj []) in
            let? inward_key := get inward_issue "key" JNull in
            let? outward_issue := get link "outwardIssue" (JObj []) in
            get outward_issue "key" JNull)
         links in
  Returned tt.

Record strat_vars : Type := {
  strats_by_rfe : by_parent;
  strat_keys_list : list json;
  total_strats : Z
}.

Record epic_vars : Type := {
  epics_by_strat : by_parent;
  epic_keys_list : list json;
  total_epics : Z
}.

Record task_vars : Type := {
  tasks_by_epic : by_parent;
  total_tasks : Z
}.

(** The closing lines printed to stderr: per level the records fetched and
    the orphan count ([None]: the flow computes none for that level). *)
Record summary : Type := {
  fetched_strats : Z;
  orphaned_strats : option Z;
  fetched_epics : Z;
  orphaned_epics : Z;
  fetched_tasks : Z;
  orphaned_tasks : Z
}.

(** Body of the loop over the STRATs fetched, request-first flow. *)
Definition rfe_first_strat (rfe_keys : list string) (v : strat_vars) (strat : json)
    : M strat_vars :=
  strat_data <- lift (build_issue_data strat "strat") ;;
  let strat_key := dict_item "key" strat_data in
  let keys := strat_keys_list v ++ [strat_key] in
  (* Find which RFE this STRAT is linked to *)
  fields <- lift (get strat "fields" (JObj [])) ;;
  links <- lift (get fields "issuelinks" (JArr [])) ;;
  links <- lift (iter links) ;;
  found_rfe <- lift (find_rfe links rfe_keys) ;;
  if truthy_str found_rfe then
    match found_rfe with
    | Some found_rfe =>
        (* Stream STRAT immediately; the object appended to the dict is the
           one the two fields are then set on *)
        let strat_data :=
          dict_set "epics" (JArr []) (dict_set "rfe_key" (JStr found_rfe) strat_data) in
        send_sse_event "strat" (JObj strat_data) ;;
        ret {| strats_by_rfe := add_child found_rfe strat_data (strats_by_rfe v);
               strat_keys_list := keys;
               total_strats := (total_strats v + 1)%Z |}
    | None => ret v
    end
  else
    lift (warn_links links) ;;
    ret {| strats_by_rfe := strats_by_rfe v;
           strat_keys_list := keys;
           total_strats := total_strats v |}.

(** Body of the loop over the Epics fetched, request-first flow. *)
Definition rfe_first_epic (strat_keys : list string) (strats_by_rfe : by_parent)
    (v : epic_vars) (epic : json) : M epic_vars :=
  epic_data <- lift (build_issue_data epic "epic") ;;
  let epic_key := dict_item "key" epic_data in
  let keys := epic_keys_list v ++ [epic_key] in
  (* Find which STRAT this Epic is linked to via Parent Link custom field *)
  fields <- lift (get epic "fields" (JObj [])) ;;
  parent_link <- lift (get fields "customfield_12313140" JNull) ;;
  if truthy parent_link then
    match member parent_link strat_keys with
    | Some parent_link =>
        (* Find RFE key for this epic (via its parent STRAT) *)
        let rfe_key := parent_of strats_by_rfe parent_link in
        if truthy_str rfe_key then
          match rfe_key with
          | Some rfe_key =>
              (* Stream Epic immediately *)
              let epic_data :=
                dict_set "tasks" (JArr [])
                  (dict_set "strat_key" (JStr parent_link)
                     (dict_set "rfe_key" (JStr rfe_key) epic_data)) in
              send_sse_event "epic" (JObj epic_data) ;;
              ret {| epics_by_strat := add_child parent_link epic_data (epics_by_strat v);
                     epic_keys_list := keys;
                     total_epics := (total_epics v + 1)%Z |}
          | None => ret v
          end
        else
          ret {| epics_by_strat := add_child parent_link epic_data (epics_by_strat v);
                 epic_keys_list := keys;
                 total_epics := total_epics v |}
    | None =>
        ret {| epics_by_strat := epics_by_strat v;
               epic_keys_list := keys;
               total_epics := total_epics v |}
    end
  else
    ret {| epics_by_strat := epics_by_strat v;
           epic_keys_list := keys;
           total_epics := total_epics v |}.

(** Body of the loop over the Tasks fetched, request-first flow. *)
Definition rfe_first_task (epic_keys : list string) (epics_by_strat strats_by_rfe : by_parent)
    (v : task_vars) (task : json) : M task_vars :=
  task_data <- lift (build_issue_data task "task") ;;
  issuetype <- lift (task_issuetype task) ;;
  let task_data := dict_set "issuetype" issuetype task_data in
  (* Get the Epic Link *)
  fields <- lift (item task "fields") ;;
  epic_link <- lift (get fields "customfield_12311140" JNull) ;;
  if truthy epic_link then
    match member epic_link epic_keys with
    | Some epic_link =>
        (* Find STRAT and RFE keys for this task (via its parent Epic) *)
        let strat_key := parent_of epics_by_strat epic_link in
        let rfe_key :=
          match strat_key with
          | Some st_key => parent_of strats_by_rfe st_key
          | None => None
          end in
        if truthy_str rfe_key && truthy_str strat_key then
          match rfe_key, strat_key with
          | Some rfe_key, Some strat_key =>
              (* Stream Task immediately *)
              let task_data :=
                dict_set "epic_key" (JStr epic_link)
                  (dict_set "strat_key" (JStr strat_key)
                     (dict_set "rfe_key" (JStr rfe_key) task_data)) in
              send_sse_event "task" (JObj task_data) ;;
              ret {| tasks_by_epic := add_child epic_link task_data (tasks_by_epic v);
                     total_tasks := (total_tasks v + 1)%Z |}
          | _, _ => ret v
          end
        else
          ret {| tasks_by_epic := add_child epic_link task_data (tasks_by_epic v);
                 total_tasks := total_tasks v |}
    | None => ret v
    end
  else ret v.

Definition strats_jql (rfe_keys : list string) : string :=
  fstr ["project = RHAISTRAT ";
        "AND (issueFunction in linkedIssuesOf("; dq; "key in ("; String.concat "," rfe_keys;
          ")"; dq; ", "; dq; "is cloned by"; dq; ") ";
        "OR issueFunction in linkedIssuesOf("; dq; "key in ("; String.concat "," rfe_keys;
          ")"; dq; ", "; dq; "clones"; dq; ")) ";
        "AND status NOT IN (Closed, Resolved)"].

Definition epics_jql (strat_keys : list string) : string :=
  fstr ["project = RHOAIENG ";
        "AND issuetype = Epic ";
        "AND "; dq; "Parent Link"; dq; " in ("; String.concat "," strat_keys; ") ";
        "AND status NOT IN (Closed, Resolved)"].

Definition tasks_jql (epic_keys : list string) : string :=
  fstr [dq; "Epic Link"; dq; " in ("; String.concat "," epic_keys; ") ";
        "AND issuetype NOT IN (Epic, Feature, "; dq; "Feature Request"; dq; ") ";
        "AND status NOT IN (Closed, Resolved)"].

Definition no_epics : epic_vars :=
  {| epics_by_strat := []; epic_keys_list := []; total_epics := 0 |}.

Definition no_tasks : task_vars := {| tasks_by_epic := []; total_tasks := 0 |}.

(** One level below the top, as both flows write it for Epics and for Tasks:
    [if parent_keys: progress; one query over all parent keys; loop].
    Returns the loop's variables and the issues fetched ([[]] when the level
    is skipped). *)
Definition batch_level {S : Type} (parent_keys : list json) (message : string)
    (jql : list string -> string) (field_list : string)
    (body : list string -> S -> json -> M S) (init : S) (jira_pat : option string)
    : M (S * json) :=
  if nonempty parent_keys then
    send_sse_event "progress" (progress message) ;;
    keys <- lift (as_strs parent_keys) ;;
    issues <- run_jira_query (jql keys) field_list jira_pat ;;
    n <- lift (len issues) ;;
    records <- lift (iter issues) ;;
    v <- for_each (body keys) init records ;;
    ret (v, issues)
  else
    ret (init, JArr []).

(** [len(issues) if epic_keys_list else 0] *)
Definition fetched_count (epic_keys_list : list json) (issues : json) : M Z :=
  if nonempty epic_keys_list then lift (len issues) else ret 0%Z.

Definition stream_hierarchy_rfe_first (jira_pat : option string) (component : string)
    : M (option summary) :=
  (* Step 1: Batch fetch all RFEs and stream them immediately *)
  send_sse_event "progress" (progress "Loading RFEs...") ;;
  rfes <- fetch_rfes component jira_pat ;;
  if negb (nonempty rfes) then
    send_sse_event "complete" (totals 0 0 0 0) ;;
    ret None
  else
    total_rfes <-
      for_each (fun total_rfes rfe_data =>
                  send_sse_event "rfe" (JObj (dict_set "strats" (JArr []) rfe_data)) ;;
                  ret (total_rfes + 1)%Z)
               0%Z rfes ;;
    (* Step 2: Batch fetch all STRATs for all RFEs *)
    send_sse_event "progress" (progress "Loading STRATs...") ;;
    rfe_keys <- lift (as_strs (map (dict_item "key") rfes)) ;;
    let field_list := fstr [base_field_list; ",issuelinks"] in
    strat_issues <- run_jira_query (strats_jql rfe_keys) field_list jira_pat ;;
    n_strats <- lift (len strat_issues) ;;
    strats <- lift (iter strat_issues) ;;
    sv <- for_each (rfe_first_strat rfe_keys)
            {| strats_by_rfe := []; strat_keys_list := []; total_strats := 0 |} strats ;;
    (* Step 3: Batch fetch all Epics for all STRATs *)
    step3 <- batch_level (strat_keys_list sv) "Loading Epics..." epics_jql
               (fstr [field_list; ",customfield_12313140"])
               (fun strat_keys => rfe_first_epic strat_keys (strats_by_rfe sv))
               no_epics jira_pat ;;
    let ev := fst step3 in
    let epic_issues := snd step3 in
    (* Step 4: Batch fetch all Tasks for all Epics *)
    step4 <- batch_level (epic_keys_list ev) "Loading Tasks..." tasks_jql task_field_list
               (fun epic_keys =>
                  rfe_first_task epic_keys (epics_by_strat ev) (strats_by_rfe sv))
               no_tasks jira_pat ;;
    let tv := fst step4 in
    let task_issues := snd step4 in
    (* Send completion event *)
    send_sse_event "complete"
      (totals total_rfes (total_strats sv) (total_epics ev) (total_tasks tv)) ;;
    n_epics <- fetched_count (epic_keys_list ev) epic_issues ;;
    n_tasks <- fetched_count (epic_keys_list ev) task_issues ;;
    ret (Some {| fetched_strats := n_strats;
                 orphaned_strats := Some (n_strats - total_strats sv)%Z;
                 fetched_epics := n_epics;
                 orphaned_epics := (n_epics - total_epics ev)%Z;
                 fetched_tasks := n_tasks;
                 orphaned_tasks := (n_tasks - total_tasks tv)%Z |}).

(** Body of the loop over the STRATs fetched, strategy-first flow. *)
Definition strat_first_strat (v : strat_vars) (strat : json) : M strat_vars :=
  strat_data <- lift (build_issue_data strat "strat") ;;
  let strat_key := dict_item "key" strat_data in
  let strat_data := dict_set "epics" (JArr []) strat_data in
  send_sse_event "strat" (JObj strat_data) ;;
  ret {| strats_by_rfe := strats_by_rfe v;
         strat_keys_list := strat_keys_list v ++ [strat_key];
         total_strats := (total_strats v + 1)%Z |}.

(** Body of the loop over the Epics fetched, strategy-first flow. *)
Definition strat_first_epic (strat_keys : list string) (v : epic_vars) (epic : json)
    : M epic_vars :=
  epic_data <- lift (build_issue_data epic "epic") ;;
  let epic_key := dict_item "key" epic_data in
  let keys := epic_keys_list v ++ [epic_key] in
  (* Find which STRAT this Epic is linked to via Parent Link *)
  fields <- lift (get epic "fields" (JObj [])) ;;
  parent_link <- lift (get fields "customfield_12313140" JNull) ;;
  if truthy parent_link then
    match member parent_link strat_keys with
    | Some parent_link =>
        (* Stream Epic immediately *)
        let epic_data :=
          dict_set "tasks" (JArr []) (dict_set "strat_key" (JStr parent_link) epic_data) in
        send_sse_event "epic" (JObj epic_data) ;;
        ret {| epics_by_strat := add_child parent_link epic_data (epics_by_strat v);
               epic_keys_list := keys;
               total_epics := (total_epics v + 1)%Z |}
    | None =>
        ret {| epics_by_strat := epics_by_strat v;
               epic_keys_list := keys;
               total_epics := total_epics v |}
    end
  else
    ret {| epics_by_strat := epics_by_strat v;
           epic_keys_list := keys;
           total_epics := total_epics v |}.

(** Body of the loop over the Tasks fetched, strategy-first flow. *)
Definition strat_first_task (epic_keys : list string) (epics_by_strat : by_parent)
    (v : task_vars) (task : json) : M task_vars :=
  task_data <- lift (build_issue_data task "task") ;;
  issuetype <- lift (task_issuetype task) ;;
  let task_data := dict_set "issuetype" issuetype task_data in
  (* Get the Epic Link *)
  fields <- lift (item task "fields") ;;
  epic_link <- lift (get fields "customfield_12311140" JNull) ;;
  if truthy epic_link then
    match member epic_link epic_keys with
    | Some epic_link =>
        (* Find STRAT key for this task *)
        let strat_key := parent_of epics_by_strat epic_link in
        if truthy_str strat_key then
          match strat_key with
          | Some strat_key =>
              (* Stream Task immediately *)
              let task_data :=
                dict_set "epic_key" (JStr epic_link)
                  (dict_set "strat_key" (JStr strat_key) task_data) in
              send_sse_event "task" (JObj task_data) ;;
              ret {| tasks_by_epic := add_child epic_link task_data (tasks_by_epic v);
                     total_tasks := (total_tasks v + 1)%Z |}
          | None => ret v
          end
        else
          ret {| tasks_by_epic := add_child epic_link task_data (tasks_by_epic v);
                 total_tasks := total_tasks v |}
    | None => ret v
    end
  else ret v.

Definition stream_hierarchy_strat_first (jira_pat : option string) (component : string)
    : M (option summary) :=
  (* Step 1: Batch fetch all STRATs with the component filter *)
  send_sse_event "progress" (progress "Loading STRATs...") ;;
  let strats_jql := fstr [
    "project = RHAISTRAT ";
    "AND component = "; dq; component; dq; " ";
    "AND status NOT IN (Closed, Resolved) ";
    "ORDER BY priority DESC, created DESC"] in
  let field_list := base_field_list in
  strat_issues <- run_jira_query strats_jql field_list jira_pat ;;
  n_strats <- lift (len strat_issues) ;;
  if negb (truthy strat_issues) then
    send_sse_event "complete" (totals 0 0 0 0) ;;
    ret None
  else
    (* Stream STRATs immediately *)
    strats <- lift (iter strat_issues) ;;
    sv <- for_each strat_first_strat
            {| strats_by_rfe := []; strat_keys_list := []; total_strats := 0 |} strats ;;
    (* Step 2: Batch fetch all Epics for all STRATs *)
    step2 <- batch_level (strat_keys_list sv) "Loading Epics..." epics_jql
               (fstr [field_list; ",customfield_12313140"])
               strat_first_epic no_epics jira_pat ;;
    let ev := fst step2 in
    let epic_issues := snd step2 in
    (* Step 3: Batch fetch all Tasks for all Epics *)
    step3 <- batch_level (epic_keys_list ev) "Loading Tasks..." tasks_jql task_field_list
               (fun epic_keys => strat_first_task epic_keys (epics_by_strat ev))
               no_tasks jira_pat ;;
    let tv := fst step3 in
    let task_issues := snd step3 in
    (* Send completion event (no RFEs in STRAT mode) *)
    send_sse_event "complete"
      (totals 0 (total_strats sv) (total_epics ev) (total_tasks tv)) ;;
    n_epics <- fetched_count (epic_keys_list ev) epic_issues ;;
    n_tasks <- fetched_count (epic_keys_list ev) task_issues ;;
    ret (Some {| fetched_strats := n_strats;
                 orphaned_strats := None;
                 fetched_epics := n_epics;
                 orphaned_epics := (n_epics - total_epics ev)%Z;
                 fetched_tasks := n_tasks;
                 orphaned_tasks := (n_tasks - total_tasks tv)%Z |}).

Definition stream_hierarchy (jira_pat : option string) (component top_level : string)
    : M (option summary) :=
  if String.eqb top_level "strat" then stream_hierarchy_strat_first jira_pat component
  else stream_hierarchy_rfe_first jira_pat component.

(** ** server.py *)

Definition send_json (data : json) (status : Z) : M unit := write (Json status data).

Definition or_default (param : option string) (default : string) : string :=
  match param with
  | Some v => v
  | None => default
  end.

(** The query parameters arrive as [params.get(name, [None])[0]]. *)
Definition serve_hierarchy_stream (pat component top_level : option string) : M unit :=
  let component := or_default component "AI Safety" in
  let top_level := or_default top_level "rfe" in
  E <- ask ;;
  let pat := if negb (truthy_str pat) then JIRA_PAT E else pat in
  if negb (truthy_str pat) then
    send_json (JObj [("error", JStr "Personal Access Token not provided")]) 400
  else
    write StreamHead ;;
    try_except
      (printed <- stream_hierarchy pat component top_level ;; ret tt)
      (fun e => write (Sse "error" (JObj [("error", JStr (exn_str e))]))).

(** The [rfe] branch of [reload_item] once the RFE is found. *)
Definition reload_rfe (issue_key : string) (pat : option string) (rfe : dict) : M unit :=
  (* Fetch its children *)
  strats <- fetch_strats_for_rfe (JStr issue_key) pat ;;
  strats <-
    for_each (fun done strat_data =>
      let strat_data :=
        dict_set "epics" (JArr []) (dict_set "rfe_key" (JStr issue_key) strat_data) in
      epics <- fetch_epics_for_strat (dict_item "key" strat_data) pat ;;
      epics <-
        for_each (fun done_epics epic_data =>
          let epic_data :=
            dict_set "strat_key" (dict_item "key" strat_data)
              (dict_set "rfe_key" (JStr issue_key) epic_data) in
          tasks <- fetch_tasks_for_epic (dict_item "key" epic_data) pat ;;
          let tasks :=
            map (fun task =>
                   dict_set "epic_key" (dict_item "key" epic_data)
                     (dict_set "strat_key" (dict_item "key" strat_data)
                        (dict_set "rfe_key" (JStr issue_key) task)))
                tasks in
          ret (done_epics ++ [dict_set "tasks" (JArr (map JObj tasks)) epic_data]))
          [] epics ;;
      ret (done ++ [dict_set "epics" (JArr (map JObj epics)) strat_data]))
      [] strats ;;
  send_json (JObj [("success", JBool true);
                   ("data", JObj (dict_set "strats" (JArr (map JObj strats)) rfe))]) 200.

(** The [strat] branch of [reload_item] once the STRAT is normalised. *)
Definition reload_strat (issue_key : string) (pat : option string) (strat_data : dict)
    : M unit :=
  epics <- fetch_epics_for_strat (JStr issue_key) pat ;;
  epics <-
    for_each (fun done_epics epic_data =>
      let epic_data := dict_set "strat_key" (JStr issue_key) epic_data in
      tasks <- fetch_tasks_for_epic (dict_item "key" epic_data) pat ;;
      let tasks :=
        map (fun task =>
               dict_set "epic_key" (dict_item "key" epic_data)
                 (dict_set "strat_key" (JStr issue_key) task))
            tasks in
      ret (done_epics ++ [dict_set "tasks" (JArr (map JObj tasks)) epic_data]))
      [] epics ;;
  send_json (JObj [("success", JBool true);
                   ("data", JObj (dict_set "epics" (JArr (map JObj epics)) strat_data))]) 200.

Definition reload_item (issue_key item_type pat component : option string) : M unit :=
  try_except
    (let component := or_default component "AI Safety" in
     match issue_key, item_type with
     | Some issue_key, Some item_type =>
         if String.eqb issue_key "" || String.eqb item_type "" then
           send_json (JObj [("error", JStr "Missing required parameters")]) 400
         else if String.eqb item_type "rfe" then
           (* Fetch this specific RFE *)
           rfes <- fetch_rfes component pat ;;
           match find (fun r => eq_str (dict_item "key" r) issue_key) rfes with
           | Some rfe => reload_rfe issue_key pat rfe
           | None => send_json (JObj [("error", JStr "RFE not found")]) 404
           end
         else if String.eqb item_type "strat" then
           (* Fetch this specific STRAT *)
           strat_issues <- run_jira_query (fstr ["key = "; issue_key]) base_field_list pat ;;
           if negb (truthy strat_issues) then
             send_json (JObj [("error", JStr "STRAT not found")]) 404
           else
             strat <- lift (first_item strat_issues) ;;
             strat_data <- lift (build_issue_data strat "strat") ;;
             reload_strat issue_key pat (dict_set "epics" (JArr []) strat_data)
         else if String.eqb item_type "epic" then
           (* Fetch this specific Epic *)
           epic_issues <- run_jira_query (fstr ["key = "; issue_key]) base_field_list pat ;;
           if negb (truthy epic_issues) then
             send_json (JObj [("error", JStr "Epic not found")]) 404
           else
             epic <- lift (first_item epic_issues) ;;
             epic_data <- lift (build_issue_data epic "epic") ;;
             tasks <- fetch_tasks_for_epic (JStr issue_key) pat ;;
             let tasks := map (fun task => dict_set "epic_key" (JStr issue_key) task) tasks in
             send_json (JObj [("success", JBool true);
                              ("data", JObj (dict_set "tasks" (JArr (map JObj tasks))
                                               epic_data))]) 200
         else if String.eqb item_type "task" then
           (* Fetch this specific Task *)
           let field_list :=
             "summary,status,priority,assignee,reporter,description,labels,comment,issuetype,created,updated,components" in
           task_issues <- run_jira_query (fstr ["key = "; issue_key]) field_list pat ;;
           if negb (truthy task_issues) then
             send_json (JObj [("error", JStr "Task not found")]) 404
           else
             task <- lift (first_item task_issues) ;;
             task_data <- lift (build_issue_data task "task") ;;
             issuetype <- lift (task_issuetype task) ;;
             send_json (JObj [("success", JBool true);
                              ("data", JObj (dict_set "issuetype" issuetype task_data))]) 200
         else
           send_json (JObj [("error", JStr "Invalid item type")]) 400
     | _, _ => send_json (JObj [("error", JStr "Missing required parameters")]) 400
     end)
    (fun e => send_json (JObj [("error", JStr (exn_str e))]) 500).

(** ** Vocabulary of the properties *)

(** A raw record as the store sends it: a key and a [fields] object. *)
Definition raw_issue (key : string) (fields : dict) : json :=
  JObj [("key", JStr key); ("fields", JObj fields)].

(** The key of a raw record, as [build_issue_data] reads it. *)
Definition raw_key (x : json) : json :=
  match item x "key" with
  | Returned k => k
  | Raised _ => JNull
  end.

(** How often a label occurs in a label list. *)
Definition occurrences (label : string) (l : list json) : nat :=
  List.length (filter (fun x => eq_str x label) l).

(** The store keeps to the page size asked for: a successful search carries
    an array of at most [maxResults] issues. *)
Definition honours_maxResults (E : environ) : Prop :=
  forall url headers params n v,
    dict_get "maxResults" params = Some (JNum n) ->
    status_code (remote E (GET url headers params)) = 200%Z ->
    item (json_body (remote E (GET url headers params))) "issues" = Returned v ->
    exists l, v = JArr l /\ (Z.of_nat (List.length l) <= n)%Z.

(** A store for examples: it answers a search by what the JQL starts with. *)
Definition jql_of (r : request) : string :=
  match r with
  | GET _ _ params =>
      match dict_get "jql" params with
      | Some (JStr q) => q
      | _ => ""
      end
  | PUT _ _ _ => ""
  end.

Definition found (issues : list json) : response :=
  {| status_code := 200; text := ""; json_body := JObj [("issues", JArr issues)] |}.

Definition failure (status : Z) : response :=
  {| status_code := status; text := "unavailable"; json_body := JNull |}.

Definition environ_of (store : request -> response) : environ :=
  {| remote := store;
     JIRA_BASE_URL := "https://issues.example";
     JIRA_PAT := None;
     repr := fun _ => "?" |}.

(** A STRAT as the store reports it when no priority is set: the field is
    there and holds [null], like the unset assignee and reporter. *)
Definition unset_priority_record : json :=
  raw_issue "RHAISTRAT-7"
    [("summary", JStr "Guardrails"); ("status", JObj [("name", JStr "New")]);
     ("priority", JNull); ("assignee", JNull); ("reporter", JNull)].

(** The same record with the three optional objects left out altogether. *)
Definition bare_record : json :=
  raw_issue "RHAISTRAT-7"
    [("summary", JStr "Guardrails"); ("status", JObj [("name", JStr "New")])].

(** The shape [build_issue_data] relies on besides the three optional
    objects: [status] and [comment] are objects when present, [components]
    and [comments] are arrays of objects, a comment's [author] is an object. *)
Definition is_object (v : json) : Prop := exists m, v = JObj m.

Definition is_comment (c : json) : Prop :=
  exists m, c = JObj m /\
    forall a, dict_get "author" m = Some a -> is_object a.

Definition shaped_fields (fields : dict) : Prop :=
  (forall v, dict_get "status" fields = Some v -> is_object v) /\
  (forall v, dict_get "components" fields = Some v ->
     exists l, v = JArr l /\ Forall is_object l) /\
  (forall v, dict_get "comment" fields = Some v ->
     exists m, v = JObj m /\
       forall cs, dict_get "comments" m = Some cs ->
         exists l, cs = JArr l /\ Forall is_comment l).

(** A store holding one issue with labels [triaged] and [safety], which
    accepts every update. *)
Definition label_store (r : request) : response :=
  match r with
  | GET _ _ _ =>
      {| status_code := 200; text := "";
         json_body := raw_issue "RHOAIENG-1"
                        [("labels", JArr [JStr "triaged"; JStr "safety"])] |}
  | PUT _ _ _ => {| status_code := 204; text := ""; json_body := JNull |}
  end.

(** A store holding one issue that carries the label [safety] twice, which
    accepts every update. *)
Definition doubled_label_store (r : request) : response :=
  match r with
  | GET _ _ _ =>
      {| status_code := 200; text := "";
         json_body := raw_issue "RHOAIENG-1"
                        [("labels", JArr [JStr "safety"; JStr "safety"])] |}
  | PUT _ _ _ => {| status_code := 204; text := ""; json_body := JNull |}
  end.

(** A store that pages: it answers a search with the first [maxResults] of
    its two issues, and refuses a negative page size. *)
Definition paged_store (r : request) : response :=
  let issues := [raw_issue "RHAIRFE-1" []; raw_issue "RHAIRFE-2" []] in
  match r with
  | GET _ _ params =>
      match dict_get "maxResults" params with
      | Some (JNum n) =>
          if (n <? 0)%Z then failure 400 else found (firstn (Z.to_nat n) issues)
      | _ => found issues
      end
  | PUT _ _ _ => failure 405
  end.

(** A cross-reference entry of the store's shape: an object whose
    [inwardIssue] and [outwardIssue], when present, are objects. *)
Definition is_link (link : json) : Prop :=
  exists m, link = JObj m /\
    (forall v, dict_get "inwardIssue" m = Some v -> is_object v) /\
    (forall v, dict_get "outwardIssue" m = Some v -> is_object v).

(** The key a link names in one direction ([null] when it names none). *)
Definition linked_key (link : json) (direction : string) : json :=
  match get link direction (JObj []) with
  | Returned issue =>
      match get issue "key" JNull with
      | Returned k => k
      | Raised _ => JNull
      end
  | Raised _ => JNull
  end.

(** The tie-break in the spec's words: of all references, in iteration
    order over the list and inward before outward within one link, the
    first whose key is a known Request. *)
Definition references (links : list json) : list json :=
  flat_map (fun link => [linked_key link "inwardIssue"; linked_key link "outwardIssue"])
           links.

Fixpoint first_known (refs : list json) (rfe_keys : list string) : option string :=
  match refs with
  | [] => None
  | r :: rest =>
      match member r rfe_keys with
      | Some k => Some k
      | None => first_known rest rfe_keys
      end
  end.

Definition first_request_match (links : list json) (rfe_keys : list string)
    : option string :=
  first_known (references links) rfe_keys.

(** A STRAT that references two known Requests: RHAIRFE-2 outward in its
    first link, RHAIRFE-1 inward in its second. *)
Definition twice_linked_strat : json :=
  raw_issue "RHAISTRAT-3"
    [("issuelinks",
      JArr [JObj [("type", JObj [("name", JStr "Cloners")]);
                  ("outwardIssue", JObj [("key", JStr "RHAIRFE-2")])];
            JObj [("type", JObj [("name", JStr "Cloners")]);
                  ("inwardIssue", JObj [("key", JStr "RHAIRFE-1")])]])].

(** Events of one type, and a field of an event's payload. *)
Definition is_event (L : string) (x : written) : bool :=
  match x with
  | Sse event_type _ => String.eqb event_type L
  | _ => false
  end.

Definition events_of (L : string) (out : list written) : list written :=
  filter (is_event L) out.

Definition payload_field (f : string) (x : written) : json :=
  match x with
  | Sse _ (JObj d) => dict_item f d
  | _ => JNull
  end.

(** [s] is [l] with some items left out, the order kept. *)
Inductive subseq {A : Type} : list A -> list A -> Prop :=
| subseq_nil : subseq [] []
| subseq_skip (x : A) (s l : list A) : subseq s l -> subseq s (x :: l)
| subseq_take (x : A) (s l : list A) : subseq s l -> subseq (x :: s) (x :: l).

(** What holds between the iterations of a level's loop, for the records
    [done] so far, the loop variables [v] and the events [evs] so far:
    the key list (where the level keeps one) holds the keys of all records
    seen; every child filed in the level's by-parent dict under a parent for
    which [emitted_if] holds was streamed; every event streamed satisfies
    [P]. *)
Definition level_inv {S : Type} (L : string) (keys_of : S -> option (list json))
    (map_of : S -> by_parent) (emitted_if : string -> bool) (P : dict -> Prop)
    (done : list json) (v : S) (evs : list written) : Prop :=
  (forall keys, keys_of v = Some keys -> keys = map raw_key done) /\
  (forall k children c,
      In (k, children) (map_of v) -> In c children -> emitted_if k = true ->
      In (Sse L (JObj c)) evs) /\
  (forall d, In (Sse L (JObj d)) evs -> P d).

(** One iteration of a level's loop: it sends no request; it either raises
    before writing anything, or keeps the invariant and streams nothing
    (counter unchanged) or one event of the level carrying the record's key
    (counter up by one). *)
Definition step_ok {S : Type} (E : environ) (L : string) (total : S -> Z)
    (Inv : list json -> S -> list written -> Prop) (body : S -> json -> M S) : Prop :=
  forall done v evs x,
    Inv done v evs ->
    match body v x E with
    | (Returned v', t') =>
        http_log t' = [] /\
        Inv (done ++ [x]) v' (evs ++ wfile t') /\
        ((wfile t' = [] /\ total v' = total v) \/
         (exists d, wfile t' = [Sse L (JObj d)] /\
                    dict_get "key" d = Some (raw_key x) /\
                    total v' = (total v + 1)%Z))
    | (Raised e, t') => t' = quiet
    end.

(** What the loops establish of each event they stream. *)
Definition strat_under_rfe (rfe_keys : list string) (d : dict) : Prop :=
  exists k, dict_get "rfe_key" d = Some (JStr k) /\ In k rfe_keys.

Definition epic_under_rfe (strat_keys : list string) (strats_by_rfe : by_parent)
    (d : dict) : Prop :=
  exists parent_link rfe_key,
    dict_get "strat_key" d = Some (JStr parent_link) /\
    dict_get "rfe_key" d = Some (JStr rfe_key) /\
    In parent_link strat_keys /\
    parent_of strats_by_rfe parent_link = Some rfe_key /\
    rfe_key <> "".

Definition task_under_rfe (epic_keys : list string) (epics_by_strat strats_by_rfe : by_parent)
    (d : dict) : Prop :=
  exists epic_link strat_key rfe_key,
    dict_get "epic_key" d = Some (JStr epic_link) /\
    dict_get "strat_key" d = Some (JStr strat_key) /\
    dict_get "rfe_key" d = Some (JStr rfe_key) /\
    In epic_link epic_keys /\
    parent_of epics_by_strat epic_link = Some strat_key /\
    parent_of strats_by_rfe strat_key = Some rfe_key /\
    rfe_key <> "" /\ strat_key <> "".

Definition epic_under_strat (strat_keys : list string) (d : dict) : Prop :=
  exists parent_link,
    dict_get "strat_key" d = Some (JStr parent_link) /\ In parent_link strat_keys.

Definition task_under_strat (epic_keys : list string) (epics_by_strat : by_parent)
    (d : dict) : Prop :=
  exists epic_link strat_key,
    dict_get "epic_key" d = Some (JStr epic_link) /\
    dict_get "strat_key" d = Some (JStr strat_key) /\
    In epic_link epic_keys /\
    parent_of epics_by_strat epic_link = Some strat_key /\
    strat_key <> "".

(** The invariant of the top loop of the strategy-first flow: every STRAT
    seen is streamed, without any ancestor field. *)
Definition top_strat_inv (done : list json) (v : strat_vars) (evs : list written) : Prop :=
  strat_keys_list v = map raw_key done /\
  map (payload_field "key") evs = map raw_key done /\
  (forall d, In (Sse "strat" (JObj d)) evs -> dict_get "rfe_key" d = None).

(** ** The anatomy of a streamed flow *)

(** A request of the search adapter for a given JQL. *)
Definition search_request (jql : string) (q : request) : Prop :=
  exists url headers fields,
    q = GET url headers [("jql", JStr jql); ("fields", JStr fields);
                         ("maxResults", JNum 100)].

(** The store answered [q] with success and the records [l], in that order. *)
Definition answered (E : environ) (q : request) (l : list json) : Prop :=
  status_code (remote E q) = 200%Z /\
  exists v, item (json_body (remote E q)) "issues" = Returned v /\ iter v = Returned l.

(** What one level of a flow did: what it wrote (its progress line, then its
    events), the events alone, the requests it sent, the records it
    iterated. *)
Record level_run : Type := {
  output : list written;
  events : list written;
  log : list request;
  fetched : list json
}.

Definition idle : level_run := {| output := []; events := []; log := []; fetched := [] |}.

Definition finished (E : environ) (lv : level_run) : Prop :=
  exists q, log lv = [q] /\ answered E q (fetched lv).

(** A level writes nothing, or a progress line followed by events of its own
    type only; it sends no request, or one search whose JQL satisfies
    [jql_ok]; the keys of its events are, in order, keys of the records the
    store returned for that search. *)
Definition level_ok (E : environ) (L : string) (jql_ok : string -> Prop)
    (lv : level_run) : Prop :=
  ((output lv = [] /\ events lv = []) \/
   exists message, output lv = Sse "progress" (progress message) :: events lv) /\
  Forall (fun x => exists d, x = Sse L (JObj d)) (events lv) /\
  ((log lv = [] /\ fetched lv = []) \/
   exists q jql, log lv = [q] /\ search_request jql q /\ jql_ok jql /\
                 (fetched lv = [] \/ answered E q (fetched lv))) /\
  subseq (map (payload_field "key") (events lv)) (map raw_key (fetched lv)).

(** The JQL of a level below the top is built from the keys of all records
    fetched at the level above. *)
Definition batched (jql_of : list string -> string) (parent : level_run) (jql : string)
    : Prop :=
  exists keys, map raw_key (fetched parent) = map JStr keys /\ jql = jql_of keys.

(** Every event of [children] that carries the parent field names, by it,
    the key of an event among [parents]. *)
Definition parents_emitted (L field Lp : string) (children parents : list written) : Prop :=
  forall d kv,
    In (Sse L (JObj d)) children -> dict_get field d = Some kv ->
    exists d', In (Sse Lp (JObj d')) parents /\ dict_get "key" d' = Some kv.

Definition count {A : Type} (l : list A) : Z := Z.of_nat (List.length l).

(** The Epic and Task levels and the closing of a flow, which the two flows
    write alike up to the loop bodies, the field list and what is reported
    about the levels above. *)
Definition lower_levels (field_list : string)
    (epic_body : list string -> epic_vars -> json -> M epic_vars)
    (task_body : by_parent -> list string -> task_vars -> json -> M task_vars)
    (total_rfes n_strats : Z) (orphaned : option Z) (sv : strat_vars)
    (jira_pat : option string) : M (option summary) :=
  step3 <- batch_level (strat_keys_list sv) "Loading Epics..." epics_jql
             (fstr [field_list; ",customfield_12313140"]) epic_body no_epics jira_pat ;;
  step4 <- batch_level (epic_keys_list (fst step3)) "Loading Tasks..." tasks_jql
             task_field_list (task_body (epics_by_strat (fst step3))) no_tasks jira_pat ;;
  send_sse_event "complete"
    (totals total_rfes (total_strats sv) (total_epics (fst step3))
       (total_tasks (fst step4))) ;;
  n_epics <- fetched_count (epic_keys_list (fst step3)) (snd step3) ;;
  n_tasks <- fetched_count (epic_keys_list (fst step3)) (snd step4) ;;
  ret (Some {| fetched_strats := n_strats;
               orphaned_strats := orphaned;
               fetched_epics := n_epics;
               orphaned_epics := (n_epics - total_epics (fst step3))%Z;
               fetched_tasks := n_tasks;
               orphaned_tasks := (n_tasks - total_tasks (fst step4))%Z |}).

(** What the closing lines report, against the levels' runs. *)
Definition summary_ok (sm : summary) (lv2 lv3 lv4 : level_run) : Prop :=
  fetched_strats sm = count (fetched lv2) /\
  (forall o, orphaned_strats sm = Some o ->
             o = (count (fetched lv2) - count (events lv2))%Z) /\
  fetched_epics sm = count (fetched lv3) /\
  orphaned_epics sm = (count (fetched lv3) - count (events lv3))%Z /\
  fetched_tasks sm = count (fetched lv4) /\
  orphaned_tasks sm = (count (fetched lv4) - count (events lv4))%Z.

(** The whole of a streamed flow, request-first ([rfe_first = true]) or
    strategy-first. *)
Definition anatomy (E : environ) (rfe_first : bool) (r : outcome (option summary))
    (t : trace) : Prop :=
  exists lv1 lv2 lv3 lv4 tail,
    wfile t = output lv1 ++ output lv2 ++ output lv3 ++ output lv4 ++ tail /\
    http_log t = log lv1 ++ log lv2 ++ log lv3 ++ log lv4 /\
    level_ok E "rfe" (fun _ => True) lv1 /\
    level_ok E "strat"
      (fun jql => if rfe_first then batched strats_jql lv1 jql else True) lv2 /\
    level_ok E "epic" (batched epics_jql lv2) lv3 /\
    level_ok E "task" (batched tasks_jql lv3) lv4 /\
    (if rfe_first then True else lv1 = idle) /\
    (* a level is entered only after the level above is done *)
    (rfe_first = true -> lv2 <> idle -> finished E lv1) /\
    (lv3 <> idle -> finished E lv2) /\
    (lv4 <> idle -> finished E lv3) /\
    (* parents before children *)
    parents_emitted "strat" "rfe_key" "rfe" (events lv2) (events lv1) /\
    parents_emitted "epic" "strat_key" "strat" (events lv3) (events lv2) /\
    parents_emitted "task" "epic_key" "epic" (events lv4) (events lv3) /\
    (* the closing event *)
    (tail = [] \/
     tail = [Sse "complete" (totals (count (events lv1)) (count (events lv2))
                                    (count (events lv3)) (count (events lv4)))]) /\
    (forall e, r = Raised e -> tail = []) /\
    (forall s, r = Returned s ->
       tail <> [] /\
       (if rfe_first then finished E lv1 else finished E lv2) /\
       (rfe_first = true -> fetched lv1 <> [] -> finished E lv2) /\
       (s <> None -> fetched lv2 <> [] -> finished E lv3) /\
       (s <> None -> fetched lv3 <> [] -> finished E lv4) /\
       (forall sm, s = Some sm -> summary_ok sm lv2 lv3 lv4)).

(** A computation that sends no request, and one that writes nothing. *)
Definition offline {A : Type} (c : M A) : Prop :=
  forall E, http_log (snd (c E)) = [].

Definition silent {A : Type} (c : M A) : Prop :=
  forall E, wfile (snd (c E)) = [].

(** Once the store answers a request with a failure, nothing more is sent
    and the run has raised; the requests for which [excused] holds apart. *)
Definition stops_at_failure {A : Type} (excused : environ -> request -> Prop) (c : M A)
    : Prop :=
  forall E log1 q log2,
    http_log (snd (c E)) = log1 ++ q :: log2 ->
    status_code (remote E q) <> 200%Z -> ~ excused E q ->
    log2 = [] /\ exists e, fst (c E) = Raised e.

Definition none_excused (E : environ) (q : request) : Prop := False.

(** The requests that [fetch_tasks_for_epic] sends. *)
Definition task_search (E : environ) (q : request) : Prop :=
  exists epic_key jira_pat, In q (http_log (snd (fetch_tasks_for_epic epic_key jira_pat E))).

(** A handler body that writes one payload when it returns and nothing when
    it raises. *)
Definition answers_once (c : M unit) : Prop :=
  forall E,
    match fst (c E) with
    | Returned _ => exists status data, wfile (snd (c E)) = [Json status data]
    | Raised _ => wfile (snd (c E)) = []
    end.

(** A store for examples. Two Requests; the STRAT RHAISTRAT-1 is a clone of
    the first, RHAISTRAT-2 references no Request; each STRAT has an Epic,
    each Epic a Task. *)
Definition sample_store (r : request) : response :=
  let q := jql_of r in
  if prefix "project = RHAIRFE" q then
    found [raw_issue "RHAIRFE-1" []; raw_issue "RHAIRFE-2" []]
  else if prefix "project = RHAISTRAT" q then
    found [raw_issue "RHAISTRAT-1"
             [("issuelinks",
               JArr [JObj [("outwardIssue", JObj [("key", JStr "RHAIRFE-1")])]])];
           raw_issue "RHAISTRAT-2" []]
  else if prefix "project = RHOAIENG" q then
    found [raw_issue "RHOAIENG-1" [("customfield_12313140", JStr "RHAISTRAT-1")];
           raw_issue "RHOAIENG-2" [("customfield_12313140", JStr "RHAISTRAT-2")]]
  else
    found [raw_issue "RHOAIENG-11" [("customfield_12311140", JStr "RHOAIENG-1")];
           raw_issue "RHOAIENG-12" [("customfield_12311140", JStr "RHOAIENG-2")]].

(** The whole run of a flow on an example, and what it wrote. *)
Definition sample_run (top_level : string) : outcome unit * trace :=
  serve_hierarchy_stream (Some "token") None (Some top_level) (environ_of sample_store).

(** The type and the key of what was written, for reading a run. *)
Definition outline (x : written) : string * json :=
  match x with
  | Sse event_type (JObj d) => (event_type, dict_item "key" d)
  | Sse event_type _ => (event_type, JNull)
  | StreamHead => ("head", JNull)
  | Json _ _ => ("json", JNull)
  end.

(** The value a raw record carries in a field of its [fields] object
    ([null] when there is none). *)
Definition parent_reference (field : string) (record : json) : json :=
  match get record "fields" (JObj []) with
  | Returned fields =>
      match get fields field JNull with
      | Returned v => v
      | Raised _ => JNull
      end
  | Raised _ => JNull
  end.


(** A section of the output: progress lines and events of one level. *)
Definition section_of (L : string) (s : list written) : Prop :=
  forall x, In x s ->
    (exists message, x = Sse "progress" (progress message)) \/
    (exists d, x = Sse L (JObj d)).

(** The field by which an event of a level names its parent, and the
    parent's level. *)
Definition parent_field (L : string) : option (string * string) :=
  if String.eqb L "strat" then Some ("rfe_key", "rfe")
  else if String.eqb L "epic" then Some ("strat_key", "strat")
  else if String.eqb L "task" then Some ("epic_key", "epic")
  else None.

(** The child level sent nothing, or one search, built by [level_jql] from the
    keys of all the records with which the store answered the parent level's
    search. *)
Definition batched_query (E : environ) (level_jql : list string -> string)
    (parent child : level_run) : Prop :=
  log child = [] \/
  exists q qp keys,
    log child = [q] /\ log parent = [qp] /\ answered E qp (fetched parent) /\
    map raw_key (fetched parent) = map JStr keys /\
    search_request (level_jql keys) q.

(** The streamed flow alone, and a reload, on the example store. *)
Definition sample_flow (top_level : string) : outcome (option summary) * trace :=
  stream_hierarchy (Some "token") "AI Safety" top_level (environ_of sample_store).

Definition sample_reload (issue_key item_type : string) : outcome unit * trace :=
  reload_item (Some issue_key) (Some item_type) (Some "token") None
    (environ_of sample_store).

(** The example store with the Task searches failing. *)
Definition tasks_down_store (r : request) : response :=
  if prefix (fstr [dq; "Epic Link"]) (jql_of r) then failure 500 else sample_store r.

(** ** jira_client.py: updating an issue, listing its transitions *)

Definition update_jira_issue (issue_key : string) (fields : json)
    (jira_pat : option string) : M bool :=
  pat <- get_jira_pat jira_pat ;;
  E <- ask ;;
  let headers := [("Authorization", fstr ["Bearer "; pat]);
                  ("Content-Type", "application/json")] in
  let update_url := fstr [JIRA_BASE_URL E; "/rest/api/2/issue/"; issue_key] in
  let payload := JObj [("fields", fields)] in
  response <- http (PUT update_url headers payload) ;;
  if negb (Z.eqb (status_code response) 204) then
    raise (Exception (fstr ["Failed to update issue: "; str_of_Z (status_code response);
                            " - "; text response]))
  else
    ret true.

Definition get_jira_transitions (issue_key : string) (jira_pat : option string)
    : M (list json) :=
  pat <- get_jira_pat jira_pat ;;
  E <- ask ;;
  let headers := [("Authorization", fstr ["Bearer "; pat]); ("Accept", "application/json")] in
  let transitions_url :=
    fstr [JIRA_BASE_URL E; "/rest/api/2/issue/"; issue_key; "/transitions"] in
  response <- http (GET transitions_url headers []) ;;
  if negb (Z.eqb (status_code response) 200) then
    raise (Exception (fstr ["Failed to get transitions: ";
                            str_of_Z (status_code response); " - "; text response]))
  else
    let data := json_body response in
    transitions <- lift (get data "transitions" (JArr [])) ;;
    items <- lift (iter transitions) ;;
    lift (omap (fun t =>
                  let? id := item t "id" in
                  let? name := item t "name" in
                  Returned (JObj [("id", id); ("name", name)]))
               items).

(** ** server.py: the transitions endpoint *)

Definition get_transitions (issue_key pat : option string) : M unit :=
  try_except
    (match issue_key with
     | Some issue_key =>
         if String.eqb issue_key "" then
           send_json (JObj [("error", JStr "Missing issue_key parameter")]) 400
         else
           transitions <- get_jira_transitions issue_key pat ;;
           send_json (JObj [("success", JBool true);
                            ("transitions", JArr transitions)]) 200
     | None => send_json (JObj [("error", JStr "Missing issue_key parameter")]) 400
     end)
    (fun e => send_json (JObj [("error", JStr (exn_str e))]) 500).

(** ** Vocabulary of the further properties *)

(** Neither the parameter nor the environment holds a non-empty token. *)
Definition no_credential (jira_pat : option string) (E : environ) : Prop :=
  truthy_str jira_pat = false /\ truthy_str (JIRA_PAT E) = false.

(** The text of the configuration error of [get_jira_pat]. *)
Definition no_pat_message : string :=
  fstr ["JIRA Personal Access Token not provided. Please configure in Settings or set:"; nl;
        "  export JIRA_PAT='your-personal-access-token'"; nl].

Definition is_get (q : request) : bool :=
  match q with
  | GET _ _ _ => true
  | PUT _ _ _ => false
  end.

(** The search request of the adapter for a credential, a JQL and a field
    list. *)
Definition search_of (E : environ) (pat jql fields : string) : request :=
  GET (fstr [JIRA_BASE_URL E; "/rest/api/2/search"])
      [("Authorization", fstr ["Bearer "; pat]); ("Accept", "application/json")]
      [("jql", JStr jql); ("fields", JStr fields); ("maxResults", JNum 100)].

(** The two requests of a label update. *)
Definition labels_read (E : environ) (pat issue_key : string) : request :=
  GET (fstr [JIRA_BASE_URL E; "/rest/api/2/issue/"; issue_key; "?fields="; "labels"])
      [("Authorization", fstr ["Bearer "; pat]); ("Accept", "application/json")] [].

Definition labels_write (E : environ) (pat issue_key : string) (labels : json) : request :=
  PUT (fstr [JIRA_BASE_URL E; "/rest/api/2/issue/"; issue_key])
      [("Authorization", fstr ["Bearer "; pat]); ("Content-Type", "application/json")]
      (JObj [("fields", JObj [("labels", labels)])]).

(** The labels other than [label], in order. *)
Definition others (label : string) (l : list json) : list json :=
  filter (fun x => negb (eq_str x label)) l.

(** A store for examples that refuses every update and answers every read
    with the labelled issue. *)
Definition frozen_store (r : request) : response :=
  match r with
  | GET _ _ _ => label_store r
  | PUT _ _ _ => {| status_code := 403; text := "read-only"; json_body := JNull |}
  end.

(** A store for examples that is down. *)
Definition down_store (r : request) : response := failure 503.

(** A store for examples that lists two transitions of every issue. *)
Definition transitions_store (r : request) : response :=
  {| status_code := 200; text := "";
     json_body := JObj [("expand", JStr "transitions");
                        ("transitions",
                         JArr [JObj [("id", JStr "11"); ("name", JStr "In Progress");
                                     ("to", JObj [("name", JStr "In Progress")])];
                               JObj [("id", JStr "21"); ("name", JStr "Closed")]])] |}.

(** An environment for examples whose [JIRA_PAT] is set. *)
Definition token_environ (store : request -> response) : environ :=
  {| remote := store;
     JIRA_BASE_URL := "https://issues.example";
     JIRA_PAT := Some "from-env";
     repr := fun _ => "?" |}.

(** What [get_jira_transitions] keeps of a transition. *)
Definition transition_summary (t : json) : json :=
  match t with
  | JObj m => JObj [("id", dict_item "id" m); ("name", dict_item "name" m)]
  | _ => JNull
  end.

(** The labels the store holds for an issue, as a label update reads them. *)
Definition remote_labels (E : environ) (pat issue_key : string) : outcome json :=
  let? fields := item (json_body (remote E (labels_read E pat issue_key))) "fields" in
  get fields "labels" (JArr []).

(** The requests of an issue update and of a transitions listing. *)
Definition issue_write (E : environ) (pat issue_key : string) (fields : json) : request :=
  PUT (fstr [JIRA_BASE_URL E; "/rest/api/2/issue/"; issue_key])
      [("Authorization", fstr ["Bearer "; pat]); ("Content-Type", "application/json")]
      (JObj [("fields", fields)]).

Definition transitions_read (E : environ) (pat issue_key : string) : request :=
  GET (fstr [JIRA_BASE_URL E; "/rest/api/2/issue/"; issue_key; "/transitions"])
      [("Authorization", fstr ["Bearer "; pat]); ("Accept", "application/json")] [].

(** A transition as the store lists it: an object with an id and a name. *)
Definition is_transition (t : json) : Prop :=
  exists m id name, t = JObj m /\ dict_get "id" m = Some id /\ dict_get "name" m = Some name.

(** ** Vocabulary for the normalizer and the fetchers *)

(** The fields of a normalized issue, in the order of the dict literal. *)
Definition issue_keys : list string :=
  ["key"; "summary"; "status"; "priority"; "assignee"; "assignee_username"; "reporter";
   "description"; "labels"; "components"; "comments"; "created"; "updated"].

(** [o.get(k, default)] on the members of an object. *)
Definition member_or (k : string) (default : json) (m : dict) : json :=
  match dict_get k m with
  | Some v => v
  | None => default
  end.

(** The fields of a normalized comment. *)
Definition is_comment_summary (c : json) : Prop :=
  exists body author created,
    c = JObj [("body", body); ("author", author); ("created", created)].

(** A raw record that [build_issue_data] accepts, as an issue of a type. *)
Definition normalizes (issue_type : string) (x : json) : Prop :=
  exists d, build_issue_data x issue_type = Returned d.

(** A normalized task: a normalized issue with its [issuetype] set. *)
Definition task_record (task : json) : outcome dict :=
  let? task_data := build_issue_data task "task" in
  let? issuetype := task_issuetype task in
  Returned (dict_set "issuetype" issuetype task_data).

(** A record for examples with an assignee, and one comment without author. *)
Definition assigned_record : json :=
  raw_issue "RHOAIENG-5"
    [("assignee", JObj [("name", JStr "rgeada")]);
     ("reporter", JObj []);
     ("comment", JObj [("comments", JArr [JObj [("body", JStr "Looks good")]])])].

(** What the fetchers of RFEs, STRATs and Epics do with the store's answer:
    they write nothing and send at most one request; when the store answered
    it with the records [l], the result (if any) has the keys of [l] in
    order, there is a result when every record normalizes, and none when
    one does not; when the store answered with a failure there is none. *)
Definition fetch_contract (issue_type : string) (c : M (list dict)) (E : environ) : Prop :=
  wfile (snd (c E)) = [] /\
  (http_log (snd (c E)) = [] \/ exists q, http_log (snd (c E)) = [q]) /\
  (forall q, In q (http_log (snd (c E))) -> status_code (remote E q) <> 200%Z ->
             exists e, fst (c E) = Raised e) /\
  (forall q l, In q (http_log (snd (c E))) -> answered E q l ->
     (forall ds, fst (c E) = Returned ds ->
                 List.length ds = List.length l /\
                 map (dict_item "key") ds = map raw_key l) /\
     (Forall (normalizes issue_type) l -> exists ds, fst (c E) = Returned ds) /\
     (forall x, In x l -> (exists e, build_issue_data x issue_type = Raised e) ->
                exists e, fst (c E) = Raised e)).

(** A store for examples whose second Epic has a [null] priority. *)
Definition flawed_store (r : request) : response :=
  found [raw_issue "RHOAIENG-1" [("customfield_12313140", JStr "RHAISTRAT-1")];
         raw_issue "RHOAIENG-2" [("priority", JNull)]].

(** The JQL of [fetch_tasks_for_epic]. *)
Definition tasks_of_epic_jql (E : environ) (epic_key : json) : string :=
  fstr [dq; "Epic Link"; dq; " = "; format E epic_key; " ";
        "AND issuetype NOT IN (Epic, Feature, "; dq; "Feature Request"; dq; ") ";
        "AND status NOT IN (Closed, Resolved)"].

(** ** Vocabulary for the flows *)

(** Every request a computation sends satisfies [P]. *)
Definition only_sends {A : Type} (P : environ -> request -> Prop) (c : M A) : Prop :=
  forall E q, In q (http_log (snd (c E))) -> P E q.

(** A search of the adapter made with the credential that [jira_pat] and the
    environment give. *)
Definition credentialed_search (jira_pat : option string) (E : environ) (q : request)
    : Prop :=
  exists pat jql fields,
    get_jira_pat jira_pat E = (Returned pat, quiet) /\ q = search_of E pat jql fields.

(** A store for examples that holds no issue. *)
Definition empty_store (r : request) : response := found [].

(** An event of a level or a progress line: what a stream holds before its
    closing event. *)
Definition is_body_event (x : written) : Prop :=
  exists L data, x = Sse L data /\ In L ["progress"; "rfe"; "strat"; "epic"; "task"].

(** The text of the 404 payload of a reload, by item type. *)
Definition not_found_message (item_type : string) : string :=
  if String.eqb item_type "rfe" then "RFE not found"
  else if String.eqb item_type "strat" then "STRAT not found"
  else if String.eqb item_type "epic" then "Epic not found"
  else "Task not found".

(** ** Vocabulary for the payload of a reload *)

(** The children a record holds inline under a field. *)
Definition children_of (field : string) (d : dict) : list json :=
  match dict_get field d with
  | Some (JArr l) => l
  | _ => []
  end.

Definition holds (tags : list (string * json)) (d : dict) : Prop :=
  Forall (fun kv => dict_get (fst kv) d = Some (snd kv)) tags.

(** A record that carries the given ancestor keys. *)
Definition tagged (tags : list (string * json)) (x : json) : Prop :=
  exists d, x = JObj d /\ holds tags d.

(** An Epic carrying the ancestor keys, whose tasks carry them and the
    Epic's own key as [epic_key]. *)
Definition epic_subtree (tags : list (string * json)) (e : json) : Prop :=
  exists ed, e = JObj ed /\ holds tags ed /\
    Forall (tagged (tags ++ [("epic_key", dict_item "key" ed)])) (children_of "tasks" ed).

(** A STRAT carrying the ancestor keys, whose Epics are subtrees under the
    STRAT's own key as [strat_key]. *)
Definition strat_subtree (tags : list (string * json)) (s : json) : Prop :=
  exists sd, s = JObj sd /\ holds tags sd /\
    Forall (epic_subtree (tags ++ [("strat_key", dict_item "key" sd)]))
           (children_of "epics" sd).

(** The results of a computation satisfy [R]. *)
Definition returns {A : Type} (R : A -> Prop) (c : M A) : Prop :=
  forall E a, fst (c E) = Returned a -> R a.

(** A handler body answers once, and its success payloads satisfy [Q]. *)
Definition replies (Q : dict -> Prop) (c : M unit) : Prop :=
  forall E,
    match fst (c E) with
    | Returned _ =>
        exists status body,
          wfile (snd (c E)) = [Json status body] /\
          (forall data,
             status = 200%Z ->
             body = JObj [("success", JBool true); ("data", JObj data)] -> Q data)
    | Raised _ => wfile (snd (c E)) = []
    end.

Definition success (data : dict) : written :=
  Json 200 (JObj [("success", JBool true); ("data", JObj data)]).

(** ** jira_client.py and data_fetcher.py: the operations that POST

    A call to the store is a request of the two kinds above or a POST; the
    store answers POSTs too. Runs of the operations below leave the calls
    made, and what was written to the client. *)

Inductive call : Type :=
| Sent (r : request)
| POST (url : string) (headers : list (string * string)) (body : json).

Record writable : Type := {
  environment : environ;
  posted : string -> list (string * string) -> json -> response
}.

Definition answer (W : writable) (c : call) : response :=
  match c with
  | Sent r => remote (environment W) r
  | POST url headers body => posted W url headers body
  end.

Record effects : Type := {
  client : list written;
  calls : list call
}.

Definition Calls (A : Type) : Type := writable -> outcome A * effects.

Definition wret {A : Type} (a : A) : Calls A :=
  fun _ => (Returned a, {| client := []; calls := [] |}).

Definition wraise {A : Type} (e : exn) : Calls A :=
  fun _ => (Raised e, {| client := []; calls := [] |}).

Definition wbind {A B : Type} (c : Calls A) (k : A -> Calls B) : Calls B :=
  fun W =>
    match c W with
    | (Returned a, t) =>
        match k a W with
        | (r, t') => (r, {| client := client t ++ client t'; calls := calls t ++ calls t' |})
        end
    | (Raised e, t) => (Raised e, t)
    end.

Notation "x <~ c ;; k" := (wbind c (fun x => k))
  (at level 100, c at next level, right associativity).

(** A computation of the kind above, run in the same process. *)
Definition within {A : Type} (c : M A) : Calls A :=
  fun W =>
    match c (environment W) with
    | (r, t) => (r, {| client := wfile t; calls := map Sent (http_log t) |})
    end.

Definition post (url : string) (headers : list (string * string)) (body : json)
    : Calls response :=
  fun W => (Returned (posted W url headers body),
            {| client := []; calls := [POST url headers body] |}).

(** [d.update(other)] *)
Definition dict_update (other d : dict) : dict :=
  fold_left (fun acc kv => dict_set (fst kv) (snd kv) acc) other d.

Definition create_jira_issue (project_key : string) (summary description issue_type : json)
    (custom_fields : option dict) (jira_pat : option string) : Calls json :=
  pat <~ within (get_jira_pat jira_pat) ;;
  E <~ within ask ;;
  let headers := [("Authorization", fstr ["Bearer "; pat]);
                  ("Content-Type", "application/json")] in
  let fields := [("project", JObj [("key", JStr project_key)]);
                 ("summary", summary);
                 ("description", description);
                 ("issuetype", JObj [("name", issue_type)])] in
  (* Add custom fields if provided *)
  let fields :=
    match custom_fields with
    | Some custom_fields =>
        if nonempty custom_fields then dict_update custom_fields fields else fields
    | None => fields
    end in
  let payload := JObj [("fields", JObj fields)] in
  let create_url := fstr [JIRA_BASE_URL E; "/rest/api/2/issue"] in
  response <~ post create_url headers payload ;;
  if negb (Z.eqb (status_code response) 201) then
    wraise (Exception (fstr ["Failed to create issue: "; str_of_Z (status_code response);
                             " - "; text response]))
  else
    within (lift (item (json_body response) "key")).

Definition add_jira_comment (issue_key : string) (comment : json)
    (jira_pat : option string) : Calls bool :=
  pat <~ within (get_jira_pat jira_pat) ;;
  E <~ within ask ;;
  let headers := [("Authorization", fstr ["Bearer "; pat]);
                  ("Content-Type", "application/json")] in
  let comment_payload := JObj [("body", comment)] in
  let comment_url := fstr [JIRA_BASE_URL E; "/rest/api/2/issue/"; issue_key; "/comment"] in
  response <~ post comment_url headers comment_payload ;;
  if negb (Z.eqb (status_code response) 201) then
    wraise (Exception (fstr ["Failed to add comment: "; str_of_Z (status_code response);
                             " - "; text response]))
  else
    wret true.

Definition transition_jira_issue (issue_key : string) (transition_id : json)
    (jira_pat : option string) : Calls bool :=
  pat <~ within (get_jira_pat jira_pat) ;;
  E <~ within ask ;;
  let headers := [("Authorization", fstr ["Bearer "; pat]);
                  ("Content-Type", "application/json")] in
  let transition_url :=
    fstr [JIRA_BASE_URL E; "/rest/api/2/issue/"; issue_key; "/transitions"] in
  let payload := JObj [("transition", JObj [("id", transition_id)])] in
  response <~ post transition_url headers payload ;;
  if negb (Z.eqb (status_code response) 204) then
    wraise (Exception (fstr ["Failed to transition issue: ";
                             str_of_Z (status_code response); " - "; text response]))
  else
    wret true.

(** The custom fields of a new Epic or Task: the fixed ones, then
    [components] and [assignee] when given. *)
Definition with_optional (component assignee : json) (custom_fields : dict) : dict :=
  let custom_fields :=
    if truthy component then
      dict_set "components" (JArr [JObj [("name", component)]]) custom_fields
    else custom_fields in
  if truthy assignee then dict_set "assignee" (JObj [("name", assignee)]) custom_fields
  else custom_fields.

Definition create_epic (summary description strat_key component assignee : json)
    (jira_pat : option string) : Calls dict :=
  let custom_fields :=
    with_optional component assignee
      [("customfield_12311141", summary);     (* Epic Name *)
       ("customfield_12313140", strat_key)]   (* Parent Link to STRAT *) in
  epic_key <~ create_jira_issue "RHOAIENG" summary description (JStr "Epic")
                (Some custom_fields) jira_pat ;;
  (* Fetch and return full issue data *)
  E <~ within ask ;;
  issue_data <~ within (get_jira_issue (format E epic_key)
                       "summary,status,priority,assignee,reporter,description,labels,components,created,updated"
                       jira_pat) ;;
  epic_data <~ within (lift (build_issue_data issue_data "epic")) ;;
  wret (dict_set "strat_key" strat_key epic_data).

Definition create_task (summary description epic_key issue_type component assignee : json)
    (jira_pat : option string) : Calls dict :=
  let custom_fields :=
    with_optional component assignee
      [("customfield_12311140", epic_key)]   (* Epic Link *) in
  task_key <~ create_jira_issue "RHOAIENG" summary description issue_type
                (Some custom_fields) jira_pat ;;
  (* Fetch and return full issue data *)
  E <~ within ask ;;
  issue_data <~ within (get_jira_issue (format E task_key)
                       "summary,status,priority,assignee,reporter,description,labels,components,created,updated,issuetype"
                       jira_pat) ;;
  task_data <~ within (lift (build_issue_data issue_data "task")) ;;
  issuetype <~ within (lift (task_issuetype issue_data)) ;;
  wret (dict_set "issuetype" issuetype (dict_set "epic_key" epic_key task_data)).

(** The fields of the issue that [create_jira_issue] sends, and its call. *)
Definition standard_fields (project_key : string) (summary description issue_type : json)
    : dict :=
  [("project", JObj [("key", JStr project_key)]);
   ("summary", summary);
   ("description", description);
   ("issuetype", JObj [("name", issue_type)])].

Definition new_issue_fields (project_key : string) (summary description issue_type : json)
    (custom_fields : option dict) : dict :=
  match custom_fields with
  | Some custom_fields =>
      dict_update custom_fields (standard_fields project_key summary description issue_type)
  | None => standard_fields project_key summary description issue_type
  end.

Definition create_call (E : environ) (pat : string) (fields : dict) : call :=
  POST (fstr [JIRA_BASE_URL E; "/rest/api/2/issue"])
       [("Authorization", fstr ["Bearer "; pat]); ("Content-Type", "application/json")]
       (JObj [("fields", JObj fields)]).

Definition issue_read (E : environ) (pat issue_key fields : string) : call :=
  Sent (GET (fstr [JIRA_BASE_URL E; "/rest/api/2/issue/"; issue_key; "?fields="; fields])
            [("Authorization", fstr ["Bearer "; pat]); ("Accept", "application/json")] []).

Definition epic_read_fields : string :=
  "summary,status,priority,assignee,reporter,description,labels,components,created,updated".

Definition task_read_fields : string :=
  "summary,status,priority,assignee,reporter,description,labels,components,created,updated,issuetype".

(** The custom fields of a new Epic, and of a new Task. *)
Definition epic_fields (summary description strat_key component assignee : json) : dict :=
  new_issue_fields "RHOAIENG" summary description (JStr "Epic")
    (Some (with_optional component assignee
             [("customfield_12311141", summary); ("customfield_12313140", strat_key)])).

Definition task_fields (summary description epic_key issue_type component assignee : json)
    : dict :=
  new_issue_fields "RHOAIENG" summary description issue_type
    (Some (with_optional component assignee [("customfield_12311140", epic_key)])).

(** A store for examples that creates every issue as RHOAIENG-77 and then
    shows it. *)
Definition creating_store : writable :=
  {| environment :=
       environ_of (fun _ => {| status_code := 200; text := "";
                               json_body := raw_issue "RHOAIENG-77"
                                              [("summary", JStr "Red teaming")] |});
     posted := fun _ _ _ => {| status_code := 201; text := "";
                               json_body := JObj [("key", JStr "RHOAIENG-77")] |} |}.

(** A store for examples that creates issues but whose reads fail. *)
Definition write_only_store : writable :=
  {| environment := environ_of down_store;
     posted := fun _ _ _ => {| status_code := 201; text := "";
                               json_body := JObj [("key", JStr "RHOAIENG-77")] |} |}.

(** A store for examples that answers every POST with 200 and an empty body. *)
Definition ok_store : writable :=
  {| environment := environ_of down_store;
     posted := fun _ _ _ => {| status_code := 200; text := "OK"; json_body := JObj [] |} |}.

(** A search of a level below the top that names at least one parent key. *)
Definition names_parents (q : request) : Prop :=
  exists keys,
    keys <> [] /\
    (search_request (strats_jql keys) q \/ search_request (epics_jql keys) q \/
     search_request (tasks_jql keys) q).

(** ** Which children a flow streams *)


(** Among [evs] there is an event of level [L] for the key [k], carrying
    [d]. *)
Definition streamed (L : string) (evs : list written) (k : string) (d : dict) : Prop :=
  In (Sse L (JObj d)) evs /\ dict_get "key" d = Some (JStr k).

(** [evs] is what the records leave behind one after the other, in their
    order, each what [rule] allows it. *)
Definition placed (rule : json -> list written -> Prop) (records : list json)
    (evs : list written) : Prop :=
  exists parts, Forall2 rule records parts /\ evs = List.concat parts.









(** Output that holds no event of a STRAT, an Epic or a Task. *)
Definition plain (out : list written) : Prop :=
  events_of "strat" out = [] /\ events_of "epic" out = [] /\ events_of "task" out = [].

(** A store for examples whose search answers carry an object where the
    list of issues should be. *)
Definition keyed_store (r : request) : response :=
  {| status_code := 200; text := "";
     json_body := JObj [("issues", JObj [("total", JNum 1)])] |}.

(** The example store with an Epic of unset priority put before the Epic of
    RHAISTRAT-1. *)
Definition unset_priority_epic_store (r : request) : response :=
  if prefix "project = RHOAIENG" (jql_of r) then
    found [raw_issue "RHOAIENG-0"
             [("priority", JNull); ("customfield_12313140", JStr "RHAISTRAT-1")];
           raw_issue "RHOAIENG-1" [("customfield_12313140", JStr "RHAISTRAT-1")]]
  else sample_store r.

(** * Properties *)

(** ** Runs and traces *)

Lemma tapp_quiet_r (t : trace) : tapp t quiet = t.
Proof. destruct t; unfold tapp; simpl. now rewrite !app_nil_r. Qed.

Lemma tapp_quiet_l (t : trace) : tapp quiet t = t.
Proof. now destruct t. Qed.

Lemma tapp_assoc (t1 t2 t3 : trace) : tapp (tapp t1 t2) t3 = tapp t1 (tapp t2 t3).
Proof. unfold tapp; simpl. now rewrite !app_assoc. Qed.

Lemma bind_run {A B : Type} (c : M A) (k : A -> M B) (E : environ) :
  bind c k E =
  match c E with
  | (Returned a, t) => (fst (k a E), tapp t (snd (k a E)))
  | (Raised e, t) => (Raised e, t)
  end.
Proof.
  unfold bind. destruct (c E) as [[a|e] t]; [|reflexivity].
  now destruct (k a E).
Qed.

Lemma lift_run {A : Type} (c : outcome A) (E : environ) : lift c E = (c, quiet).
Proof. reflexivity. Qed.

(** [get_jira_pat] talks to nobody, and a second call gives the same token. *)
Lemma get_jira_pat_quiet (override_pat : option string) (E : environ) :
  snd (get_jira_pat override_pat E) = quiet.
Proof.
  unfold get_jira_pat. rewrite bind_run. simpl.
  destruct (if truthy_str override_pat then override_pat else JIRA_PAT E) as [p|];
    [destruct (negb (p =? ""))|]; reflexivity.
Qed.

Lemma get_jira_pat_run (override_pat : option string) (E : environ) :
  get_jira_pat override_pat E = (fst (get_jira_pat override_pat E), quiet).
Proof. rewrite <- (get_jira_pat_quiet override_pat E). now destruct (get_jira_pat _ _). Qed.

(** ** The normalizer *)

Lemma obind_returned {A B : Type} (c : outcome A) (k : A -> outcome B) (b : B) :
  obind c k = Returned b -> exists a, c = Returned a /\ k a = Returned b.
Proof. destruct c as [a|e]; simpl; [eauto | discriminate]. Qed.

Lemma omap_total {A B : Type} (f : A -> outcome B) (P : A -> Prop) (l : list A) :
  (forall x, P x -> exists y, f x = Returned y) ->
  Forall P l -> exists ys, omap f l = Returned ys.
Proof.
  intros Hf Hl. induction Hl as [|x xs Hx _ [ys IH]]; simpl.
  - now exists [].
  - destruct (Hf x Hx) as [y Hy]. rewrite Hy, IH. simpl. eauto.
Qed.

Lemma get_object (m : dict) (k : string) (default : json) :
  exists v, get (JObj m) k default = Returned v.
Proof. unfold get. destruct (dict_get k m); eauto. Qed.

Lemma get_missing (m : dict) (k : string) (default : json) :
  dict_get k m = None -> get (JObj m) k default = Returned default.
Proof. unfold get. now intros ->. Qed.

(** On a record that leaves the three optional objects out, and is otherwise
    of the shape the store sends, the normalizer returns the documented
    defaults, and labels and comments are arrays. *)
Lemma build_issue_data_missing_defaults (key : string) (fields : dict) (issue_type : string) :
  shaped_fields fields ->
  dict_get "assignee" fields = None ->
  dict_get "reporter" fields = None ->
  dict_get "priority" fields = None ->
  exists d comments,
    build_issue_data (raw_issue key fields) issue_type = Returned d /\
    dict_get "assignee" d = Some (JStr "Unassigned") /\
    dict_get "reporter" d = Some (JStr "Unknown") /\
    dict_get "priority" d = Some (JStr "Undefined") /\
    dict_get "comments" d = Some (JArr comments) /\
    (dict_get "labels" fields = None -> dict_get "labels" d = Some (JArr [])) /\
    (dict_get "comment" fields = None -> comments = []).
Proof.
  intros (Hstatus & Hcomponents & Hcomment) Ha Hr Hp.
  unfold build_issue_data, raw_issue.
  cbn [item dict_get String.eqb Ascii.eqb Bool.eqb obind].
  rewrite (get_missing fields "assignee" JNull Ha),
          (get_missing fields "reporter" JNull Hr).
  cbn [obind truthy].
  destruct (get_object fields "summary" (JStr "No summary")) as [summary ->].
  cbn [obind].
  assert (exists status, (let? o := get (JObj fields) "status" (JObj []) in
                          get o "name" (JStr "Unknown")) = Returned status) as [status Hs].
  { unfold get at 1. destruct (dict_get "status" fields) as [v|] eqn:Hv; cbn [obind].
    - destruct (Hstatus v eq_refl) as [m ->]. apply get_object.
    - apply get_object. }
  apply obind_returned in Hs as (status_obj & Hs1 & Hs2).
  rewrite Hs1. cbn [obind]. rewrite Hs2. cbn [obind].
  rewrite (get_missing fields "priority" (JObj []) Hp). cbn [obind].
  change (get (JObj []) "name" (JStr "Undefined")) with (Returned (JStr "Undefined")).
  cbn [obind].
  destruct (get_object fields "description" (JStr "")) as [description ->].
  cbn [obind].
  destruct (get_object fields "labels" (JArr [])) as [labels Hlabels].
  rewrite Hlabels. cbn [obind].
  assert (exists components,
            (let? field := get (JObj fields) "components" (JArr []) in
             let? items := iter field in
             omap (fun c => get c "name" (JStr "")) items) = Returned components)
    as [components Hc].
  { unfold get at 1. destruct (dict_get "components" fields) as [v|] eqn:Hv; cbn [obind].
    - destruct (Hcomponents v eq_refl) as (l & -> & Hl). cbn [iter obind].
      apply (omap_total _ is_object); [|exact Hl].
      intros x [m ->]. apply get_object.
    - cbn [iter obind omap]. eauto. }
  apply obind_returned in Hc as (components_field & Hc1 & Hc).
  apply obind_returned in Hc as (components_items & Hc2 & Hc3).
  rewrite Hc1. cbn [obind]. rewrite Hc2. cbn [obind]. rewrite Hc3. cbn [obind].
  set (one := fun c : json =>
                let? body := get c "body" (JStr "") in
                let? author_obj := get c "author" (JObj []) in
                let? author := get author_obj "displayName" (JStr "Unknown") in
                let? created := get c "created" (JStr "") in
                Returned (JObj [("body", body); ("author", author); ("created", created)])).
  assert (exists comments,
            (let? comment_obj := get (JObj fields) "comment" (JObj []) in
             let? field := get comment_obj "comments" (JArr []) in
             let? items := iter field in
             omap one items) = Returned comments /\
            (dict_get "comment" fields = None -> comments = []))
    as (comments & Hcs & Hnone).
  { unfold get at 1. destruct (dict_get "comment" fields) as [v|] eqn:Hv; cbn [obind].
    - destruct (Hcomment v eq_refl) as (m & -> & Hm).
      unfold get at 1. destruct (dict_get "comments" m) as [cs|] eqn:Hcs; cbn [obind].
      + destruct (Hm cs eq_refl) as (l & -> & Hl). cbn [iter obind].
        destruct (omap_total one is_comment l) as [ys Hys]; [|exact Hl|].
        * intros x (cm & -> & Hauthor). unfold one.
          destruct (get_object cm "body" (JStr "")) as [body ->]. cbn [obind].
          unfold get at 1. destruct (dict_get "author" cm) as [a|] eqn:Hauth; cbn [obind].
          -- destruct (Hauthor a eq_refl) as [am ->].
             destruct (get_object am "displayName" (JStr "Unknown")) as [author ->].
             cbn [obind].
             destruct (get_object cm "created" (JStr "")) as [created ->].
             cbn [obind]. eauto.
          -- change (get (JObj []) "displayName" (JStr "Unknown"))
               with (Returned (JStr "Unknown")).
             cbn [obind].
             destruct (get_object cm "created" (JStr "")) as [created ->].
             cbn [obind]. eauto.
        * exists ys. split; [exact Hys | discriminate].
      + cbn [iter obind omap]. exists []. split; [reflexivity | discriminate].
    - cbn [get dict_get iter obind omap]. exists []. split; reflexivity. }
  apply obind_returned in Hcs as (comment_obj & Hcs1 & Hcs).
  apply obind_returned in Hcs as (comments_field & Hcs2 & Hcs).
  apply obind_returned in Hcs as (comments_items & Hcs3 & Hcs4).
  rewrite Hcs1. cbn [obind]. rewrite Hcs2. cbn [obind]. rewrite Hcs3. cbn [obind].
  fold one. rewrite Hcs4. cbn [obind].
  destruct (get_object fields "created" (JStr "")) as [created ->].
  destruct (get_object fields "updated" (JStr "")) as [updated ->].
  cbn [obind].
  eexists; exists comments. split; [reflexivity|].
  repeat split; try reflexivity; [|exact Hnone].
  intros Hl. rewrite (get_missing fields "labels" (JArr []) Hl) in Hlabels.
  injection Hlabels as <-. reflexivity.
Qed.

(** The [if assignee else] guard also covers [null]: an unassigned issue
    maps to the default. *)
Lemma build_issue_data_null_assignee :
  exists d,
    build_issue_data (raw_issue "RHAISTRAT-7" [("assignee", JNull); ("reporter", JNull)])
      "strat" = Returned d /\
    dict_get "assignee" d = Some (JStr "Unassigned") /\
    dict_get "reporter" d = Some (JStr "Unknown").
Proof. eexists. split; [reflexivity|]. split; reflexivity. Qed.

Lemma build_issue_data_bare_record :
  exists d,
    build_issue_data bare_record "strat" = Returned d /\
    dict_get "priority" d = Some (JStr "Undefined") /\
    dict_get "assignee" d = Some (JStr "Unassigned") /\
    dict_get "reporter" d = Some (JStr "Unknown") /\
    dict_get "labels" d = Some (JArr []) /\
    dict_get "comments" d = Some (JArr []).
Proof. eexists. split; [reflexivity|]. repeat split; reflexivity. Qed.

(** C7. The normalizer is to map an absent priority object to the default
    [Undefined] without raising. On a record whose [priority] is [null] (as
    its absent assignee and reporter are, which the code does handle)
    [fields.get('priority', {})] yields [None] and the [.get('name', ...)]
    on it raises [AttributeError]. *)
Theorem build_issue_data_null_priority_raises :
  build_issue_data unset_priority_record "strat" =
    Raised (AttributeError "'NoneType' object has no attribute 'get'").
Proof. reflexivity. Qed.

(** ** The label update *)

Lemma update_labels_list_add (label : string) (l : list json) :
  update_labels_list "add" label (JArr l) =
  Returned (JArr (if existsb (fun x => eq_str x label) l then l else l ++ [JStr label])).
Proof.
  unfold update_labels_list. cbn [String.eqb Ascii.eqb Bool.eqb contains obind].
  now destruct (existsb _ l).
Qed.

Lemma update_labels_list_remove_absent (label : string) (l : list json) :
  existsb (fun x => eq_str x label) l = false ->
  update_labels_list "remove" label (JArr l) = Returned (JArr l).
Proof.
  intros H. unfold update_labels_list.
  cbn [String.eqb Ascii.eqb Bool.eqb contains obind]. now rewrite H.
Qed.

Lemma occurrences_absent (label : string) (l : list json) :
  existsb (fun x => eq_str x label) l = false -> occurrences label l = 0%nat.
Proof.
  unfold occurrences. induction l as [|x xs IH]; simpl; [reflexivity|].
  intros H. apply orb_false_iff in H as [Hx Hxs]. rewrite Hx. auto.
Qed.

Lemma occurrences_present (label : string) (l : list json) :
  existsb (fun x => eq_str x label) l = true -> (1 <= occurrences label l)%nat.
Proof.
  unfold occurrences. induction l as [|x xs IH]; simpl; [discriminate|].
  destruct (eq_str x label); simpl; [lia | auto].
Qed.

Lemma occurrences_app (label : string) (l1 l2 : list json) :
  occurrences label (l1 ++ l2) = (occurrences label l1 + occurrences label l2)%nat.
Proof. unfold occurrences. now rewrite filter_app, length_app. Qed.

Lemma get_jira_issue_pat (issue_key fields : string) (jira_pat : option string)
    (E : environ) (issue_data : json) (t : trace) :
  get_jira_issue issue_key fields jira_pat E = (Returned issue_data, t) ->
  exists pat, get_jira_pat jira_pat E = (Returned pat, quiet).
Proof.
  unfold get_jira_issue. rewrite bind_run, (get_jira_pat_run jira_pat E).
  destruct (fst (get_jira_pat jira_pat E)) as [pat|e]; [eauto | discriminate].
Qed.

Lemma update_jira_labels_returns (E : environ) (issue_key action label : string)
    (jira_pat : option string) (issue_data fields current updated : json) (t0 : trace) :
  get_jira_issue issue_key "labels" jira_pat E = (Returned issue_data, t0) ->
  item issue_data "fields" = Returned fields ->
  get fields "labels" (JArr []) = Returned current ->
  update_labels_list action label current = Returned updated ->
  (forall url headers body, status_code (remote E (PUT url headers body)) = 204%Z) ->
  fst (update_jira_labels issue_key action label jira_pat E) = Returned updated.
Proof.
  intros Hget Hfields Hlabels Hupdate Hput.
  destruct (get_jira_issue_pat _ _ _ _ _ _ Hget) as [pat Hpat].
  unfold update_jira_labels.
  rewrite bind_run, Hpat. cbn [fst snd].
  rewrite bind_run. cbn [ask fst snd].
  rewrite bind_run, Hget. cbn [fst snd].
  rewrite bind_run, lift_run, Hfields. cbn [fst snd].
  rewrite bind_run, lift_run, Hlabels. cbn [fst snd].
  rewrite bind_run, lift_run, Hupdate. cbn [fst snd].
  rewrite bind_run. cbn [http fst snd].
  rewrite Hput. reflexivity.
Qed.

(** C10. With the issue's remote label list [l] fetched and the update
    accepted by the store: adding a label that is in [l] returns [l];
    removing a label that is not in [l] returns [l]; and, the store holding
    a label at most once, the list returned by an add holds it once. *)
Theorem update_jira_labels_idempotent (E : environ) (issue_key label : string)
    (jira_pat : option string) (issue_data fields : json) (l : list json) (t0 : trace) :
  get_jira_issue issue_key "labels" jira_pat E = (Returned issue_data, t0) ->
  item issue_data "fields" = Returned fields ->
  get fields "labels" (JArr []) = Returned (JArr l) ->
  (forall url headers body, status_code (remote E (PUT url headers body)) = 204%Z) ->
  (existsb (fun x => eq_str x label) l = true ->
   fst (update_jira_labels issue_key "add" label jira_pat E) = Returned (JArr l)) /\
  (existsb (fun x => eq_str x label) l = false ->
   fst (update_jira_labels issue_key "remove" label jira_pat E) = Returned (JArr l)) /\
  ((occurrences label l <= 1)%nat ->
   exists l', fst (update_jira_labels issue_key "add" label jira_pat E) = Returned (JArr l') /\
              occurrences label l' = 1%nat).
Proof.
  intros Hget Hfields Hlabels Hput.
  pose proof (fun action updated H =>
                update_jira_labels_returns E issue_key action label jira_pat
                  issue_data fields (JArr l) updated t0 Hget Hfields Hlabels H Hput) as run.
  split; [|split].
  - intros Hin. apply run. rewrite update_labels_list_add, Hin. reflexivity.
  - intros Hout. apply run. now apply update_labels_list_remove_absent.
  - intros Hone. eexists. split; [apply run, update_labels_list_add|].
    destruct (existsb (fun x => eq_str x label) l) eqn:Hin.
    + pose proof (occurrences_present label l Hin). lia.
    + rewrite occurrences_app, (occurrences_absent label l Hin).
      unfold occurrences. simpl. now rewrite String.eqb_refl.
Qed.

Lemma update_jira_labels_idempotent_witness :
  fst (update_jira_labels "RHOAIENG-1" "add" "safety" (Some "token")
         (environ_of label_store)) = Returned (JArr [JStr "triaged"; JStr "safety"]) /\
  fst (update_jira_labels "RHOAIENG-1" "remove" "stale" (Some "token")
         (environ_of label_store)) = Returned (JArr [JStr "triaged"; JStr "safety"]).
Proof.
  split.
  - refine (proj1 (update_jira_labels_idempotent (environ_of label_store) "RHOAIENG-1"
                     "safety" (Some "token") _ _ [JStr "triaged"; JStr "safety"] _
                     eq_refl eq_refl eq_refl (fun _ _ _ => eq_refl)) eq_refl).
  - refine (proj1 (proj2 (update_jira_labels_idempotent (environ_of label_store)
                     "RHOAIENG-1" "stale" (Some "token") _ _
                     [JStr "triaged"; JStr "safety"] _
                     eq_refl eq_refl eq_refl (fun _ _ _ => eq_refl))) eq_refl).
Defined.

(** Against C10 as worded. The store holds the label [safety] twice; an
    add of it is accepted and returns that list as it is, in which the added
    label occurs twice. *)
Lemma add_returns_duplicate_label :
  fst (update_jira_labels "RHOAIENG-1" "add" "safety" (Some "token")
         (environ_of doubled_label_store)) =
    Returned (JArr [JStr "safety"; JStr "safety"]) /\
  occurrences "safety" [JStr "safety"; JStr "safety"] = 2%nat.
Proof. split; vm_compute; reflexivity. Qed.

(** ** The search adapter *)

Lemma run_jira_query_run (jql fields : string) (jira_pat : option string) (E : environ)
    (pat : string) :
  get_jira_pat jira_pat E = (Returned pat, quiet) ->
  let request :=
    GET (fstr [JIRA_BASE_URL E; "/rest/api/2/search"])
        [("Authorization", fstr ["Bearer "; pat]); ("Accept", "application/json")]
        [("jql", JStr jql); ("fields", JStr fields); ("maxResults", JNum 100)] in
  snd (run_jira_query jql fields jira_pat E) = {| wfile := []; http_log := [request] |} /\
  fst (run_jira_query jql fields jira_pat E) =
    if negb (Z.eqb (status_code (remote E request)) 200) then
      Raised (ValueError (fstr [
        "JIRA API error: "; str_of_Z (status_code (remote E request)); nl;
        "URL: "; fstr [JIRA_BASE_URL E; "/rest/api/2/search"]; nl;
        "Response: "; substring 0 500 (text (remote E request))]))
    else item (json_body (remote E request)) "issues".
Proof.
  intros Hpat request. unfold run_jira_query.
  rewrite bind_run, Hpat. cbn [fst snd].
  rewrite bind_run. cbn [ask fst snd].
  rewrite bind_run. cbn [http fst snd]. fold request.
  destruct (negb (status_code (remote E request) =? 200)%Z); split; reflexivity.
Qed.

Lemma run_jira_query_no_pat (jql fields : string) (jira_pat : option string) (E : environ)
    (e : exn) :
  get_jira_pat jira_pat E = (Raised e, quiet) ->
  run_jira_query jql fields jira_pat E = (Raised e, quiet).
Proof. intros H. unfold run_jira_query. now rewrite bind_run, H. Qed.

(** C9. With a usable credential, and a store that keeps to the page size
    it is asked for, one call of the search operation sends exactly one
    request, which asks for a page of 100, and what it returns is an array
    of at most 100 records. *)
Theorem run_jira_query_single_page (E : environ) (jql fields : string)
    (jira_pat : option string) (pat : string) :
  honours_maxResults E ->
  get_jira_pat jira_pat E = (Returned pat, quiet) ->
  (exists url headers,
     http_log (snd (run_jira_query jql fields jira_pat E)) =
       [GET url headers [("jql", JStr jql); ("fields", JStr fields);
                         ("maxResults", JNum 100)]]) /\
  (forall v, fst (run_jira_query jql fields jira_pat E) = Returned v ->
     exists l, v = JArr l /\ (List.length l <= 100)%nat).
Proof.
  intros Hstore Hpat.
  destruct (run_jira_query_run jql fields jira_pat E pat Hpat) as [Ht Hr].
  split.
  - rewrite Ht. cbn [http_log]. eauto.
  - intros v Hv. rewrite Hr in Hv.
    match type of Hv with context [remote E ?q] => set (request := q) in * end.
    destruct (Z.eqb_spec (status_code (remote E request)) 200) as [Hok|]; [|discriminate].
    cbn [negb] in Hv.
    destruct (Hstore _ _ _ 100%Z v
                (eq_refl : dict_get "maxResults"
                             [("jql", JStr jql); ("fields", JStr fields);
                              ("maxResults", JNum 100)] = Some (JNum 100)) Hok Hv)
      as (l & -> & Hl).
    exists l. split; [reflexivity | lia].
Qed.

Lemma paged_store_honours : honours_maxResults (environ_of paged_store).
Proof.
  intros url headers params n v Hmax Hok Hv.
  cbn [environ_of remote paged_store] in Hok, Hv. rewrite Hmax in Hok, Hv.
  destruct (Z.ltb_spec n 0) as [|Hn]; [discriminate|].
  cbn in Hv. injection Hv as <-.
  eexists. split; [reflexivity|].
  rewrite length_firstn. lia.
Qed.

Lemma run_jira_query_single_page_witness :
  exists l,
    fst (run_jira_query "project = RHAIRFE" "summary" (Some "token")
           (environ_of paged_store)) = Returned (JArr l) /\
    (List.length l <= 100)%nat.
Proof.
  destruct (proj2 (run_jira_query_single_page (environ_of paged_store)
                     "project = RHAIRFE" "summary" (Some "token") "token"
                     paged_store_honours eq_refl) _ eq_refl) as (l & Hl & Hlen).
  exists l. split; [|exact Hlen].
  cbn. injection Hl as <-. reflexivity.
Defined.

(** ** Resolving a STRAT to its RFE *)

Lemma link_gets (link : json) :
  is_link link ->
  exists inward_issue outward_issue,
    get link "inwardIssue" (JObj []) = Returned inward_issue /\
    get link "outwardIssue" (JObj []) = Returned outward_issue /\
    get inward_issue "key" JNull = Returned (linked_key link "inwardIssue") /\
    get outward_issue "key" JNull = Returned (linked_key link "outwardIssue").
Proof.
  intros (m & -> & Hin & Hout).
  assert (forall direction,
             (forall v, dict_get direction m = Some v -> is_object v) ->
             exists issue, get (JObj m) direction (JObj []) = Returned issue /\
                           get issue "key" JNull = Returned (linked_key (JObj m) direction))
    as Hdir.
  { intros direction Hobj. unfold linked_key, get at 1 3.
    destruct (dict_get direction m) as [v|] eqn:Hv.
    - destruct (Hobj v eq_refl) as [im ->]. eexists. split; [reflexivity|].
      destruct (get_object im "key" JNull) as [k Hk]. now rewrite Hk.
    - eexists. split; reflexivity. }
  destruct (Hdir "inwardIssue" Hin) as (i & Hi & Hik).
  destruct (Hdir "outwardIssue" Hout) as (o & Ho & Hok).
  exists i, o. auto.
Qed.

(** On links of the store's shape the scan returns the first reference to a
    known RFE, inward before outward within a link. *)
Lemma find_rfe_first_match (links : list json) (rfe_keys : list string) :
  Forall is_link links ->
  find_rfe links rfe_keys = Returned (first_request_match links rfe_keys).
Proof.
  unfold first_request_match.
  induction 1 as [|link rest Hlink _ IH]; [reflexivity|].
  destruct (link_gets link Hlink) as (i & o & Hi & Ho & Hik & Hok).
  cbn [find_rfe references flat_map app first_known].
  rewrite Hi. cbn [obind]. rewrite Ho. cbn [obind]. rewrite Hik. cbn [obind].
  destruct (member (linked_key link "inwardIssue") rfe_keys); [reflexivity|].
  rewrite Hok. cbn [obind].
  destruct (member (linked_key link "outwardIssue") rfe_keys); [reflexivity|].
  exact IH.
Qed.

Lemma dict_get_set_same (k : string) (v : json) (d : dict) :
  dict_get k (dict_set k v d) = Some v.
Proof.
  induction d as [|[k' v'] d IH]; simpl.
  - now rewrite String.eqb_refl.
  - destruct (String.eqb k k') eqn:Hk; simpl; now rewrite Hk.
Qed.

Lemma dict_get_set_other (k k' : string) (v : json) (d : dict) :
  String.eqb k k' = false ->
  dict_get k (dict_set k' v d) = dict_get k d.
Proof.
  intros Hne. induction d as [|[k0 v0] d IH]; simpl.
  - now rewrite Hne.
  - destruct (String.eqb k' k0) eqn:Hk0; simpl.
    + apply String.eqb_eq in Hk0 as <-. now rewrite Hne.
    + now rewrite IH.
Qed.

(** C8. A STRAT whose links (of the store's shape) reference known RFEs,
    however many, is linked to the first match in iteration order, inward
    before outward within a link: processing it raises nothing, streams one
    [strat] event whose [rfe_key] is that match, and files the STRAT under
    it. What is picked depends on the record and the known keys alone, so two
    runs over the same responses pick the same RFE. *)
Theorem strat_linked_to_first_match (E : environ) (rfe_keys : list string)
    (v : strat_vars) (strat fields : json) (strat_data : dict) (links : list json)
    (k : string) :
  build_issue_data strat "strat" = Returned strat_data ->
  get strat "fields" (JObj []) = Returned fields ->
  get fields "issuelinks" (JArr []) = Returned (JArr links) ->
  Forall is_link links ->
  first_request_match links rfe_keys = Some k ->
  k <> "" ->
  let streamed := dict_set "epics" (JArr []) (dict_set "rfe_key" (JStr k) strat_data) in
  rfe_first_strat rfe_keys v strat E =
    (Returned {| strats_by_rfe := add_child k streamed (strats_by_rfe v);
                 strat_keys_list := strat_keys_list v ++ [dict_item "key" strat_data];
                 total_strats := (total_strats v + 1)%Z |},
     {| wfile := [Sse "strat" (JObj streamed)]; http_log := [] |}) /\
  dict_get "rfe_key" streamed = Some (JStr k) /\
  forall E', rfe_first_strat rfe_keys v strat E' = rfe_first_strat rfe_keys v strat E.
Proof.
  intros Hbuild Hfields Hlinks Hshape Hmatch Hk streamed.
  assert (forall E0, rfe_first_strat rfe_keys v strat E0 =
    (Returned {| strats_by_rfe := add_child k streamed (strats_by_rfe v);
                 strat_keys_list := strat_keys_list v ++ [dict_item "key" strat_data];
                 total_strats := (total_strats v + 1)%Z |},
     {| wfile := [Sse "strat" (JObj streamed)]; http_log := [] |})) as Hrun.
  { intros E0. unfold rfe_first_strat.
    rewrite bind_run, lift_run, Hbuild. cbn [fst snd].
    rewrite bind_run, lift_run, Hfields. cbn [fst snd].
    rewrite bind_run, lift_run, Hlinks. cbn [fst snd].
    rewrite bind_run, lift_run. cbn [iter fst snd].
    rewrite bind_run, lift_run, (find_rfe_first_match links rfe_keys Hshape), Hmatch.
    cbn [fst snd truthy_str].
    apply String.eqb_neq in Hk. rewrite Hk. cbn [negb].
    reflexivity. }
  split; [apply Hrun|]. split.
  - unfold streamed. rewrite dict_get_set_other by reflexivity.
    apply dict_get_set_same.
  - intros E'. now rewrite !Hrun.
Qed.

Lemma strat_linked_to_first_match_witness :
  exists d,
    snd (rfe_first_strat ["RHAIRFE-1"; "RHAIRFE-2"]
           {| strats_by_rfe := []; strat_keys_list := []; total_strats := 0 |}
           twice_linked_strat (environ_of paged_store)) =
      {| wfile := [Sse "strat" (JObj d)]; http_log := [] |} /\
    dict_get "rfe_key" d = Some (JStr "RHAIRFE-2").
Proof.
  eexists. 
  assert (Forall is_link
            [JObj [("type", JObj [("name", JStr "Cloners")]);
                   ("outwardIssue", JObj [("key", JStr "RHAIRFE-2")])];
             JObj [("type", JObj [("name", JStr "Cloners")]);
                   ("inwardIssue", JObj [("key", JStr "RHAIRFE-1")])]]) as Hshape.
  { repeat constructor; eexists; (split; [reflexivity|]); split; intros v Hv;
      cbn in Hv; try discriminate; injection Hv as <-; eexists; reflexivity. }
  destruct (strat_linked_to_first_match (environ_of paged_store)
              ["RHAIRFE-1"; "RHAIRFE-2"]
              {| strats_by_rfe := []; strat_keys_list := []; total_strats := 0 |}
              twice_linked_strat _ _ _ "RHAIRFE-2"
              eq_refl eq_refl eq_refl Hshape eq_refl ltac:(discriminate))
    as (Hrun & Hkey & _).
  rewrite Hrun. split; [reflexivity | exact Hkey].
Defined.

(** ** Loops *)

Lemma bind_lift_run {A B : Type} (c : outcome A) (k : A -> M B) (E : environ) :
  bind (lift c) k E =
  match c with
  | Returned a => k a E
  | Raised e => (Raised e, quiet)
  end.
Proof.
  rewrite bind_run, lift_run. destruct c as [a|e]; [|reflexivity].
  rewrite tapp_quiet_l. now destruct (k a E).
Qed.

Lemma send_then_ret {A : Type} (L : string) (data : json) (a : A) (E : environ) :
  (send_sse_event L data ;; ret a) E =
  (Returned a, {| wfile := [Sse L data]; http_log := [] |}).
Proof. reflexivity. Qed.

Lemma subseq_nil_l {A : Type} (l : list A) : subseq [] l.
Proof. induction l; constructor; auto. Qed.

Lemma subseq_refl {A : Type} (l : list A) : subseq l l.
Proof. induction l; [constructor | now apply subseq_take]. Qed.

Lemma subseq_app {A : Type} (s1 l1 s2 l2 : list A) :
  subseq s1 l1 -> subseq s2 l2 -> subseq (s1 ++ s2) (l1 ++ l2).
Proof.
  induction 1; simpl; intros; auto.
  - apply subseq_skip; auto.
  - apply subseq_take; auto.
Qed.


Lemma subseq_In {A : Type} (s l : list A) (x : A) : subseq s l -> In x s -> In x l.
Proof. induction 1; simpl; intuition. Qed.

(** A level's loop, from its start: no request; only events of the level;
    their keys are, in order, keys of the records iterated; the invariant
    holds where the loop stops; and when the loop completes it holds of all
    records and the counter has grown by the number of events. *)
Lemma level_loop {S : Type} (E : environ) (L : string) (total : S -> Z)
    (Inv : list json -> S -> list written -> Prop) (body : S -> json -> M S) :
  step_ok E L total Inv body ->
  forall l done v evs,
    Inv done v evs ->
    http_log (snd (for_each body v l E)) = [] /\
    Forall (fun x => exists d, x = Sse L (JObj d)) (wfile (snd (for_each body v l E))) /\
    subseq (map (payload_field "key") (wfile (snd (for_each body v l E))))
           (map raw_key l) /\
    (exists done' v', Inv done' v' (evs ++ wfile (snd (for_each body v l E)))) /\
    forall v', fst (for_each body v l E) = Returned v' ->
      Inv (done ++ l) v' (evs ++ wfile (snd (for_each body v l E))) /\
      total v' = (total v + Z.of_nat (List.length (wfile (snd (for_each body v l E)))))%Z.
Proof.
  intros Hstep l. induction l as [|x xs IH]; intros done v evs Hinv.
  - cbn. rewrite !app_nil_r.
    split; [reflexivity|]. split; [constructor|]. split; [constructor|].
    split; [eauto|].
    intros v' [= <-]. split; [exact Hinv | lia].
  - cbn [for_each]. rewrite bind_run.
    specialize (Hstep done v evs x Hinv).
    destruct (body v x E) as [[v1|e] t1].
    + destruct Hstep as (Hlog & Hinv1 & Hev).
      destruct (IH (done ++ [x]) v1 (evs ++ wfile t1) Hinv1)
        as (IHlog & IHall & IHsub & IHany & IHret).
      cbn [fst snd tapp wfile http_log].
      rewrite Hlog, IHlog.
      assert (Forall (fun x0 => exists d, x0 = Sse L (JObj d)) (wfile t1) /\
              subseq (map (payload_field "key") (wfile t1)) [raw_key x]) as [Hall1 Hsub1].
      { destruct Hev as [[-> _] | (d & -> & Hkey & _)].
        - split; [constructor | apply subseq_nil_l].
        - split; [repeat constructor; eauto|].
          cbn. unfold dict_item. rewrite Hkey. apply subseq_refl. }
      split; [reflexivity|]. split; [apply Forall_app; auto|]. split; [|split].
      * rewrite map_app. change (map raw_key (x :: xs)) with ([raw_key x] ++ map raw_key xs).
        now apply subseq_app.
      * destruct IHany as (done' & v' & Hany). rewrite <- app_assoc in Hany. eauto.
      * intros v' Hv'. destruct (IHret v' Hv') as [Hinv' Htotal].
        rewrite <- !app_assoc in Hinv'. split; [exact Hinv'|].
        rewrite Htotal, length_app.
        destruct Hev as [[-> ->] | (d & -> & _ & ->)]; cbn [List.length]; lia.
    + subst t1. cbn. rewrite app_nil_r.
      split; [reflexivity|]. split; [constructor|]. split; [apply subseq_nil_l|].
      split; [eauto | discriminate].
Qed.

(** ** Facts about the data the loops handle *)

Lemma eq_str_true (v : json) (s : string) : eq_str v s = true -> v = JStr s.
Proof.
  destruct v; simpl; try discriminate. intros H. apply String.eqb_eq in H. now subst.
Qed.

Lemma member_Some (v : json) (keys : list string) (k : string) :
  member v keys = Some k -> v = JStr k /\ In k keys.
Proof.
  destruct v; simpl; try discriminate.
  destruct (existsb (String.eqb s) keys) eqn:H; [|discriminate].
  intros [= <-]. split; [reflexivity|].
  apply existsb_exists in H as (k & Hin & Hk). apply String.eqb_eq in Hk. now subst.
Qed.

Lemma member_str (k : string) (keys : list string) :
  In k keys -> member (JStr k) keys = Some k.
Proof.
  intros Hin. simpl.
  assert (existsb (String.eqb k) keys = true) as ->; [|reflexivity].
  apply existsb_exists. exists k. split; [exact Hin | apply String.eqb_refl].
Qed.

Lemma find_rfe_In (links : list json) (rfe_keys : list string) (k : string) :
  find_rfe links rfe_keys = Returned (Some k) -> In k rfe_keys.
Proof.
  induction links as [|link rest IH]; [discriminate|].
  cbn [find_rfe]. intros H.
  apply obind_returned in H as (i & _ & H).
  apply obind_returned in H as (o & _ & H).
  apply obind_returned in H as (ik & _ & H).
  destruct (member ik rfe_keys) as [k1|] eqn:Hik.
  - injection H as <-. now apply member_Some in Hik.
  - apply obind_returned in H as (ok & _ & H).
    destruct (member ok rfe_keys) as [k2|] eqn:Hok.
    + injection H as <-. now apply member_Some in Hok.
    + auto.
Qed.

Lemma add_child_In (p : string) (c : dict) (m : by_parent) (k : string)
    (children : list dict) (c' : dict) :
  In (k, children) (add_child p c m) -> In c' children ->
  (k = p /\ c' = c) \/ (exists children0, In (k, children0) m /\ In c' children0).
Proof.
  induction m as [|[k0 cs0] m IH]; cbn [add_child].
  - intros [[= <- <-]|[]] [<-|[]]. now left.
  - destruct (String.eqb p k0) eqn:Hp.
    + apply String.eqb_eq in Hp as <-.
      intros [[= <- <-]|Hin] Hc'.
      * apply in_app_or in Hc' as [Hc'|[<-|[]]].
        -- right. exists cs0. split; [now left | exact Hc'].
        -- now left.
      * right. exists children. split; [now right | exact Hc'].
    + intros [[= <- <-]|Hin] Hc'.
      * right. exists cs0. split; [now left | exact Hc'].
      * destruct (IH Hin Hc') as [?|(cs & ? & ?)]; [now left|].
        right. exists cs. split; [now right | assumption].
Qed.

Lemma parent_of_Some (m : by_parent) (child_key k : string) :
  parent_of m child_key = Some k ->
  exists children c,
    In (k, children) m /\ In c children /\ dict_item "key" c = JStr child_key.
Proof.
  induction m as [|[k0 cs0] m IH]; cbn [parent_of]; [discriminate|].
  destruct (existsb _ cs0) eqn:Hex.
  - intros [= <-]. apply existsb_exists in Hex as (c & Hc & Hkey).
    exists cs0, c. split; [now left|]. split; [exact Hc | now apply eq_str_true].
  - intros H. destruct (IH H) as (cs & c & ? & ? & ?).
    exists cs, c. split; [now right | auto].
Qed.

Lemma dict_item_str (k : string) (d : dict) (s : string) :
  dict_item k d = JStr s -> dict_get k d = Some (JStr s).
Proof. unfold dict_item. destruct (dict_get k d); [now intros -> | discriminate]. Qed.

Lemma strs_from_map (position : nat) (keys : list json) (strs : list string) :
  strs_from position keys = Returned strs -> keys = map JStr strs.
Proof.
  revert position strs.
  induction keys as [|k rest IH]; intros position strs; cbn [strs_from].
  - now intros [= <-].
  - destruct k; try discriminate. intros H.
    apply obind_returned in H as (ks & Hks & [= <-]).
    cbn. now rewrite (IH _ ks Hks).
Qed.

Lemma as_strs_map (keys : list json) (strs : list string) :
  as_strs keys = Returned strs -> keys = map JStr strs.
Proof. apply strs_from_map. Qed.

Lemma length_list_ascii (s : string) :
  List.length (list_ascii_of_string s) = String.length s.
Proof. induction s as [|c s IH]; cbn; [reflexivity | now rewrite IH]. Qed.

Lemma len_iter (v : json) (n : Z) : len v = Returned n ->
  exists l, iter v = Returned l /\ n = Z.of_nat (List.length l).
Proof.
  destruct v; cbn [len iter]; try discriminate; intros [= <-]; eexists;
    (split; [reflexivity|]); rewrite ?length_map, ?length_list_ascii; reflexivity.
Qed.

(** The normalized record carries the raw record's key, and none of the
    ancestor fields. *)
Lemma build_issue_data_key (x : json) (issue_type : string) (d : dict) :
  build_issue_data x issue_type = Returned d ->
  dict_get "key" d = Some (raw_key x) /\
  dict_get "rfe_key" d = None /\
  dict_get "strat_key" d = None /\
  dict_get "epic_key" d = None.
Proof.
  unfold build_issue_data. intros H.
  apply obind_returned in H as (fields & _ & H).
  apply obind_returned in H as (assignee & _ & H).
  apply obind_returned in H as (reporter & _ & H).
  apply obind_returned in H as (key & Hkey & H).
  repeat (apply obind_returned in H; destruct H as (? & _ & H)).
  injection H as <-. unfold raw_key. rewrite Hkey. repeat split.
Qed.

(** ** One iteration of each loop *)

Lemma level_inv_emit {S : Type} (L : string) (keys_of : S -> option (list json))
    (map_of : S -> by_parent) (emitted_if : string -> bool) (P : dict -> Prop)
    (done : list json) (v v' : S) (evs : list written) (x : json) (d : dict) (p : string) :
  level_inv L keys_of map_of emitted_if P done v evs ->
  (forall keys', keys_of v' = Some keys' ->
     exists keys, keys_of v = Some keys /\ keys' = keys ++ [raw_key x]) ->
  map_of v' = add_child p d (map_of v) ->
  P d ->
  level_inv L keys_of map_of emitted_if P (done ++ [x]) v' (evs ++ [Sse L (JObj d)]).
Proof.
  intros (Hkeys & Hmap & HP) Hkeys' Hmap' Hd. split; [|split].
  - intros keys' Hk'. destruct (Hkeys' keys' Hk') as (keys & Hk & ->).
    rewrite (Hkeys keys Hk), map_app. reflexivity.
  - intros k children c Hin Hc Hk. rewrite Hmap' in Hin. apply in_or_app.
    destruct (add_child_In _ _ _ _ _ _ Hin Hc) as [[-> ->] | (cs & Hin0 & Hc0)].
    + right. now left.
    + left. eauto.
  - intros d0 Hin. apply in_app_or in Hin as [Hin | [[= <-] | []]]; auto.
Qed.

Lemma level_inv_skip {S : Type} (L : string) (keys_of : S -> option (list json))
    (map_of : S -> by_parent) (emitted_if : string -> bool) (P : dict -> Prop)
    (done : list json) (v v' : S) (evs : list written) (x : json) :
  level_inv L keys_of map_of emitted_if P done v evs ->
  (forall keys', keys_of v' = Some keys' ->
     exists keys, keys_of v = Some keys /\ keys' = keys ++ [raw_key x]) ->
  (map_of v' = map_of v \/
   exists p d, map_of v' = add_child p d (map_of v) /\ emitted_if p = false) ->
  level_inv L keys_of map_of emitted_if P (done ++ [x]) v' (evs ++ []).
Proof.
  intros (Hkeys & Hmap & HP) Hkeys' Hmap'. rewrite app_nil_r. split; [|split].
  - intros keys' Hk'. destruct (Hkeys' keys' Hk') as (keys & Hk & ->).
    rewrite (Hkeys keys Hk), map_app. reflexivity.
  - intros k children c Hin Hc Hk.
    destruct Hmap' as [Hsame | (p & d & Hadd & Hp)].
    + rewrite Hsame in Hin. eauto.
    + rewrite Hadd in Hin.
      destruct (add_child_In _ _ _ _ _ _ Hin Hc) as [[-> ->] | (cs & Hin0 & Hc0)].
      * congruence.
      * eauto.
  - exact HP.
Qed.

Lemma dict_item_key (d : dict) (x : json) :
  dict_get "key" d = Some (raw_key x) -> dict_item "key" d = raw_key x.
Proof. unfold dict_item. now intros ->. Qed.

Lemma rfe_first_strat_ok (E : environ) (rfe_keys : list string) :
  step_ok E "strat" total_strats
    (level_inv "strat" (fun v => Some (strat_keys_list v)) strats_by_rfe
       (fun _ => true) (strat_under_rfe rfe_keys))
    (rfe_first_strat rfe_keys).
Proof.
  intros done v evs x Hinv. unfold rfe_first_strat. cbv zeta.
  rewrite bind_lift_run.
  destruct (build_issue_data x "strat") as [d|e] eqn:Hb; [|reflexivity].
  destruct (build_issue_data_key _ _ _ Hb) as (Hkey & _).
  rewrite bind_lift_run. destruct (get x "fields" (JObj [])) as [fields|]; [|reflexivity].
  rewrite bind_lift_run.
  destruct (get fields "issuelinks" (JArr [])) as [links|]; [|reflexivity].
  rewrite bind_lift_run. destruct (iter links) as [ls|]; [|reflexivity].
  rewrite bind_lift_run.
  destruct (find_rfe ls rfe_keys) as [found|] eqn:Hfind; [|reflexivity].
  assert (forall v' : strat_vars,
             strat_keys_list v' = strat_keys_list v ++ [dict_item "key" d] ->
             forall keys', Some (strat_keys_list v') = Some keys' ->
               exists keys, Some (strat_keys_list v) = Some keys /\
                            keys' = keys ++ [raw_key x]) as Hkeys.
  { intros v' Hv' keys' [= <-]. eexists. split; [reflexivity|].
    now rewrite Hv', (dict_item_key d x Hkey). }
  destruct found as [k|]; cbn [truthy_str].
  - destruct (negb (k =? "")).
    + rewrite send_then_ret. cbn [wfile http_log total_strats].
      split; [reflexivity|]. split.
      * eapply level_inv_emit; [exact Hinv | apply Hkeys; reflexivity | reflexivity |].
        exists k. split; [|eapply find_rfe_In; eauto].
        rewrite dict_get_set_other by reflexivity. apply dict_get_set_same.
      * right. eexists. split; [reflexivity|]. split; [|reflexivity].
        now rewrite !dict_get_set_other by reflexivity.
    + rewrite bind_lift_run. destruct (warn_links ls); [|reflexivity].
      cbn [ret wfile http_log quiet total_strats].
      split; [reflexivity|]. split; [|now left].
      eapply level_inv_skip; [exact Hinv | apply Hkeys; reflexivity | now left].
  - rewrite bind_lift_run. destruct (warn_links ls); [|reflexivity].
    cbn [ret wfile http_log quiet total_strats].
    split; [reflexivity|]. split; [|now left].
    eapply level_inv_skip; [exact Hinv | apply Hkeys; reflexivity | now left].
Qed.

Lemma rfe_first_epic_ok (E : environ) (strat_keys : list string) (sbr : by_parent) :
  step_ok E "epic" total_epics
    (level_inv "epic" (fun v => Some (epic_keys_list v)) epics_by_strat
       (fun k => truthy_str (parent_of sbr k)) (epic_under_rfe strat_keys sbr))
    (rfe_first_epic strat_keys sbr).
Proof.
  intros done v evs x Hinv. unfold rfe_first_epic. cbv zeta.
  rewrite bind_lift_run.
  destruct (build_issue_data x "epic") as [d|e] eqn:Hb; [|reflexivity].
  destruct (build_issue_data_key _ _ _ Hb) as (Hkey & _).
  rewrite bind_lift_run. destruct (get x "fields" (JObj [])) as [fields|]; [|reflexivity].
  rewrite bind_lift_run.
  destruct (get fields "customfield_12313140" JNull) as [parent_link|]; [|reflexivity].
  assert (forall v' : epic_vars,
             epic_keys_list v' = epic_keys_list v ++ [dict_item "key" d] ->
             forall keys', Some (epic_keys_list v') = Some keys' ->
               exists keys, Some (epic_keys_list v) = Some keys /\
                            keys' = keys ++ [raw_key x]) as Hkeys.
  { intros v' Hv' keys' [= <-]. eexists. split; [reflexivity|].
    now rewrite Hv', (dict_item_key d x Hkey). }
  assert (forall v' : epic_vars,
             epic_keys_list v' = epic_keys_list v ++ [dict_item "key" d] ->
             (epics_by_strat v' = epics_by_strat v \/
              exists p c, epics_by_strat v' = add_child p c (epics_by_strat v) /\
                          truthy_str (parent_of sbr p) = false) ->
             total_epics v' = total_epics v ->
             http_log quiet = [] /\
             level_inv "epic" (fun v => Some (epic_keys_list v)) epics_by_strat
               (fun k => truthy_str (parent_of sbr k)) (epic_under_rfe strat_keys sbr)
               (done ++ [x]) v' (evs ++ wfile quiet) /\
             ((wfile quiet = [] /\ total_epics v' = total_epics v) \/
              (exists d0, wfile quiet = [Sse "epic" (JObj d0)] /\
                          dict_get "key" d0 = Some (raw_key x) /\
                          total_epics v' = (total_epics v + 1)%Z))) as Hskip.
  { intros v' Hk Hm Ht. split; [reflexivity|]. split; [|now left].
    eapply level_inv_skip; [exact Hinv | now apply Hkeys | exact Hm]. }
  destruct (truthy parent_link); [|apply Hskip; auto].
  destruct (member parent_link strat_keys) as [pl|] eqn:Hmem; [|apply Hskip; auto].
  apply member_Some in Hmem as [-> Hpl].
  destruct (parent_of sbr pl) as [rk|] eqn:Hparent; cbn [truthy_str].
  - destruct (negb (rk =? "")) eqn:Hrk.
    + rewrite send_then_ret. cbn [wfile http_log total_epics].
      split; [reflexivity|]. split.
      * eapply level_inv_emit; [exact Hinv | apply Hkeys; reflexivity | reflexivity |].
        exists pl, rk. split; [|split; [|split; [exact Hpl | split; [exact Hparent|]]]].
        -- rewrite dict_get_set_other by reflexivity. apply dict_get_set_same.
        -- rewrite !dict_get_set_other by reflexivity. apply dict_get_set_same.
        -- intros ->. discriminate.
      * right. eexists. split; [reflexivity|]. split; [|reflexivity].
        now rewrite !dict_get_set_other by reflexivity.
    + apply Hskip; [reflexivity | | reflexivity].
      right. exists pl, d. split; [reflexivity|]. rewrite Hparent. exact Hrk.
  - apply Hskip; [reflexivity | | reflexivity].
    right. exists pl, d. split; [reflexivity|]. now rewrite Hparent.
Qed.

Lemma task_skip (L : string) (P : dict -> Prop) (done : list json) (v v' : task_vars)
    (evs : list written) (x : json) :
  level_inv L (fun _ : task_vars => None) tasks_by_epic (fun _ => false) P done v evs ->
  total_tasks v' = total_tasks v ->
  http_log quiet = [] /\
  level_inv L (fun _ : task_vars => None) tasks_by_epic (fun _ => false) P
    (done ++ [x]) v' (evs ++ wfile quiet) /\
  ((wfile quiet = [] /\ total_tasks v' = total_tasks v) \/
   (exists d0, wfile quiet = [Sse L (JObj d0)] /\
               dict_get "key" d0 = Some (raw_key x) /\
               total_tasks v' = (total_tasks v + 1)%Z)).
Proof.
  intros (_ & _ & HP) Ht. split; [reflexivity|]. split; [|now left].
  cbn [wfile quiet]. rewrite app_nil_r. split; [discriminate|]. split; [discriminate|].
  exact HP.
Qed.

Lemma task_emit (L : string) (P : dict -> Prop) (done : list json) (v v' : task_vars)
    (evs : list written) (x : json) (d : dict) :
  level_inv L (fun _ : task_vars => None) tasks_by_epic (fun _ => false) P done v evs ->
  P d ->
  level_inv L (fun _ : task_vars => None) tasks_by_epic (fun _ => false) P
    (done ++ [x]) v' (evs ++ [Sse L (JObj d)]).
Proof.
  intros (_ & _ & HP) Hd. split; [discriminate|]. split; [discriminate|].
  intros d0 Hin. apply in_app_or in Hin as [Hin | [[= <-] | []]]; auto.
Qed.

Lemma rfe_first_task_ok (E : environ) (epic_keys : list string) (ebs sbr : by_parent) :
  step_ok E "task" total_tasks
    (level_inv "task" (fun _ => None) tasks_by_epic (fun _ => false)
       (task_under_rfe epic_keys ebs sbr))
    (rfe_first_task epic_keys ebs sbr).
Proof.
  intros done v evs x Hinv. unfold rfe_first_task. cbv zeta.
  rewrite bind_lift_run.
  destruct (build_issue_data x "task") as [d|e] eqn:Hb; [|reflexivity].
  destruct (build_issue_data_key _ _ _ Hb) as (Hkey & _).
  rewrite bind_lift_run. destruct (task_issuetype x) as [issuetype|]; [|reflexivity].
  rewrite bind_lift_run. destruct (item x "fields") as [fields|]; [|reflexivity].
  rewrite bind_lift_run.
  destruct (get fields "customfield_12311140" JNull) as [epic_link|]; [|reflexivity].
  destruct (truthy epic_link); [|cbn [ret]; eapply task_skip; [exact Hinv | reflexivity]].
  destruct (member epic_link epic_keys) as [el|] eqn:Hmem; [|cbn [ret]; eapply task_skip; [exact Hinv | reflexivity]].
  apply member_Some in Hmem as [-> Hel].
  destruct (parent_of ebs el) as [sk|] eqn:Hsk; cbn [truthy_str andb];
    [|cbn [ret]; eapply task_skip; [exact Hinv | reflexivity]].
  destruct (parent_of sbr sk) as [rk|] eqn:Hrk; cbn [truthy_str andb];
    [|cbn [ret]; eapply task_skip; [exact Hinv | reflexivity]].
  destruct (negb (rk =? "")) eqn:Hrk0; cbn [andb]; [|cbn [ret]; eapply task_skip; [exact Hinv | reflexivity]].
  destruct (negb (sk =? "")) eqn:Hsk0; [|cbn [ret]; eapply task_skip; [exact Hinv | reflexivity]].
  rewrite send_then_ret. cbn [wfile http_log total_tasks].
  split; [reflexivity|]. split.
  - eapply task_emit; [exact Hinv|].
    exists el, sk, rk. repeat split; auto.
    + apply dict_get_set_same.
    + rewrite dict_get_set_other by reflexivity. apply dict_get_set_same.
    + rewrite !dict_get_set_other by reflexivity. apply dict_get_set_same.
    + intros ->. discriminate.
    + intros ->. discriminate.
  - right. eexists. split; [reflexivity|]. split; [|reflexivity].
    now rewrite !dict_get_set_other by reflexivity.
Qed.

Lemma strat_first_strat_ok (E : environ) :
  step_ok E "strat" total_strats top_strat_inv strat_first_strat.
Proof.
  intros done v evs x (Hkeys & Hevs & Hnone). unfold strat_first_strat. cbv zeta.
  rewrite bind_lift_run.
  destruct (build_issue_data x "strat") as [d|e] eqn:Hb; [|reflexivity].
  destruct (build_issue_data_key _ _ _ Hb) as (Hkey & Hrfe & _).
  rewrite send_then_ret. cbn [wfile http_log total_strats strat_keys_list].
  split; [reflexivity|]. split; [split; [|split]|].
  - now rewrite Hkeys, map_app, (dict_item_key d x Hkey).
  - rewrite !map_app, Hevs. cbn [map payload_field]. unfold dict_item.
    rewrite dict_get_set_other by reflexivity. now rewrite Hkey.
  - intros d0 Hin. apply in_app_or in Hin as [Hin | [[= <-] | []]]; [auto|].
    now rewrite dict_get_set_other by reflexivity.
  - right. eexists. split; [reflexivity|]. split; [|reflexivity].
    now rewrite dict_get_set_other by reflexivity.
Qed.

Lemma strat_first_epic_ok (E : environ) (strat_keys : list string) :
  step_ok E "epic" total_epics
    (level_inv "epic" (fun v => Some (epic_keys_list v)) epics_by_strat
       (fun _ => true) (epic_under_strat strat_keys))
    (strat_first_epic strat_keys).
Proof.
  intros done v evs x Hinv. unfold strat_first_epic. cbv zeta.
  rewrite bind_lift_run.
  destruct (build_issue_data x "epic") as [d|e] eqn:Hb; [|reflexivity].
  destruct (build_issue_data_key _ _ _ Hb) as (Hkey & _).
  rewrite bind_lift_run. destruct (get x "fields" (JObj [])) as [fields|]; [|reflexivity].
  rewrite bind_lift_run.
  destruct (get fields "customfield_12313140" JNull) as [parent_link|]; [|reflexivity].
  assert (forall v' : epic_vars,
             epic_keys_list v' = epic_keys_list v ++ [dict_item "key" d] ->
             forall keys', Some (epic_keys_list v') = Some keys' ->
               exists keys, Some (epic_keys_list v) = Some keys /\
                            keys' = keys ++ [raw_key x]) as Hkeys.
  { intros v' Hv' keys' [= <-]. eexists. split; [reflexivity|].
    now rewrite Hv', (dict_item_key d x Hkey). }
  assert (forall v' : epic_vars,
             epic_keys_list v' = epic_keys_list v ++ [dict_item "key" d] ->
             epics_by_strat v' = epics_by_strat v ->
             total_epics v' = total_epics v ->
             http_log quiet = [] /\
             level_inv "epic" (fun v => Some (epic_keys_list v)) epics_by_strat
               (fun _ => true) (epic_under_strat strat_keys)
               (done ++ [x]) v' (evs ++ wfile quiet) /\
             ((wfile quiet = [] /\ total_epics v' = total_epics v) \/
              (exists d0, wfile quiet = [Sse "epic" (JObj d0)] /\
                          dict_get "key" d0 = Some (raw_key x) /\
                          total_epics v' = (total_epics v + 1)%Z))) as Hskip.
  { intros v' Hk Hm Ht. split; [reflexivity|]. split; [|now left].
    eapply level_inv_skip; [exact Hinv | now apply Hkeys | now left]. }
  destruct (truthy parent_link); [|apply Hskip; auto].
  destruct (member parent_link strat_keys) as [pl|] eqn:Hmem; [|apply Hskip; auto].
  apply member_Some in Hmem as [-> Hpl].
  rewrite send_then_ret. cbn [wfile http_log total_epics].
  split; [reflexivity|]. split.
  - eapply level_inv_emit; [exact Hinv | apply Hkeys; reflexivity | reflexivity |].
    exists pl. split; [|exact Hpl].
    rewrite dict_get_set_other by reflexivity. apply dict_get_set_same.
  - right. eexists. split; [reflexivity|]. split; [|reflexivity].
    now rewrite !dict_get_set_other by reflexivity.
Qed.

Lemma strat_first_task_ok (E : environ) (epic_keys : list string) (ebs : by_parent) :
  step_ok E "task" total_tasks
    (level_inv "task" (fun _ => None) tasks_by_epic (fun _ => false)
       (task_under_strat epic_keys ebs))
    (strat_first_task epic_keys ebs).
Proof.
  intros done v evs x Hinv. unfold strat_first_task. cbv zeta.
  rewrite bind_lift_run.
  destruct (build_issue_data x "task") as [d|e] eqn:Hb; [|reflexivity].
  destruct (build_issue_data_key _ _ _ Hb) as (Hkey & _).
  rewrite bind_lift_run. destruct (task_issuetype x) as [issuetype|]; [|reflexivity].
  rewrite bind_lift_run. destruct (item x "fields") as [fields|]; [|reflexivity].
  rewrite bind_lift_run.
  destruct (get fields "customfield_12311140" JNull) as [epic_link|]; [|reflexivity].
  destruct (truthy epic_link); [|cbn [ret]; eapply task_skip; [exact Hinv | reflexivity]].
  destruct (member epic_link epic_keys) as [el|] eqn:Hmem; [|cbn [ret]; eapply task_skip; [exact Hinv | reflexivity]].
  apply member_Some in Hmem as [-> Hel].
  destruct (parent_of ebs el) as [sk|] eqn:Hsk; cbn [truthy_str];
    [|cbn [ret]; eapply task_skip; [exact Hinv | reflexivity]].
  destruct (negb (sk =? "")) eqn:Hsk0; [|cbn [ret]; eapply task_skip; [exact Hinv | reflexivity]].
  rewrite send_then_ret. cbn [wfile http_log total_tasks].
  split; [reflexivity|]. split.
  - eapply task_emit; [exact Hinv|].
    exists el, sk. repeat split; auto.
    + apply dict_get_set_same.
    + rewrite dict_get_set_other by reflexivity. apply dict_get_set_same.
    + intros ->. discriminate.
  - right. eexists. split; [reflexivity|]. split; [|reflexivity].
    now rewrite !dict_get_set_other by reflexivity.
Qed.

(** ** One level of a flow *)

Lemma run_jira_query_cases (jql fields : string) (jira_pat : option string) (E : environ) :
  (exists e, run_jira_query jql fields jira_pat E = (Raised e, quiet)) \/
  (exists q,
     search_request jql q /\
     snd (run_jira_query jql fields jira_pat E) = {| wfile := []; http_log := [q] |} /\
     ((status_code (remote E q) <> 200%Z /\
       exists e, fst (run_jira_query jql fields jira_pat E) = Raised e) \/
      (status_code (remote E q) = 200%Z /\
       fst (run_jira_query jql fields jira_pat E) =
         item (json_body (remote E q)) "issues"))).
Proof.
  pose proof (get_jira_pat_run jira_pat E) as Hpat.
  destruct (fst (get_jira_pat jira_pat E)) as [pat|e].
  - right. destruct (run_jira_query_run jql fields jira_pat E pat Hpat) as [Ht Hr].
    eexists. split; [|split; [exact Ht|]].
    + do 3 eexists. reflexivity.
    + rewrite Hr. match goal with |- context [Z.eqb ?a ?b] => destruct (Z.eqb_spec a b) end.
      * right. split; [assumption | reflexivity].
      * left. split; [assumption | eexists; reflexivity].
  - left. exists e. now apply run_jira_query_no_pat.
Qed.

Lemma level_ok_stub (E : environ) (L message : string) (jql_ok : string -> Prop)
    (lg : list request) :
  (lg = [] \/ exists q jql, lg = [q] /\ search_request jql q /\ jql_ok jql) ->
  level_ok E L jql_ok
    {| output := [Sse "progress" (progress message)]; events := []; log := lg;
       fetched := [] |}.
Proof.
  intros Hlg. split; [right; exists message; reflexivity|].
  split; [constructor|]. split; [|constructor].
  destruct Hlg as [-> | (q & jql & -> & Hq & Hj)]; [now left|].
  right. exists q, jql. cbn. auto.
Qed.

Lemma level_ok_idle (E : environ) (L : string) (jql_ok : string -> Prop) :
  level_ok E L jql_ok idle.
Proof.
  split; [now left|]. split; [constructor|]. split; [now left | constructor].
Qed.

(** A level below the top: skipped when there is no parent key; otherwise a
    progress line, one search over all parent keys, and the loop. *)
Lemma batch_level_run {S : Type} (E : environ) (L : string) (total : S -> Z)
    (keys_of : S -> option (list json)) (map_of : S -> by_parent)
    (emitted_if : string -> bool) (P : list string -> dict -> Prop)
    (parent_keys : list json) (message : string) (jql : list string -> string)
    (field_list : string) (body : list string -> S -> json -> M S) (init : S)
    (jira_pat : option string) :
  (forall keys, step_ok E L total (level_inv L keys_of map_of emitted_if (P keys))
                  (body keys)) ->
  (forall keys, level_inv L keys_of map_of emitted_if (P keys) [] init []) ->
  total init = 0%Z ->
  exists lv,
    snd (batch_level parent_keys message jql field_list body init jira_pat E) =
      {| wfile := output lv; http_log := log lv |} /\
    level_ok E L (fun j => exists keys, parent_keys = map JStr keys /\ j = jql keys) lv /\
    (parent_keys = [] -> lv = idle) /\
    (forall d, In (Sse L (JObj d)) (events lv) ->
       exists keys, parent_keys = map JStr keys /\ P keys d) /\
    (forall v issues,
       fst (batch_level parent_keys message jql field_list body init jira_pat E) =
         Returned (v, issues) ->
       (parent_keys = [] /\ v = init /\ issues = JArr []) \/
       (parent_keys <> [] /\ finished E lv /\
        len issues = Returned (count (fetched lv)) /\
        total v = count (events lv) /\
        exists keys, parent_keys = map JStr keys /\
          level_inv L keys_of map_of emitted_if (P keys) (fetched lv) v (events lv))).
Proof.
  intros Hstep Hinit Htotal. unfold batch_level.
  destruct parent_keys as [|pk0 pks] eqn:Hpk; cbn [nonempty].
  { exists idle. cbn. split; [reflexivity|]. split; [apply level_ok_idle|].
    split; [reflexivity|]. split; [intros d []|].
    intros v issues [= <- <-]. now left. }
  assert (parent_keys <> []) as Hne by (rewrite Hpk; discriminate).
  rewrite <- Hpk. clear Hpk pk0 pks.
  set (stub := fun lg => {| output := [Sse "progress" (progress message)];
                            events := []; log := lg; fetched := [] |}).
  assert (forall lg (r : outcome (S * json)),
             (lg = [] \/ exists q j, lg = [q] /\ search_request j q /\
                                      exists keys, parent_keys = map JStr keys /\ j = jql keys) ->
             (forall a, r <> Returned a) ->
             exists lv,
               {| wfile := [Sse "progress" (progress message)] ++ []; http_log := [] ++ lg |} =
                 {| wfile := output lv; http_log := log lv |} /\
               level_ok E L (fun j => exists keys, parent_keys = map JStr keys /\ j = jql keys)
                 lv /\
               (parent_keys = [] -> lv = idle) /\
               (forall d, In (Sse L (JObj d)) (events lv) ->
                  exists keys, parent_keys = map JStr keys /\ P keys d) /\
               (forall v issues, r = Returned (v, issues) ->
                  (parent_keys = [] /\ v = init /\ issues = JArr []) \/
                  (parent_keys <> [] /\ finished E lv /\
                   len issues = Returned (count (fetched lv)) /\
                   total v = count (events lv) /\
                   exists keys, parent_keys = map JStr keys /\
                     level_inv L keys_of map_of emitted_if (P keys) (fetched lv) v
                       (events lv)))) as Hstub.
  { intros lg r Hlg Hr. exists (stub lg). split; [reflexivity|].
    split; [apply level_ok_stub; exact Hlg|].
    split; [intros ->; now destruct Hne|]. split; [intros d []|].
    intros v issues ->. now destruct (Hr (v, issues)). }
  rewrite bind_run. cbn [send_sse_event write fst snd].
  rewrite bind_lift_run.
  destruct (as_strs parent_keys) as [keys|e] eqn:Hkeys.
  2:{ cbn [fst snd tapp wfile http_log quiet]. apply Hstub; [now left | discriminate]. }
  pose proof (as_strs_map _ _ Hkeys) as Hmap.
  rewrite bind_run.
  destruct (run_jira_query_cases (jql keys) field_list jira_pat E)
    as [[e Hq] | (q & Hsearch & Hsnd & Hcase)].
  { rewrite Hq. cbn [fst snd tapp wfile http_log quiet].
    apply Hstub; [now left | discriminate]. }
  assert (exists q0 j, [q] = [q0] /\ search_request j q0 /\
                       exists keys0, parent_keys = map JStr keys0 /\ j = jql keys0) as Hlg.
  { exists q, (jql keys). split; [reflexivity|]. split; [exact Hsearch|].
    exists keys. split; [exact Hmap | reflexivity]. }
  destruct (run_jira_query (jql keys) field_list jira_pat E) as [r1 t1].
  cbn [fst snd] in Hsnd, Hcase. subst t1.
  destruct Hcase as [[Hbad [e ->]] | [Hgood ->]].
  { cbn [fst snd tapp wfile http_log]. apply Hstub; [now right | discriminate]. }
  destruct (item (json_body (remote E q)) "issues") as [issues|e] eqn:Hitem.
  2:{ cbn [fst snd tapp wfile http_log]. apply Hstub; [now right | discriminate]. }
  rewrite bind_lift_run.
  destruct (len issues) as [n|e] eqn:Hlen.
  2:{ cbn [fst snd tapp wfile http_log quiet app]. rewrite ?app_nil_r.
      apply (Hstub [q]); [now right | discriminate]. }
  destruct (len_iter _ _ Hlen) as (l & Hiter & Hn).
  rewrite bind_lift_run, Hiter. rewrite bind_run.
  destruct (level_loop E L total _ (body keys) (Hstep keys) l [] init [] (Hinit keys))
    as (Hlog & Hall & Hsub & Hany & Hret).
  destruct (for_each (body keys) init l E) as [r2 t2].
  cbn [fst snd app] in Hlog, Hall, Hsub, Hany, Hret.
  exists {| output := Sse "progress" (progress message) :: wfile t2; events := wfile t2;
            log := [q]; fetched := l |}.
  assert (answered E q l) as Hans by (split; [exact Hgood | eauto]).
  split.
  { destruct r2; cbn [fst snd ret]; unfold tapp, quiet;
      cbn [wfile http_log output log app]; rewrite ?Hlog, ?app_nil_r; reflexivity. }
  split.
  { split; [right; exists message; reflexivity|].
    split; [exact Hall|]. split; [|exact Hsub].
    right. exists q, (jql keys). cbn [log fetched].
    split; [reflexivity|]. split; [exact Hsearch|].
    split; [exists keys; split; [exact Hmap | reflexivity] | now right]. }
  split; [intros ->; now destruct Hne|].
  split.
  { cbn [events]. intros d Hd. destruct Hany as (done' & v' & (_ & _ & HP)). eauto. }
  intros v issues0 Hr. right.
  destruct r2 as [v2|e2]; cbn [fst snd ret] in Hr; [|discriminate].
  injection Hr as <- <-.
  destruct (Hret v2 eq_refl) as [Hinv Htot].
  split; [exact Hne|].
  split; [exists q; split; [reflexivity | exact Hans]|].
  cbn [fetched events]. unfold count. split; [now rewrite Hlen, Hn|].
  split; [rewrite Htot, Htotal; lia | eauto].
Qed.

(** ** The Epic and Task levels and the closing event *)

Lemma level_ok_weaken (E : environ) (L : string) (ok1 ok2 : string -> Prop)
    (lv : level_run) :
  (forall j, ok1 j -> ok2 j) -> level_ok E L ok1 lv -> level_ok E L ok2 lv.
Proof.
  intros Hw (Hout & Hall & Hlog & Hsub). split; [exact Hout|]. split; [exact Hall|].
  split; [|exact Hsub].
  destruct Hlog as [?|(q & j & ? & ? & ? & ?)]; [now left|].
  right. exists q, j. auto.
Qed.

Lemma fetched_count_run (keys : list json) (issues : json) (n : Z) (E : environ) :
  (keys <> [] -> len issues = Returned n) ->
  (keys = [] -> n = 0%Z) ->
  fetched_count keys issues E = (Returned n, quiet).
Proof.
  intros Hne Hnil. unfold fetched_count. destruct keys as [|k ks]; cbn [nonempty].
  - now rewrite Hnil.
  - unfold lift. now rewrite Hne.
Qed.

Lemma map_eq_nil_iff {A B : Type} (f : A -> B) (l : list A) : map f l = [] -> l = [].
Proof. now destruct l. Qed.

Lemma lower_levels_run (E : environ) (field_list : string)
    (epic_body : list string -> epic_vars -> json -> M epic_vars)
    (task_body : by_parent -> list string -> task_vars -> json -> M task_vars)
    (total_rfes n_strats : Z) (orphaned : option Z) (sv : strat_vars)
    (jira_pat : option string)
    (emitted_if : string -> bool) (P3 : list string -> dict -> Prop)
    (P4 : by_parent -> list string -> dict -> Prop) (strat_evs : list written) :
  (forall keys,
     step_ok E "epic" total_epics
       (level_inv "epic" (fun v => Some (epic_keys_list v)) epics_by_strat emitted_if
          (P3 keys))
       (epic_body keys)) ->
  (forall ebs keys,
     step_ok E "task" total_tasks
       (level_inv "task" (fun _ => None) tasks_by_epic (fun _ => false) (P4 ebs keys))
       (task_body ebs keys)) ->
  (forall keys d kv,
     strat_keys_list sv = map JStr keys -> P3 keys d ->
     dict_get "strat_key" d = Some kv ->
     exists d', In (Sse "strat" (JObj d')) strat_evs /\ dict_get "key" d' = Some kv) ->
  (forall ebs keys d kv evs3,
     (forall k children c,
        In (k, children) ebs -> In c children -> emitted_if k = true ->
        In (Sse "epic" (JObj c)) evs3) ->
     P4 ebs keys d -> dict_get "epic_key" d = Some kv ->
     exists d', In (Sse "epic" (JObj d')) evs3 /\ dict_get "key" d' = Some kv) ->
  let run := lower_levels field_list epic_body task_body total_rfes n_strats orphaned sv
               jira_pat E in
  exists lv3 lv4 tail,
    snd run = {| wfile := output lv3 ++ output lv4 ++ tail;
                 http_log := log lv3 ++ log lv4 |} /\
    level_ok E "epic"
      (fun j => exists keys, strat_keys_list sv = map JStr keys /\ j = epics_jql keys) lv3 /\
    level_ok E "task" (batched tasks_jql lv3) lv4 /\
    (strat_keys_list sv = [] -> lv3 = idle) /\
    (lv4 <> idle -> finished E lv3) /\
    parents_emitted "epic" "strat_key" "strat" (events lv3) strat_evs /\
    parents_emitted "task" "epic_key" "epic" (events lv4) (events lv3) /\
    (tail = [] \/
     tail = [Sse "complete" (totals total_rfes (total_strats sv) (count (events lv3))
                                    (count (events lv4)))]) /\
    (forall e, fst run = Raised e -> tail = []) /\
    (forall s, fst run = Returned s ->
       tail <> [] /\
       (strat_keys_list sv <> [] -> finished E lv3) /\
       (fetched lv3 <> [] -> finished E lv4) /\
       exists sm, s = Some sm /\
         fetched_strats sm = n_strats /\
         orphaned_strats sm = orphaned /\
         fetched_epics sm = count (fetched lv3) /\
         orphaned_epics sm = (count (fetched lv3) - count (events lv3))%Z /\
         fetched_tasks sm = count (fetched lv4) /\
         orphaned_tasks sm = (count (fetched lv4) - count (events lv4))%Z).
Proof.
  intros H3 H4 HP3 HP4 run. subst run. unfold lower_levels.
  rewrite bind_run.
  destruct (batch_level_run E "epic" total_epics (fun v => Some (epic_keys_list v))
              epics_by_strat emitted_if P3 (strat_keys_list sv) "Loading Epics..."
              epics_jql (fstr [field_list; ",customfield_12313140"]) epic_body no_epics
              jira_pat H3)
    as (lv3 & Hsnd3 & Hok3 & Hidle3 & HPev3 & Hret3).
  { intros keys. split; [now intros ? [= <-]|]. split; [intros ? ? ? []|intros ? []]. }
  { reflexivity. }
  assert (parents_emitted "epic" "strat_key" "strat" (events lv3) strat_evs) as Hpar3.
  { intros d kv Hd Hkv. destruct (HPev3 d Hd) as (keys & Hkeys & HPd). eauto. }
  destruct (batch_level _ _ _ _ epic_body _ _ E) as [r3 t3].
  cbn [fst snd] in Hsnd3, Hret3. subst t3.
  destruct r3 as [[ev epic_issues]|e3].
  2:{ exists lv3, idle, []. cbn [fst snd output log idle].
      rewrite !app_nil_r.
      split; [reflexivity|]. split; [exact Hok3|]. split; [apply level_ok_idle|].
      split; [exact Hidle3|]. split; [now intros []|]. split; [exact Hpar3|].
      split; [intros ? ? []|]. split; [now left|]. split; [reflexivity | discriminate]. }
  cbn [fst snd].
  (* what the Epic level left: its key list and its dict *)
  assert (epic_keys_list ev = map raw_key (fetched lv3) /\
          (strat_keys_list sv <> [] -> finished E lv3) /\
          (epic_keys_list ev <> [] -> len epic_issues = Returned (count (fetched lv3))) /\
          total_epics ev = count (events lv3) /\
          (forall k children c,
             In (k, children) (epics_by_strat ev) -> In c children ->
             emitted_if k = true -> In (Sse "epic" (JObj c)) (events lv3)))
    as (Hkeys3 & Hfin3 & Hlen3 & Htot3 & Hmap3).
  { destruct (Hret3 ev epic_issues eq_refl)
      as [(Hnil & -> & ->) | (Hne & Hfin & Hlen & Htot & keys & Hk & (Hkl & Hmp & _))].
    - rewrite (Hidle3 Hnil). cbn. split; [reflexivity|]. split; [now intros []|].
      split; [now intros []|]. split; [reflexivity | intros ? ? ? []].
    - split; [now apply Hkl|]. auto. }
  rewrite bind_run.
  destruct (batch_level_run E "task" total_tasks (fun _ => None) tasks_by_epic
              (fun _ => false) (P4 (epics_by_strat ev)) (epic_keys_list ev)
              "Loading Tasks..." tasks_jql task_field_list
              (task_body (epics_by_strat ev)) no_tasks jira_pat (H4 (epics_by_strat ev)))
    as (lv4 & Hsnd4 & Hok4 & Hidle4 & HPev4 & Hret4).
  { intros keys. split; [discriminate|]. split; [intros ? ? ? []|intros ? []]. }
  { reflexivity. }
  assert (level_ok E "task" (batched tasks_jql lv3) lv4) as Hok4'.
  { eapply level_ok_weaken; [|exact Hok4].
    intros j (keys & Hk & ->). exists keys. split; [now rewrite <- Hkeys3 | reflexivity]. }
  assert (lv4 <> idle -> finished E lv3) as Hchain.
  { intros Hlv4. destruct (epic_keys_list ev) as [|k ks] eqn:Hek.
    - now destruct Hlv4; apply Hidle4.
    - apply Hfin3. intros Hnil. rewrite (Hidle3 Hnil) in Hkeys3. discriminate. }
  assert (parents_emitted "task" "epic_key" "epic" (events lv4) (events lv3)) as Hpar4.
  { intros d kv Hd Hkv. destruct (HPev4 d Hd) as (keys & Hkeys & HPd). eauto. }
  destruct (batch_level _ _ _ _ (task_body _) _ _ E) as [r4 t4].
  cbn [fst snd] in Hsnd4, Hret4. subst t4.
  destruct r4 as [[tv task_issues]|e4].
  2:{ exists lv3, lv4, []. cbn [fst snd]. unfold tapp. cbn [wfile http_log].
      rewrite !app_nil_r.
      split; [reflexivity|]. split; [exact Hok3|]. split; [exact Hok4'|].
      split; [exact Hidle3|]. split; [exact Hchain|]. split; [exact Hpar3|].
      split; [exact Hpar4|]. split; [now left|]. split; [reflexivity | discriminate]. }
  cbn [fst snd].
  assert ((fetched lv3 <> [] -> finished E lv4) /\
          (epic_keys_list ev <> [] -> len task_issues = Returned (count (fetched lv4))) /\
          (epic_keys_list ev = [] -> count (fetched lv4) = 0%Z) /\
          total_tasks tv = count (events lv4))
    as (Hfin4 & Hlen4 & Hzero4 & Htot4).
  { destruct (Hret4 tv task_issues eq_refl)
      as [(Hnil & -> & ->) | (Hne & Hfin & Hlen & Htot & _)].
    - rewrite (Hidle4 Hnil). cbn.
      split; [intros Hf; rewrite Hkeys3 in Hnil; now apply map_eq_nil_iff in Hnil|].
      split; [now intros []|]. split; reflexivity.
    - split; [auto|]. split; [auto|]. split; [now intros ?|exact Htot]. }
  rewrite bind_run. cbn [send_sse_event write fst snd].
  rewrite bind_run.
  rewrite (fetched_count_run (epic_keys_list ev) epic_issues (count (fetched lv3)) E Hlen3).
  2:{ intros Hnil. rewrite Hkeys3 in Hnil. apply map_eq_nil_iff in Hnil.
      now rewrite Hnil. }
  cbn [fst snd]. rewrite bind_run.
  rewrite (fetched_count_run (epic_keys_list ev) task_issues (count (fetched lv4)) E
             Hlen4 Hzero4).
  cbn [fst snd ret].
  exists lv3, lv4,
    [Sse "complete" (totals total_rfes (total_strats sv) (count (events lv3))
                            (count (events lv4)))].
  split.
  { unfold tapp, quiet. cbn [wfile http_log]. rewrite !app_nil_r, Htot3, Htot4.
    rewrite <- ?app_assoc. reflexivity. }
  split; [exact Hok3|]. split; [exact Hok4'|]. split; [exact Hidle3|].
  split; [exact Hchain|]. split; [exact Hpar3|]. split; [exact Hpar4|].
  split; [now right|]. split; [discriminate|].
  intros s [= <-]. split; [discriminate|]. split; [exact Hfin3|]. split; [exact Hfin4|].
  eexists. split; [reflexivity|]. cbn. rewrite Htot3, Htot4. repeat split.
Qed.

(** ** The two flows *)

Lemma parents_emitted_nil (L field Lp : string) (parents : list written) :
  parents_emitted L field Lp [] parents.
Proof. intros d kv []. Qed.

(** A flow that raised at its first or second level. *)
Lemma anatomy_raised (E : environ) (rfe_first : bool) (lv1 lv2 : level_run) (e : exn) :
  level_ok E "rfe" (fun _ => True) lv1 ->
  level_ok E "strat"
    (fun jql => if rfe_first then batched strats_jql lv1 jql else True) lv2 ->
  (if rfe_first then True else lv1 = idle) ->
  (rfe_first = true -> lv2 <> idle -> finished E lv1) ->
  parents_emitted "strat" "rfe_key" "rfe" (events lv2) (events lv1) ->
  forall t,
    wfile t = output lv1 ++ output lv2 ->
    http_log t = log lv1 ++ log lv2 ->
    anatomy E rfe_first (Raised e) t.
Proof.
  intros H1 H2 Htop Hchain Hpar t Hw Hl.
  exists lv1, lv2, idle, idle, []. rewrite Hw, Hl. cbn [output log idle].
  rewrite !app_nil_r.
  split; [reflexivity|]. split; [reflexivity|]. split; [exact H1|]. split; [exact H2|].
  split; [apply level_ok_idle|]. split; [apply level_ok_idle|]. split; [exact Htop|].
  split; [exact Hchain|]. split; [now intros []|]. split; [now intros []|].
  split; [exact Hpar|]. split; [apply parents_emitted_nil|].
  split; [apply parents_emitted_nil|]. split; [now left|].
  split; [reflexivity | discriminate].
Qed.

(** A flow whose top level found nothing. *)
Lemma anatomy_early (E : environ) (rfe_first : bool) (lv1 lv2 : level_run) :
  level_ok E "rfe" (fun _ => True) lv1 ->
  level_ok E "strat"
    (fun jql => if rfe_first then batched strats_jql lv1 jql else True) lv2 ->
  events lv1 = [] -> events lv2 = [] ->
  (if rfe_first then finished E lv1 /\ lv2 = idle /\ fetched lv1 = []
   else lv1 = idle /\ finished E lv2 /\ fetched lv2 = []) ->
  forall t,
    wfile t = output lv1 ++ output lv2 ++ [Sse "complete" (totals 0 0 0 0)] ->
    http_log t = log lv1 ++ log lv2 ->
    anatomy E rfe_first (Returned None) t.
Proof.
  intros H1 H2 He1 He2 Htop t Hw Hl.
  exists lv1, lv2, idle, idle, [Sse "complete" (totals 0 0 0 0)].
  rewrite Hw, Hl. cbn [output log idle events]. rewrite !app_nil_r, He1, He2.
  split; [reflexivity|]. split; [reflexivity|]. split; [exact H1|]. split; [exact H2|].
  split; [apply level_ok_idle|]. split; [apply level_ok_idle|].
  split; [destruct rfe_first; [exact I | apply Htop]|].
  split; [intros -> Hlv2; now destruct Htop as (_ & -> & _)|].
  split; [now intros []|]. split; [now intros []|].
  split; [apply parents_emitted_nil|]. split; [apply parents_emitted_nil|].
  split; [apply parents_emitted_nil|]. split; [now right|]. split; [discriminate|].
  intros s [= <-]. split; [discriminate|].
  split; [destruct rfe_first; apply Htop|].
  split; [intros -> Hf; destruct Htop as (_ & _ & Hnil); now destruct Hf|].
  split; [now intros []|]. split; [now intros []|]. discriminate.
Qed.

(** A flow that went on to the Epic level. *)
Lemma anatomy_lower (E : environ) (rfe_first : bool) (lv1 lv2 lv3 lv4 : level_run)
    (tail : list written) (r : outcome (option summary)) (sv : strat_vars)
    (total_rfes n_strats : Z) (orphaned : option Z) :
  level_ok E "rfe" (fun _ => True) lv1 ->
  level_ok E "strat"
    (fun jql => if rfe_first then batched strats_jql lv1 jql else True) lv2 ->
  (if rfe_first then finished E lv1 else lv1 = idle) ->
  finished E lv2 ->
  parents_emitted "strat" "rfe_key" "rfe" (events lv2) (events lv1) ->
  strat_keys_list sv = map raw_key (fetched lv2) ->
  total_strats sv = count (events lv2) ->
  total_rfes = count (events lv1) ->
  n_strats = count (fetched lv2) ->
  (forall o, orphaned = Some o -> o = (n_strats - total_strats sv)%Z) ->
  level_ok E "epic"
    (fun j => exists keys, strat_keys_list sv = map JStr keys /\ j = epics_jql keys) lv3 ->
  level_ok E "task" (batched tasks_jql lv3) lv4 ->
  (lv4 <> idle -> finished E lv3) ->
  parents_emitted "epic" "strat_key" "strat" (events lv3) (events lv2) ->
  parents_emitted "task" "epic_key" "epic" (events lv4) (events lv3) ->
  (tail = [] \/
   tail = [Sse "complete" (totals total_rfes (total_strats sv) (count (events lv3))
                                  (count (events lv4)))]) ->
  (forall e, r = Raised e -> tail = []) ->
  (forall s, r = Returned s ->
     tail <> [] /\
     (strat_keys_list sv <> [] -> finished E lv3) /\
     (fetched lv3 <> [] -> finished E lv4) /\
     exists sm, s = Some sm /\
       fetched_strats sm = n_strats /\
       orphaned_strats sm = orphaned /\
       fetched_epics sm = count (fetched lv3) /\
       orphaned_epics sm = (count (fetched lv3) - count (events lv3))%Z /\
       fetched_tasks sm = count (fetched lv4) /\
       orphaned_tasks sm = (count (fetched lv4) - count (events lv4))%Z) ->
  forall t,
    wfile t = output lv1 ++ output lv2 ++ output lv3 ++ output lv4 ++ tail ->
    http_log t = log lv1 ++ log lv2 ++ log lv3 ++ log lv4 ->
    anatomy E rfe_first r t.
Proof.
  intros H1 H2 Htop Hfin2 Hpar2 Hkeys Htot Htr Hn Horph H3 H4 Hchain Hpar3 Hpar4
    Htail Hraised Hreturned t Hw Hl.
  exists lv1, lv2, lv3, lv4, tail. rewrite Hw, Hl.
  split; [reflexivity|]. split; [reflexivity|]. split; [exact H1|]. split; [exact H2|].
  split.
  { eapply level_ok_weaken; [|exact H3]. intros j (keys & Hk & ->).
    exists keys. split; [now rewrite <- Hkeys | reflexivity]. }
  split; [exact H4|].
  split; [destruct rfe_first; [exact I | exact Htop]|].
  split; [intros -> _; exact Htop|].
  split; [intros _; exact Hfin2|]. split; [exact Hchain|].
  split; [exact Hpar2|]. split; [exact Hpar3|]. split; [exact Hpar4|].
  split; [rewrite <- Htr, <- Htot; exact Htail|]. split; [exact Hraised|].
  intros s Hs. destruct (Hreturned s Hs) as (Ht & Hf3 & Hf4 & sm & -> & Hsm).
  split; [exact Ht|].
  split; [destruct rfe_first; [exact Htop | exact Hfin2]|].
  split; [intros _ _; exact Hfin2|].
  split.
  { intros _ Hf. apply Hf3. rewrite Hkeys. intros Hnil.
    now apply map_eq_nil_iff in Hnil. }
  split; [intros _; exact Hf4|].
  intros sm' [= <-]. destruct Hsm as (Hfs & Hos & Hfe & Hoe & Hft & Hot).
  split; [now rewrite Hfs|]. split.
  { intros o Ho. rewrite Hos in Ho. rewrite (Horph o Ho), Hn, Htot. reflexivity. }
  auto.
Qed.

Lemma omap_build_keys (l : list json) (issue_type : string) (ds : list dict) :
  omap (fun x => build_issue_data x issue_type) l = Returned ds ->
  map (dict_item "key") ds = map raw_key l.
Proof.
  revert ds. induction l as [|x xs IH]; intros ds; cbn [omap].
  - now intros [= <-].
  - intros H. apply obind_returned in H as (d & Hd & H).
    apply obind_returned in H as (ds' & Hds & [= <-]).
    cbn [map]. rewrite (IH ds' Hds).
    destruct (build_issue_data_key _ _ _ Hd) as (Hkey & _).
    now rewrite (dict_item_key d x Hkey).
Qed.

Lemma fetch_rfes_run (component : string) (jira_pat : option string) (E : environ) :
  exists lg,
    snd (fetch_rfes component jira_pat E) = {| wfile := []; http_log := lg |} /\
    (((lg = [] \/ exists q jql, lg = [q] /\ search_request jql q) /\
      exists e, fst (fetch_rfes component jira_pat E) = Raised e) \/
     (exists q jql l rfes,
        lg = [q] /\ search_request jql q /\ answered E q l /\
        fst (fetch_rfes component jira_pat E) = Returned rfes /\
        map (dict_item "key") rfes = map raw_key l)).
Proof.
  unfold fetch_rfes. cbv zeta. rewrite bind_run.
  match goal with |- context [run_jira_query ?j ?f jira_pat E] =>
    destruct (run_jira_query_cases j f jira_pat E)
      as [[e Hq] | (q & Hsearch & Hsnd & Hcase)]; [rewrite Hq|];
    [|destruct (run_jira_query j f jira_pat E) as [r1 t1]]
  end.
  { exists []. split; [reflexivity|]. left. split; [now left | eexists; reflexivity]. }
  cbn [fst snd] in Hsnd, Hcase. subst t1. exists [q].
  assert ([q] = [] \/ exists q0 jql, [q] = [q0] /\ search_request jql q0) as Hlg
    by (right; eauto).
  destruct Hcase as [[Hbad [e ->]] | [Hgood ->]].
  { split; [reflexivity|]. left. split; [exact Hlg | eexists; reflexivity]. }
  destruct (item (json_body (remote E q)) "issues") as [issues|e] eqn:Hitem.
  2:{ split; [reflexivity|]. left. split; [exact Hlg | eexists; reflexivity]. }
  cbn [fst snd]. rewrite bind_lift_run.
  destruct (iter issues) as [l|e] eqn:Hiter.
  2:{ cbn. split; [reflexivity|]. left. split; [exact Hlg | eexists; reflexivity]. }
  unfold lift. cbn [fst snd tapp quiet wfile http_log app].
  split; [reflexivity|].
  destruct (omap (fun rfe => build_issue_data rfe "rfe") l) as [rfes|e] eqn:Hbuild.
  - right. do 2 eexists. exists l, rfes. split; [reflexivity|]. split; [exact Hsearch|].
    split; [split; [exact Hgood | eauto]|]. split; [reflexivity|].
    eapply omap_build_keys; eauto.
  - left. split; [exact Hlg | eexists; reflexivity].
Qed.

Lemma rfe_loop_run (rfes : list dict) (n : Z) (E : environ) :
  for_each (fun total_rfes rfe_data =>
              send_sse_event "rfe" (JObj (dict_set "strats" (JArr []) rfe_data)) ;;
              ret (total_rfes + 1)%Z) n rfes E =
  (Returned (n + count rfes)%Z,
   {| wfile := map (fun r => Sse "rfe" (JObj (dict_set "strats" (JArr []) r))) rfes;
      http_log := [] |}).
Proof.
  revert n. induction rfes as [|r rs IH]; intros n; cbn [for_each].
  - unfold ret, quiet, count. cbn. now rewrite Z.add_0_r.
  - rewrite bind_run, send_then_ret. cbn [fst snd]. rewrite IH.
    cbn [fst snd tapp wfile http_log app map]. unfold count. cbn [List.length].
    do 2 f_equal. lia.
Qed.

Lemma level_ok_rfes (E : environ) (q : request) (jql : string) (l : list json)
    (rfes : list dict) :
  search_request jql q -> answered E q l ->
  map (dict_item "key") rfes = map raw_key l ->
  level_ok E "rfe" (fun _ => True)
    {| output := Sse "progress" (progress "Loading RFEs...")
                 :: map (fun r => Sse "rfe" (JObj (dict_set "strats" (JArr []) r))) rfes;
       events := map (fun r => Sse "rfe" (JObj (dict_set "strats" (JArr []) r))) rfes;
       log := [q]; fetched := l |}.
Proof.
  intros Hq Hans Hkeys. split; [right; eexists; reflexivity|]. split; [|split].
  - apply Forall_forall. intros x Hx. apply in_map_iff in Hx as (r & <- & _). eauto.
  - right. exists q, jql. cbn. auto.
  - cbn [events fetched]. rewrite <- Hkeys, map_map.
    erewrite map_ext; [apply subseq_refl|].
    intros r. cbn. unfold dict_item. now rewrite dict_get_set_other by reflexivity.
Qed.

Lemma rfe_parent_emitted (rfes : list dict) (rfe_keys : list string) (k : string) :
  as_strs (map (dict_item "key") rfes) = Returned rfe_keys ->
  In k rfe_keys ->
  exists d', In (Sse "rfe" (JObj d'))
               (map (fun r => Sse "rfe" (JObj (dict_set "strats" (JArr []) r))) rfes) /\
             dict_get "key" d' = Some (JStr k).
Proof.
  intros Hkeys Hin. apply as_strs_map in Hkeys.
  assert (In (JStr k) (map (dict_item "key") rfes)) as Hk
    by (rewrite Hkeys; now apply in_map).
  apply in_map_iff in Hk as (r & Hr & Hrin).
  exists (dict_set "strats" (JArr []) r). split.
  - apply in_map_iff. eauto.
  - rewrite dict_get_set_other by reflexivity. now apply dict_item_str.
Qed.

(** A search followed by [len] of what it returned. *)
Lemma query_len_run {A : Type} (jql fields : string) (jira_pat : option string)
    (K : json -> Z -> M A) (E : environ) :
  let run := (issues <- run_jira_query jql fields jira_pat ;;
              n <- lift (len issues) ;;
              K issues n) E in
  (exists e lg,
     run = (Raised e, {| wfile := []; http_log := lg |}) /\
     (lg = [] \/ exists q, lg = [q] /\ search_request jql q)) \/
  (exists q issues l,
     search_request jql q /\ answered E q l /\
     iter issues = Returned l /\ len issues = Returned (count l) /\
     run = (fst (K issues (count l) E),
            tapp {| wfile := []; http_log := [q] |} (snd (K issues (count l) E)))).
Proof.
  intros run. subst run. rewrite bind_run.
  destruct (run_jira_query_cases jql fields jira_pat E)
    as [[e Hq] | (q & Hsearch & Hsnd & Hcase)].
  { rewrite Hq. left. exists e, []. split; [reflexivity | now left]. }
  destruct (run_jira_query jql fields jira_pat E) as [r1 t1].
  cbn [fst snd] in Hsnd, Hcase. subst t1.
  assert ([q] = [] \/ exists q0, [q] = [q0] /\ search_request jql q0) as Hlg
    by (right; eauto).
  destruct Hcase as [[Hbad [e ->]] | [Hgood ->]].
  { left. exists e, [q]. split; [reflexivity | exact Hlg]. }
  destruct (item (json_body (remote E q)) "issues") as [issues|e] eqn:Hitem.
  2:{ left. exists e, [q]. split; [reflexivity | exact Hlg]. }
  cbn [fst snd]. rewrite bind_lift_run.
  destruct (len issues) as [n|e] eqn:Hlen.
  2:{ left. exists e, [q]. split; [reflexivity | exact Hlg]. }
  destruct (len_iter _ _ Hlen) as (l & Hiter & ->).
  right. exists q, issues, l. split; [exact Hsearch|].
  split; [split; [exact Hgood | eauto]|]. split; [exact Hiter|].
  split; [exact Hlen | reflexivity].
Qed.

Lemma level_ok_top_stub (E : environ) (L message jql : string) (jql_ok : string -> Prop)
    (lg : list request) :
  (lg = [] \/ exists q, lg = [q] /\ search_request jql q) -> jql_ok jql ->
  level_ok E L jql_ok
    {| output := [Sse "progress" (progress message)]; events := []; log := lg;
       fetched := [] |}.
Proof.
  intros Hlg Hj. apply level_ok_stub.
  destruct Hlg as [-> | (q & -> & Hq)]; [now left|]. right. eauto.
Qed.

Lemma rfe_first_anatomy (jira_pat : option string) (component : string) (E : environ) :
  anatomy E true (fst (stream_hierarchy_rfe_first jira_pat component E))
                 (snd (stream_hierarchy_rfe_first jira_pat component E)).
Proof.
  unfold stream_hierarchy_rfe_first.
  rewrite bind_run. cbn [send_sse_event write fst snd].
  rewrite bind_run.
  destruct (fetch_rfes_run component jira_pat E) as (lg & Hsnd & Hcase).
  destruct (fetch_rfes component jira_pat E) as [r1 t1].
  cbn [fst snd] in Hsnd, Hcase. subst t1.
  destruct Hcase as [[Hlg [e ->]] | (q & jql & l & rfes & -> & Hq & Hans & -> & Hkeys)].
  - (* the RFE fetch raised *)
    cbn [fst snd].
    apply (anatomy_raised E true
             {| output := [Sse "progress" (progress "Loading RFEs...")]; events := [];
                log := lg; fetched := [] |} idle).
    + apply level_ok_stub. destruct Hlg as [->|(q & j & -> & Hq)]; [now left|].
      right. exists q, j. auto.
    + apply level_ok_idle.
    + exact I.
    + intros _ H. now destruct H.
    + apply parents_emitted_nil.
    + reflexivity.
    + cbn. now rewrite app_nil_r.
  - cbn [fst snd].
    assert (nonempty rfes = false -> rfes = [] /\ l = []) as Hnone.
    { intros Hn. destruct rfes; [|discriminate]. split; [reflexivity|].
      destruct l; [reflexivity | discriminate]. }
    set (rfe_evs := map (fun r => Sse "rfe" (JObj (dict_set "strats" (JArr []) r))) rfes).
    set (lv1 := {| output := Sse "progress" (progress "Loading RFEs...") :: rfe_evs;
                   events := rfe_evs; log := [q]; fetched := l |}).
    assert (level_ok E "rfe" (fun _ => True) lv1) as Hok1
      by (eapply level_ok_rfes; eauto).
    assert (finished E lv1) as Hfin1 by (exists q; split; [reflexivity | exact Hans]).
    destruct (nonempty rfes) eqn:Hne; cbn [negb].
    2:{ (* no RFE *)
      destruct (Hnone eq_refl) as [Hr Hl].
      rewrite bind_run. cbn [send_sse_event write ret fst snd].
      apply (anatomy_early E true lv1 idle); auto using level_ok_idle.
      all: unfold lv1, rfe_evs; rewrite ?Hr; cbn; auto. }
    rewrite bind_run, rfe_loop_run. cbn [fst snd].
    rewrite bind_run. cbn [send_sse_event write fst snd].
    set (p2 := Sse "progress" (progress "Loading STRATs...")).
    (* a failure before the STRAT loop *)
    assert (forall e lg (t : trace),
               (lg = [] \/ exists q2 j, lg = [q2] /\ search_request j q2 /\
                                        batched strats_jql lv1 j) ->
               wfile t = output lv1 ++ [p2] -> http_log t = [q] ++ lg ->
               anatomy E true (Raised e) t) as Hfail.
    { intros e lg t Hlg Hw Hl.
      apply (anatomy_raised E true lv1
               {| output := [p2]; events := []; log := lg; fetched := [] |});
        auto using parents_emitted_nil.
      apply level_ok_stub. exact Hlg. }
    rewrite bind_lift_run.
    destruct (as_strs (map (dict_item "key") rfes)) as [rfe_keys|e] eqn:Hrk.
    2:{ cbn [fst snd]. apply (Hfail e []); [now left | |];
          unfold tapp, quiet; cbn [wfile http_log output log lv1 app];
          rewrite ?app_nil_r; reflexivity. }
    assert (batched strats_jql lv1 (strats_jql rfe_keys)) as Hbatched.
    { exists rfe_keys. split; [|reflexivity]. cbn [fetched lv1].
      rewrite <- Hkeys. now apply as_strs_map. }
    rewrite bind_run.
    destruct (run_jira_query_cases (strats_jql rfe_keys)
                (fstr [base_field_list; ",issuelinks"]) jira_pat E)
      as [[e Hq2] | (q2 & Hs2 & Hsnd2 & Hcase2)].
    { rewrite Hq2. cbn [fst snd]. apply (Hfail e []); [now left | |];
        unfold tapp, quiet; cbn [wfile http_log output log lv1 app];
        rewrite ?app_nil_r; reflexivity. }
    assert ([q2] = [] \/ exists q0 j, [q2] = [q0] /\ search_request j q0 /\
                                      batched strats_jql lv1 j) as Hlg2
      by (right; eauto).
    destruct (run_jira_query (strats_jql rfe_keys) _ jira_pat E) as [r2 t2].
    cbn [fst snd] in Hsnd2, Hcase2. subst t2.
    destruct Hcase2 as [[Hbad [e ->]] | [Hgood ->]].
    { cbn [fst snd]. apply (Hfail e [q2]); [exact Hlg2 | |];
        unfold tapp, quiet; cbn [wfile http_log output log lv1 app];
        rewrite ?app_nil_r; reflexivity. }
    destruct (item (json_body (remote E q2)) "issues") as [strat_issues|e] eqn:Hitem.
    2:{ cbn [fst snd]. apply (Hfail e [q2]); [exact Hlg2 | |];
          unfold tapp, quiet; cbn [wfile http_log output log lv1 app];
          rewrite ?app_nil_r; reflexivity. }
    cbn [fst snd]. rewrite bind_lift_run.
    destruct (len strat_issues) as [n_strats|e] eqn:Hlen.
    2:{ cbn [fst snd]. apply (Hfail e [q2]); [exact Hlg2 | |];
          unfold tapp, quiet; cbn [wfile http_log output log lv1 app];
          rewrite ?app_nil_r; reflexivity. }
    destruct (len_iter _ _ Hlen) as (l2 & Hiter & Hn).
    rewrite bind_lift_run, Hiter. rewrite bind_run.
    destruct (level_loop E "strat" total_strats _ (rfe_first_strat rfe_keys)
                (rfe_first_strat_ok E rfe_keys) l2 []
                {| strats_by_rfe := []; strat_keys_list := []; total_strats := 0 |} [])
      as (Hlog & Hall & Hsub & Hany & Hret).
    { split; [now intros ? [= <-]|]. split; [intros ? ? ? []|intros ? []]. }
    destruct (for_each (rfe_first_strat rfe_keys) _ l2 E) as [r3 t3].
    cbn [fst snd app] in Hlog, Hall, Hsub, Hany, Hret.
    set (lv2 := {| output := p2 :: wfile t3; events := wfile t3; log := [q2];
                   fetched := l2 |}).
    assert (answered E q2 l2) as Hans2 by (split; [exact Hgood | eauto]).
    assert (level_ok E "strat" (fun j => batched strats_jql lv1 j) lv2) as Hok2.
    { split; [right; eexists; reflexivity|]. split; [exact Hall|]. split; [|exact Hsub].
      right. exists q2, (strats_jql rfe_keys). cbn [log fetched lv2]. auto. }
    assert (parents_emitted "strat" "rfe_key" "rfe" (events lv2) (events lv1)) as Hpar2.
    { intros d kv Hd Hkv. destruct Hany as (done' & v' & (_ & _ & HP)).
      destruct (HP d Hd) as (k & Hk & Hin). rewrite Hk in Hkv. injection Hkv as <-.
      eapply rfe_parent_emitted; eauto. }
    destruct r3 as [sv|e].
    2:{ cbn [fst snd].
        apply (anatomy_raised E true lv1 lv2); auto.
        all: unfold tapp, quiet; cbn [wfile http_log output log lv1 lv2 app];
          rewrite ?Hlog, ?app_nil_r; reflexivity. }
    destruct (Hret sv eq_refl) as [(Hkl & Hmap & HP) Htot]. cbn [app] in Hkl, Hmap, HP.
    cbn [fst snd].
    pose proof (lower_levels_run E (fstr [base_field_list; ",issuelinks"])
                  (fun ks => rfe_first_epic ks (strats_by_rfe sv))
                  (fun ebs ks => rfe_first_task ks ebs (strats_by_rfe sv))
                  (0 + count rfes)%Z n_strats (Some (n_strats - total_strats sv)%Z) sv
                  jira_pat (fun k => truthy_str (parent_of (strats_by_rfe sv) k))
                  (fun keys => epic_under_rfe keys (strats_by_rfe sv))
                  (fun ebs keys => task_under_rfe keys ebs (strats_by_rfe sv))
                  (wfile t3)) as Hlow.
    cbv zeta in Hlow. unfold lower_levels in Hlow.
    match type of Hlow with context [snd ?r] => set (run := r) in * end.
    destruct Hlow as (lv3 & lv4 & tail & Hsnd & Hok3 & Hok4 & Hidle3 & Hchain & Hpar3 &
                      Hpar4 & Htail & Hraised & Hreturned).
    { intros keys. apply rfe_first_epic_ok. }
    { intros ebs keys. apply rfe_first_task_ok. }
    { intros keys d kv _ (pl & rk & Hsk & _ & _ & Hparent & _) Hkv.
      rewrite Hsk in Hkv. injection Hkv as <-.
      destruct (parent_of_Some _ _ _ Hparent) as (children & c & Hin & Hc & Hkey).
      exists c. split; [eapply Hmap; eauto | now apply dict_item_str]. }
    { intros ebs keys d kv evs3 Hebs (el & sk & rk & Hek & _ & _ & _ & Hps & Hpr & Hrk0 & _)
        Hkv.
      rewrite Hek in Hkv. injection Hkv as <-.
      destruct (parent_of_Some _ _ _ Hps) as (children & c & Hin & Hc & Hkey).
      exists c. split; [|now apply dict_item_str].
      eapply Hebs; eauto. rewrite Hpr. cbn.
      apply String.eqb_neq in Hrk0. now rewrite Hrk0. }
    destruct run as [r t]. cbn [fst snd] in *. subst t.
    assert (finished E lv2) as Hfin2 by (exists q2; split; [reflexivity | exact Hans2]).
    assert (strat_keys_list sv = map raw_key (fetched lv2)) as Hk by (now apply Hkl).
    assert (total_strats sv = count (events lv2)) as Ht by (rewrite Htot; reflexivity).
    assert ((0 + count rfes)%Z = count (events lv1)) as Htr.
    { unfold lv1, rfe_evs, count. cbn [events]. rewrite length_map. lia. }
    assert (n_strats = count (fetched lv2)) as Hn' by exact Hn.
    assert (forall o, Some (n_strats - total_strats sv)%Z = Some o ->
                      o = (n_strats - total_strats sv)%Z) as Horph
      by (now intros o [= <-]).
    apply (anatomy_lower E true lv1 lv2 lv3 lv4 tail r sv (0 + count rfes)%Z n_strats
             (Some (n_strats - total_strats sv)%Z) Hok1 Hok2 Hfin1 Hfin2 Hpar2 Hk Ht Htr
             Hn' Horph Hok3 Hok4 Hchain Hpar3 Hpar4 Htail Hraised Hreturned).
    + unfold tapp, quiet; cbn [wfile http_log output log lv1 lv2 app].
      rewrite ?app_nil_r. unfold rfe_evs. rewrite <- ?app_assoc. reflexivity.
    + unfold tapp, quiet; cbn [wfile http_log output log lv1 lv2 app].
      rewrite ?Hlog, ?app_nil_r. reflexivity.
Qed.

Lemma falsy_iter (v : json) (l : list json) :
  iter v = Returned l -> truthy v = false -> l = [].
Proof.
  destruct v; cbn [iter truthy]; try discriminate; intros [= <-] H.
  - destruct s; [reflexivity | discriminate].
  - now destruct items.
  - now destruct members.
Qed.

Lemma strat_first_anatomy (jira_pat : option string) (component : string) (E : environ) :
  anatomy E false (fst (stream_hierarchy_strat_first jira_pat component E))
                  (snd (stream_hierarchy_strat_first jira_pat component E)).
Proof.
  unfold stream_hierarchy_strat_first. cbv zeta.
  rewrite bind_run. cbn [send_sse_event write fst snd].
  set (p2 := Sse "progress" (progress "Loading STRATs...")).
  assert (forall e lg (t : trace),
             (lg = [] \/ exists q2 j, lg = [q2] /\ search_request j q2 /\ True) ->
             wfile t = [p2] -> http_log t = lg ->
             anatomy E false (Raised e) t) as Hfail.
  { intros e lg t Hlg Hw Hl.
    apply (anatomy_raised E false idle
             {| output := [p2]; events := []; log := lg; fetched := [] |});
      auto using parents_emitted_nil, level_ok_idle.
    - apply level_ok_stub. exact Hlg.
    - discriminate. }
  rewrite bind_run.
  match goal with |- context [run_jira_query ?j ?f jira_pat E] =>
    destruct (run_jira_query_cases j f jira_pat E)
      as [[e Hq2] | (q2 & Hs2 & Hsnd2 & Hcase2)]; [rewrite Hq2|];
    [|destruct (run_jira_query j f jira_pat E) as [r2 t2]]
  end.
  { cbn [fst snd]. apply (Hfail e []); [now left | |]; reflexivity. }
  assert ([q2] = [] \/ exists q0 j, [q2] = [q0] /\ search_request j q0 /\ True) as Hlg2
    by (right; eauto).
  cbn [fst snd] in Hsnd2, Hcase2. subst t2.
  destruct Hcase2 as [[Hbad [e ->]] | [Hgood ->]].
  { cbn [fst snd]. apply (Hfail e [q2]); [exact Hlg2 | |]; reflexivity. }
  destruct (item (json_body (remote E q2)) "issues") as [strat_issues|e] eqn:Hitem.
  2:{ cbn [fst snd]. apply (Hfail e [q2]); [exact Hlg2 | |]; reflexivity. }
  cbn [fst snd]. rewrite bind_lift_run.
  destruct (len strat_issues) as [n_strats|e] eqn:Hlen.
  2:{ cbn [fst snd]. apply (Hfail e [q2]); [exact Hlg2 | |]; reflexivity. }
  destruct (len_iter _ _ Hlen) as (l2 & Hiter & Hn).
  assert (answered E q2 l2) as Hans2 by (split; [exact Hgood | eauto]).
  destruct (truthy strat_issues) eqn:Htruthy; cbn [negb].
  2:{ (* no STRAT *)
    pose proof (falsy_iter _ _ Hiter Htruthy) as Hnil.
    rewrite bind_run. cbn [send_sse_event write ret fst snd].
    apply (anatomy_early E false idle
             {| output := [p2]; events := []; log := [q2]; fetched := l2 |});
      auto using level_ok_idle.
    - split; [right; eexists; reflexivity|]. split; [constructor|].
      split; [|apply subseq_nil_l]. right. exists q2. eexists. cbn [log fetched]. eauto.
    - split; [reflexivity|]. split; [|exact Hnil].
      exists q2. split; [reflexivity | exact Hans2]. }
  rewrite bind_lift_run, Hiter. rewrite bind_run.
  destruct (level_loop E "strat" total_strats top_strat_inv strat_first_strat
              (strat_first_strat_ok E) l2 []
              {| strats_by_rfe := []; strat_keys_list := []; total_strats := 0 |} [])
    as (Hlog & Hall & Hsub & Hany & Hret).
  { split; [reflexivity|]. split; [reflexivity | intros ? []]. }
  destruct (for_each strat_first_strat _ l2 E) as [r3 t3].
  cbn [fst snd app] in Hlog, Hall, Hsub, Hany, Hret.
  set (lv2 := {| output := p2 :: wfile t3; events := wfile t3; log := [q2];
                 fetched := l2 |}).
  assert (level_ok E "strat" (fun _ => True) lv2) as Hok2.
  { split; [right; eexists; reflexivity|]. split; [exact Hall|]. split; [|exact Hsub].
    right. exists q2. eexists. cbn [log fetched lv2]. eauto. }
  assert (parents_emitted "strat" "rfe_key" "rfe" (events lv2) (events idle)) as Hpar2.
  { intros d kv Hd Hkv. destruct Hany as (done' & v' & (_ & _ & Hnone)).
    rewrite (Hnone d Hd) in Hkv. discriminate. }
  destruct r3 as [sv|e].
  2:{ cbn [fst snd].
      apply (anatomy_raised E false idle lv2); auto using level_ok_idle.
      all: try discriminate.
      all: unfold tapp, quiet; cbn [wfile http_log output log idle lv2 app];
        rewrite ?Hlog, ?app_nil_r; reflexivity. }
  destruct (Hret sv eq_refl) as [(Hkl & Hevs & _) Htot]. cbn [app] in Hkl, Hevs.
  cbn [fst snd].
  pose proof (lower_levels_run E base_field_list strat_first_epic
                (fun ebs ks => strat_first_task ks ebs)
                0%Z n_strats None sv jira_pat (fun _ => true) epic_under_strat
                (fun ebs keys => task_under_strat keys ebs) (wfile t3)) as Hlow.
  cbv zeta in Hlow. unfold lower_levels in Hlow.
  match type of Hlow with context [snd ?r] => set (run := r) in * end.
  destruct Hlow as (lv3 & lv4 & tail & Hsnd & Hok3 & Hok4 & Hidle3 & Hchain & Hpar3 &
                    Hpar4 & Htail & Hraised & Hreturned).
  { intros keys. apply strat_first_epic_ok. }
  { intros ebs keys. apply strat_first_task_ok. }
  { intros keys d kv Hkeys (pl & Hsk & Hpl) Hkv.
    rewrite Hsk in Hkv. injection Hkv as <-.
    assert (In (JStr pl) (map (payload_field "key") (wfile t3))) as Hin.
    { rewrite Hevs, <- Hkl, Hkeys. now apply in_map. }
    apply in_map_iff in Hin as (x & Hx & Hxin).
    rewrite Forall_forall in Hall. destruct (Hall x Hxin) as [d' ->].
    exists d'. split; [exact Hxin | now apply dict_item_str]. }
  { intros ebs keys d kv evs3 Hebs (el & sk & Hek & _ & _ & Hps & _) Hkv.
    rewrite Hek in Hkv. injection Hkv as <-.
    destruct (parent_of_Some _ _ _ Hps) as (children & c & Hin & Hc & Hkey).
    exists c. split; [eapply Hebs; eauto | now apply dict_item_str]. }
  destruct run as [r t]. cbn [fst snd] in *. subst t.
  assert (finished E lv2) as Hfin2 by (exists q2; split; [reflexivity | exact Hans2]).
  assert (total_strats sv = count (events lv2)) as Ht by (rewrite Htot; reflexivity).
  assert (n_strats = count (fetched lv2)) as Hn' by exact Hn.
  assert (forall o, @None Z = Some o -> o = (n_strats - total_strats sv)%Z) as Horph
    by discriminate.
  apply (anatomy_lower E false idle lv2 lv3 lv4 tail r sv 0%Z n_strats None
           (level_ok_idle E "rfe" _) Hok2 eq_refl Hfin2 Hpar2 Hkl Ht eq_refl
           Hn' Horph Hok3 Hok4 Hchain Hpar3 Hpar4 Htail Hraised Hreturned).
  - unfold tapp, quiet; cbn [wfile http_log output log idle lv2 app].
    rewrite ?app_nil_r. reflexivity.
  - unfold tapp, quiet; cbn [wfile http_log output log idle lv2 app].
    rewrite ?Hlog, ?app_nil_r. reflexivity.
Qed.

(** ** Reading a flow's output *)

Lemma events_of_app (L : string) (l1 l2 : list written) :
  events_of L (l1 ++ l2) = events_of L l1 ++ events_of L l2.
Proof. apply filter_app. Qed.

Lemma events_of_level (L L' : string) (evs : list written) :
  Forall (fun x => exists d, x = Sse L (JObj d)) evs ->
  events_of L' evs = if String.eqb L L' then evs else [].
Proof.
  induction 1 as [|x xs [d ->] _ IH]; cbn [events_of filter is_event].
  - now destruct (String.eqb L L').
  - unfold events_of in IH. rewrite IH. now destruct (String.eqb L L').
Qed.

Lemma events_of_output (E : environ) (L L' : string) (ok : string -> Prop)
    (lv : level_run) :
  level_ok E L ok lv -> String.eqb "progress" L' = false ->
  events_of L' (output lv) = if String.eqb L L' then events lv else [].
Proof.
  intros ([[-> Hev] | [message ->]] & Hall & _) Hp.
  - rewrite Hev. now destruct (String.eqb L L').
  - cbn [events_of filter is_event]. rewrite Hp. now apply events_of_level.
Qed.

(** The events of each level read off the four sections. *)
Lemma events_of_sections (E : environ) (lv1 lv2 lv3 lv4 : level_run)
    (ok1 ok2 ok3 ok4 : string -> Prop) (L' : string) :
  level_ok E "rfe" ok1 lv1 -> level_ok E "strat" ok2 lv2 ->
  level_ok E "epic" ok3 lv3 -> level_ok E "task" ok4 lv4 ->
  String.eqb "progress" L' = false ->
  events_of L' (output lv1 ++ output lv2 ++ output lv3 ++ output lv4) =
    (if String.eqb "rfe" L' then events lv1 else []) ++
    (if String.eqb "strat" L' then events lv2 else []) ++
    (if String.eqb "epic" L' then events lv3 else []) ++
    (if String.eqb "task" L' then events lv4 else []).
Proof.
  intros H1 H2 H3 H4 Hp. rewrite !events_of_app.
  now rewrite (events_of_output E _ _ _ _ H1 Hp), (events_of_output E _ _ _ _ H2 Hp),
    (events_of_output E _ _ _ _ H3 Hp), (events_of_output E _ _ _ _ H4 Hp).
Qed.

Lemma stream_hierarchy_anatomy (jira_pat : option string) (component top_level : string)
    (E : environ) :
  anatomy E (negb (String.eqb top_level "strat"))
    (fst (stream_hierarchy jira_pat component top_level E))
    (snd (stream_hierarchy jira_pat component top_level E)).
Proof.
  unfold stream_hierarchy. destruct (String.eqb top_level "strat"); cbn [negb].
  - apply strat_first_anatomy.
  - apply rfe_first_anatomy.
Qed.

(** What the handler writes: a 400 payload when there is no token at all;
    otherwise the stream head, what the flow wrote, and one [error] event if
    the flow raised. *)
Lemma serve_hierarchy_stream_run (pat component top_level : option string) (E : environ) :
  (exists data,
     snd (serve_hierarchy_stream pat component top_level E) =
       {| wfile := [Json 400 data]; http_log := [] |}) \/
  (exists pat',
     let run := stream_hierarchy pat' (or_default component "AI Safety")
                  (or_default top_level "rfe") E in
     snd (serve_hierarchy_stream pat component top_level E) =
       {| wfile := StreamHead :: wfile (snd run) ++
                   match fst run with
                   | Returned _ => []
                   | Raised e => [Sse "error" (JObj [("error", JStr (exn_str e))])]
                   end;
          http_log := http_log (snd run) |}).
Proof.
  unfold serve_hierarchy_stream. cbv zeta. rewrite bind_run. cbn [ask fst snd].
  set (pat' := if negb (truthy_str pat) then JIRA_PAT E else pat).
  destruct (negb (truthy_str pat')).
  - left. eexists. reflexivity.
  - right. exists pat'. cbv zeta.
    rewrite bind_run. cbn [write fst snd]. unfold try_except. rewrite bind_run.
    destruct (stream_hierarchy pat' _ _ E) as [[s|e] t]; cbn [fst snd ret write];
      unfold tapp, quiet; cbn [wfile http_log app]; rewrite ?app_nil_r; reflexivity.
Qed.

Lemma last_event_unique (P : written -> bool) (body pre post : list written)
    (c x : written) :
  filter P body = [] -> P x = true ->
  body ++ [c] = pre ++ x :: post ->
  pre = body /\ post = [] /\ x = c.
Proof.
  intros Hbody Hx. revert pre. induction body as [|b body IH]; intros pre Heq.
  - destruct pre as [|p pre]; cbn in Heq.
    + injection Heq as <- <-. auto.
    + injection Heq as _ Heq. now destruct pre.
  - cbn [filter] in Hbody. destruct (P b) eqn:Hb; [discriminate|].
    destruct pre as [|p pre]; cbn in Heq.
    + injection Heq as <- _. congruence.
    + injection Heq as <- Heq. destruct (IH Hbody pre Heq) as (-> & -> & ->). auto.
Qed.

Lemma no_event_no_split (P : written -> bool) (l pre post : list written) (x : written) :
  filter P l = [] -> P x = true -> l = pre ++ x :: post -> False.
Proof.
  intros Hl Hx ->. rewrite filter_app in Hl. cbn [filter] in Hl. rewrite Hx in Hl.
  now destruct (filter P pre).
Qed.

(** ** The completion event *)

(** C5. Whenever the handler's output holds a [complete] event, nothing
    follows it, no other [complete] precedes it, each total it carries is
    the number of events of that level written before it, and in
    strategy-first mode the Request total is zero. *)
Theorem complete_event_totals (pat component top_level : option string) (E : environ)
    (pre post : list written) (data : json) :
  wfile (snd (serve_hierarchy_stream pat component top_level E)) =
    pre ++ Sse "complete" data :: post ->
  post = [] /\
  events_of "complete" pre = [] /\
  data = totals (count (events_of "rfe" pre)) (count (events_of "strat" pre))
                (count (events_of "epic" pre)) (count (events_of "task" pre)) /\
  (top_level = Some "strat" -> count (events_of "rfe" pre) = 0%Z).
Proof.
  intros Hout.
  destruct (serve_hierarchy_stream_run pat component top_level E) as [[d Hrun] | [pat' Hrun]].
  { rewrite Hrun in Hout. cbn [wfile] in Hout.
    destruct pre as [|p pre]; [discriminate|].
    injection Hout as _ Hout. now destruct pre. }
  cbv zeta in Hrun. rewrite Hrun in Hout. cbn [wfile] in Hout. clear Hrun.
  pose proof (stream_hierarchy_anatomy pat' (or_default component "AI Safety")
                (or_default top_level "rfe") E) as Hana.
  destruct (stream_hierarchy pat' _ _ E) as [r t]. cbn [fst snd] in Hana, Hout.
  destruct Hana as (lv1 & lv2 & lv3 & lv4 & tail & Hw & _ & H1 & H2 & H3 & H4 & Htop &
                    _ & _ & _ & _ & _ & _ & Htail & Hraised & Hreturned).
  pose proof (fun L' Hp => events_of_sections E lv1 lv2 lv3 lv4 _ _ _ _ L' H1 H2 H3 H4 Hp)
    as Hsec.
  set (body := output lv1 ++ output lv2 ++ output lv3 ++ output lv4) in *.
  assert (wfile t = body ++ tail) as Hw' by (rewrite Hw; unfold body; now rewrite <- !app_assoc).
  rewrite Hw' in Hout.
  destruct r as [s|e].
  - destruct (Hreturned s eq_refl) as (Hne & _).
    destruct Htail as [-> | ->]; [now destruct Hne|].
    rewrite app_nil_r in Hout.
    change (StreamHead :: body ++ ?c) with ((StreamHead :: body) ++ c) in Hout.
    apply (last_event_unique (is_event "complete")) in Hout as (-> & -> & [= ->]);
      [| cbn [filter is_event]; apply (Hsec "complete" eq_refl) | reflexivity].
    split; [reflexivity|].
    assert (forall L', String.eqb "progress" L' = false ->
                       events_of L' (StreamHead :: body) = events_of L' body) as Hhead
      by reflexivity.
    rewrite !Hhead, !Hsec by reflexivity. cbn [String.eqb Ascii.eqb Bool.eqb app].
    rewrite !app_nil_r. split; [reflexivity|]. split; [reflexivity|].
    intros ->. cbn in Htop. now rewrite Htop.
  - rewrite (Hraised e eq_refl), app_nil_r in Hout.
    exfalso. eapply (no_event_no_split (is_event "complete")); [| |exact Hout]; [|reflexivity].
    change (StreamHead :: body ++ ?c) with ((StreamHead :: body) ++ c).
    rewrite filter_app. cbn [filter is_event String.eqb Ascii.eqb Bool.eqb app].
    rewrite app_nil_r. apply (Hsec "complete" eq_refl).
Qed.

Lemma complete_event_totals_witness :
  exists pre,
    wfile (snd (sample_run "rfe")) = pre ++ [Sse "complete" (totals 2 1 1 1)] /\
    events_of "complete" pre = [] /\
    totals 2 1 1 1 =
      totals (count (events_of "rfe" pre)) (count (events_of "strat" pre))
             (count (events_of "epic" pre)) (count (events_of "task" pre)).
Proof.
  exists (firstn 10 (wfile (snd (sample_run "rfe")))).
  assert (wfile (snd (sample_run "rfe")) =
          firstn 10 (wfile (snd (sample_run "rfe"))) ++
          Sse "complete" (totals 2 1 1 1) :: []) as Hout
    by (vm_compute; reflexivity).
  split; [exact Hout|].
  destruct (complete_event_totals (Some "token") None (Some "rfe")
              (environ_of sample_store) _ _ _ Hout) as (_ & Hnone & Hdata & _).
  split; [exact Hnone | exact Hdata].
Defined.

(** ** Orphans *)


Lemma level_ok_fetched (E : environ) (L : string) (ok : string -> Prop) (lv : level_run) :
  level_ok E L ok lv ->
  fetched lv = [] \/ exists q, In q (log lv) /\ answered E q (fetched lv).
Proof.
  intros (_ & _ & [[_ ->] | (q & j & Hlog & _ & _ & [-> | Hans])] & _); auto.
  right. exists q. rewrite Hlog. split; [now left | exact Hans].
Qed.

Lemma anatomy_events (E : environ) (t : trace)
    (lv1 lv2 lv3 lv4 : level_run) (tail : list written) (ok1 ok2 ok3 ok4 : string -> Prop)
    (L' : string) :
  wfile t = output lv1 ++ output lv2 ++ output lv3 ++ output lv4 ++ tail ->
  level_ok E "rfe" ok1 lv1 -> level_ok E "strat" ok2 lv2 ->
  level_ok E "epic" ok3 lv3 -> level_ok E "task" ok4 lv4 ->
  String.eqb "progress" L' = false ->
  events_of L' (wfile t) =
    (if String.eqb "rfe" L' then events lv1 else []) ++
    (if String.eqb "strat" L' then events lv2 else []) ++
    (if String.eqb "epic" L' then events lv3 else []) ++
    (if String.eqb "task" L' then events lv4 else []) ++
    events_of L' tail.
Proof.
  intros Hw H1 H2 H3 H4 Hp.
  rewrite Hw, !events_of_app.
  now rewrite (events_of_output E _ _ _ _ H1 Hp), (events_of_output E _ _ _ _ H2 Hp),
    (events_of_output E _ _ _ _ H3 Hp), (events_of_output E _ _ _ _ H4 Hp).
Qed.

Lemma events_of_tail (L' : string) (tail : list written) :
  (tail = [] \/ exists data, tail = [Sse "complete" data]) ->
  String.eqb "complete" L' = false -> events_of L' tail = [].
Proof.
  intros [-> | [data ->]] Hc; [reflexivity|].
  cbn [events_of filter is_event]. now rewrite Hc.
Qed.






(** ** The order of the events *)

Lemma in_middle {A : Type} (a b c before after : list A) (x : A) :
  a ++ b ++ c = before ++ x :: after -> ~ In x a -> ~ In x c ->
  exists b1 b2, b = b1 ++ x :: b2 /\ before = a ++ b1.
Proof.
  revert before. induction a as [|y a IH]; intros before H Ha Hc.
  - cbn [app] in H. revert before H. induction b as [|y b IHb]; intros before H.
    + cbn [app] in H. exfalso. apply Hc. rewrite H. apply in_elt.
    + destruct before as [|z before]; cbn [app] in H; injection H as Hy H.
      * subst y. exists [], b. split; reflexivity.
      * subst z. destruct (IHb _ H) as (b1 & b2 & -> & Hb).
        cbn [app] in Hb. subst before.
        exists (y :: b1), b2. split; reflexivity.
  - destruct before as [|z before]; cbn [app] in H; injection H as Hy H.
    + exfalso. apply Ha. left. exact Hy.
    + subst z.
      assert (~ In x a) as Ha' by (intros Hin; apply Ha; now right).
      destruct (IH before H Ha' Hc) as (b1 & b2 & -> & ->).
      exists b1, b2. split; reflexivity.
Qed.

Lemma level_section (E : environ) (L : string) (ok : string -> Prop) (lv : level_run) :
  level_ok E L ok lv -> section_of L (output lv).
Proof.
  intros ([[-> _] | [message ->]] & Hall & _) x Hx; [destruct Hx|].
  destruct Hx as [<- | Hx]; [left; eauto|].
  right. rewrite Forall_forall in Hall. exact (Hall x Hx).
Qed.

Lemma level_events_output (E : environ) (L : string) (ok : string -> Prop)
    (lv : level_run) (x : written) :
  level_ok E L ok lv -> In x (events lv) -> In x (output lv).
Proof.
  intros ([[_ ->] | [message ->]] & _) Hx; [destruct Hx | now right].
Qed.

Lemma level_output_events (E : environ) (L : string) (ok : string -> Prop)
    (lv : level_run) (data : json) :
  level_ok E L ok lv -> String.eqb "progress" L = false ->
  In (Sse L data) (output lv) -> In (Sse L data) (events lv).
Proof.
  intros ([[-> _] | [message ->]] & _) Hp Hx; [destruct Hx|].
  destruct Hx as [Heq | Hx]; [|exact Hx].
  injection Heq as Heq _. rewrite <- Heq, String.eqb_refl in Hp. discriminate.
Qed.

Lemma section_other (L0 L : string) (s : list written) (data : json) :
  section_of L0 s -> String.eqb "progress" L = false -> String.eqb L0 L = false ->
  ~ In (Sse L data) s.
Proof.
  intros Hs Hp HL Hin. destruct (Hs _ Hin) as [[message Heq] | [d Heq]];
    injection Heq as Heq _; subst L.
  - now rewrite String.eqb_refl in Hp.
  - now rewrite String.eqb_refl in HL.
Qed.

Lemma tail_other (L : string) (tail : list written) (data : json) :
  (tail = [] \/ exists totals, tail = [Sse "complete" totals]) ->
  String.eqb "complete" L = false -> ~ In (Sse L data) tail.
Proof.
  intros [-> | [totals ->]] Hc Hin; [destruct Hin|].
  destruct Hin as [Heq | []]. injection Heq as Heq _. subst L.
  now rewrite String.eqb_refl in Hc.
Qed.

(** An event of a level is written after the event of the parent it names. *)
Lemma parent_precedes (E : environ) (L field Lp : string) (okp okc : string -> Prop)
    (lvp lvc : level_run) (a c before after : list written) (d : dict) (kv : json) :
  level_ok E Lp okp lvp -> level_ok E L okc lvc ->
  parents_emitted L field Lp (events lvc) (events lvp) ->
  String.eqb "progress" L = false ->
  (forall data, ~ In (Sse L data) a) -> (forall data, ~ In (Sse L data) c) ->
  (forall x, In x (output lvp) -> In x a) ->
  a ++ output lvc ++ c = before ++ Sse L (JObj d) :: after ->
  dict_get field d = Some kv ->
  exists d', In (Sse Lp (JObj d')) before /\ dict_get "key" d' = Some kv.
Proof.
  intros Hp Hc Hpe Hprog Ha Hcc Hsub Heq Hfield.
  destruct (in_middle _ _ _ _ _ _ Heq (Ha _) (Hcc _)) as (b1 & b2 & Hout & ->).
  assert (In (Sse L (JObj d)) (events lvc)) as Hin.
  { eapply level_output_events; eauto. rewrite Hout. apply in_elt. }
  destruct (Hpe d kv Hin Hfield) as (d' & Hd' & Hkey).
  exists d'. split; [|exact Hkey].
  apply in_or_app. left. apply Hsub. eapply level_events_output; eauto.
Qed.

(** C3. In a streamed flow the output falls into four consecutive sections,
    RFEs, STRATs, Epics, Tasks, each holding only progress lines and events
    of its own level, followed by at most the closing event; an event that
    names its parent (a STRAT by [rfe_key], an Epic by [strat_key], a Task by
    [epic_key]) comes after the event of that parent; and the keys of the
    events of a level are, in the order written, taken in order from the
    records with which the store answered a search of the flow. *)
Theorem parents_first_in_store_order (jira_pat : option string)
    (component top_level : string) (E : environ) :
  let t := snd (stream_hierarchy jira_pat component top_level E) in
  (exists s1 s2 s3 s4 tail,
     wfile t = s1 ++ s2 ++ s3 ++ s4 ++ tail /\
     section_of "rfe" s1 /\ section_of "strat" s2 /\
     section_of "epic" s3 /\ section_of "task" s4 /\
     (tail = [] \/ exists data, tail = [Sse "complete" data])) /\
  (forall L field Lp before d after kv,
     parent_field L = Some (field, Lp) ->
     wfile t = before ++ Sse L (JObj d) :: after ->
     dict_get field d = Some kv ->
     exists d', In (Sse Lp (JObj d')) before /\ dict_get "key" d' = Some kv) /\
  (forall L, In L ["rfe"; "strat"; "epic"; "task"] ->
     exists l,
       (l = [] \/ exists q, In q (http_log t) /\ answered E q l) /\
       subseq (map (payload_field "key") (events_of L (wfile t))) (map raw_key l)).
Proof.
  intros t. subst t.
  pose proof (stream_hierarchy_anatomy jira_pat component top_level E) as Hana.
  destruct (stream_hierarchy jira_pat component top_level E) as [r t].
  cbn [fst snd] in Hana |- *.
  destruct Hana as (lv1 & lv2 & lv3 & lv4 & tail & Hw & Hl & H1 & H2 & H3 & H4 & _ &
                    _ & _ & _ & Hp2 & Hp3 & Hp4 & Htail & _).
  assert (tail = [] \/ exists data, tail = [Sse "complete" data]) as Htail'
    by (destruct Htail; eauto).
  pose proof (level_section _ _ _ _ H1) as S1.
  pose proof (level_section _ _ _ _ H2) as S2.
  pose proof (level_section _ _ _ _ H3) as S3.
  pose proof (level_section _ _ _ _ H4) as S4.
  split; [|split].
  - exists (output lv1), (output lv2), (output lv3), (output lv4), tail.
    repeat (split; [assumption|]). exact Htail'.
  - intros L field Lp before d after kv HL Hout Hfield.
    unfold parent_field in HL.
    destruct (String.eqb_spec L "strat") as [-> | _];
      [|destruct (String.eqb_spec L "epic") as [-> | _];
        [|destruct (String.eqb_spec L "task") as [-> | _]; [|discriminate]]];
      injection HL as <- <-.
    + rewrite Hw in Hout.
      eapply (parent_precedes E "strat" "rfe_key" "rfe" _ _ lv1 lv2 (output lv1)
                (output lv3 ++ output lv4 ++ tail)); eauto.
      * intros data. now apply (section_other "rfe").
      * intros data. rewrite !in_app_iff. intros [Hin | [Hin | Hin]].
        -- now apply (section_other "epic" "strat" _ data S3).
        -- now apply (section_other "task" "strat" _ data S4).
        -- now apply (tail_other "strat" tail data Htail').
    + rewrite Hw, app_assoc in Hout.
      eapply (parent_precedes E "epic" "strat_key" "strat" _ _ lv2 lv3
                (output lv1 ++ output lv2) (output lv4 ++ tail)); eauto.
      * intros data. rewrite in_app_iff. intros [Hin | Hin].
        -- now apply (section_other "rfe" "epic" _ data S1).
        -- now apply (section_other "strat" "epic" _ data S2).
      * intros data. rewrite in_app_iff. intros [Hin | Hin].
        -- now apply (section_other "task" "epic" _ data S4).
        -- now apply (tail_other "epic" tail data Htail').
      * intros x Hx. apply in_or_app. now right.
    + rewrite Hw, app_assoc, (app_assoc (output lv1 ++ output lv2)) in Hout.
      eapply (parent_precedes E "task" "epic_key" "epic" _ _ lv3 lv4
                ((output lv1 ++ output lv2) ++ output lv3) tail); eauto.
      * intros data. rewrite !in_app_iff. intros [[Hin | Hin] | Hin].
        -- now apply (section_other "rfe" "task" _ data S1).
        -- now apply (section_other "strat" "task" _ data S2).
        -- now apply (section_other "epic" "task" _ data S3).
      * intros data. now apply (tail_other "task" tail data Htail').
      * intros x Hx. apply in_or_app. now right.
  - intros L HL.
    assert (forall lv ok L0,
              level_ok E L0 ok lv -> In lv [lv1; lv2; lv3; lv4] ->
              fetched lv = [] \/
              exists q, In q (http_log t) /\ answered E q (fetched lv)) as Hin.
    { intros lv ok L0 Hlv Hmem.
      destruct (level_ok_fetched _ _ _ _ Hlv) as [? | (q & Hq & Hans)]; [now left|].
      right. exists q. split; [|exact Hans]. rewrite Hl, !in_app_iff.
      destruct Hmem as [<- | [<- | [<- | [<- | []]]]]; tauto. }
    rewrite (anatomy_events E t lv1 lv2 lv3 lv4 tail _ _ _ _ L Hw H1 H2 H3 H4)
      by (destruct HL as [<- | [<- | [<- | [<- | []]]]]; reflexivity).
    rewrite (events_of_tail L tail Htail')
      by (destruct HL as [<- | [<- | [<- | [<- | []]]]]; reflexivity).
    destruct HL as [<- | [<- | [<- | [<- | []]]]];
      cbn [String.eqb Ascii.eqb Bool.eqb app]; rewrite ?app_nil_r.
    + exists (fetched lv1). split; [eapply Hin; eauto; cbn; tauto|]. apply H1.
    + exists (fetched lv2). split; [eapply Hin; eauto; cbn; tauto|]. apply H2.
    + exists (fetched lv3). split; [eapply Hin; eauto; cbn; tauto|]. apply H3.
    + exists (fetched lv4). split; [eapply Hin; eauto; cbn; tauto|]. apply H4.
Qed.

Lemma parents_first_in_store_order_witness :
  exists d',
    In (Sse "strat" (JObj d')) (firstn 6 (wfile (snd (sample_flow "rfe")))) /\
    dict_get "key" d' = Some (JStr "RHAISTRAT-1").
Proof.
  destruct (parents_first_in_store_order (Some "token") "AI Safety" "rfe"
              (environ_of sample_store)) as (_ & Hparent & _).
  assert (exists d after,
            wfile (snd (sample_flow "rfe")) =
              firstn 6 (wfile (snd (sample_flow "rfe"))) ++ Sse "epic" (JObj d) :: after /\
            dict_get "strat_key" d = Some (JStr "RHAISTRAT-1"))
    as (d & after & Hout & Hfield)
    by (do 2 eexists; vm_compute; split; reflexivity).
  exact (Hparent "epic" "strat_key" "strat" _ d after _ eq_refl Hout Hfield).
Defined.

(** ** One search per level *)

Lemma batched_query_of (E : environ) (L : string) (level_jql : list string -> string)
    (ok : string -> Prop) (parent child : level_run) :
  level_ok E L ok child ->
  (forall jql, ok jql -> batched level_jql parent jql) ->
  (child <> idle -> finished E parent) ->
  batched_query E level_jql parent child.
Proof.
  intros (_ & _ & [[Hlog _] | (q & jql & Hlog & Hq & Hok & _)] & _) Hbatched Hchain;
    [now left|].
  right.
  destruct Hchain as (qp & Hqp & Hans).
  { intros ->. discriminate Hlog. }
  destruct (Hbatched jql Hok) as (keys & Hkeys & ->).
  exists q, qp, keys. split; [exact Hlog|]. split; [exact Hqp|].
  split; [exact Hans|]. split; [exact Hkeys | exact Hq].
Qed.

Lemma level_ok_log (E : environ) (L : string) (ok : string -> Prop) (lv : level_run) :
  level_ok E L ok lv -> log lv = [] \/ exists q, log lv = [q].
Proof.
  intros (_ & _ & [[Hlog _] | (q & jql & Hlog & _)] & _); eauto.
Qed.

(** C2 (streamed flows). The requests of a streamed flow are at most one
    search per level, in the order RFEs, STRATs, Epics, Tasks (none for RFEs
    in the strategy-first flow). The search of a level below the top is sent
    only after the store answered the search of the level above, and its JQL
    is built from the keys of all the records of that answer: however many
    parents there are, the level sends one request. A flow that returns has
    had an answer for the top level and, for every level whose records are
    not empty, for the level below it. *)
Theorem one_batched_search_per_level (jira_pat : option string)
    (component top_level : string) (E : environ) :
  let run := stream_hierarchy jira_pat component top_level E in
  exists lv1 lv2 lv3 lv4,
    http_log (snd run) = log lv1 ++ log lv2 ++ log lv3 ++ log lv4 /\
    (if String.eqb top_level "strat"
     then log lv1 = [] /\ (log lv2 = [] \/ exists q, log lv2 = [q])
     else (log lv1 = [] \/ exists q, log lv1 = [q]) /\
          batched_query E strats_jql lv1 lv2) /\
    batched_query E epics_jql lv2 lv3 /\
    batched_query E tasks_jql lv3 lv4 /\
    (forall s, fst run = Returned s ->
       (if String.eqb top_level "strat" then finished E lv2
        else finished E lv1 /\ (fetched lv1 <> [] -> finished E lv2)) /\
       (s <> None -> fetched lv2 <> [] -> finished E lv3) /\
       (s <> None -> fetched lv3 <> [] -> finished E lv4)).
Proof.
  intros run. subst run.
  pose proof (stream_hierarchy_anatomy jira_pat component top_level E) as Hana.
  destruct (stream_hierarchy jira_pat component top_level E) as [r t].
  cbn [fst snd] in Hana |- *.
  destruct Hana as (lv1 & lv2 & lv3 & lv4 & tail & _ & Hl & H1 & H2 & H3 & H4 & Hidle &
                    C12 & C23 & C34 & _ & _ & _ & _ & _ & Hreturned).
  exists lv1, lv2, lv3, lv4.
  split; [exact Hl|]. split; [|split; [|split]].
  - destruct (String.eqb top_level "strat"); cbn [negb] in *.
    + split; [now rewrite Hidle | eapply level_ok_log; eauto].
    + split; [eapply level_ok_log; eauto|].
      eapply batched_query_of; eauto.
  - eapply batched_query_of; eauto.
  - eapply batched_query_of; eauto.
  - intros s ->. destruct (Hreturned s eq_refl) as (_ & Htop & H12 & H23 & H34 & _).
    split; [|split; assumption].
    destruct (String.eqb top_level "strat"); cbn [negb] in *; auto.
Qed.

(** Against C2 as worded. Reloading the RFE of the example store, which has two
    STRATs with two Epics each, sends eight requests: the Epics are searched
    once for each STRAT and the Tasks once for each Epic, each search naming
    one parent. *)
Lemma reload_searches_once_per_parent :
  List.length (http_log (snd (sample_reload "RHAIRFE-1" "rfe"))) = 8 /\
  filter (prefix "project = RHOAIENG")
    (map jql_of (http_log (snd (sample_reload "RHAIRFE-1" "rfe")))) =
    [fstr ["project = RHOAIENG AND issuetype = Epic AND "; dq; "Parent Link"; dq;
           " = RHAISTRAT-1 AND status NOT IN (Closed, Resolved)"];
     fstr ["project = RHOAIENG AND issuetype = Epic AND "; dq; "Parent Link"; dq;
           " = RHAISTRAT-2 AND status NOT IN (Closed, Resolved)"]].
Proof. split; vm_compute; reflexivity. Qed.

(** ** What a loop body does with a child whose parent is known *)

Lemma parent_reference_str (field : string) (record : json) (p : string) :
  parent_reference field record = JStr p ->
  exists fields,
    get record "fields" (JObj []) = Returned fields /\
    item record "fields" = Returned fields /\
    get fields field JNull = Returned (JStr p).
Proof.
  intros H. destruct record as [| | | | |d]; try (cbn in H; discriminate).
  unfold parent_reference in H.
  assert (get (JObj d) "fields" (JObj []) =
          match dict_get "fields" d with
          | Some v => Returned v
          | None => Returned (JObj [])
          end) as Hg by reflexivity.
  assert (item (JObj d) "fields" =
          match dict_get "fields" d with
          | Some v => Returned v
          | None => Raised (KeyError "fields")
          end) as Hi by reflexivity.
  rewrite Hg in H. rewrite Hg, Hi. clear Hg Hi.
  destruct (dict_get "fields" d) as [fields|].
  - exists fields. split; [reflexivity|]. split; [reflexivity|].
    destruct (get fields field JNull) as [v|]; [now subst | discriminate].
  - cbn in H. discriminate.
Qed.

Lemma truthy_key (p : string) : p <> "" -> truthy (JStr p) = true.
Proof. intros Hp. cbn [truthy]. now destruct (String.eqb_spec p ""). Qed.

Lemma truthy_str_Some (p : string) : p <> "" -> truthy_str (Some p) = true.
Proof. intros Hp. cbn [truthy_str]. now destruct (String.eqb_spec p ""). Qed.

(** One iteration of the Epic and Task loops. Take a fetched Epic or Task
    that normalises and whose parent-reference field holds a non-empty key
    of the known parent-key set. In the strategy-first flow an Epic always gets exactly
    one [epic] event, carrying [strat_key]; a Task gets exactly one [task]
    event, carrying [strat_key] and [epic_key], when its Epic is filed under
    a STRAT, and none otherwise. In the request-first flow the Epic gets
    exactly one event, carrying [rfe_key] and [strat_key], when its STRAT is
    filed under an RFE, and none otherwise; the Task gets exactly one event,
    carrying the three keys, when its Epic is filed under a STRAT that is
    filed under an RFE, and none otherwise. *)
Theorem known_parent_child_emitted_once :
  (forall E strat_keys sbr v epic data p,
     build_issue_data epic "epic" = Returned data ->
     parent_reference "customfield_12313140" epic = JStr p ->
     p <> "" -> In p strat_keys ->
     wfile (snd (strat_first_epic strat_keys v epic E)) =
       [Sse "epic" (JObj (dict_set "tasks" (JArr [])
                            (dict_set "strat_key" (JStr p) data)))] /\
     wfile (snd (rfe_first_epic strat_keys sbr v epic E)) =
       match parent_of sbr p with
       | Some r =>
           if String.eqb r "" then []
           else [Sse "epic" (JObj (dict_set "tasks" (JArr [])
                                     (dict_set "strat_key" (JStr p)
                                        (dict_set "rfe_key" (JStr r) data))))]
       | None => []
       end) /\
  (forall E epic_keys ebs sbr v task data issuetype p,
     build_issue_data task "task" = Returned data ->
     task_issuetype task = Returned issuetype ->
     parent_reference "customfield_12311140" task = JStr p ->
     p <> "" -> In p epic_keys ->
     wfile (snd (strat_first_task epic_keys ebs v task E)) =
       match parent_of ebs p with
       | Some s =>
           if String.eqb s "" then []
           else [Sse "task" (JObj (dict_set "epic_key" (JStr p)
                                     (dict_set "strat_key" (JStr s)
                                        (dict_set "issuetype" issuetype data))))]
       | None => []
       end /\
     wfile (snd (rfe_first_task epic_keys ebs sbr v task E)) =
       match parent_of ebs p with
       | Some s =>
           match parent_of sbr s with
           | Some r =>
               if String.eqb r "" || String.eqb s "" then []
               else [Sse "task" (JObj (dict_set "epic_key" (JStr p)
                                         (dict_set "strat_key" (JStr s)
                                            (dict_set "rfe_key" (JStr r)
                                               (dict_set "issuetype" issuetype data)))))]
           | None => []
           end
       | None => []
       end).
Proof.
  split.
  - intros E strat_keys sbr v epic data p Hdata Href Hp Hin.
    destruct (parent_reference_str _ _ _ Href) as (fields & Hf & _ & Hlink).
    split.
    + unfold strat_first_epic. cbv zeta.
      rewrite bind_lift_run, Hdata, bind_lift_run, Hf, bind_lift_run, Hlink.
      rewrite (truthy_key p Hp), (member_str p strat_keys Hin). reflexivity.
    + unfold rfe_first_epic. cbv zeta.
      rewrite bind_lift_run, Hdata, bind_lift_run, Hf, bind_lift_run, Hlink.
      rewrite (truthy_key p Hp), (member_str p strat_keys Hin).
      destruct (parent_of sbr p) as [r|]; [|reflexivity].
      cbn [truthy_str]. now destruct (String.eqb r "").
  - intros E epic_keys ebs sbr v task data issuetype p Hdata Hty Href Hp Hin.
    destruct (parent_reference_str _ _ _ Href) as (fields & _ & Hf & Hlink).
    split.
    + unfold strat_first_task. cbv zeta.
      rewrite bind_lift_run, Hdata, bind_lift_run, Hty, bind_lift_run, Hf,
        bind_lift_run, Hlink.
      rewrite (truthy_key p Hp), (member_str p epic_keys Hin).
      destruct (parent_of ebs p) as [s|]; [|reflexivity].
      cbn [truthy_str]. now destruct (String.eqb s "").
    + unfold rfe_first_task. cbv zeta.
      rewrite bind_lift_run, Hdata, bind_lift_run, Hty, bind_lift_run, Hf,
        bind_lift_run, Hlink.
      rewrite (truthy_key p Hp), (member_str p epic_keys Hin).
      destruct (parent_of ebs p) as [s|]; [|reflexivity].
      destruct (parent_of sbr s) as [r|]; [|reflexivity].
      cbn [truthy_str]. now destruct (String.eqb r ""), (String.eqb s "").
Qed.

Lemma known_parent_child_emitted_once_witness :
  exists data,
    build_issue_data
      (raw_issue "RHOAIENG-1" [("customfield_12313140", JStr "RHAISTRAT-1")]) "epic" =
      Returned data /\
    wfile (snd (rfe_first_epic ["RHAISTRAT-1"; "RHAISTRAT-2"]
                  [("RHAIRFE-1", [[("key", JStr "RHAISTRAT-1")]])] no_epics
                  (raw_issue "RHOAIENG-1" [("customfield_12313140", JStr "RHAISTRAT-1")])
                  (environ_of sample_store))) =
      [Sse "epic" (JObj (dict_set "tasks" (JArr [])
                           (dict_set "strat_key" (JStr "RHAISTRAT-1")
                              (dict_set "rfe_key" (JStr "RHAIRFE-1") data))))].
Proof.
  assert (exists data,
            build_issue_data
              (raw_issue "RHOAIENG-1" [("customfield_12313140", JStr "RHAISTRAT-1")])
              "epic" = Returned data) as [data Hdata]
    by (eexists; vm_compute; reflexivity).
  exists data. split; [exact Hdata|].
  destruct known_parent_child_emitted_once as [Hepic _].
  assert ("RHAISTRAT-1" <> "") as Hp by discriminate.
  assert (In "RHAISTRAT-1" ["RHAISTRAT-1"; "RHAISTRAT-2"]) as Hin by (left; reflexivity).
  destruct (Hepic (environ_of sample_store) ["RHAISTRAT-1"; "RHAISTRAT-2"]
              [("RHAIRFE-1", [[("key", JStr "RHAISTRAT-1")]])] no_epics
              (raw_issue "RHOAIENG-1" [("customfield_12313140", JStr "RHAISTRAT-1")])
              data "RHAISTRAT-1" Hdata eq_refl Hp Hin) as [_ Hrfe].
  exact Hrfe.
Defined.


(** ** Failures of the store *)

Lemma app_eq_elt {A : Type} (l1 l2 log1 log2 : list A) (q : A) :
  l1 ++ l2 = log1 ++ q :: log2 ->
  (exists m, l1 = log1 ++ q :: m /\ log2 = m ++ l2) \/
  (exists m, l2 = m ++ q :: log2 /\ log1 = l1 ++ m).
Proof.
  revert log1. induction l1 as [|x l1 IH]; intros log1 H.
  - right. exists log1. split; [exact H | reflexivity].
  - destruct log1 as [|y log1]; cbn [app] in H; injection H as Hx H.
    + left. exists l1. subst x. split; [reflexivity | now rewrite H].
    + subst y. destruct (IH log1 H) as [(m & -> & ->) | (m & -> & ->)].
      * left. exists m. split; reflexivity.
      * right. exists m. split; reflexivity.
Qed.

Section Offline.
Context {A B : Type}.

Lemma offline_ret (a : A) : offline (ret a).
Proof. intros E. reflexivity. Qed.

Lemma offline_lift (c : outcome A) : offline (lift c).
Proof. intros E. reflexivity. Qed.

Lemma offline_bind (c : M A) (k : A -> M B) :
  offline c -> (forall a, offline (k a)) -> offline (bind c k).
Proof.
  intros Hc Hk E. rewrite bind_run. specialize (Hc E).
  destruct (c E) as [[a|e] t]; cbn [fst snd] in *; [|exact Hc].
  unfold tapp. cbn [http_log]. now rewrite Hc, (Hk a E).
Qed.

Lemma silent_ret (a : A) : silent (ret a).
Proof. intros E. reflexivity. Qed.

Lemma silent_lift (c : outcome A) : silent (lift c).
Proof. intros E. reflexivity. Qed.

Lemma silent_bind (c : M A) (k : A -> M B) :
  silent c -> (forall a, silent (k a)) -> silent (bind c k).
Proof.
  intros Hc Hk E. rewrite bind_run. specialize (Hc E).
  destruct (c E) as [[a|e] t]; cbn [fst snd] in *; [|exact Hc].
  unfold tapp. cbn [wfile]. now rewrite Hc, (Hk a E).
Qed.

Lemma silent_try_except (c : M A) (handler : exn -> M A) :
  silent c -> (forall e, silent (handler e)) -> silent (try_except c handler).
Proof.
  intros Hc Hh E. unfold try_except. specialize (Hc E).
  destruct (c E) as [[a|e] t]; cbn [fst snd] in *; [exact Hc|].
  specialize (Hh e E). destruct (handler e E) as [r t']. cbn [fst snd] in *.
  unfold tapp. cbn [wfile]. now rewrite Hc, Hh.
Qed.
End Offline.

Lemma offline_send (L : string) (data : json) : offline (send_sse_event L data).
Proof. intros E. reflexivity. Qed.

Lemma offline_ask : offline ask.
Proof. intros E. reflexivity. Qed.

Lemma silent_ask : silent ask.
Proof. intros E. reflexivity. Qed.

Lemma offline_for_each {A S : Type} (body : S -> A -> M S) (s : S) (l : list A) :
  (forall s x, offline (body s x)) -> offline (for_each body s l).
Proof.
  intros Hbody. revert s. induction l as [|x l IH]; intros s; cbn [for_each].
  - apply offline_ret.
  - apply offline_bind; [apply Hbody | intros s'; apply IH].
Qed.

Lemma silent_for_each {A S : Type} (body : S -> A -> M S) (s : S) (l : list A) :
  (forall s x, silent (body s x)) -> silent (for_each body s l).
Proof.
  intros Hbody. revert s. induction l as [|x l IH]; intros s; cbn [for_each].
  - apply silent_ret.
  - apply silent_bind; [apply Hbody | intros s'; apply IH].
Qed.

Lemma silent_run_jira_query (jql fields : string) (jira_pat : option string) :
  silent (run_jira_query jql fields jira_pat).
Proof.
  intros E.
  destruct (run_jira_query_cases jql fields jira_pat E) as [[e ->] | (q & _ & -> & _)];
    reflexivity.
Qed.

Lemma offline_send_json (data : json) (status : Z) : offline (send_json data status).
Proof. intros E. reflexivity. Qed.

Ltac offline_step :=
  lazymatch goal with
  | |- offline (ret _) => apply offline_ret
  | |- offline (lift _) => apply offline_lift
  | |- offline (send_sse_event _ _) => apply offline_send
  | |- offline (send_json _ _) => apply offline_send_json
  | |- offline ask => apply offline_ask
  | |- offline (bind _ _) => apply offline_bind; [|intros ?]
  | |- offline (for_each _ _ _) => apply offline_for_each; intros ? ?
  | |- offline (if ?b then _ else _) => destruct b
  | |- offline (match ?x with _ => _ end) => destruct x
  end.

Ltac offline := repeat (cbv beta zeta; offline_step).

Ltac silent_step :=
  lazymatch goal with
  | |- silent (ret _) => apply silent_ret
  | |- silent (lift _) => apply silent_lift
  | |- silent ask => apply silent_ask
  | |- silent (run_jira_query _ _ _) => apply silent_run_jira_query
  | |- silent (bind _ _) => apply silent_bind; [|intros ?]
  | |- silent (try_except _ _) => apply silent_try_except; [|intros ?]
  | |- silent (for_each _ _ _) => apply silent_for_each; intros ? ?
  | |- silent (if ?b then _ else _) => destruct b
  | |- silent (match ?x with _ => _ end) => destruct x
  end.

Ltac silent := repeat (cbv beta zeta; silent_step).

Lemma offline_rfe_first_strat (rfe_keys : list string) (v : strat_vars) (x : json) :
  offline (rfe_first_strat rfe_keys v x).
Proof. unfold rfe_first_strat. offline. Qed.

Lemma offline_rfe_first_epic (keys : list string) (sbr : by_parent) (v : epic_vars)
    (x : json) :
  offline (rfe_first_epic keys sbr v x).
Proof. unfold rfe_first_epic. offline. Qed.

Lemma offline_rfe_first_task (keys : list string) (ebs sbr : by_parent) (v : task_vars)
    (x : json) :
  offline (rfe_first_task keys ebs sbr v x).
Proof. unfold rfe_first_task. offline. Qed.

Lemma offline_strat_first_strat (v : strat_vars) (x : json) :
  offline (strat_first_strat v x).
Proof. unfold strat_first_strat. offline. Qed.

Lemma offline_strat_first_epic (keys : list string) (v : epic_vars) (x : json) :
  offline (strat_first_epic keys v x).
Proof. unfold strat_first_epic. offline. Qed.

Lemma offline_strat_first_task (keys : list string) (ebs : by_parent) (v : task_vars)
    (x : json) :
  offline (strat_first_task keys ebs v x).
Proof. unfold strat_first_task. offline. Qed.

Lemma silent_fetch_rfes (component : string) (jira_pat : option string) :
  silent (fetch_rfes component jira_pat).
Proof. unfold fetch_rfes. silent. Qed.

Lemma silent_fetch_strats_for_rfe (rfe_key : json) (jira_pat : option string) :
  silent (fetch_strats_for_rfe rfe_key jira_pat).
Proof. unfold fetch_strats_for_rfe. silent. Qed.

Lemma silent_fetch_epics_for_strat (strat_key : json) (jira_pat : option string) :
  silent (fetch_epics_for_strat strat_key jira_pat).
Proof. unfold fetch_epics_for_strat. silent. Qed.

Lemma silent_fetch_tasks_for_epic (epic_key : json) (jira_pat : option string) :
  silent (fetch_tasks_for_epic epic_key jira_pat).
Proof. unfold fetch_tasks_for_epic. silent. Qed.

Section Stops.
Variable excused : environ -> request -> Prop.

Lemma stops_offline {A : Type} (c : M A) : offline c -> stops_at_failure excused c.
Proof.
  intros Hc E log1 q log2 Hlog. rewrite (Hc E) in Hlog.
  now destruct log1.
Qed.

Lemma stops_excused {A : Type} (c : M A) :
  (forall E q, In q (http_log (snd (c E))) -> excused E q) ->
  stops_at_failure excused c.
Proof.
  intros Hc E log1 q log2 Hlog _ Hq. exfalso. apply Hq, Hc.
  rewrite Hlog. apply in_elt.
Qed.

Lemma stops_bind {A B : Type} (c : M A) (k : A -> M B) :
  stops_at_failure excused c -> (forall a, stops_at_failure excused (k a)) ->
  stops_at_failure excused (bind c k).
Proof.
  intros Hc Hk E log1 q log2. rewrite bind_run.
  specialize (Hc E). destruct (c E) as [[a|e] t]; cbn [fst snd] in *.
  - unfold tapp. cbn [http_log]. intros Hlog Hq Hex.
    destruct (app_eq_elt _ _ _ _ _ Hlog) as [(m & Ht & _) | (m & Hk' & _)].
    + destruct (Hc _ _ _ Ht Hq Hex) as (_ & e & He). discriminate He.
    + exact (Hk a E _ _ _ Hk' Hq Hex).
  - intros Hlog Hq Hex. destruct (Hc _ _ _ Hlog Hq Hex) as [Hlog2 _].
    split; [exact Hlog2 | now exists e].
Qed.

Lemma stops_for_each {A S : Type} (body : S -> A -> M S) (s : S) (l : list A) :
  (forall s x, stops_at_failure excused (body s x)) ->
  stops_at_failure excused (for_each body s l).
Proof.
  intros Hbody. revert s. induction l as [|x l IH]; intros s; cbn [for_each].
  - apply stops_offline, offline_ret.
  - apply stops_bind; [apply Hbody | intros s'; apply IH].
Qed.

Lemma stops_run_jira_query (jql fields : string) (jira_pat : option string) :
  stops_at_failure excused (run_jira_query jql fields jira_pat).
Proof.
  intros E log1 q log2 Hlog Hq _.
  destruct (run_jira_query_cases jql fields jira_pat E)
    as [[e He] | (q0 & _ & Ht & Hcases)].
  - rewrite He in Hlog. now destruct log1.
  - rewrite Ht in Hlog. cbn [http_log] in Hlog.
    destruct log1 as [|x log1]; cbn [app] in Hlog.
    + injection Hlog as <- <-. split; [reflexivity|].
      destruct Hcases as [[_ He] | [H200 _]]; [exact He | contradiction].
    + injection Hlog as _ Hlog. now destruct log1.
Qed.
End Stops.

Ltac stops_step :=
  lazymatch goal with
  | |- stops_at_failure _ (run_jira_query _ _ _) => apply stops_run_jira_query
  | |- stops_at_failure _ (bind _ _) => apply stops_bind; [|intros ?]
  | |- stops_at_failure _ (for_each _ _ _) => apply stops_for_each; intros ? ?
  | |- stops_at_failure _ (if ?b then _ else _) => destruct b
  | |- stops_at_failure _ (match ?x with _ => _ end) => destruct x
  | |- stops_at_failure _ (ret _) => apply stops_offline, offline_ret
  | |- stops_at_failure _ (lift _) => apply stops_offline, offline_lift
  | |- stops_at_failure _ ask => apply stops_offline, offline_ask
  | |- stops_at_failure _ (send_sse_event _ _) => apply stops_offline, offline_send
  | |- stops_at_failure _ (send_json _ _) => apply stops_offline, offline_send_json
  end.

Ltac stops := repeat (cbv beta zeta; stops_step).

Lemma stops_batch_level {S : Type} (excused : environ -> request -> Prop)
    (parent_keys : list json) (message : string) (jql : list string -> string)
    (field_list : string) (body : list string -> S -> json -> M S) (init : S)
    (jira_pat : option string) :
  (forall keys v x, offline (body keys v x)) ->
  stops_at_failure excused (batch_level parent_keys message jql field_list body init jira_pat).
Proof.
  intros Hbody. unfold batch_level. stops.
  apply stops_offline, Hbody.
Qed.

Lemma stops_fetched_count (excused : environ -> request -> Prop) (keys : list json)
    (issues : json) :
  stops_at_failure excused (fetched_count keys issues).
Proof. unfold fetched_count. stops. Qed.

Lemma stops_fetch_rfes (excused : environ -> request -> Prop) (component : string)
    (jira_pat : option string) :
  stops_at_failure excused (fetch_rfes component jira_pat).
Proof. unfold fetch_rfes. stops. Qed.

Ltac stops_flow_step :=
  lazymatch goal with
  | |- stops_at_failure _ (fetch_rfes _ _) => apply stops_fetch_rfes
  | |- stops_at_failure _ (fetched_count _ _) => apply stops_fetched_count
  | |- stops_at_failure _ (batch_level _ _ _ _ _ _ _) =>
      apply stops_batch_level; intros ? ? ?;
      first [ apply offline_strat_first_epic | apply offline_strat_first_task
            | apply offline_rfe_first_epic | apply offline_rfe_first_task ]
  | |- stops_at_failure _ (strat_first_strat _ _) =>
      apply stops_offline, offline_strat_first_strat
  | |- stops_at_failure _ (rfe_first_strat _ _ _) =>
      apply stops_offline, offline_rfe_first_strat
  | |- _ => stops_step
  end.

Lemma stops_stream_hierarchy (jira_pat : option string) (component top_level : string) :
  stops_at_failure none_excused (stream_hierarchy jira_pat component top_level).
Proof.
  unfold stream_hierarchy. destruct (String.eqb top_level "strat").
  - unfold stream_hierarchy_strat_first. repeat (cbv beta zeta; stops_flow_step).
  - unfold stream_hierarchy_rfe_first. repeat (cbv beta zeta; stops_flow_step).
Qed.

Lemma answers_send_json (data : json) (status : Z) : answers_once (send_json data status).
Proof. intros E. cbn. eauto. Qed.

Lemma answers_bind {A : Type} (c : M A) (k : A -> M unit) :
  silent c -> (forall a, answers_once (k a)) -> answers_once (bind c k).
Proof.
  intros Hc Hk E. rewrite bind_run. specialize (Hc E).
  destruct (c E) as [[a|e] t]; cbn [fst snd] in *; [|exact Hc].
  specialize (Hk a E). unfold tapp. cbn [wfile]. rewrite Hc. exact Hk.
Qed.

Ltac quietly_step :=
  lazymatch goal with
  | |- silent (fetch_rfes _ _) => apply silent_fetch_rfes
  | |- silent (fetch_strats_for_rfe _ _) => apply silent_fetch_strats_for_rfe
  | |- silent (fetch_epics_for_strat _ _) => apply silent_fetch_epics_for_strat
  | |- silent (fetch_tasks_for_epic _ _) => apply silent_fetch_tasks_for_epic
  | |- _ => silent_step
  end.

Ltac quietly := repeat (cbv beta zeta; quietly_step).

Ltac answers_step :=
  lazymatch goal with
  | |- answers_once (send_json _ _) => apply answers_send_json
  | |- answers_once (bind _ _) => apply answers_bind; [solve [quietly] | intros ?]
  | |- answers_once (if ?b then _ else _) => destruct b
  | |- answers_once (match ?x with _ => _ end) => destruct x
  end.

Ltac answers := repeat (cbv beta zeta; answers_step).

Lemma answers_reload_rfe (issue_key : string) (pat : option string) (rfe : dict) :
  answers_once (reload_rfe issue_key pat rfe).
Proof. unfold reload_rfe. answers. Qed.

Lemma answers_reload_strat (issue_key : string) (pat : option string) (strat_data : dict) :
  answers_once (reload_strat issue_key pat strat_data).
Proof. unfold reload_strat. answers. Qed.

Lemma stops_fetch_tasks_for_epic (epic_key : json) (jira_pat : option string) :
  stops_at_failure task_search (fetch_tasks_for_epic epic_key jira_pat).
Proof. apply stops_excused. intros E q Hq. now exists epic_key, jira_pat. Qed.

Lemma stops_fetch_strats_for_rfe (excused : environ -> request -> Prop) (rfe_key : json)
    (jira_pat : option string) :
  stops_at_failure excused (fetch_strats_for_rfe rfe_key jira_pat).
Proof. unfold fetch_strats_for_rfe. stops. Qed.

Lemma stops_fetch_epics_for_strat (excused : environ -> request -> Prop) (strat_key : json)
    (jira_pat : option string) :
  stops_at_failure excused (fetch_epics_for_strat strat_key jira_pat).
Proof. unfold fetch_epics_for_strat. stops. Qed.

Ltac stops_reload_step :=
  lazymatch goal with
  | |- stops_at_failure _ (fetch_rfes _ _) => apply stops_fetch_rfes
  | |- stops_at_failure _ (fetch_strats_for_rfe _ _) => apply stops_fetch_strats_for_rfe
  | |- stops_at_failure _ (fetch_epics_for_strat _ _) => apply stops_fetch_epics_for_strat
  | |- stops_at_failure _ (fetch_tasks_for_epic _ _) => apply stops_fetch_tasks_for_epic
  | |- _ => stops_step
  end.

Ltac stops_reload := repeat (cbv beta zeta; stops_reload_step).

Lemma stops_reload_rfe (issue_key : string) (pat : option string) (rfe : dict) :
  stops_at_failure task_search (reload_rfe issue_key pat rfe).
Proof. unfold reload_rfe. stops_reload. Qed.

Lemma stops_reload_strat (issue_key : string) (pat : option string) (strat_data : dict) :
  stops_at_failure task_search (reload_strat issue_key pat strat_data).
Proof. unfold reload_strat. stops_reload. Qed.

(** A handler body under [try: ... except Exception as e: send_json(...,
    500)]. *)
Lemma guarded_reply (excused : environ -> request -> Prop) (c : M unit)
    (reply : exn -> json) (E : environ) :
  answers_once c -> stops_at_failure excused c ->
  (exists status data,
     wfile (snd (try_except c (fun e => send_json (reply e) 500) E)) =
       [Json status data]) /\
  (forall log1 q log2,
     http_log (snd (try_except c (fun e => send_json (reply e) 500) E)) =
       log1 ++ q :: log2 ->
     status_code (remote E q) <> 200%Z -> ~ excused E q ->
     log2 = [] /\
     exists e, wfile (snd (try_except c (fun e => send_json (reply e) 500) E)) =
                 [Json 500 (reply e)]).
Proof.
  intros Hans Hstops. specialize (Hans E). specialize (Hstops E).
  unfold try_except. destruct (c E) as [[[]|e] t]; cbn [fst snd] in *.
  - split; [exact Hans|]. intros log1 q log2 Hlog Hq Hex.
    destruct (Hstops _ _ _ Hlog Hq Hex) as (_ & e & He). discriminate He.
  - unfold send_json, write, tapp. cbn [fst snd wfile http_log].
    rewrite Hans, app_nil_r. cbn [app]. split; [eauto|].
    intros log1 q log2 Hlog Hq Hex.
    destruct (Hstops _ _ _ Hlog Hq Hex) as (Hlog2 & _). eauto.
Qed.

Lemma fetch_tasks_for_epic_returns (epic_key : json) (jira_pat : option string)
    (E : environ) :
  exists tasks,
    fst (fetch_tasks_for_epic epic_key jira_pat E) = Returned tasks /\
    (forall q, In q (http_log (snd (fetch_tasks_for_epic epic_key jira_pat E))) ->
               status_code (remote E q) <> 200%Z -> tasks = []).
Proof.
  unfold fetch_tasks_for_epic. rewrite bind_run. cbn [ask fst snd]. rewrite tapp_quiet_l.
  match goal with |- context [try_except ?c ?h] => set (body := c) end.
  assert (stops_at_failure none_excused body) as Hstops by (subst body; stops).
  specialize (Hstops E). unfold try_except.
  destruct (body E) as [[tasks|e] t]; cbn [fst snd ret] in *.
  - exists tasks. split; [reflexivity|]. intros q Hq Hstatus.
    apply in_split in Hq as (log1 & log2 & Hlog).
    destruct (Hstops _ _ _ Hlog Hstatus) as (_ & e & He); [intros []|discriminate He].
  - exists []. split; reflexivity.
Qed.

(** C4 (as the code has it). A streamed flow: once the store answers a
    request with a failure, no further request is sent, the flow has raised,
    and the stream is what the flow had written followed by one [error] event
    carrying the exception's text; no [error] and no [complete] event
    precedes it. A reload writes exactly one payload; once the store answers
    with a failure a request other than a Task search of
    [fetch_tasks_for_epic], no further request is sent and the payload is
    the 500 error. A Task search of [fetch_tasks_for_epic] that fails is not
    propagated: the function returns the empty list. *)
Theorem failure_ends_flow_with_one_error :
  (forall pat component top_level E log1 q log2,
     http_log (snd (serve_hierarchy_stream pat component top_level E)) =
       log1 ++ q :: log2 ->
     status_code (remote E q) <> 200%Z ->
     log2 = [] /\
     exists pat' e,
       let run := stream_hierarchy pat' (or_default component "AI Safety")
                    (or_default top_level "rfe") E in
       fst run = Raised e /\
       wfile (snd (serve_hierarchy_stream pat component top_level E)) =
         StreamHead :: wfile (snd run) ++
                       [Sse "error" (JObj [("error", JStr (exn_str e))])] /\
       events_of "error" (wfile (snd run)) = [] /\
       events_of "complete" (wfile (snd run)) = []) /\
  (forall issue_key item_type pat component E,
     (exists status data,
        wfile (snd (reload_item issue_key item_type pat component E)) =
          [Json status data]) /\
     (forall log1 q log2,
        http_log (snd (reload_item issue_key item_type pat component E)) =
          log1 ++ q :: log2 ->
        status_code (remote E q) <> 200%Z -> ~ task_search E q ->
        log2 = [] /\
        exists e,
          wfile (snd (reload_item issue_key item_type pat component E)) =
            [Json 500 (JObj [("error", JStr (exn_str e))])])) /\
  (forall epic_key jira_pat E,
     exists tasks,
       fst (fetch_tasks_for_epic epic_key jira_pat E) = Returned tasks /\
       (forall q, In q (http_log (snd (fetch_tasks_for_epic epic_key jira_pat E))) ->
                  status_code (remote E q) <> 200%Z -> tasks = [])).
Proof.
  split; [|split].
  - intros pat component top_level E log1 q log2 Hlog Hq.
    destruct (serve_hierarchy_stream_run pat component top_level E)
      as [[data Hrun] | [pat' Hrun]].
    { rewrite Hrun in Hlog. now destruct log1. }
    cbv zeta in Hrun. rewrite Hrun in Hlog |- *. cbn [http_log wfile] in Hlog |- *.
    destruct (stops_stream_hierarchy pat' (or_default component "AI Safety")
                (or_default top_level "rfe") E _ _ _ Hlog Hq) as (Hlog2 & e & He);
      [intros []|].
    split; [exact Hlog2|]. exists pat', e. cbv zeta.
    split; [exact He|]. rewrite He. split; [reflexivity|].
    pose proof (stream_hierarchy_anatomy pat' (or_default component "AI Safety")
                  (or_default top_level "rfe") E) as Hana.
    rewrite He in Hana.
    destruct Hana as (lv1 & lv2 & lv3 & lv4 & tail & Hw & _ & H1 & H2 & H3 & H4 & _ &
                      _ & _ & _ & _ & _ & _ & _ & Hraised & _).
    rewrite (Hraised e eq_refl) in Hw.
    split.
    + rewrite (anatomy_events E _ lv1 lv2 lv3 lv4 [] _ _ _ _ "error" Hw H1 H2 H3 H4)
        by reflexivity.
      reflexivity.
    + rewrite (anatomy_events E _ lv1 lv2 lv3 lv4 [] _ _ _ _ "complete" Hw H1 H2 H3 H4)
        by reflexivity.
      reflexivity.
  - intros issue_key item_type pat component E. unfold reload_item.
    apply (guarded_reply task_search _
             (fun e => JObj [("error", JStr (exn_str e))])).
    + repeat (cbv beta zeta;
              lazymatch goal with
              | |- answers_once (reload_rfe _ _ _) => apply answers_reload_rfe
              | |- answers_once (reload_strat _ _ _) => apply answers_reload_strat
              | |- _ => answers_step
              end).
    + repeat (cbv beta zeta;
              lazymatch goal with
              | |- stops_at_failure _ (reload_rfe _ _ _) => apply stops_reload_rfe
              | |- stops_at_failure _ (reload_strat _ _ _) => apply stops_reload_strat
              | |- _ => stops_reload_step
              end).
  - apply fetch_tasks_for_epic_returns.
Qed.

Lemma failure_ends_flow_with_one_error_witness :
  exists pat' e,
    fst (stream_hierarchy pat' "AI Safety" "rfe" (environ_of tasks_down_store)) =
      Raised e /\
    wfile (snd (serve_hierarchy_stream (Some "token") None (Some "rfe")
                  (environ_of tasks_down_store))) =
      StreamHead ::
      wfile (snd (stream_hierarchy pat' "AI Safety" "rfe" (environ_of tasks_down_store)))
      ++ [Sse "error" (JObj [("error", JStr (exn_str e))])].
Proof.
  destruct failure_ends_flow_with_one_error as (Hstream & _).
  set (run := serve_hierarchy_stream (Some "token") None (Some "rfe")
                (environ_of tasks_down_store)).
  assert (http_log (snd run) =
          firstn 3 (http_log (snd run)) ++
          nth 3 (http_log (snd run)) (GET "" [] []) :: []) as Hlog
    by (vm_compute; reflexivity).
  assert (status_code (remote (environ_of tasks_down_store)
                         (nth 3 (http_log (snd run)) (GET "" [] []))) <> 200%Z) as Hq
    by (vm_compute; discriminate).
  destruct (Hstream (Some "token") None (Some "rfe") (environ_of tasks_down_store)
              _ _ _ Hlog Hq) as (_ & pat' & e & He & Hout & _).
  exists pat', e. split; [exact He | exact Hout].
Defined.

(** Against C4 as worded. Reloading an Epic of the example store while
    the Task searches fail: the second request is answered with status 500,
    and the reload answers 200 with a success payload whose task list is
    empty. *)
Lemma reload_swallows_task_search_failure :
  exists data,
    map (fun q => status_code (tasks_down_store q))
      (http_log (snd (reload_item (Some "RHOAIENG-1") (Some "epic") (Some "token") None
                        (environ_of tasks_down_store)))) = [200%Z; 500%Z] /\
    wfile (snd (reload_item (Some "RHOAIENG-1") (Some "epic") (Some "token") None
                  (environ_of tasks_down_store))) =
      [Json 200 (JObj [("success", JBool true); ("data", JObj data)])] /\
    dict_get "tasks" data = Some (JArr []).
Proof.
  eexists. split; [vm_compute; reflexivity|].
  split; vm_compute; reflexivity.
Qed.

(** * Further properties of the code *)

(** ** The credential *)

Lemma get_jira_pat_override (override_pat : option string) (E : environ) (p : string) :
  override_pat = Some p -> p <> "" -> get_jira_pat override_pat E = (Returned p, quiet).
Proof.
  intros -> Hp. unfold get_jira_pat. rewrite bind_run. cbn [ask fst snd truthy_str].
  destruct (String.eqb_spec p "") as [|_]; [contradiction|]. cbn [negb].
  destruct (String.eqb_spec p "") as [|_]; [contradiction|]. reflexivity.
Qed.

Lemma get_jira_pat_environment (override_pat : option string) (E : environ) (p : string) :
  truthy_str override_pat = false -> JIRA_PAT E = Some p -> p <> "" ->
  get_jira_pat override_pat E = (Returned p, quiet).
Proof.
  intros Hover Henv Hp. unfold get_jira_pat. rewrite bind_run. cbn [ask fst snd].
  rewrite Hover, Henv.
  destruct (String.eqb_spec p "") as [|_]; [contradiction|]. reflexivity.
Qed.

Lemma get_jira_pat_none (override_pat : option string) (E : environ) :
  no_credential override_pat E ->
  get_jira_pat override_pat E = (Raised (ValueError no_pat_message), quiet).
Proof.
  intros [Hover Henv]. unfold get_jira_pat. rewrite bind_run. cbn [ask fst snd].
  rewrite Hover. destruct (JIRA_PAT E) as [p|]; [|reflexivity].
  cbn [truthy_str] in Henv. rewrite Henv. reflexivity.
Qed.

(** X1. [get_jira_pat] touches neither the store nor the client. It returns
    the override when that is a non-empty string; with no override, or an
    empty one, the environment's token when that is non-empty; and raises
    the configuration [ValueError] when neither is. *)
Theorem get_jira_pat_precedence (override_pat : option string) (E : environ) :
  snd (get_jira_pat override_pat E) = quiet /\
  (forall p, override_pat = Some p -> p <> "" ->
             fst (get_jira_pat override_pat E) = Returned p) /\
  (truthy_str override_pat = false ->
   forall p, JIRA_PAT E = Some p -> p <> "" ->
             fst (get_jira_pat override_pat E) = Returned p) /\
  (no_credential override_pat E ->
   fst (get_jira_pat override_pat E) = Raised (ValueError no_pat_message)).
Proof.
  split; [apply get_jira_pat_quiet|]. split; [|split].
  - intros p Hover Hp. now rewrite (get_jira_pat_override _ E p Hover Hp).
  - intros Hover p Henv Hp. now rewrite (get_jira_pat_environment _ E p Hover Henv Hp).
  - intros Hnone. now rewrite (get_jira_pat_none _ E Hnone).
Qed.

Lemma get_jira_pat_precedence_witness :
  fst (get_jira_pat (Some "") (token_environ down_store)) = Returned "from-env" /\
  fst (get_jira_pat (Some "") (environ_of down_store)) = Raised (ValueError no_pat_message).
Proof.
  split.
  - refine (proj1 (proj2 (proj2 (get_jira_pat_precedence (Some "")
                                     (token_environ down_store)))) eq_refl
              "from-env" eq_refl _).
    discriminate.
  - refine (proj2 (proj2 (proj2 (get_jira_pat_precedence (Some "")
                                   (environ_of down_store)))) _).
    split; reflexivity.
Defined.

(** X2. Without a usable credential no operation of the client contacts the
    store: the search, the issue read, the label update, the issue update
    and the transitions listing each raise the configuration error before
    any request. *)
Theorem no_credential_no_request (jira_pat : option string) (E : environ) :
  no_credential jira_pat E ->
  (forall jql fields,
     run_jira_query jql fields jira_pat E = (Raised (ValueError no_pat_message), quiet)) /\
  (forall issue_key fields,
     get_jira_issue issue_key fields jira_pat E =
       (Raised (ValueError no_pat_message), quiet)) /\
  (forall issue_key action label,
     update_jira_labels issue_key action label jira_pat E =
       (Raised (ValueError no_pat_message), quiet)) /\
  (forall issue_key fields,
     update_jira_issue issue_key fields jira_pat E =
       (Raised (ValueError no_pat_message), quiet)) /\
  (forall issue_key,
     get_jira_transitions issue_key jira_pat E =
       (Raised (ValueError no_pat_message), quiet)).
Proof.
  intros Hnone. pose proof (get_jira_pat_none jira_pat E Hnone) as Hpat.
  repeat split; intros.
  - unfold run_jira_query. now rewrite bind_run, Hpat.
  - unfold get_jira_issue. now rewrite bind_run, Hpat.
  - unfold update_jira_labels. now rewrite bind_run, Hpat.
  - unfold update_jira_issue. now rewrite bind_run, Hpat.
  - unfold get_jira_transitions. now rewrite bind_run, Hpat.
Qed.

Lemma no_credential_no_request_witness :
  update_jira_labels "RHOAIENG-1" "add" "safety" None (environ_of label_store) =
    (Raised (ValueError no_pat_message), quiet).
Proof.
  assert (no_credential None (environ_of label_store)) as Hnone by (split; reflexivity).
  destruct (no_credential_no_request None (environ_of label_store) Hnone)
    as (_ & _ & Hlabels & _).
  apply Hlabels.
Defined.

(** ** The search adapter's answers *)

Lemma substring_length (m : nat) (s : string) : (String.length (substring 0 m s) <= m)%nat.
Proof.
  revert s. induction m as [|m IH]; intros s.
  - destruct s; cbn; lia.
  - destruct s as [|c s]; cbn; [lia|]. specialize (IH s). lia.
Qed.

Lemma substring_prefix (m : nat) (s : string) : prefix (substring 0 m s) s = true.
Proof.
  revert s. induction m as [|m IH]; intros s.
  - destruct s; reflexivity.
  - destruct s as [|c s]; cbn; [reflexivity|].
    destruct (ascii_dec c c) as [_|Hc]; [apply IH | now elim Hc].
Qed.

Lemma substring_all (m : nat) (s : string) :
  (String.length s <= m)%nat -> substring 0 m s = s.
Proof.
  revert s. induction m as [|m IH]; intros s Hs.
  - destruct s; cbn in *; [reflexivity | lia].
  - destruct s as [|c s]; cbn in *; [reflexivity|]. rewrite IH; [reflexivity | lia].
Qed.

Lemma substring_firstn (m : nat) (s : string) :
  list_ascii_of_string (substring 0 m s) = firstn m (list_ascii_of_string s).
Proof.
  revert s. induction m as [|m IH]; intros s.
  - destruct s; reflexivity.
  - destruct s as [|c s]; cbn; [reflexivity|]. now rewrite IH.
Qed.

(** X3. When the store answers the search with a status other than 200,
    [run_jira_query] raises a [ValueError] after that one request; its text
    gives the status, the URL and the response body cut to its first 500
    characters: the characters of the part shown are exactly the first 500
    of the body (all of them when it has no more). *)
Theorem run_jira_query_failure (jql fields : string) (jira_pat : option string)
    (E : environ) (pat : string) :
  get_jira_pat jira_pat E = (Returned pat, quiet) ->
  status_code (remote E (search_of E pat jql fields)) <> 200%Z ->
  exists body,
    run_jira_query jql fields jira_pat E =
      (Raised (ValueError (fstr [
         "JIRA API error: ";
         str_of_Z (status_code (remote E (search_of E pat jql fields))); nl;
         "URL: "; fstr [JIRA_BASE_URL E; "/rest/api/2/search"]; nl;
         "Response: "; body])),
       {| wfile := []; http_log := [search_of E pat jql fields] |}) /\
    prefix body (text (remote E (search_of E pat jql fields))) = true /\
    (String.length body <= 500)%nat /\
    ((String.length (text (remote E (search_of E pat jql fields))) <= 500)%nat ->
     body = text (remote E (search_of E pat jql fields))) /\
    list_ascii_of_string body =
      firstn 500 (list_ascii_of_string (text (remote E (search_of E pat jql fields)))).
Proof.
  intros Hpat Hstatus.
  destruct (run_jira_query_run jql fields jira_pat E pat Hpat) as [Ht Hr].
  fold (search_of E pat jql fields) in Ht, Hr.
  exists (substring 0 500 (text (remote E (search_of E pat jql fields)))).
  split; [|split; [apply substring_prefix | split; [apply substring_length |
             split; [apply substring_all | apply substring_firstn]]]].
  destruct (run_jira_query jql fields jira_pat E) as [r t]. cbn [fst snd] in *.
  subst t. f_equal. rewrite Hr.
  destruct (Z.eqb_spec (status_code (remote E (search_of E pat jql fields))) 200);
    [contradiction | reflexivity].
Qed.

Lemma run_jira_query_failure_witness :
  exists body,
    fst (run_jira_query "project = RHAIRFE" "summary" (Some "token")
           (environ_of down_store)) =
      Raised (ValueError (fstr ["JIRA API error: "; "503"; nl;
                                "URL: "; "https://issues.example/rest/api/2/search"; nl;
                                "Response: "; body])) /\
    (String.length body <= 500)%nat.
Proof.
  assert (get_jira_pat (Some "token") (environ_of down_store) = (Returned "token", quiet))
    as Hpat by reflexivity.
  assert (status_code (remote (environ_of down_store)
                         (search_of (environ_of down_store) "token" "project = RHAIRFE"
                            "summary")) <> 200%Z) as Hstatus by discriminate.
  destruct (run_jira_query_failure "project = RHAIRFE" "summary" (Some "token")
              (environ_of down_store) "token" Hpat Hstatus)
    as (body & Hrun & _ & Hlen & _).
  exists body. split; [|exact Hlen]. rewrite Hrun. reflexivity.
Defined.

(** X4. When the store answers the search with status 200,
    [run_jira_query] returns the [issues] member of the body as it is; a body
    that is an object without that member gives [KeyError('issues')], a
    body that is no object the interpreter's [TypeError] for a subscript
    by name on a value of its type. *)
Theorem run_jira_query_success (jql fields : string) (jira_pat : option string)
    (E : environ) (pat : string) :
  get_jira_pat jira_pat E = (Returned pat, quiet) ->
  status_code (remote E (search_of E pat jql fields)) = 200%Z ->
  let body := json_body (remote E (search_of E pat jql fields)) in
  (forall members v,
     body = JObj members -> dict_get "issues" members = Some v ->
     fst (run_jira_query jql fields jira_pat E) = Returned v) /\
  (forall members,
     body = JObj members -> dict_get "issues" members = None ->
     fst (run_jira_query jql fields jira_pat E) = Raised (KeyError "issues")) /\
  ((forall members, body <> JObj members) ->
   fst (run_jira_query jql fields jira_pat E) = Raised (no_str_subscript body)).
Proof.
  intros Hpat Hstatus body.
  destruct (run_jira_query_run jql fields jira_pat E pat Hpat) as [_ Hr].
  fold (search_of E pat jql fields) in Hr. rewrite Hstatus in Hr. cbn in Hr.
  fold body in Hr. rewrite Hr. clear Hr.
  split; [|split].
  - intros members v -> Hv. cbn. now rewrite Hv.
  - intros members -> Hv. cbn. now rewrite Hv.
  - intros Hbody. destruct body; try reflexivity. now elim (Hbody members).
Qed.

Lemma run_jira_query_success_witness :
  fst (run_jira_query "project = RHAIRFE" "summary" (Some "token")
         (environ_of transitions_store)) = Raised (KeyError "issues").
Proof.
  assert (get_jira_pat (Some "token") (environ_of transitions_store) =
          (Returned "token", quiet)) as Hpat by reflexivity.
  refine (proj1 (proj2 (run_jira_query_success "project = RHAIRFE" "summary" (Some "token")
                          (environ_of transitions_store) "token" Hpat eq_refl))
            _ eq_refl eq_refl).
Defined.

(** ** Label updates *)

Lemma get_jira_issue_run (issue_key fields : string) (jira_pat : option string)
    (E : environ) (pat : string) :
  get_jira_pat jira_pat E = (Returned pat, quiet) ->
  let request :=
    GET (fstr [JIRA_BASE_URL E; "/rest/api/2/issue/"; issue_key; "?fields="; fields])
        [("Authorization", fstr ["Bearer "; pat]); ("Accept", "application/json")] [] in
  get_jira_issue issue_key fields jira_pat E =
    (if negb (Z.eqb (status_code (remote E request)) 200) then
       Raised (Exception (fstr ["Failed to fetch issue: ";
                                str_of_Z (status_code (remote E request))]))
     else Returned (json_body (remote E request)),
     {| wfile := []; http_log := [request] |}).
Proof.
  intros Hpat request. unfold get_jira_issue.
  rewrite bind_run, Hpat. cbn [fst snd].
  rewrite bind_run. cbn [ask fst snd].
  rewrite bind_run. cbn [http fst snd]. fold request.
  destruct (negb (status_code (remote E request) =? 200)%Z); reflexivity.
Qed.

Lemma update_jira_labels_run (issue_key action label : string) (jira_pat : option string)
    (E : environ) (pat : string) :
  get_jira_pat jira_pat E = (Returned pat, quiet) ->
  update_jira_labels issue_key action label jira_pat E =
    if negb (Z.eqb (status_code (remote E (labels_read E pat issue_key))) 200) then
      (Raised (Exception (fstr ["Failed to fetch issue: ";
                                str_of_Z (status_code
                                            (remote E (labels_read E pat issue_key)))])),
       {| wfile := []; http_log := [labels_read E pat issue_key] |})
    else
      match obind (remote_labels E pat issue_key) (update_labels_list action label) with
      | Raised e => (Raised e, {| wfile := []; http_log := [labels_read E pat issue_key] |})
      | Returned updated =>
          (if negb (Z.eqb (status_code
                             (remote E (labels_write E pat issue_key updated))) 204)
           then Raised (Exception (fstr [
                  "Failed to update labels: ";
                  str_of_Z (status_code (remote E (labels_write E pat issue_key updated)));
                  " - "; text (remote E (labels_write E pat issue_key updated))]))
           else Returned updated,
           {| wfile := [];
              http_log := [labels_read E pat issue_key;
                           labels_write E pat issue_key updated] |})
      end.
Proof.
  intros Hpat. unfold update_jira_labels.
  rewrite bind_run, Hpat. cbn [fst snd].
  rewrite bind_run. cbn [ask fst snd].
  rewrite bind_run, (get_jira_issue_run issue_key "labels" jira_pat E pat Hpat).
  cbv zeta. fold (labels_read E pat issue_key). unfold remote_labels.
  destruct (negb (status_code (remote E (labels_read E pat issue_key)) =? 200)%Z);
    [reflexivity|].
  cbn [fst snd]. rewrite !tapp_quiet_l.
  rewrite bind_lift_run.
  destruct (item (json_body (remote E (labels_read E pat issue_key))) "fields")
    as [fields|e]; [|reflexivity].
  cbn [obind]. unfold tapp. cbn [fst snd wfile http_log app].
  rewrite bind_lift_run.
  destruct (get fields "labels" (JArr [])) as [current|e]; [|reflexivity].
  cbn [obind fst snd]. rewrite bind_lift_run.
  destruct (update_labels_list action label current) as [updated|e]; [|reflexivity].
  rewrite bind_run. cbn [http fst snd]. fold (labels_write E pat issue_key updated).
  unfold tapp. cbn [wfile http_log app].
  destruct (negb (status_code (remote E (labels_write E pat issue_key updated)) =? 204)%Z);
    reflexivity.
Qed.

(** X5. A label update writes nothing to the client and sends at most two
    requests: the read of the issue's labels and, only when that read was
    answered with 200 and the new list could be computed, one write. The
    list it returns is the list it wrote, and it returns one only when the
    store answered the write with 204. *)
Theorem update_jira_labels_protocol (issue_key action label : string)
    (jira_pat : option string) (E : environ) :
  let run := update_jira_labels issue_key action label jira_pat E in
  (exists e, run = (Raised e, quiet)) \/
  (exists pat e,
     run = (Raised e, {| wfile := []; http_log := [labels_read E pat issue_key] |})) \/
  (exists pat updated,
     status_code (remote E (labels_read E pat issue_key)) = 200%Z /\
     snd run = {| wfile := [];
                  http_log := [labels_read E pat issue_key;
                               labels_write E pat issue_key updated] |} /\
     ((status_code (remote E (labels_write E pat issue_key updated)) = 204%Z /\
       fst run = Returned updated) \/
      (status_code (remote E (labels_write E pat issue_key updated)) <> 204%Z /\
       exists message, fst run = Raised (Exception message)))).
Proof.
  intros run. subst run.
  pose proof (get_jira_pat_run jira_pat E) as Hpat.
  destruct (fst (get_jira_pat jira_pat E)) as [pat|e].
  - rewrite (update_jira_labels_run issue_key action label jira_pat E pat Hpat).
    destruct (Z.eqb_spec (status_code (remote E (labels_read E pat issue_key))) 200)
      as [Hread|Hread]; cbn [negb].
    + destruct (obind (remote_labels E pat issue_key) (update_labels_list action label))
        as [updated|e].
      * right. right. exists pat, updated. split; [exact Hread|]. split; [reflexivity|].
        destruct (Z.eqb_spec
                    (status_code (remote E (labels_write E pat issue_key updated))) 204)
          as [Hwrite|Hwrite]; cbn [negb fst]; [left | right]; eauto.
      * right. left. eauto.
    + right. left. eauto.
  - left. exists e. unfold update_jira_labels. now rewrite bind_run, Hpat.
Qed.

Lemma remove_first_absent (label : string) (l : list json) :
  existsb (fun x => eq_str x label) l = false -> remove_first label l = l.
Proof.
  induction l as [|x l IH]; cbn; [reflexivity|].
  destruct (eq_str x label); [discriminate|]. cbn. intros H. now rewrite IH.
Qed.

Lemma remove_first_app (label : string) (l : list json) :
  existsb (fun x => eq_str x label) l = false ->
  remove_first label (l ++ [JStr label]) = l.
Proof.
  induction l as [|x l IH]; cbn.
  - now rewrite String.eqb_refl.
  - destruct (eq_str x label); [discriminate|]. cbn. intros H. now rewrite IH.
Qed.

Lemma remove_first_occurrences (label : string) (l : list json) :
  existsb (fun x => eq_str x label) l = true ->
  occurrences label l = S (occurrences label (remove_first label l)) /\
  others label (remove_first label l) = others label l.
Proof.
  unfold occurrences, others.
  induction l as [|x l IH]; cbn; [discriminate|].
  destruct (eq_str x label) eqn:Hx; cbn.
  - intros _. split; reflexivity.
  - intros H. destruct (IH H) as [IH1 IH2]. cbn. rewrite Hx. cbn.
    split; [exact IH1 | now rewrite IH2].
Qed.

Lemma update_labels_list_other (action label : string) (current : json) :
  action <> "add" -> action <> "remove" ->
  update_labels_list action label current = Returned current.
Proof.
  intros Hadd Hremove. unfold update_labels_list.
  destruct (String.eqb_spec action "add"); [contradiction|].
  destruct (String.eqb_spec action "remove"); [contradiction|]. reflexivity.
Qed.

Lemma remove_first_split (label : string) (l : list json) :
  existsb (fun x => eq_str x label) l = true ->
  exists before after,
    l = before ++ JStr label :: after /\
    existsb (fun x => eq_str x label) before = false /\
    remove_first label l = before ++ after.
Proof.
  induction l as [|x l IH]; cbn [existsb remove_first]; [discriminate|].
  destruct (eq_str x label) eqn:Hx; cbn [orb].
  - intros _. apply eq_str_true in Hx as ->. exists [], l. repeat split.
  - intros H. destruct (IH H) as (before & after & -> & Hb & ->).
    exists (x :: before), after. cbn [existsb app]. rewrite Hx, Hb. repeat split.
Qed.

(** X6. What a label update writes back when the store holds the list [l]:
    [add] of a label that is not in [l] appends it at the end; [remove] of a
    label that is in [l] drops its first occurrence only: [l] is some labels
    other than it, then the label, then the rest, and what is written is
    the former followed by the rest (so its count falls by one and the
    other labels keep their order); any other action writes [l] back as it
    is. *)
Theorem update_jira_labels_effect (issue_key action label : string)
    (jira_pat : option string) (E : environ) (pat : string) (l : list json) :
  get_jira_pat jira_pat E = (Returned pat, quiet) ->
  status_code (remote E (labels_read E pat issue_key)) = 200%Z ->
  remote_labels E pat issue_key = Returned (JArr l) ->
  exists l',
    http_log (snd (update_jira_labels issue_key action label jira_pat E)) =
      [labels_read E pat issue_key; labels_write E pat issue_key (JArr l')] /\
    (action = "add" -> existsb (fun x => eq_str x label) l = false ->
     l' = l ++ [JStr label]) /\
    (action = "remove" -> existsb (fun x => eq_str x label) l = true ->
     occurrences label l = S (occurrences label l') /\ others label l' = others label l /\
     exists before after,
       l = before ++ JStr label :: after /\
       existsb (fun x => eq_str x label) before = false /\
       l' = before ++ after) /\
    (action <> "add" -> action <> "remove" -> l' = l).
Proof.
  intros Hpat Hread Hlabels.
  rewrite (update_jira_labels_run issue_key action label jira_pat E pat Hpat).
  rewrite Hread, Hlabels. cbn [Z.eqb Pos.eqb negb obind].
  assert (exists l', update_labels_list action label (JArr l) = Returned (JArr l') /\
            (action = "add" -> existsb (fun x => eq_str x label) l = false ->
             l' = l ++ [JStr label]) /\
            (action = "remove" -> existsb (fun x => eq_str x label) l = true ->
             occurrences label l = S (occurrences label l') /\
             others label l' = others label l /\
             exists before after,
               l = before ++ JStr label :: after /\
               existsb (fun x => eq_str x label) before = false /\
               l' = before ++ after) /\
            (action <> "add" -> action <> "remove" -> l' = l)) as (l' & Hup & Hl').
  { unfold update_labels_list.
    destruct (String.eqb_spec action "add") as [-> | Hadd].
    - cbn [contains obind].
      destruct (existsb (fun x => eq_str x label) l) eqn:Hin; cbn [negb list_append].
      + exists l. split; [reflexivity|]. repeat split; try discriminate; congruence.
      + exists (l ++ [JStr label]). split; [reflexivity|].
        repeat split; try discriminate; congruence.
    - destruct (String.eqb_spec action "remove") as [-> | Hremove].
      + cbn [contains obind].
        destruct (existsb (fun x => eq_str x label) l) eqn:Hin; cbn [list_remove].
        * exists (remove_first label l). split; [reflexivity|].
          split; [congruence|]. split; [|congruence].
          intros _ _. destruct (remove_first_occurrences label l Hin) as [Hocc Hoth].
          split; [exact Hocc|]. split; [exact Hoth|]. now apply remove_first_split.
        * exists l. split; [reflexivity|].
          split; [congruence|]. split; [discriminate | congruence].
      + exists l. split; [reflexivity|]. repeat split; congruence. }
  exists l'. rewrite Hup. split; [reflexivity | exact Hl'].
Qed.

Lemma update_jira_labels_effect_witness :
  exists l',
    http_log (snd (update_jira_labels "RHOAIENG-1" "remove" "triaged" (Some "token")
                     (environ_of label_store))) =
      [labels_read (environ_of label_store) "token" "RHOAIENG-1";
       labels_write (environ_of label_store) "token" "RHOAIENG-1" (JArr l')] /\
    others "triaged" l' = [JStr "safety"].
Proof.
  destruct (update_jira_labels_effect "RHOAIENG-1" "remove" "triaged" (Some "token")
              (environ_of label_store) "token" [JStr "triaged"; JStr "safety"]
              eq_refl eq_refl eq_refl) as (l' & Hlog & _ & Hremove & _).
  exists l'. split; [exact Hlog|].
  destruct (Hremove eq_refl eq_refl) as (_ & Hothers & _). exact Hothers.
Defined.

(** X7. On a list that does not hold the label, [add] followed by [remove]
    gives the list back. *)
Theorem add_then_remove_restores (label : string) (l : list json) :
  existsb (fun x => eq_str x label) l = false ->
  exists added,
    update_labels_list "add" label (JArr l) = Returned added /\
    update_labels_list "remove" label added = Returned (JArr l).
Proof.
  intros Habsent. exists (JArr (l ++ [JStr label])).
  unfold update_labels_list. cbn [String.eqb Ascii.eqb Bool.eqb contains obind].
  rewrite Habsent. cbn [negb list_append]. split; [reflexivity|].
  rewrite existsb_app, Habsent. cbn [existsb eq_str orb].
  rewrite String.eqb_refl. cbn [list_remove orb].
  now rewrite remove_first_app.
Qed.

Lemma add_then_remove_restores_witness :
  exists added,
    update_labels_list "add" "stale" (JArr [JStr "triaged"; JStr "safety"]) =
      Returned added /\
    update_labels_list "remove" "stale" added =
      Returned (JArr [JStr "triaged"; JStr "safety"]).
Proof. exact (add_then_remove_restores "stale" [JStr "triaged"; JStr "safety"] eq_refl). Defined.

(** ** Issue updates and transitions *)

(** X8. With a credential, [update_jira_issue] sends exactly one request,
    the PUT of [{"fields": fields}] to the issue's URL with the bearer
    token; it returns [True] when the store answers 204 and otherwise raises
    an [Exception] giving the status and the response text. *)
Theorem update_jira_issue_run (issue_key : string) (fields : json)
    (jira_pat : option string) (E : environ) (pat : string) :
  get_jira_pat jira_pat E = (Returned pat, quiet) ->
  snd (update_jira_issue issue_key fields jira_pat E) =
    {| wfile := []; http_log := [issue_write E pat issue_key fields] |} /\
  (status_code (remote E (issue_write E pat issue_key fields)) = 204%Z ->
   fst (update_jira_issue issue_key fields jira_pat E) = Returned true) /\
  (status_code (remote E (issue_write E pat issue_key fields)) <> 204%Z ->
   fst (update_jira_issue issue_key fields jira_pat E) =
     Raised (Exception (fstr [
       "Failed to update issue: ";
       str_of_Z (status_code (remote E (issue_write E pat issue_key fields)));
       " - "; text (remote E (issue_write E pat issue_key fields))]))).
Proof.
  intros Hpat. unfold update_jira_issue.
  rewrite bind_run, Hpat. cbn [fst snd].
  rewrite bind_run. cbn [ask fst snd].
  rewrite bind_run. cbn [http fst snd]. fold (issue_write E pat issue_key fields).
  destruct (Z.eqb_spec (status_code (remote E (issue_write E pat issue_key fields))) 204);
    cbn [negb]; (split; [reflexivity|]); split; intros; (reflexivity || contradiction).
Qed.

Lemma update_jira_issue_run_witness :
  update_jira_issue "RHOAIENG-1" (JObj [("priority", JObj [("name", JStr "Major")])])
    (Some "token") (environ_of frozen_store) =
    (Raised (Exception "Failed to update issue: 403 - read-only"),
     {| wfile := [];
        http_log := [issue_write (environ_of frozen_store) "token" "RHOAIENG-1"
                       (JObj [("priority", JObj [("name", JStr "Major")])])] |}).
Proof.
  destruct (update_jira_issue_run "RHOAIENG-1"
              (JObj [("priority", JObj [("name", JStr "Major")])]) (Some "token")
              (environ_of frozen_store) "token" eq_refl) as (Hlog & _ & Hfail).
  assert (status_code (remote (environ_of frozen_store)
                         (issue_write (environ_of frozen_store) "token" "RHOAIENG-1"
                            (JObj [("priority", JObj [("name", JStr "Major")])]))) <>
          204%Z) as Hstatus by discriminate.
  specialize (Hfail Hstatus).
  destruct (update_jira_issue _ _ _ _) as [r t]. cbn [fst snd] in *.
  now rewrite Hlog, Hfail.
Defined.

Lemma get_jira_transitions_run (issue_key : string) (jira_pat : option string)
    (E : environ) (pat : string) :
  get_jira_pat jira_pat E = (Returned pat, quiet) ->
  get_jira_transitions issue_key jira_pat E =
    (if negb (Z.eqb (status_code (remote E (transitions_read E pat issue_key))) 200) then
       Raised (Exception (fstr [
         "Failed to get transitions: ";
         str_of_Z (status_code (remote E (transitions_read E pat issue_key)));
         " - "; text (remote E (transitions_read E pat issue_key))]))
     else
       let? transitions :=
         get (json_body (remote E (transitions_read E pat issue_key)))
             "transitions" (JArr []) in
       let? items := iter transitions in
       omap (fun t =>
               let? id := item t "id" in
               let? name := item t "name" in
               Returned (JObj [("id", id); ("name", name)]))
            items,
     {| wfile := []; http_log := [transitions_read E pat issue_key] |}).
Proof.
  intros Hpat. unfold get_jira_transitions.
  rewrite bind_run, Hpat. cbn [fst snd].
  rewrite bind_run. cbn [ask fst snd].
  rewrite bind_run. cbn [http fst snd]. fold (transitions_read E pat issue_key).
  destruct (negb (status_code (remote E (transitions_read E pat issue_key)) =? 200)%Z);
    [reflexivity|].
  cbv zeta. rewrite !tapp_quiet_l. rewrite bind_lift_run.
  destruct (get _ "transitions" (JArr [])) as [transitions|e]; [|reflexivity].
  cbn [obind]. rewrite bind_lift_run.
  destruct (iter transitions) as [items|e]; [|reflexivity].
  reflexivity.
Qed.

Lemma omap_transitions (ts : list json) :
  Forall is_transition ts ->
  omap (fun t =>
          let? id := item t "id" in
          let? name := item t "name" in
          Returned (JObj [("id", id); ("name", name)])) ts =
  Returned (map transition_summary ts).
Proof.
  induction 1 as [|t ts (m & id & name & -> & Hid & Hname) _ IH]; [reflexivity|].
  cbn [omap map transition_summary item obind]. unfold dict_item.
  rewrite Hid, Hname. cbn [obind]. now rewrite IH.
Qed.

(** X9. With a credential and the store answering 200,
    [get_jira_transitions] returns, for the transitions listed in the body
    and in their order, the id and the name of each and nothing else of it;
    a body without [transitions] gives the empty list; a listed transition
    that is an object without [id] makes the call raise [KeyError('id')]. *)
Theorem get_jira_transitions_projects (issue_key : string) (jira_pat : option string)
    (E : environ) (pat : string) :
  get_jira_pat jira_pat E = (Returned pat, quiet) ->
  status_code (remote E (transitions_read E pat issue_key)) = 200%Z ->
  let body := json_body (remote E (transitions_read E pat issue_key)) in
  http_log (snd (get_jira_transitions issue_key jira_pat E)) =
    [transitions_read E pat issue_key] /\
  (forall members ts,
     body = JObj members -> dict_get "transitions" members = Some (JArr ts) ->
     Forall is_transition ts ->
     fst (get_jira_transitions issue_key jira_pat E) =
       Returned (map transition_summary ts)) /\
  (forall members,
     body = JObj members -> dict_get "transitions" members = None ->
     fst (get_jira_transitions issue_key jira_pat E) = Returned []) /\
  (forall members before m after,
     body = JObj members ->
     dict_get "transitions" members = Some (JArr (before ++ JObj m :: after)) ->
     Forall is_transition before -> dict_get "id" m = None ->
     fst (get_jira_transitions issue_key jira_pat E) = Raised (KeyError "id")).
Proof.
  intros Hpat Hstatus body.
  rewrite (get_jira_transitions_run issue_key jira_pat E pat Hpat), Hstatus.
  cbn [Z.eqb Pos.eqb negb fst snd http_log]. fold body.
  split; [reflexivity|]. split; [|split].
  - intros members ts -> Hts Hall. cbn [get]. rewrite Hts. cbn [obind iter].
    now apply omap_transitions.
  - intros members -> Hts. cbn [get]. rewrite Hts. reflexivity.
  - intros members before m after -> Hts Hall Hid. cbn [get]. rewrite Hts.
    cbn [obind iter]. clear Hts.
    induction Hall as [|t ts (m' & id & name & -> & Hid' & Hname') _ IH].
    + cbn [app omap item obind]. now rewrite Hid.
    + cbn [app omap item obind]. rewrite Hid', Hname'. cbn [obind].
      now rewrite IH.
Qed.

Lemma get_jira_transitions_projects_witness :
  fst (get_jira_transitions "RHOAIENG-1" (Some "token") (environ_of transitions_store)) =
    Returned [JObj [("id", JStr "11"); ("name", JStr "In Progress")];
              JObj [("id", JStr "21"); ("name", JStr "Closed")]].
Proof.
  refine (proj1 (proj2 (get_jira_transitions_projects "RHOAIENG-1" (Some "token")
                          (environ_of transitions_store) "token" eq_refl eq_refl))
            _ _ eq_refl eq_refl _).
  repeat constructor; do 3 eexists; repeat split; reflexivity.
Defined.

(** ** The transitions endpoint *)

Lemma silent_get_jira_transitions (issue_key : string) (jira_pat : option string) :
  silent (get_jira_transitions issue_key jira_pat).
Proof.
  intros E. pose proof (get_jira_pat_run jira_pat E) as Hpat.
  destruct (fst (get_jira_pat jira_pat E)) as [pat|e].
  - now rewrite (get_jira_transitions_run issue_key jira_pat E pat Hpat).
  - unfold get_jira_transitions. now rewrite bind_run, Hpat.
Qed.

Lemma stops_get_jira_transitions (issue_key : string) (jira_pat : option string) :
  stops_at_failure none_excused (get_jira_transitions issue_key jira_pat).
Proof.
  intros E log1 q log2 Hlog Hq _.
  pose proof (get_jira_pat_run jira_pat E) as Hpat.
  destruct (fst (get_jira_pat jira_pat E)) as [pat|e].
  - rewrite (get_jira_transitions_run issue_key jira_pat E pat Hpat) in Hlog |- *.
    cbn [fst snd http_log] in Hlog |- *.
    destruct log1 as [|x log1]; cbn [app] in Hlog.
    + injection Hlog as <- <-. split; [reflexivity|].
      destruct (Z.eqb_spec (status_code (remote E (transitions_read E pat issue_key))) 200);
        [contradiction | cbn [negb]; eauto].
    + injection Hlog as _ Hlog. now destruct log1.
  - unfold get_jira_transitions in Hlog. rewrite bind_run, Hpat in Hlog.
    now destruct log1.
Qed.

(** X10. The transitions endpoint answers every request with exactly one
    JSON payload. Without an [issue_key] (or with an empty one) the payload
    is the 400 error and the store is not contacted; otherwise at most one
    request is sent, and when the store answers it with a status other than
    200 the payload is the 500 error. *)
Theorem get_transitions_answers (issue_key pat : option string) (E : environ) :
  (exists status data,
     wfile (snd (get_transitions issue_key pat E)) = [Json status data]) /\
  (truthy_str issue_key = false ->
   get_transitions issue_key pat E =
     (Returned tt,
      {| wfile := [Json 400 (JObj [("error", JStr "Missing issue_key parameter")])];
         http_log := [] |})) /\
  (forall log1 q log2,
     http_log (snd (get_transitions issue_key pat E)) = log1 ++ q :: log2 ->
     log1 = [] /\ log2 = [] /\
     (status_code (remote E q) <> 200%Z ->
      exists e, wfile (snd (get_transitions issue_key pat E)) =
                  [Json 500 (JObj [("error", JStr (exn_str e))])])).
Proof.
  assert (answers_once
            (match issue_key with
             | Some issue_key =>
                 if String.eqb issue_key "" then
                   send_json (JObj [("error", JStr "Missing issue_key parameter")]) 400
                 else
                   transitions <- get_jira_transitions issue_key pat ;;
                   send_json (JObj [("success", JBool true);
                                    ("transitions", JArr transitions)]) 200
             | None => send_json (JObj [("error", JStr "Missing issue_key parameter")]) 400
             end)) as Hanswers.
  { destruct issue_key as [k|]; [destruct (String.eqb k "")|];
      try apply answers_send_json.
    apply answers_bind; [apply silent_get_jira_transitions|].
    intros ?. apply answers_send_json. }
  assert (stops_at_failure none_excused
            (match issue_key with
             | Some issue_key =>
                 if String.eqb issue_key "" then
                   send_json (JObj [("error", JStr "Missing issue_key parameter")]) 400
                 else
                   transitions <- get_jira_transitions issue_key pat ;;
                   send_json (JObj [("success", JBool true);
                                    ("transitions", JArr transitions)]) 200
             | None => send_json (JObj [("error", JStr "Missing issue_key parameter")]) 400
             end)) as Hstops.
  { destruct issue_key as [k|]; [destruct (String.eqb k "")|];
      try (apply stops_offline, offline_send_json).
    apply stops_bind; [apply stops_get_jira_transitions|].
    intros ?. apply stops_offline, offline_send_json. }
  destruct (guarded_reply none_excused _ (fun e => JObj [("error", JStr (exn_str e))]) E
              Hanswers Hstops) as [Hone Hfail].
  fold (get_transitions issue_key pat) in Hone, Hfail.
  split; [exact Hone|]. split.
  - intros Hkey. unfold get_transitions, try_except.
    destruct issue_key as [k|]; [|reflexivity].
    cbn [truthy_str] in Hkey. destruct (String.eqb k ""); [reflexivity | discriminate].
  - intros log1 q log2 Hlog.
    assert (log1 = [] /\ log2 = []) as [-> ->].
    { revert Hlog. unfold get_transitions, try_except.
      destruct issue_key as [k|]; [destruct (String.eqb k "")|];
        try (cbn; now destruct log1).
      rewrite bind_run.
      pose proof (get_jira_pat_run pat E) as Hpat.
      destruct (fst (get_jira_pat pat E)) as [p|e].
      - rewrite (get_jira_transitions_run k pat E p Hpat).
        match goal with |- context [if ?b then _ else _] => destruct b end;
          [|match goal with |- context [obind ?c ?k] => destruct (obind c k) end];
          cbn; intros Hlog;
          (destruct log1 as [|x log1]; cbn [app] in Hlog;
           [injection Hlog as _ <-; split; reflexivity
           |injection Hlog as _ Hlog; now destruct log1]).
      - unfold get_jira_transitions. rewrite bind_run, Hpat. cbn.
        intros Hlog. now destruct log1. }
    split; [reflexivity|]. split; [reflexivity|].
    intros Hq. destruct (Hfail [] q [] Hlog Hq) as (_ & e & He); [intros []|].
    eauto.
Qed.

Lemma get_transitions_answers_witness :
  exists e,
    wfile (snd (get_transitions (Some "RHOAIENG-1") (Some "token")
                  (environ_of down_store))) =
      [Json 500 (JObj [("error", JStr (exn_str e))])].
Proof.
  destruct (get_transitions_answers (Some "RHOAIENG-1") (Some "token")
              (environ_of down_store)) as (_ & _ & Hfail).
  assert (http_log (snd (get_transitions (Some "RHOAIENG-1") (Some "token")
                           (environ_of down_store))) =
          [] ++ transitions_read (environ_of down_store) "token" "RHOAIENG-1" :: [])
    as Hlog by reflexivity.
  destruct (Hfail _ _ _ Hlog) as (_ & _ & Herr).
  apply Herr. discriminate.
Defined.

(** ** The normalizer *)

Lemma build_issue_data_inv (x : json) (issue_type : string) (d : dict) :
  build_issue_data x issue_type = Returned d ->
  exists fields assignee reporter key summary status_obj status priority_obj priority
         assignee_name assignee_username reporter_name description labels
         components_items components comment_obj comments_field comments_items comments
         created updated,
    item x "fields" = Returned fields /\
    get fields "assignee" JNull = Returned assignee /\
    get fields "reporter" JNull = Returned reporter /\
    item x "key" = Returned key /\
    get fields "summary" (JStr "No summary") = Returned summary /\
    get fields "status" (JObj []) = Returned status_obj /\
    get status_obj "name" (JStr "Unknown") = Returned status /\
    get fields "priority" (JObj []) = Returned priority_obj /\
    get priority_obj "name" (JStr "Undefined") = Returned priority /\
    (if truthy assignee then get assignee "displayName" (JStr "Unassigned")
     else Returned (JStr "Unassigned")) = Returned assignee_name /\
    (if truthy assignee then get assignee "name" JNull else Returned JNull) =
      Returned assignee_username /\
    (if truthy reporter then get reporter "displayName" (JStr "Unknown")
     else Returned (JStr "Unknown")) = Returned reporter_name /\
    get fields "description" (JStr "") = Returned description /\
    get fields "labels" (JArr []) = Returned labels /\
    (let? components_field := get fields "components" (JArr []) in iter components_field) =
      Returned components_items /\
    omap (fun c => get c "name" (JStr "")) components_items = Returned components /\
    get fields "comment" (JObj []) = Returned comment_obj /\
    get comment_obj "comments" (JArr []) = Returned comments_field /\
    iter comments_field = Returned comments_items /\
    omap (fun c =>
            let? body := get c "body" (JStr "") in
            let? author_obj := get c "author" (JObj []) in
            let? author := get author_obj "displayName" (JStr "Unknown") in
            let? created := get c "created" (JStr "") in
            Returned (JObj [("body", body); ("author", author); ("created", created)]))
         comments_items = Returned comments /\
    get fields "created" (JStr "") = Returned created /\
    get fields "updated" (JStr "") = Returned updated /\
    d = [("key", key); ("summary", summary); ("status", status); ("priority", priority);
         ("assignee", assignee_name); ("assignee_username", assignee_username);
         ("reporter", reporter_name); ("description", description); ("labels", labels);
         ("components", JArr components); ("comments", JArr comments);
         ("created", created); ("updated", updated)].
Proof.
  unfold build_issue_data. intros H.
  apply obind_returned in H as (fields & Hfields & H).
  apply obind_returned in H as (assignee & Hassignee & H).
  apply obind_returned in H as (reporter & Hreporter & H).
  apply obind_returned in H as (key & Hkey & H).
  apply obind_returned in H as (summary & Hsummary & H).
  apply obind_returned in H as (status_obj & Hstatus_obj & H).
  apply obind_returned in H as (status & Hstatus & H).
  apply obind_returned in H as (priority_obj & Hpriority_obj & H).
  apply obind_returned in H as (priority & Hpriority & H).
  apply obind_returned in H as (assignee_name & Haname & H).
  apply obind_returned in H as (assignee_username & Hauser & H).
  apply obind_returned in H as (reporter_name & Hrname & H).
  apply obind_returned in H as (description & Hdescription & H).
  apply obind_returned in H as (labels & Hlabels & H).
  apply obind_returned in H as (components_field & Hcf & H).
  apply obind_returned in H as (components_items & Hci & H).
  apply obind_returned in H as (components & Hcomponents & H).
  apply obind_returned in H as (comment_obj & Hcomment_obj & H).
  apply obind_returned in H as (comments_field & Hcomments_field & H).
  apply obind_returned in H as (comments_items & Hcomments_items & H).
  apply obind_returned in H as (comments & Hcomments & H).
  apply obind_returned in H as (created & Hcreated & H).
  apply obind_returned in H as (updated & Hupdated & H).
  injection H as <-.
  exists fields, assignee, reporter, key, summary, status_obj, status, priority_obj,
    priority, assignee_name, assignee_username, reporter_name, description, labels,
    components_items, components, comment_obj, comments_field, comments_items, comments,
    created, updated.
  rewrite Hcf. cbn [obind].
  repeat (split; [assumption|]). reflexivity.
Qed.

Lemma omap_length {A B : Type} (f : A -> outcome B) (l : list A) (ys : list B) :
  omap f l = Returned ys -> List.length ys = List.length l.
Proof.
  revert ys. induction l as [|x l IH]; intros ys; cbn [omap].
  - now intros [= <-].
  - intros H. apply obind_returned in H as (y & _ & H).
    apply obind_returned in H as (ys' & Hys & [= <-]).
    cbn. now rewrite (IH ys' Hys).
Qed.

Lemma omap_Forall {A B : Type} (f : A -> outcome B) (Q : B -> Prop) (l : list A)
    (ys : list B) :
  (forall x y, f x = Returned y -> Q y) ->
  omap f l = Returned ys -> Forall Q ys.
Proof.
  intros Hf. revert ys. induction l as [|x l IH]; intros ys; cbn [omap].
  - intros [= <-]. constructor.
  - intros H. apply obind_returned in H as (y & Hy & H).
    apply obind_returned in H as (ys' & Hys & [= <-]).
    constructor; [exact (Hf x y Hy) | exact (IH ys' Hys)].
Qed.

Lemma omap_raises {A B : Type} (f : A -> outcome B) (l : list A) (x : A) :
  In x l -> (exists e, f x = Raised e) -> exists e, omap f l = Raised e.
Proof.
  induction l as [|y l IH]; [intros []|]. cbn [omap].
  intros [-> | Hin] Hx.
  - destruct Hx as [e ->]. cbn. eauto.
  - destruct (f y) as [b|e]; cbn; [|eauto].
    destruct (IH Hin Hx) as [e ->]. cbn. eauto.
Qed.

Lemma omap_all {A B : Type} (f : A -> outcome B) (l : list A) :
  Forall (fun x => exists y, f x = Returned y) l -> exists ys, omap f l = Returned ys.
Proof.
  induction 1 as [|x l [y Hy] _ [ys IH]]; cbn [omap]; [eauto|].
  rewrite Hy, IH. cbn. eauto.
Qed.

(** X11. Whenever the normalizer returns, its result has exactly the
    thirteen fields of the dict literal, in that order, whatever the raw
    record holds besides; [key] is the raw record's key, [labels] is the raw
    [labels] value as it is (the empty list when there is none), [components]
    and [comments] are lists, and the issue type given plays no part. *)
Theorem build_issue_data_schema (x : json) (issue_type : string) (d : dict) :
  build_issue_data x issue_type = Returned d ->
  map fst d = issue_keys /\
  dict_get "key" d = Some (raw_key x) /\
  (exists fields,
     item x "fields" = Returned (JObj fields) /\
     dict_get "labels" d = Some (member_or "labels" (JArr []) fields) /\
     dict_get "summary" d = Some (member_or "summary" (JStr "No summary") fields) /\
     dict_get "description" d = Some (member_or "description" (JStr "") fields)) /\
  (exists components comments,
     dict_get "components" d = Some (JArr components) /\
     dict_get "comments" d = Some (JArr comments)) /\
  (forall other_type, build_issue_data x other_type = Returned d).
Proof.
  intros H. pose proof H as Hinv.
  apply build_issue_data_inv in Hinv
    as (fields & assignee & reporter & key & summary & status_obj & status & priority_obj
        & priority & assignee_name & assignee_username & reporter_name & description
        & labels & components_items & components & comment_obj & comments_field
        & comments_items & comments & created & updated
        & Hfields & Hassignee & _ & Hkey & Hsummary & _ & _ & _ & _ & _ & _ & _
        & Hdescription & Hlabels & _ & _ & _ & _ & _ & _ & _ & _ & ->).
  split; [reflexivity|]. split; [unfold raw_key; now rewrite Hkey|].
  split; [|split; [|intros other_type; exact H]].
  - destruct fields as [| | | | |m]; try discriminate Hassignee.
    exists m. split; [exact Hfields|]. unfold member_or. cbn [get] in *.
    destruct (dict_get "labels" m), (dict_get "summary" m), (dict_get "description" m);
      injection Hlabels as <-; injection Hsummary as <-; injection Hdescription as <-;
      repeat split.
  - exists components, comments. split; reflexivity.
Qed.

Lemma build_issue_data_schema_witness :
  exists d,
    build_issue_data unset_priority_record "strat" = Raised (no_attribute JNull "get") /\
    build_issue_data bare_record "strat" = Returned d /\
    map fst d = issue_keys /\
    dict_get "key" d = Some (JStr "RHAISTRAT-7").
Proof.
  assert (exists d, build_issue_data bare_record "strat" = Returned d) as [d Hd]
    by (eexists; reflexivity).
  exists d. split; [reflexivity|]. split; [exact Hd|].
  destruct (build_issue_data_schema bare_record "strat" d Hd) as (Hkeys & Hkey & _).
  split; [exact Hkeys | exact Hkey].
Defined.

(** X12. Whenever the normalizer returns: if the raw [assignee] is missing,
    [null] or an empty object, [assignee] is [Unassigned] and
    [assignee_username] is [null]; if it is a non-empty object, they are
    its [displayName] (or [Unassigned]) and its [name] (or [null]). Likewise
    [reporter] is [Unknown] or the raw reporter's [displayName]. *)
Theorem build_issue_data_people (key : json) (fields d : dict) (issue_type : string) :
  build_issue_data (JObj [("key", key); ("fields", JObj fields)]) issue_type =
    Returned d ->
  (truthy (member_or "assignee" JNull fields) = false ->
   dict_get "assignee" d = Some (JStr "Unassigned") /\
   dict_get "assignee_username" d = Some JNull) /\
  (forall m, dict_get "assignee" fields = Some (JObj m) -> m <> [] ->
   dict_get "assignee" d = Some (member_or "displayName" (JStr "Unassigned") m) /\
   dict_get "assignee_username" d = Some (member_or "name" JNull m)) /\
  (truthy (member_or "reporter" JNull fields) = false ->
   dict_get "reporter" d = Some (JStr "Unknown")) /\
  (forall m, dict_get "reporter" fields = Some (JObj m) -> m <> [] ->
   dict_get "reporter" d = Some (member_or "displayName" (JStr "Unknown") m)).
Proof.
  intros H.
  apply build_issue_data_inv in H
    as (fields' & assignee & reporter & key' & summary & status_obj & status & priority_obj
        & priority & assignee_name & assignee_username & reporter_name & description
        & labels & components_items & components & comment_obj & comments_field
        & comments_items & comments & created & updated
        & Hfields & Hassignee & Hreporter & _ & _ & _ & _ & _ & _ & Haname & Hauser
        & Hrname & _ & _ & _ & _ & _ & _ & _ & _ & _ & _ & ->).
  cbn in Hfields. injection Hfields as <-.
  assert (assignee = member_or "assignee" JNull fields) as ->.
  { unfold member_or. cbn [get] in Hassignee.
    destruct (dict_get "assignee" fields); now injection Hassignee. }
  assert (reporter = member_or "reporter" JNull fields) as ->.
  { unfold member_or. cbn [get] in Hreporter.
    destruct (dict_get "reporter" fields); now injection Hreporter. }
  cbn [dict_get String.eqb Ascii.eqb Bool.eqb].
  split; [|split; [|split]].
  - intros Hfalsy. rewrite Hfalsy in Haname, Hauser.
    injection Haname as <-. injection Hauser as <-. split; reflexivity.
  - intros m Hm Hne.
    assert (member_or "assignee" JNull fields = JObj m) as Hobj
      by (unfold member_or; now rewrite Hm).
    rewrite Hobj in Haname, Hauser.
    assert (truthy (JObj m) = true) as Ht by (destruct m; [contradiction | reflexivity]).
    rewrite Ht in Haname, Hauser. cbn [get] in Haname, Hauser. unfold member_or.
    destruct (dict_get "displayName" m), (dict_get "name" m);
      injection Haname as <-; injection Hauser as <-; split; reflexivity.
  - intros Hfalsy. rewrite Hfalsy in Hrname. now injection Hrname as <-.
  - intros m Hm Hne.
    assert (member_or "reporter" JNull fields = JObj m) as Hobj
      by (unfold member_or; now rewrite Hm).
    rewrite Hobj in Hrname.
    assert (truthy (JObj m) = true) as Ht by (destruct m; [contradiction | reflexivity]).
    rewrite Ht in Hrname. cbn [get] in Hrname. unfold member_or.
    destruct (dict_get "displayName" m); now injection Hrname as <-.
Qed.

Lemma build_issue_data_people_witness :
  exists d,
    build_issue_data assigned_record "epic" = Returned d /\
    dict_get "assignee" d = Some (JStr "Unassigned") /\
    dict_get "assignee_username" d = Some (JStr "rgeada") /\
    dict_get "reporter" d = Some (JStr "Unknown").
Proof.
  assert (exists d, build_issue_data assigned_record "epic" = Returned d) as [d Hd]
    by (eexists; reflexivity).
  exists d. split; [exact Hd|].
  destruct (build_issue_data_people _ _ d "epic" Hd) as (_ & Hassignee & Hreporter & _).
  destruct (Hassignee [("name", JStr "rgeada")] eq_refl) as [Hname Huser];
    [discriminate|].
  split; [exact Hname|]. split; [exact Huser|].
  exact (Hreporter eq_refl).
Defined.

(** X13. Whenever the normalizer returns for a record whose comments are a
    list, the result has one comment for each raw comment, in the same
    order; each keeps nothing but [body], [author] and [created], which are
    the raw comment's body (or the empty string), its author's
    [displayName] (or [Unknown]) and its [created] (or the empty string). *)
Theorem build_issue_data_comments (key : json) (fields d comment : dict)
    (raw_comments : list json) (issue_type : string) :
  build_issue_data (JObj [("key", key); ("fields", JObj fields)]) issue_type =
    Returned d ->
  dict_get "comment" fields = Some (JObj comment) ->
  dict_get "comments" comment = Some (JArr raw_comments) ->
  exists comments,
    dict_get "comments" d = Some (JArr comments) /\
    List.length comments = List.length raw_comments /\
    Forall is_comment_summary comments /\
    (forall n c, nth_error raw_comments n = Some (JObj c) ->
       exists author,
         get (member_or "author" (JObj []) c) "displayName" (JStr "Unknown") =
           Returned author /\
         nth_error comments n =
           Some (JObj [("body", member_or "body" (JStr "") c); ("author", author);
                       ("created", member_or "created" (JStr "") c)])).
Proof.
  intros H Hcomment Hraw.
  apply build_issue_data_inv in H
    as (fields' & assignee & reporter & key' & summary & status_obj & status & priority_obj
        & priority & assignee_name & assignee_username & reporter_name & description
        & labels & components_items & components & comment_obj & comments_field
        & comments_items & comments & created & updated
        & Hfields & _ & _ & _ & _ & _ & _ & _ & _ & _ & _ & _ & _ & _ & _ & _
        & Hcomment_obj & Hcomments_field & Hitems & Hcomments & _ & _ & ->).
  cbn in Hfields. injection Hfields as <-.
  cbn [get] in Hcomment_obj. rewrite Hcomment in Hcomment_obj.
  injection Hcomment_obj as <-.
  cbn [get] in Hcomments_field. rewrite Hraw in Hcomments_field.
  injection Hcomments_field as <-. cbn [iter] in Hitems. injection Hitems as <-.
  exists comments. split; [reflexivity|].
  split; [exact (omap_length _ _ _ Hcomments)|]. split.
  - refine (omap_Forall _ _ _ _ _ Hcomments). intros c y Hy.
    apply obind_returned in Hy as (body & _ & Hy).
    apply obind_returned in Hy as (author_obj & _ & Hy).
    apply obind_returned in Hy as (author & _ & Hy).
    apply obind_returned in Hy as (created' & _ & [= <-]).
    now exists body, author, created'.
  - clear Hraw Hcomment. revert comments Hcomments.
    induction raw_comments as [|c0 cs IH]; intros comments Hcomments n c Hn.
    + now destruct n.
    + cbn [omap] in Hcomments.
      apply obind_returned in Hcomments as (y & Hy & Hcomments).
      apply obind_returned in Hcomments as (ys & Hys & [= <-]).
      destruct n as [|n]; cbn [nth_error] in Hn |- *.
      * injection Hn as ->.
        apply obind_returned in Hy as (body & Hbody & Hy).
        apply obind_returned in Hy as (author_obj & Hobj & Hy).
        apply obind_returned in Hy as (author & Hauthor & Hy).
        apply obind_returned in Hy as (created' & Hcreated & [= <-]).
        exists author. unfold member_or. cbn [get] in Hbody, Hobj, Hcreated.
        destruct (dict_get "body" c), (dict_get "author" c), (dict_get "created" c);
          injection Hbody as <-; injection Hobj as <-; injection Hcreated as <-;
          (split; [exact Hauthor | reflexivity]).
      * exact (IH ys Hys n c Hn).
Qed.

Lemma build_issue_data_comments_witness :
  exists d,
    build_issue_data assigned_record "epic" = Returned d /\
    dict_get "comments" d =
      Some (JArr [JObj [("body", JStr "Looks good"); ("author", JStr "Unknown");
                        ("created", JStr "")]]).
Proof.
  assert (exists d, build_issue_data assigned_record "epic" = Returned d) as [d Hd]
    by (eexists; reflexivity).
  exists d. split; [exact Hd|].
  destruct (build_issue_data_comments _ _ d _ [JObj [("body", JStr "Looks good")]] "epic"
              Hd eq_refl eq_refl) as (comments & Hget & Hlen & _ & Hnth).
  destruct (Hnth 0%nat _ eq_refl) as (author & Hauthor & Hfirst).
  injection Hauthor as <-.
  destruct comments as [|c [|c' cs]]; try discriminate Hlen.
  cbn in Hfirst. injection Hfirst as ->. exact Hget.
Defined.

(** X14. What makes the normalizer raise on an object: no [fields] member
    gives [KeyError('fields')]; [fields] that is [null] gives
    [AttributeError]; an object [fields] with no [key] on the record gives
    [KeyError('key')]; and with [fields] an object and the key present, a
    [status] that is [null], or (the status being missing or an object) a
    [priority] that is [null], gives [AttributeError]. The
    [AttributeError] is the interpreter's, for [get] on [None]. *)
Theorem build_issue_data_raises (record fields : dict) (issue_type : string) :
  (dict_get "fields" record = None ->
   build_issue_data (JObj record) issue_type = Raised (KeyError "fields")) /\
  (dict_get "fields" record = Some JNull ->
   build_issue_data (JObj record) issue_type = Raised (no_attribute JNull "get")) /\
  (dict_get "fields" record = Some (JObj fields) -> dict_get "key" record = None ->
   build_issue_data (JObj record) issue_type = Raised (KeyError "key")) /\
  (dict_get "fields" record = Some (JObj fields) -> dict_get "key" record <> None ->
   dict_get "status" fields = Some JNull ->
   build_issue_data (JObj record) issue_type = Raised (no_attribute JNull "get")) /\
  (dict_get "fields" record = Some (JObj fields) -> dict_get "key" record <> None ->
   (dict_get "status" fields = None \/ exists m, dict_get "status" fields = Some (JObj m)) ->
   dict_get "priority" fields = Some JNull ->
   build_issue_data (JObj record) issue_type = Raised (no_attribute JNull "get")).
Proof.
  unfold build_issue_data. cbn [item].
  split; [|split; [|split; [|split]]].
  - now intros ->.
  - now intros ->.
  - intros -> ->. cbn [obind].
    destruct (get_object fields "assignee" JNull) as [a ->].
    destruct (get_object fields "reporter" JNull) as [r ->]. reflexivity.
  - intros -> Hkey Hstatus. cbn [obind].
    destruct (get_object fields "assignee" JNull) as [a ->].
    destruct (get_object fields "reporter" JNull) as [r ->]. cbn [obind].
    destruct (dict_get "key" record) as [key|]; [|contradiction]. cbn [obind].
    destruct (get_object fields "summary" (JStr "No summary")) as [s ->]. cbn [obind].
    cbn [get]. rewrite Hstatus. reflexivity.
  - intros -> Hkey Hstatus Hpriority. cbn [obind].
    destruct (get_object fields "assignee" JNull) as [a ->].
    destruct (get_object fields "reporter" JNull) as [r ->]. cbn [obind].
    destruct (dict_get "key" record) as [key|]; [|contradiction]. cbn [obind].
    destruct (get_object fields "summary" (JStr "No summary")) as [s ->]. cbn [obind].
    assert (exists status, (let? o := get (JObj fields) "status" (JObj []) in
                            get o "name" (JStr "Unknown")) = Returned status)
      as [status Hs].
    { unfold get at 1. destruct Hstatus as [-> | [m ->]]; cbn [obind]; apply get_object. }
    apply obind_returned in Hs as (status_obj & Hs1 & Hs2).
    rewrite Hs1. cbn [obind]. rewrite Hs2. cbn [obind].
    cbn [get]. rewrite Hpriority. reflexivity.
Qed.

Lemma build_issue_data_raises_witness :
  build_issue_data (JObj [("key", JStr "RHOAIENG-3")]) "task" = Raised (KeyError "fields") /\
  build_issue_data (JObj [("fields", JObj [("summary", JStr "No key")])]) "task" =
    Raised (KeyError "key") /\
  build_issue_data (raw_issue "RHOAIENG-3" [("priority", JNull)]) "task" =
    Raised (no_attribute JNull "get").
Proof.
  split; [|split].
  - exact (proj1 (build_issue_data_raises [("key", JStr "RHOAIENG-3")] [] "task") eq_refl).
  - exact (proj1 (proj2 (proj2 (build_issue_data_raises
                                  [("fields", JObj [("summary", JStr "No key")])]
                                  [("summary", JStr "No key")] "task")))
             eq_refl eq_refl).
  - refine (proj2 (proj2 (proj2 (proj2 (build_issue_data_raises
                                          [("key", JStr "RHOAIENG-3");
                                           ("fields", JObj [("priority", JNull)])]
                                          [("priority", JNull)] "task"))))
              eq_refl _ (or_introl eq_refl) eq_refl).
    discriminate.
Defined.

(** X15. On a record of the store's shape (an object [status], lists of
    objects for [components] and comments) that leaves [assignee],
    [reporter] and [priority] out, the normalizer returns, with the defaults
    [Unassigned], [Unknown] and [Undefined]; [comments] is a list, empty
    when the record has no [comment], and [labels] is the empty list when
    the record has none. *)
Theorem build_issue_data_defaults (key : string) (fields : dict) (issue_type : string) :
  shaped_fields fields ->
  dict_get "assignee" fields = None ->
  dict_get "reporter" fields = None ->
  dict_get "priority" fields = None ->
  exists d comments,
    build_issue_data (raw_issue key fields) issue_type = Returned d /\
    dict_get "assignee" d = Some (JStr "Unassigned") /\
    dict_get "reporter" d = Some (JStr "Unknown") /\
    dict_get "priority" d = Some (JStr "Undefined") /\
    dict_get "comments" d = Some (JArr comments) /\
    (dict_get "labels" fields = None -> dict_get "labels" d = Some (JArr [])) /\
    (dict_get "comment" fields = None -> comments = []).
Proof. exact (build_issue_data_missing_defaults key fields issue_type). Qed.

Lemma build_issue_data_defaults_witness :
  exists d comments,
    build_issue_data bare_record "strat" = Returned d /\
    dict_get "assignee" d = Some (JStr "Unassigned") /\
    dict_get "reporter" d = Some (JStr "Unknown") /\
    dict_get "priority" d = Some (JStr "Undefined") /\
    dict_get "comments" d = Some (JArr comments).
Proof.
  assert (shaped_fields [("summary", JStr "Guardrails");
                         ("status", JObj [("name", JStr "New")])]) as Hshape.
  { split; [|split].
    - intros v [= <-]. now eexists.
    - intros v Hv. discriminate Hv.
    - intros v Hv. discriminate Hv. }
  destruct (build_issue_data_defaults "RHAISTRAT-7" _ "strat" Hshape
              eq_refl eq_refl eq_refl)
    as (d & comments & Hd & Ha & Hr & Hp & Hc & _).
  exists d, comments. repeat split; assumption.
Defined.

(** ** The fetchers *)

Lemma normalized_fetch_run (jql field_list : string) (jira_pat : option string)
    (issue_type : string) (E : environ) :
  (issues <- run_jira_query jql field_list jira_pat ;;
   items <- lift (iter issues) ;;
   lift (omap (fun x => build_issue_data x issue_type) items)) E =
  (let? issues := fst (run_jira_query jql field_list jira_pat E) in
   let? items := iter issues in
   omap (fun x => build_issue_data x issue_type) items,
   snd (run_jira_query jql field_list jira_pat E)).
Proof.
  rewrite bind_run.
  destruct (run_jira_query jql field_list jira_pat E) as [[issues|e] t]; [|reflexivity].
  cbn [fst snd obind]. rewrite bind_lift_run.
  destruct (iter issues) as [items|e]; cbn [obind fst snd lift];
    now rewrite tapp_quiet_r.
Qed.

Lemma normalized_fetch_contract (jql field_list : string) (jira_pat : option string)
    (issue_type : string) (E : environ) (c : M (list dict)) :
  c E =
    (let? issues := fst (run_jira_query jql field_list jira_pat E) in
     let? items := iter issues in
     omap (fun x => build_issue_data x issue_type) items,
     snd (run_jira_query jql field_list jira_pat E)) ->
  fetch_contract issue_type c E.
Proof.
  intros Hc. unfold fetch_contract. rewrite Hc. clear Hc. cbn [fst snd].
  destruct (run_jira_query_cases jql field_list jira_pat E)
    as [[e He] | (q0 & _ & Ht & Hcases)].
  - rewrite He. cbn [fst snd wfile http_log quiet].
    split; [reflexivity|]. split; [now left|]. split; [intros q [] | intros q l []].
  - rewrite Ht. cbn [wfile http_log].
    split; [reflexivity|]. split; [right; eauto|]. split.
    + intros q [<- | []] Hq.
      destruct Hcases as [[_ [e ->]] | [H200 _]]; [cbn; eauto | contradiction].
    + intros q l [<- | []] (H200 & v & Hv & Hl).
      destruct Hcases as [[Hbad _] | [_ ->]]; [contradiction|].
      rewrite Hv. cbn [obind]. rewrite Hl. cbn [obind].
      split; [|split].
      * intros ds Hds. split; [exact (omap_length _ _ _ Hds)|].
        exact (omap_build_keys _ _ _ Hds).
      * intros Hall. apply omap_all. exact Hall.
      * intros x Hx Hraise. exact (omap_raises _ _ _ Hx Hraise).
Qed.

(** X16. [fetch_rfes], [fetch_strats_for_rfe] and [fetch_epics_for_strat]
    write nothing and send at most one request. When the store answers it
    with a failure they raise. When it answers with a list of records, they
    return one normalized issue for each record, in the store's order and
    with the same keys, provided every record normalizes; a single record
    that does not makes the whole call raise. *)
Theorem fetchers_keep_store_order (jira_pat : option string) (E : environ) :
  (forall component, fetch_contract "rfe" (fetch_rfes component jira_pat) E) /\
  (forall rfe_key, fetch_contract "strat" (fetch_strats_for_rfe rfe_key jira_pat) E) /\
  (forall strat_key, fetch_contract "epic" (fetch_epics_for_strat strat_key jira_pat) E).
Proof.
  split; [|split].
  - intros component. eapply normalized_fetch_contract.
    unfold fetch_rfes. cbv zeta. apply normalized_fetch_run.
  - intros rfe_key. eapply normalized_fetch_contract.
    unfold fetch_strats_for_rfe. rewrite bind_run. cbn [ask fst snd]. cbv zeta.
    rewrite normalized_fetch_run. cbn [fst snd]. now rewrite tapp_quiet_l.
  - intros strat_key. eapply normalized_fetch_contract.
    unfold fetch_epics_for_strat. rewrite bind_run. cbn [ask fst snd]. cbv zeta.
    rewrite normalized_fetch_run. cbn [fst snd]. now rewrite tapp_quiet_l.
Qed.

Lemma fetchers_keep_store_order_witness :
  (exists ds,
     fst (fetch_epics_for_strat (JStr "RHAISTRAT-1") (Some "token")
            (environ_of sample_store)) = Returned ds /\
     map (dict_item "key") ds = [JStr "RHOAIENG-1"; JStr "RHOAIENG-2"]) /\
  exists e,
    fst (fetch_epics_for_strat (JStr "RHAISTRAT-1") (Some "token")
           (environ_of flawed_store)) = Raised e.
Proof.
  split.
  - destruct (fetchers_keep_store_order (Some "token") (environ_of sample_store))
      as (_ & _ & Hepics).
    destruct (Hepics (JStr "RHAISTRAT-1")) as (_ & _ & _ & Hanswer).
    assert (exists q,
              In q (http_log (snd (fetch_epics_for_strat (JStr "RHAISTRAT-1")
                                     (Some "token") (environ_of sample_store)))) /\
              answered (environ_of sample_store) q
                [raw_issue "RHOAIENG-1" [("customfield_12313140", JStr "RHAISTRAT-1")];
                 raw_issue "RHOAIENG-2" [("customfield_12313140", JStr "RHAISTRAT-2")]])
      as (q & Hq & Hanswered).
    { eexists. split; [left; reflexivity|].
      split; [reflexivity|]. eexists. split; reflexivity. }
    destruct (Hanswer q _ Hq Hanswered) as (Hkeys & Hall & _).
    destruct Hall as [ds Hds].
    { repeat constructor; eexists; reflexivity. }
    exists ds. split; [exact Hds|]. exact (proj2 (Hkeys ds Hds)).
  - destruct (fetchers_keep_store_order (Some "token") (environ_of flawed_store))
      as (_ & _ & Hepics).
    destruct (Hepics (JStr "RHAISTRAT-1")) as (_ & _ & _ & Hanswer).
    assert (exists q,
              In q (http_log (snd (fetch_epics_for_strat (JStr "RHAISTRAT-1")
                                     (Some "token") (environ_of flawed_store)))) /\
              answered (environ_of flawed_store) q
                [raw_issue "RHOAIENG-1" [("customfield_12313140", JStr "RHAISTRAT-1")];
                 raw_issue "RHOAIENG-2" [("priority", JNull)]])
      as (q & Hq & Hanswered).
    { eexists. split; [left; reflexivity|].
      split; [reflexivity|]. eexists. split; reflexivity. }
    destruct (Hanswer q _ Hq Hanswered) as (_ & _ & Hraise).
    apply (Hraise (raw_issue "RHOAIENG-2" [("priority", JNull)])).
    + right. left. reflexivity.
    + eexists. reflexivity.
Defined.

(** ** The Task fetcher *)

Lemma task_record_fields (task : json) (d : dict) :
  task_record task = Returned d ->
  dict_item "key" d = raw_key task /\ exists ty, dict_get "issuetype" d = Some ty.
Proof.
  unfold task_record. intros H.
  apply obind_returned in H as (task_data & Hdata & H).
  apply obind_returned in H as (issuetype & _ & [= <-]).
  destruct (build_issue_data_key _ _ _ Hdata) as (Hkey & _).
  split.
  - unfold dict_item. rewrite dict_get_set_other by reflexivity. now rewrite Hkey.
  - exists issuetype. apply dict_get_set_same.
Qed.

Lemma fetch_tasks_for_epic_run (epic_key : json) (jira_pat : option string) (E : environ) :
  fetch_tasks_for_epic epic_key jira_pat E =
    (match (let? issues :=
              fst (run_jira_query (tasks_of_epic_jql E epic_key) task_field_list
                     jira_pat E) in
            let? items := iter issues in
            omap task_record items) with
     | Returned tasks => Returned tasks
     | Raised _ => Returned []
     end,
     snd (run_jira_query (tasks_of_epic_jql E epic_key) task_field_list jira_pat E)).
Proof.
  unfold fetch_tasks_for_epic. rewrite bind_run. cbn [ask fst snd]. cbv zeta.
  fold (tasks_of_epic_jql E epic_key). fold task_record.
  rewrite tapp_quiet_l. unfold try_except. rewrite bind_run.
  destruct (run_jira_query (tasks_of_epic_jql E epic_key) task_field_list jira_pat E)
    as [[issues|e] t]; cbn [fst snd obind ret].
  - rewrite bind_lift_run.
    destruct (iter issues) as [items|e]; cbn [obind fst snd lift ret].
    + destruct (omap task_record items); cbn [fst snd];
        now rewrite ?tapp_quiet_r.
    + now rewrite ?tapp_quiet_r.
  - now rewrite ?tapp_quiet_r.
Qed.

(** X17. [fetch_tasks_for_epic] never raises, writes nothing and sends at
    most one request. When the store answers it with a list of records that
    all normalize, it returns one task for each, in the store's order, with
    the same keys and each with an [issuetype]; when one record does not
    normalize it returns the empty list, as it does for an Epic without
    tasks. *)
Theorem fetch_tasks_for_epic_all_or_nothing (epic_key : json) (jira_pat : option string)
    (E : environ) :
  let run := fetch_tasks_for_epic epic_key jira_pat E in
  (exists tasks, fst run = Returned tasks) /\
  wfile (snd run) = [] /\
  (http_log (snd run) = [] \/ exists q, http_log (snd run) = [q]) /\
  (forall q l, In q (http_log (snd run)) -> answered E q l ->
     (Forall (fun x => exists d, task_record x = Returned d) l ->
      exists tasks,
        fst run = Returned tasks /\
        map (dict_item "key") tasks = map raw_key l /\
        Forall (fun t => exists ty, dict_get "issuetype" t = Some ty) tasks) /\
     (forall x, In x l -> (exists e, task_record x = Raised e) ->
                fst run = Returned [])).
Proof.
  intros run. subst run.
  rewrite (fetch_tasks_for_epic_run epic_key jira_pat E). cbn [fst snd].
  split.
  { match goal with |- context [match ?c with _ => _ end] => destruct c end; eauto. }
  destruct (run_jira_query_cases (tasks_of_epic_jql E epic_key) task_field_list
              jira_pat E)
    as [[e He] | (q0 & _ & Ht & Hcases)].
  - rewrite He. cbn [fst snd wfile http_log quiet obind].
    split; [reflexivity|]. split; [now left|]. intros q l [].
  - rewrite Ht. cbn [wfile http_log].
    split; [reflexivity|]. split; [right; eauto|].
    intros q l [<- | []] (H200 & v & Hv & Hl).
    destruct Hcases as [[Hbad _] | [_ ->]]; [contradiction|].
    rewrite Hv. cbn [obind]. rewrite Hl. cbn [obind]. split.
    + intros Hall. destruct (omap_all _ _ Hall) as [tasks Htasks].
      rewrite Htasks. exists tasks. split; [reflexivity|]. split.
      * clear Hall Hl. revert tasks Htasks.
        induction l as [|x l IH]; intros tasks; cbn [omap].
        -- now intros [= <-].
        -- intros H. apply obind_returned in H as (d & Hd & H).
           apply obind_returned in H as (ds & Hds & [= <-]).
           cbn [map]. rewrite (IH ds Hds).
           now rewrite (proj1 (task_record_fields x d Hd)).
      * refine (omap_Forall _ _ _ _ _ Htasks).
        intros x d Hd. exact (proj2 (task_record_fields x d Hd)).
    + intros x Hx Hraise.
      destruct (omap_raises task_record l x Hx Hraise) as [e ->]. reflexivity.
Qed.

Lemma fetch_tasks_for_epic_all_or_nothing_witness :
  fst (fetch_tasks_for_epic (JStr "RHOAIENG-1") (Some "token")
         (environ_of flawed_store)) = Returned [].
Proof.
  destruct (fetch_tasks_for_epic_all_or_nothing (JStr "RHOAIENG-1") (Some "token")
              (environ_of flawed_store)) as (_ & _ & _ & Hanswer).
  assert (exists q,
            In q (http_log (snd (fetch_tasks_for_epic (JStr "RHOAIENG-1")
                                   (Some "token") (environ_of flawed_store)))) /\
            answered (environ_of flawed_store) q
              [raw_issue "RHOAIENG-1" [("customfield_12313140", JStr "RHAISTRAT-1")];
               raw_issue "RHOAIENG-2" [("priority", JNull)]])
    as (q & Hq & Hanswered).
  { eexists. split; [left; reflexivity|].
    split; [reflexivity|]. eexists. split; reflexivity. }
  destruct (Hanswer q _ Hq Hanswered) as (_ & Hraise).
  apply (Hraise (raw_issue "RHOAIENG-2" [("priority", JNull)])).
  - right. left. reflexivity.
  - eexists. reflexivity.
Defined.

(** ** What the flows send *)

Section OnlySends.
Variable P : environ -> request -> Prop.

Lemma only_offline {A : Type} (c : M A) : offline c -> only_sends P c.
Proof. intros Hc E q Hq. rewrite (Hc E) in Hq. destruct Hq. Qed.

Lemma only_bind {A B : Type} (c : M A) (k : A -> M B) :
  only_sends P c -> (forall a, only_sends P (k a)) -> only_sends P (bind c k).
Proof.
  intros Hc Hk E q. rewrite bind_run. specialize (Hc E).
  destruct (c E) as [[a|e] t]; cbn [fst snd] in *; [|apply Hc].
  unfold tapp. cbn [http_log]. rewrite in_app_iff.
  intros [Hq | Hq]; [exact (Hc q Hq) | exact (Hk a E q Hq)].
Qed.

Lemma only_try_except {A : Type} (c : M A) (handler : exn -> M A) :
  only_sends P c -> (forall e, only_sends P (handler e)) ->
  only_sends P (try_except c handler).
Proof.
  intros Hc Hh E q. unfold try_except. specialize (Hc E).
  destruct (c E) as [[a|e] t]; cbn [fst snd] in *; [apply Hc|].
  specialize (Hh e E). destruct (handler e E) as [r t']. cbn [fst snd] in *.
  unfold tapp. cbn [http_log]. rewrite in_app_iff.
  intros [Hq | Hq]; [exact (Hc q Hq) | exact (Hh q Hq)].
Qed.

Lemma only_for_each {A S : Type} (body : S -> A -> M S) (s : S) (l : list A) :
  (forall s x, only_sends P (body s x)) -> only_sends P (for_each body s l).
Proof.
  intros Hbody. revert s. induction l as [|x l IH]; intros s; cbn [for_each].
  - apply only_offline, offline_ret.
  - apply only_bind; [apply Hbody | intros s'; apply IH].
Qed.
End OnlySends.

Lemma only_run_jira_query (jql fields : string) (jira_pat : option string) :
  only_sends (credentialed_search jira_pat) (run_jira_query jql fields jira_pat).
Proof.
  intros E q Hq. pose proof (get_jira_pat_run jira_pat E) as Hpat.
  destruct (fst (get_jira_pat jira_pat E)) as [pat|e].
  - destruct (run_jira_query_run jql fields jira_pat E pat Hpat) as [Ht _].
    rewrite Ht in Hq. destruct Hq as [<- | []].
    exists pat, jql, fields. split; [exact Hpat | reflexivity].
  - rewrite (run_jira_query_no_pat jql fields jira_pat E e Hpat) in Hq. destruct Hq.
Qed.

Ltac only_step :=
  lazymatch goal with
  | |- only_sends _ (run_jira_query _ _ _) => apply only_run_jira_query
  | |- only_sends _ (bind _ _) => apply only_bind; [|intros ?]
  | |- only_sends _ (try_except _ _) => apply only_try_except; [|intros ?]
  | |- only_sends _ (for_each _ _ _) => apply only_for_each; intros ? ?
  | |- only_sends _ (if ?b then _ else _) => destruct b
  | |- only_sends _ (match ?x with _ => _ end) => destruct x
  | |- only_sends _ (ret _) => apply only_offline, offline_ret
  | |- only_sends _ (lift _) => apply only_offline, offline_lift
  | |- only_sends _ ask => apply only_offline, offline_ask
  | |- only_sends _ (send_sse_event _ _) => apply only_offline, offline_send
  | |- only_sends _ (send_json _ _) => apply only_offline, offline_send_json
  | |- only_sends _ (strat_first_strat _ _) =>
      apply only_offline, offline_strat_first_strat
  | |- only_sends _ (rfe_first_strat _ _ _) =>
      apply only_offline, offline_rfe_first_strat
  | |- only_sends _ (strat_first_epic _ _ _) =>
      apply only_offline, offline_strat_first_epic
  | |- only_sends _ (strat_first_task _ _ _ _) =>
      apply only_offline, offline_strat_first_task
  | |- only_sends _ (rfe_first_epic _ _ _ _) =>
      apply only_offline, offline_rfe_first_epic
  | |- only_sends _ (rfe_first_task _ _ _ _ _) =>
      apply only_offline, offline_rfe_first_task
  | |- only_sends _ (batch_level _ _ _ _ _ _ _) => unfold batch_level
  | |- only_sends _ (fetched_count _ _) => unfold fetched_count
  | |- only_sends _ (fetch_rfes _ _) => unfold fetch_rfes
  | |- only_sends _ (fetch_strats_for_rfe _ _) => unfold fetch_strats_for_rfe
  | |- only_sends _ (fetch_epics_for_strat _ _) => unfold fetch_epics_for_strat
  | |- only_sends _ (fetch_tasks_for_epic _ _) => unfold fetch_tasks_for_epic
  | |- only_sends _ (reload_rfe _ _ _) => unfold reload_rfe
  | |- only_sends _ (reload_strat _ _ _) => unfold reload_strat
  end.

Ltac searches_only := repeat (cbv beta zeta; only_step).

Lemma only_stream_hierarchy (jira_pat : option string) (component top_level : string) :
  only_sends (credentialed_search jira_pat)
    (stream_hierarchy jira_pat component top_level).
Proof.
  unfold stream_hierarchy. destruct (String.eqb top_level "strat").
  - unfold stream_hierarchy_strat_first. searches_only.
  - unfold stream_hierarchy_rfe_first. searches_only.
Qed.

Lemma only_reload_item (issue_key item_type pat component : option string) :
  only_sends (credentialed_search pat) (reload_item issue_key item_type pat component).
Proof. unfold reload_item. searches_only. Qed.

Lemma get_jira_pat_effective (pat : option string) (E : environ) :
  get_jira_pat (if negb (truthy_str pat) then JIRA_PAT E else pat) E = get_jira_pat pat E.
Proof.
  unfold get_jira_pat. rewrite !bind_run. cbn [ask fst snd].
  destruct (truthy_str pat) eqn:Hpat; cbn [negb]; [now rewrite Hpat|].
  now destruct (truthy_str (JIRA_PAT E)).
Qed.

(** X18. Every request that a streamed flow, the stream endpoint or a
    reload sends is a search of the adapter: a GET of
    [<base>/rest/api/2/search] with [maxResults] 100, carrying as bearer
    token the credential that the [pat] parameter and the environment give.
    None of them updates the store. *)
Theorem flows_send_only_searches (E : environ) (q : request) :
  (forall jira_pat component top_level,
     In q (http_log (snd (stream_hierarchy jira_pat component top_level E))) ->
     credentialed_search jira_pat E q) /\
  (forall pat component top_level,
     In q (http_log (snd (serve_hierarchy_stream pat component top_level E))) ->
     credentialed_search pat E q) /\
  (forall issue_key item_type pat component,
     In q (http_log (snd (reload_item issue_key item_type pat component E))) ->
     credentialed_search pat E q).
Proof.
  split; [|split].
  - intros jira_pat component top_level. apply only_stream_hierarchy.
  - intros pat component top_level Hq.
    destruct (serve_hierarchy_stream_run pat component top_level E)
      as [[data Hrun] | [pat' Hrun]].
    + rewrite Hrun in Hq. destruct Hq.
    + revert Hrun Hq. unfold serve_hierarchy_stream. rewrite bind_run. cbn [ask fst snd].
      cbv zeta. destruct (negb (truthy_str (if negb (truthy_str pat) then JIRA_PAT E else pat)));
        [intros _ []|].
      rewrite tapp_quiet_l, bind_run. cbn [write fst snd]. unfold try_except.
      rewrite bind_run. intros _ Hq.
      assert (In q (http_log (snd (stream_hierarchy
                                     (if negb (truthy_str pat) then JIRA_PAT E else pat)
                                     (or_default component "AI Safety")
                                     (or_default top_level "rfe") E)))) as Hin.
      { destruct (stream_hierarchy _ _ _ E) as [[s|e] t]; cbn [fst snd ret write] in Hq |- *;
          unfold tapp in Hq; cbn [http_log app] in Hq; rewrite ?app_nil_r in Hq;
          exact Hq. }
      destruct (only_stream_hierarchy _ _ _ E q Hin) as (p & jql & fields & Hp & ->).
      exists p, jql, fields. split; [|reflexivity].
      now rewrite <- (get_jira_pat_effective pat E).
  - intros issue_key item_type pat component. apply only_reload_item.
Qed.

Lemma flows_send_only_searches_witness :
  exists q,
    nth_error (http_log (snd (sample_reload "RHAIRFE-1" "rfe"))) 7 = Some q /\
    credentialed_search (Some "token") (environ_of sample_store) q.
Proof.
  assert (exists q, nth_error (http_log (snd (sample_reload "RHAIRFE-1" "rfe"))) 7 = Some q)
    as [q Hq] by (eexists; vm_compute; reflexivity).
  exists q. split; [exact Hq|].
  destruct (flows_send_only_searches (environ_of sample_store) q) as (_ & _ & Hreload).
  apply (Hreload (Some "RHAIRFE-1") (Some "rfe") (Some "token") None).
  exact (nth_error_In _ _ Hq).
Defined.

(** ** A store without issues *)

Lemma bind_log_prefix {A B : Type} (c : M A) (k : A -> M B) (E : environ) :
  exists rest, http_log (snd (bind c k E)) = http_log (snd (c E)) ++ rest.
Proof.
  rewrite bind_run. destruct (c E) as [[a|e] t]; cbn [fst snd].
  - unfold tapp. cbn [http_log]. eauto.
  - exists []. now rewrite app_nil_r.
Qed.

Lemma iter_empty (v : json) :
  iter v = Returned [] -> truthy v = false /\ len v = Returned 0%Z.
Proof.
  destruct v; cbn [iter truthy len]; try discriminate.
  - destruct s; [split; reflexivity | discriminate].
  - destruct items; [split; reflexivity | discriminate].
  - destruct members; [split; reflexivity | discriminate].
Qed.

Lemma run_jira_query_answered (jql fields : string) (jira_pat : option string)
    (E : environ) (pat : string) (l : list json) :
  get_jira_pat jira_pat E = (Returned pat, quiet) ->
  answered E (search_of E pat jql fields) l ->
  exists v,
    iter v = Returned l /\
    run_jira_query jql fields jira_pat E =
      (Returned v, {| wfile := []; http_log := [search_of E pat jql fields] |}).
Proof.
  intros Hpat (H200 & v & Hv & Hl).
  destruct (run_jira_query_run jql fields jira_pat E pat Hpat) as [Ht Hr].
  fold (search_of E pat jql fields) in Ht, Hr.
  exists v. split; [exact Hl|].
  destruct (run_jira_query jql fields jira_pat E) as [r t]. cbn [fst snd] in *.
  subst r t. rewrite H200. cbn [Z.eqb Pos.eqb negb]. now rewrite Hv.
Qed.

(** X19. With a credential, when the store answers the first search of a
    streamed flow (RFEs, or STRATs in the strategy-first mode) with no
    record, the flow sends no other request, writes its first progress line
    and a [complete] event whose four totals are 0, and returns. *)
Theorem empty_top_level_completes (jira_pat : option string)
    (component top_level : string) (E : environ) (pat : string) :
  get_jira_pat jira_pat E = (Returned pat, quiet) ->
  (forall q rest,
     http_log (snd (stream_hierarchy jira_pat component top_level E)) = q :: rest ->
     answered E q []) ->
  exists q message,
    stream_hierarchy jira_pat component top_level E =
      (Returned None,
       {| wfile := [Sse "progress" (progress message); Sse "complete" (totals 0 0 0 0)];
          http_log := [q] |}).
Proof.
  intros Hpat. unfold stream_hierarchy.
  destruct (String.eqb top_level "strat").
  - unfold stream_hierarchy_strat_first. cbv zeta.
    match goal with |- context [run_jira_query ?j ?f jira_pat] =>
      set (jql := j); set (fl := f) end.
    intros Hfirst.
    assert (answered E (search_of E pat jql fl) []) as Hanswered.
    { match type of Hfirst with
      | context [bind (send_sse_event _ _) ?k] =>
          match k with
          | (fun _ => bind ?search ?k2) =>
              destruct (bind_log_prefix search k2 E) as [rest Hrest]
          end
      end.
      destruct (run_jira_query_run jql fl jira_pat E pat Hpat) as [Ht _].
      rewrite Ht in Hrest. cbn [http_log app] in Hrest.
      apply (Hfirst _ rest). rewrite bind_run. cbn [send_sse_event write fst snd].
      unfold tapp. cbn [http_log app]. exact Hrest. }
    destruct (run_jira_query_answered jql fl jira_pat E pat [] Hpat Hanswered)
      as (v & Hv & Hrun).
    destruct (iter_empty v Hv) as [Hfalsy Hlen].
    exists (search_of E pat jql fl), "Loading STRATs...".
    rewrite bind_run. cbn [send_sse_event write fst snd].
    rewrite bind_run, Hrun. cbn [fst snd].
    rewrite bind_lift_run, Hlen, Hfalsy. reflexivity.
  - unfold stream_hierarchy_rfe_first. cbv zeta. intros Hfirst.
    match goal with |- context [fetch_rfes component jira_pat] => idtac end.
    unfold fetch_rfes in Hfirst |- *. cbv zeta in Hfirst |- *.
    match goal with |- context [run_jira_query ?j ?f jira_pat] =>
      set (jql := j) in *; set (fl := f) in * end.
    assert (answered E (search_of E pat jql fl) []) as Hanswered.
    { destruct (run_jira_query_run jql fl jira_pat E pat Hpat) as [Ht _].
      match type of Hfirst with
      | context [bind (send_sse_event _ _) ?k] =>
          match k with
          | (fun _ => bind ?fetch ?k2) =>
              destruct (bind_log_prefix fetch k2 E) as [rest Hrest]
          end
      end.
      rewrite normalized_fetch_run in Hrest. cbn [fst snd] in Hrest.
      rewrite Ht in Hrest. cbn [http_log app] in Hrest.
      apply (Hfirst _ rest). rewrite bind_run. cbn [send_sse_event write fst snd].
      unfold tapp. cbn [http_log app]. exact Hrest. }
    destruct (run_jira_query_answered jql fl jira_pat E pat [] Hpat Hanswered)
      as (v & Hv & Hrun).
    exists (search_of E pat jql fl), "Loading RFEs...".
    rewrite bind_run. cbn [send_sse_event write fst snd].
    rewrite bind_run, normalized_fetch_run, Hrun. cbn [fst snd obind].
    rewrite Hv. cbn [obind omap nonempty negb]. reflexivity.
Qed.

Lemma empty_top_level_completes_witness :
  exists q message,
    stream_hierarchy (Some "token") "AI Safety" "strat" (environ_of empty_store) =
      (Returned None,
       {| wfile := [Sse "progress" (progress message); Sse "complete" (totals 0 0 0 0)];
          http_log := [q] |}).
Proof.
  apply (empty_top_level_completes (Some "token") "AI Safety" "strat"
           (environ_of empty_store) "token" eq_refl).
  intros q rest _. split; [reflexivity|].
  exists (JArr []). split; reflexivity.
Defined.

(** ** The shape of a stream *)

Lemma section_body (L : string) (s : list written) :
  In L ["rfe"; "strat"; "epic"; "task"] -> section_of L s -> Forall is_body_event s.
Proof.
  intros HL Hs. apply Forall_forall. intros x Hx.
  destruct (Hs x Hx) as [[message ->] | [d ->]].
  - exists "progress", (progress message). split; [reflexivity | now left].
  - exists L, (JObj d). split; [reflexivity | now right].
Qed.

(** X20. The stream endpoint answers in one of two ways. Without a
    credential, from the [pat] parameter or the environment, it writes the
    400 payload, and nothing else, and contacts nobody. Otherwise it writes
    the stream head, then progress lines and events of the four levels, and
    last exactly one closing event: [complete] when the flow returned,
    [error] when it raised. *)
Theorem stream_ends_in_one_closing_event (pat component top_level : option string)
    (E : environ) :
  (no_credential pat E /\
   serve_hierarchy_stream pat component top_level E =
     (Returned tt,
      {| wfile := [Json 400 (JObj [("error", JStr "Personal Access Token not provided")])];
         http_log := [] |})) \/
  (exists pat' body closing data,
     get_jira_pat pat E = (Returned pat', quiet) /\
     wfile (snd (serve_hierarchy_stream pat component top_level E)) =
       StreamHead :: body ++ [Sse closing data] /\
     Forall is_body_event body /\
     ((closing = "complete" /\
       exists s, fst (stream_hierarchy (Some pat') (or_default component "AI Safety")
                        (or_default top_level "rfe") E) = Returned s) \/
      (closing = "error" /\
       exists e, fst (stream_hierarchy (Some pat') (or_default component "AI Safety")
                        (or_default top_level "rfe") E) = Raised e /\
                 data = JObj [("error", JStr (exn_str e))]))).
Proof.
  unfold serve_hierarchy_stream. rewrite bind_run. cbn [ask fst snd]. cbv zeta.
  rewrite tapp_quiet_l.
  destruct (truthy_str (if negb (truthy_str pat) then JIRA_PAT E else pat)) eqn:Heff;
    cbn [negb].
  2:{ left. split; [|reflexivity]. unfold no_credential.
      destruct (truthy_str pat) eqn:Hp; cbn [negb] in Heff; [congruence|]. now split. }
  right.
  assert (exists pat', (if negb (truthy_str pat) then JIRA_PAT E else pat) = Some pat' /\
                       pat' <> "") as (pat' & Hsome & Hne).
  { destruct (if negb (truthy_str pat) then JIRA_PAT E else pat) as [p|];
      [|discriminate]. exists p. split; [reflexivity|].
    cbn [truthy_str] in Heff. now destruct (String.eqb_spec p ""). }
  rewrite Hsome.
  pose proof (stream_hierarchy_anatomy (Some pat') (or_default component "AI Safety")
                (or_default top_level "rfe") E) as Hana.
  rewrite bind_run. cbn [write fst snd]. unfold try_except. rewrite bind_run.
  destruct (stream_hierarchy (Some pat') _ _ E) as [r t] eqn:Hrun. cbn [fst snd] in *.
  destruct Hana as (lv1 & lv2 & lv3 & lv4 & tail & Hw & _ & H1 & H2 & H3 & H4 & _ &
                    _ & _ & _ & _ & _ & _ & Htail & Hraised & Hreturned).
  assert (Forall is_body_event (output lv1 ++ output lv2 ++ output lv3 ++ output lv4))
    as Hbody.
  { rewrite !Forall_app. repeat split.
    - apply (section_body "rfe"); [cbn; tauto | eapply level_section; eauto].
    - apply (section_body "strat"); [cbn; tauto | eapply level_section; eauto].
    - apply (section_body "epic"); [cbn; tauto | eapply level_section; eauto].
    - apply (section_body "task"); [cbn; tauto | eapply level_section; eauto]. }
  exists pat'.
  assert (get_jira_pat pat E = (Returned pat', quiet)) as Hpat.
  { rewrite <- (get_jira_pat_effective pat E), Hsome.
    now apply get_jira_pat_override. }
  destruct r as [s|e].
  - destruct (Hreturned s eq_refl) as (Hne' & _).
    destruct Htail as [-> | ->]; [contradiction|].
    eexists (output lv1 ++ output lv2 ++ output lv3 ++ output lv4), "complete", _.
    split; [exact Hpat|]. split.
    + cbn [fst snd ret]. unfold tapp, quiet. cbn [wfile app].
      rewrite Hw, !app_nil_r. cbn [app]. f_equal. now rewrite <- !app_assoc.
    + split; [exact Hbody|]. left. split; [reflexivity | rewrite Hrun; now exists s].
  - rewrite (Hraised e eq_refl) in Hw.
    eexists (output lv1 ++ output lv2 ++ output lv3 ++ output lv4), "error", _.
    split; [exact Hpat|]. split.
    + cbn [fst snd write]. unfold tapp. cbn [wfile app].
      rewrite Hw, ?app_nil_r. cbn [app]. rewrite <- ?app_assoc. reflexivity.
    + split; [exact Hbody|]. right. split; [reflexivity | rewrite Hrun; exists e; split; reflexivity].
Qed.

(** The text of the closing [error] event is the exception's own message.
    On a store whose second record has a [null] priority the stream ends
    with the interpreter's message for [None.get]; reloading a STRAT from a
    store that sends an object in place of the issue list answers with the
    [repr] of the key of the failed [strat_issues[0]]. *)
Lemma error_text_examples :
  wfile (snd (serve_hierarchy_stream (Some "token") None None (environ_of flawed_store))) =
    [StreamHead; Sse "progress" (progress "Loading RFEs...");
     Sse "error" (JObj [("error", JStr "'NoneType' object has no attribute 'get'")])] /\
  wfile (snd (reload_item (Some "RHAISTRAT-1") (Some "strat") (Some "token") None
                (environ_of keyed_store))) =
    [Json 500 (JObj [("error", JStr "0")])].
Proof. split; vm_compute; reflexivity. Qed.

(** ** What a reload refuses *)

Lemma try_except_log_prefix {A : Type} (c : M A) (handler : exn -> M A) (E : environ) :
  exists rest, http_log (snd (try_except c handler E)) = http_log (snd (c E)) ++ rest.
Proof.
  unfold try_except. destruct (c E) as [[a|e] t]; cbn [fst snd].
  - exists []. now rewrite app_nil_r.
  - destruct (handler e E) as [r t']. cbn [snd]. unfold tapp. cbn [http_log]. eauto.
Qed.

Lemma find_no_key (issue_key : string) (rfes : list dict) :
  (forall k, In k (map (dict_item "key") rfes) -> k <> JStr issue_key) ->
  find (fun r => eq_str (dict_item "key" r) issue_key) rfes = None.
Proof.
  induction rfes as [|r rfes IH]; [reflexivity|]. cbn [map find]. intros Hkeys.
  destruct (eq_str (dict_item "key" r) issue_key) eqn:Heq.
  - apply eq_str_true in Heq. elim (Hkeys (dict_item "key" r)); [now left | exact Heq].
  - apply IH. intros k Hk. apply Hkeys. now right.
Qed.

(** X21. What a reload refuses. Without an [issue_key] or an [item_type]
    (or with an empty one) it answers 400 and sends nothing; so it does for
    an item type other than [rfe], [strat], [epic] and [task]. With a
    credential, for a STRAT, Epic or Task whose search by key the store
    answers with no record, and for an RFE whose key is not among the RFEs
    the store returns for the component, it answers 404 after that one
    request. *)
Theorem reload_item_rejections (issue_key item_type pat component : option string)
    (E : environ) :
  (truthy_str issue_key = false \/ truthy_str item_type = false ->
   reload_item issue_key item_type pat component E =
     (Returned tt,
      {| wfile := [Json 400 (JObj [("error", JStr "Missing required parameters")])];
         http_log := [] |})) /\
  (forall k ty,
     issue_key = Some k -> item_type = Some ty -> k <> "" -> ty <> "" ->
     ~ In ty ["rfe"; "strat"; "epic"; "task"] ->
     reload_item issue_key item_type pat component E =
       (Returned tt,
        {| wfile := [Json 400 (JObj [("error", JStr "Invalid item type")])];
           http_log := [] |})) /\
  (forall k ty p,
     issue_key = Some k -> item_type = Some ty -> k <> "" ->
     In ty ["strat"; "epic"; "task"] ->
     get_jira_pat pat E = (Returned p, quiet) ->
     (forall q rest,
        http_log (snd (reload_item issue_key item_type pat component E)) = q :: rest ->
        answered E q []) ->
     exists q,
       reload_item issue_key item_type pat component E =
         (Returned tt,
          {| wfile := [Json 404 (JObj [("error", JStr (not_found_message ty))])];
             http_log := [q] |})) /\
  (forall k p l,
     issue_key = Some k -> item_type = Some "rfe" -> k <> "" ->
     get_jira_pat pat E = (Returned p, quiet) ->
     (forall q rest,
        http_log (snd (reload_item issue_key item_type pat component E)) = q :: rest ->
        answered E q l) ->
     Forall (normalizes "rfe") l ->
     (forall x, In x l -> raw_key x <> JStr k) ->
     exists q,
       reload_item issue_key item_type pat component E =
         (Returned tt,
          {| wfile := [Json 404 (JObj [("error", JStr "RFE not found")])];
             http_log := [q] |})).
Proof.
  split; [|split; [|split]].
  - unfold reload_item, try_except. cbv zeta.
    destruct issue_key as [k|], item_type as [ty|]; cbn [truthy_str];
      try reflexivity.
    intros [Hk | Hty].
    + destruct (String.eqb k ""); [reflexivity | discriminate].
    + destruct (String.eqb ty ""); [|discriminate].
      rewrite Bool.orb_true_r. reflexivity.
  - intros k ty -> -> Hk Hty Hother. unfold reload_item, try_except. cbv zeta.
    destruct (String.eqb_spec k ""); [contradiction|].
    destruct (String.eqb_spec ty ""); [contradiction|]. cbn [orb].
    destruct (String.eqb_spec ty "rfe") as [-> | _]; [elim Hother; cbn; tauto|].
    destruct (String.eqb_spec ty "strat") as [-> | _]; [elim Hother; cbn; tauto|].
    destruct (String.eqb_spec ty "epic") as [-> | _]; [elim Hother; cbn; tauto|].
    destruct (String.eqb_spec ty "task") as [-> | _]; [elim Hother; cbn; tauto|].
    reflexivity.
  - intros k ty p -> -> Hk Hty Hpat.
    assert (String.eqb k "" = false) as Hk' by (now destruct (String.eqb_spec k "")).
    unfold reload_item. cbv zeta. rewrite Hk'.
    destruct Hty as [<- | [<- | [<- | []]]];
      cbn [String.eqb Ascii.eqb Bool.eqb orb]; intros Hfirst;
      match goal with |- context [run_jira_query ?j ?f pat] =>
        set (jql := j) in *; set (fl := f) in * end;
      (assert (answered E (search_of E p jql fl) []) as Hanswered;
       [ match type of Hfirst with
         | context [try_except ?c ?h] =>
             destruct (try_except_log_prefix c h E) as [rest1 Hrest1];
             match c with
             | bind ?search ?k2 =>
                 destruct (bind_log_prefix search k2 E) as [rest2 Hrest2]
             end
         end;
         destruct (run_jira_query_run jql fl pat E p Hpat) as [Ht _];
         rewrite Hrest2, Ht in Hrest1; cbn [http_log app] in Hrest1;
         exact (Hfirst _ _ Hrest1)
       | destruct (run_jira_query_answered jql fl pat E p [] Hpat Hanswered)
           as (v & Hv & Hrun);
         destruct (iter_empty v Hv) as [Hfalsy _];
         exists (search_of E p jql fl);
         unfold try_except; rewrite bind_run, Hrun; cbn [fst snd];
         rewrite Hfalsy; reflexivity ]).
  - intros k p l -> -> Hk Hpat.
    assert (String.eqb k "" = false) as Hk' by (now destruct (String.eqb_spec k "")).
    unfold reload_item. cbv zeta. rewrite Hk'.
    cbn [String.eqb Ascii.eqb Bool.eqb orb]. intros Hfirst Hall Hkeys.
    unfold fetch_rfes in Hfirst |- *. cbv zeta in Hfirst |- *.
    match goal with |- context [run_jira_query ?j ?f pat] =>
      set (jql := j) in *; set (fl := f) in * end.
    assert (answered E (search_of E p jql fl) l) as Hanswered.
    { match type of Hfirst with
      | context [try_except ?c ?h] =>
          destruct (try_except_log_prefix c h E) as [rest1 Hrest1];
          match c with
          | bind ?fetch ?k2 =>
              destruct (bind_log_prefix fetch k2 E) as [rest2 Hrest2]
          end
      end.
      destruct (run_jira_query_run jql fl pat E p Hpat) as [Ht _].
      rewrite normalized_fetch_run in Hrest2. cbn [fst snd] in Hrest2.
      rewrite Hrest2, Ht in Hrest1. cbn [http_log app] in Hrest1.
      exact (Hfirst _ _ Hrest1). }
    destruct (run_jira_query_answered jql fl pat E p l Hpat Hanswered)
      as (v & Hv & Hrun).
    destruct (omap_all (fun x => build_issue_data x "rfe") l Hall) as [rfes Hrfes].
    exists (search_of E p jql fl).
    unfold try_except. rewrite bind_run, normalized_fetch_run, Hrun.
    cbn [fst snd obind]. rewrite Hv. cbn [obind]. rewrite Hrfes.
    rewrite find_no_key; [reflexivity|].
    rewrite (omap_build_keys l "rfe" rfes Hrfes).
    intros key Hin. apply in_map_iff in Hin as (x & <- & Hx). exact (Hkeys x Hx).
Qed.

Lemma reload_item_rejections_witness :
  exists q,
    sample_reload "RHAIRFE-9" "rfe" =
      (Returned tt,
       {| wfile := [Json 404 (JObj [("error", JStr "RFE not found")])];
          http_log := [q] |}).
Proof.
  destruct (reload_item_rejections (Some "RHAIRFE-9") (Some "rfe") (Some "token") None
              (environ_of sample_store)) as (_ & _ & _ & Hrfe).
  apply (Hrfe "RHAIRFE-9" "token" [raw_issue "RHAIRFE-1" []; raw_issue "RHAIRFE-2" []]
           eq_refl eq_refl).
  - discriminate.
  - reflexivity.
  - intros q rest Hlog. vm_compute in Hlog. injection Hlog as <- _.
    split; [reflexivity|]. eexists. split; reflexivity.
  - repeat constructor; eexists; reflexivity.
  - intros x [<- | [<- | []]]; discriminate.
Defined.

(** ** The payload of a reload *)

Lemma returns_any {A : Type} (c : M A) : returns (fun _ => True) c.
Proof. intros E a _. exact I. Qed.

Lemma returns_ret {A : Type} (R : A -> Prop) (a : A) : R a -> returns R (ret a).
Proof. intros Ha E a' [= <-]. exact Ha. Qed.

Lemma returns_bind {A B : Type} (R1 : A -> Prop) (R : B -> Prop) (c : M A)
    (k : A -> M B) :
  returns R1 c -> (forall a, R1 a -> returns R (k a)) -> returns R (bind c k).
Proof.
  intros Hc Hk E b. rewrite bind_run. specialize (Hc E).
  destruct (c E) as [[a|e] t]; cbn [fst snd] in *; [|discriminate].
  exact (Hk a (Hc a eq_refl) E b).
Qed.

Lemma returns_for_each {A S : Type} (Inv : S -> Prop) (body : S -> A -> M S) (s : S)
    (l : list A) :
  Inv s -> (forall s x, Inv s -> returns Inv (body s x)) ->
  returns Inv (for_each body s l).
Proof.
  intros Hs Hbody. revert s Hs. induction l as [|x l IH]; intros s Hs; cbn [for_each].
  - now apply returns_ret.
  - eapply returns_bind; [exact (Hbody s x Hs) | intros s' Hs'; exact (IH s' Hs')].
Qed.

Lemma replies_bind {A : Type} (R : A -> Prop) (Q : dict -> Prop) (c : M A)
    (k : A -> M unit) :
  silent c -> returns R c -> (forall a, R a -> replies Q (k a)) -> replies Q (bind c k).
Proof.
  intros Hs Hc Hk E. rewrite bind_run. specialize (Hs E). specialize (Hc E).
  destruct (c E) as [[a|e] t]; cbn [fst snd] in *; [|exact Hs].
  specialize (Hk a (Hc a eq_refl) E). unfold tapp. cbn [wfile]. rewrite Hs. exact Hk.
Qed.

Lemma replies_success (Q : dict -> Prop) (data : dict) :
  Q data ->
  replies Q (send_json (JObj [("success", JBool true); ("data", JObj data)]) 200).
Proof.
  intros Hq E. cbn. do 2 eexists. split; [reflexivity|].
  intros data' _ [= <-]. exact Hq.
Qed.

Lemma replies_error (Q : dict -> Prop) (body : json) (status : Z) :
  status <> 200%Z -> replies Q (send_json body status).
Proof.
  intros Hs E. cbn. do 2 eexists. split; [reflexivity|]. intros data H. contradiction.
Qed.

Lemma replies_guarded (Q : dict -> Prop) (c : M unit) (reply : exn -> json) (E : environ)
    (data : dict) :
  replies Q c ->
  wfile (snd (try_except c (fun e => send_json (reply e) 500) E)) = [success data] ->
  Q data.
Proof.
  intros Hc. specialize (Hc E). unfold try_except.
  destruct (c E) as [[[]|e] t]; cbn [fst snd] in *.
  - destruct Hc as (status & body & -> & Hq). intros [= -> ->]. now apply Hq.
  - unfold send_json, write, tapp. cbn [fst snd wfile]. rewrite Hc. cbn [app].
    unfold success. discriminate.
Qed.

Lemma children_of_set (field : string) (l : list json) (d : dict) :
  children_of field (dict_set field (JArr l) d) = l.
Proof. unfold children_of. now rewrite dict_get_set_same. Qed.

Lemma dict_item_set_other (k k' : string) (v : json) (d : dict) :
  String.eqb k k' = false -> dict_item k (dict_set k' v d) = dict_item k d.
Proof. intros H. unfold dict_item. now rewrite dict_get_set_other. Qed.

(** The tasks of a reloaded Epic, under the keys [ancestors] set on the Epic
    before. *)
Lemma tasks_tagged (ancestors : list (string * json)) (epic_data : dict)
    (tag : dict -> dict) (tasks : list dict) :
  holds ancestors epic_data ->
  (forall kv, In kv ancestors -> String.eqb (fst kv) "tasks" = false) ->
  (forall task, holds (ancestors ++ [("epic_key", dict_item "key" epic_data)])
                      (tag task)) ->
  epic_subtree ancestors
    (JObj (dict_set "tasks" (JArr (map JObj (map tag tasks))) epic_data)).
Proof.
  intros Hanc Hfresh Htag. eexists. split; [reflexivity|]. split.
  - unfold holds in *. rewrite Forall_forall in *. intros kv Hkv.
    rewrite dict_get_set_other by (apply Hfresh; exact Hkv). exact (Hanc kv Hkv).
  - rewrite children_of_set, dict_item_set_other by reflexivity.
    rewrite Forall_map, Forall_map. apply Forall_forall. intros task _.
    exists (tag task). split; [reflexivity | apply Htag].
Qed.

Lemma replies_reload_strat (issue_key : string) (pat : option string) (strat_data : dict) :
  replies (fun data =>
             Forall (epic_subtree [("strat_key", JStr issue_key)])
                    (children_of "epics" data))
    (reload_strat issue_key pat strat_data).
Proof.
  unfold reload_strat.
  eapply replies_bind; [apply silent_fetch_epics_for_strat | apply returns_any|].
  intros epics _.
  eapply (replies_bind
            (fun done => Forall (epic_subtree [("strat_key", JStr issue_key)])
                                (map JObj done))).
  - apply silent_for_each. intros done epic_data. cbv zeta.
    apply silent_bind; [apply silent_fetch_tasks_for_epic | intros ?; apply silent_ret].
  - apply returns_for_each; [constructor|].
    intros done epic_data Hdone. cbv zeta.
    eapply returns_bind; [apply returns_any|]. intros tasks _.
    apply returns_ret. rewrite map_app, Forall_app. split; [exact Hdone|].
    constructor; [|constructor].
    apply (tasks_tagged [("strat_key", JStr issue_key)]
             (dict_set "strat_key" (JStr issue_key) epic_data)
             (fun task =>
                dict_set "epic_key"
                  (dict_item "key" (dict_set "strat_key" (JStr issue_key) epic_data))
                  (dict_set "strat_key" (JStr issue_key) task))).
    + constructor; [apply dict_get_set_same | constructor].
    + intros kv [<- | []]. reflexivity.
    + intros task. constructor; [|constructor; [|constructor]]; cbn [fst snd].
      * rewrite dict_get_set_other by reflexivity. apply dict_get_set_same.
      * apply dict_get_set_same.
  - intros epics' Hepics. apply replies_success. now rewrite children_of_set.
Qed.

Lemma replies_reload_rfe (issue_key : string) (pat : option string) (rfe : dict) :
  replies (fun data =>
             Forall (strat_subtree [("rfe_key", JStr issue_key)])
                    (children_of "strats" data))
    (reload_rfe issue_key pat rfe).
Proof.
  unfold reload_rfe.
  eapply replies_bind; [apply silent_fetch_strats_for_rfe | apply returns_any|].
  intros strats _.
  eapply (replies_bind
            (fun done => Forall (strat_subtree [("rfe_key", JStr issue_key)])
                                (map JObj done))).
  - apply silent_for_each. intros done strat_data. cbv zeta.
    apply silent_bind; [apply silent_fetch_epics_for_strat | intros epics].
    apply silent_bind; [|intros ?; apply silent_ret].
    apply silent_for_each. intros done_epics epic_data. cbv zeta.
    apply silent_bind; [apply silent_fetch_tasks_for_epic | intros ?; apply silent_ret].
  - apply returns_for_each; [constructor|].
    intros done strat_data Hdone. cbv zeta.
    set (strat_data' :=
           dict_set "epics" (JArr []) (dict_set "rfe_key" (JStr issue_key) strat_data)).
    eapply returns_bind; [apply returns_any|]. intros epics _.
    eapply (returns_bind
              (fun done_epics =>
                 Forall (epic_subtree [("rfe_key", JStr issue_key);
                                       ("strat_key", dict_item "key" strat_data')])
                        (map JObj done_epics))).
    + apply returns_for_each; [constructor|].
      intros done_epics epic_data Hepics. cbv zeta.
      set (epic_data' :=
             dict_set "strat_key" (dict_item "key" strat_data')
               (dict_set "rfe_key" (JStr issue_key) epic_data)).
      eapply returns_bind; [apply returns_any|]. intros tasks _.
      apply returns_ret. rewrite map_app, Forall_app. split; [exact Hepics|].
      constructor; [|constructor].
      apply (tasks_tagged [("rfe_key", JStr issue_key);
                           ("strat_key", dict_item "key" strat_data')]
               epic_data'
               (fun task =>
                  dict_set "epic_key" (dict_item "key" epic_data')
                    (dict_set "strat_key" (dict_item "key" strat_data')
                       (dict_set "rfe_key" (JStr issue_key) task)))).
      * constructor; [|constructor; [|constructor]]; cbn [fst snd]; unfold epic_data'.
        -- rewrite dict_get_set_other by reflexivity. apply dict_get_set_same.
        -- apply dict_get_set_same.
      * intros kv [<- | [<- | []]]; reflexivity.
      * intros task. constructor; [|constructor; [|constructor; [|constructor]]];
          cbn [fst snd].
        -- rewrite !dict_get_set_other by reflexivity. apply dict_get_set_same.
        -- rewrite dict_get_set_other by reflexivity. apply dict_get_set_same.
        -- apply dict_get_set_same.
    + intros epics' Hepics. apply returns_ret.
      rewrite map_app, Forall_app. split; [exact Hdone|].
      constructor; [|constructor].
      eexists. split; [reflexivity|]. split.
      * constructor; [|constructor]. cbn [fst snd]. unfold strat_data'.
        rewrite !dict_get_set_other by reflexivity. apply dict_get_set_same.
      * rewrite children_of_set, dict_item_set_other by reflexivity. exact Hepics.
  - intros strats' Hstrats. apply replies_success. now rewrite children_of_set.
Qed.

(** X22. The success payload of a reload carries the ancestor keys inline.
    Reloading an Epic, every task in its [tasks] carries the Epic's key as
    [epic_key]. Reloading a STRAT, every Epic in its [epics] carries the
    STRAT's key as [strat_key], and every task of such an Epic carries that
    [strat_key] and the Epic's own key as [epic_key]. Reloading an RFE,
    every STRAT in its [strats] carries the RFE's key as [rfe_key], every
    Epic below it that [rfe_key] and the STRAT's key, and every task the
    three keys. *)
Theorem reload_item_tags_descendants (k : string) (pat component : option string)
    (E : environ) (data : dict) :
  (wfile (snd (reload_item (Some k) (Some "epic") pat component E)) = [success data] ->
   Forall (tagged [("epic_key", JStr k)]) (children_of "tasks" data)) /\
  (wfile (snd (reload_item (Some k) (Some "strat") pat component E)) = [success data] ->
   Forall (epic_subtree [("strat_key", JStr k)]) (children_of "epics" data)) /\
  (wfile (snd (reload_item (Some k) (Some "rfe") pat component E)) = [success data] ->
   Forall (strat_subtree [("rfe_key", JStr k)]) (children_of "strats" data)).
Proof.
  split; [|split]; unfold reload_item; cbv zeta;
    cbn [String.eqb Ascii.eqb Bool.eqb orb]; rewrite Bool.orb_false_r;
    [ apply (replies_guarded
               (fun data => Forall (tagged [("epic_key", JStr k)])
                                   (children_of "tasks" data)))
    | apply (replies_guarded
               (fun data => Forall (epic_subtree [("strat_key", JStr k)])
                                   (children_of "epics" data)))
    | apply (replies_guarded
               (fun data => Forall (strat_subtree [("rfe_key", JStr k)])
                                   (children_of "strats" data))) ];
    destruct (String.eqb k "");
    try (apply replies_error; discriminate).
  - eapply replies_bind; [apply silent_run_jira_query | apply returns_any|].
    intros epic_issues _. destruct (negb (truthy epic_issues));
      [apply replies_error; discriminate|].
    eapply replies_bind; [apply silent_lift | apply returns_any|]. intros epic _.
    eapply replies_bind; [apply silent_lift | apply returns_any|]. intros epic_data _.
    eapply replies_bind; [apply silent_fetch_tasks_for_epic | apply returns_any|].
    intros tasks _. cbv zeta. apply replies_success.
    rewrite children_of_set, Forall_map, Forall_map. apply Forall_forall.
    intros task _. eexists. split; [reflexivity|].
    constructor; [apply dict_get_set_same | constructor].
  - eapply replies_bind; [apply silent_run_jira_query | apply returns_any|].
    intros strat_issues _. destruct (negb (truthy strat_issues));
      [apply replies_error; discriminate|].
    eapply replies_bind; [apply silent_lift | apply returns_any|]. intros strat _.
    eapply replies_bind; [apply silent_lift | apply returns_any|]. intros strat_data _.
    apply replies_reload_strat.
  - eapply replies_bind; [apply silent_fetch_rfes | apply returns_any|].
    intros rfes _.
    destruct (find (fun r => eq_str (dict_item "key" r) k) rfes) as [rfe|];
      [apply replies_reload_rfe | apply replies_error; discriminate].
Qed.

Lemma reload_item_tags_descendants_witness :
  exists data,
    wfile (snd (sample_reload "RHAISTRAT-1" "strat")) = [success data] /\
    Forall (epic_subtree [("strat_key", JStr "RHAISTRAT-1")]) (children_of "epics" data).
Proof.
  assert (exists data, wfile (snd (sample_reload "RHAISTRAT-1" "strat")) = [success data])
    as [data Hdata] by (eexists; vm_compute; reflexivity).
  exists data. split; [exact Hdata|].
  destruct (reload_item_tags_descendants "RHAISTRAT-1" (Some "token") None
              (environ_of sample_store) data) as (_ & Hstrat & _).
  exact (Hstrat Hdata).
Defined.

(** ** Creating issues *)

Lemma wbind_run {A B : Type} (c : Calls A) (k : A -> Calls B) (W : writable) :
  wbind c k W =
  match c W with
  | (Returned a, t) =>
      (fst (k a W),
       {| client := client t ++ client (snd (k a W));
          calls := calls t ++ calls (snd (k a W)) |})
  | (Raised e, t) => (Raised e, t)
  end.
Proof.
  unfold wbind. destruct (c W) as [[a|e] t]; [|reflexivity]. now destruct (k a W).
Qed.

Lemma within_pat (jira_pat : option string) (W : writable) (pat : string) :
  get_jira_pat jira_pat (environment W) = (Returned pat, quiet) ->
  within (get_jira_pat jira_pat) W = (Returned pat, {| client := []; calls := [] |}).
Proof. intros H. unfold within. now rewrite H. Qed.

Lemma within_no_pat (jira_pat : option string) (W : writable) :
  no_credential jira_pat (environment W) ->
  within (get_jira_pat jira_pat) W =
    (Raised (ValueError no_pat_message), {| client := []; calls := [] |}).
Proof. intros H. unfold within. now rewrite (get_jira_pat_none _ _ H). Qed.

Lemma dict_update_nil (d : dict) : dict_update [] d = d.
Proof. reflexivity. Qed.

Lemma create_jira_issue_run (project_key : string) (summary description issue_type : json)
    (custom_fields : option dict) (jira_pat : option string) (W : writable) (pat : string) :
  get_jira_pat jira_pat (environment W) = (Returned pat, quiet) ->
  let sent :=
    create_call (environment W) pat
      (new_issue_fields project_key summary description issue_type custom_fields) in
  create_jira_issue project_key summary description issue_type custom_fields jira_pat W =
    (if negb (Z.eqb (status_code (answer W sent)) 201) then
       Raised (Exception (fstr ["Failed to create issue: ";
                                str_of_Z (status_code (answer W sent)); " - ";
                                text (answer W sent)]))
     else item (json_body (answer W sent)) "key",
     {| client := []; calls := [sent] |}).
Proof.
  intros Hpat sent. unfold create_jira_issue.
  rewrite wbind_run, (within_pat jira_pat W pat Hpat). cbn [fst snd client calls app].
  rewrite wbind_run. cbn [within ask fst snd client calls app map http_log wfile quiet].
  cbv zeta.
  assert (match custom_fields with
          | Some custom_fields0 =>
              if nonempty custom_fields0
              then dict_update custom_fields0
                     [("project", JObj [("key", JStr project_key)]); ("summary", summary);
                      ("description", description);
                      ("issuetype", JObj [("name", issue_type)])]
              else [("project", JObj [("key", JStr project_key)]); ("summary", summary);
                    ("description", description);
                    ("issuetype", JObj [("name", issue_type)])]
          | None => [("project", JObj [("key", JStr project_key)]); ("summary", summary);
                     ("description", description);
                     ("issuetype", JObj [("name", issue_type)])]
          end = new_issue_fields project_key summary description issue_type custom_fields)
    as ->.
  { destruct custom_fields as [[|kv custom]|]; reflexivity. }
  rewrite wbind_run. cbn [post fst snd client calls app].
  fold (create_call (environment W) pat
          (new_issue_fields project_key summary description issue_type custom_fields)).
  fold sent. change (posted W _ _ _) with (answer W sent).
  destruct (negb (status_code (answer W sent) =? 201)%Z); reflexivity.
Qed.

Lemma dict_get_app (k : string) (d1 d2 : dict) :
  dict_get k (d1 ++ d2) =
  match dict_get k d1 with
  | Some v => Some v
  | None => dict_get k d2
  end.
Proof.
  induction d1 as [|[k' v'] d1 IH]; cbn; [reflexivity|].
  now destruct (String.eqb k k').
Qed.

Lemma dict_get_set (k k' : string) (v : json) (d : dict) :
  dict_get k (dict_set k' v d) = if String.eqb k k' then Some v else dict_get k d.
Proof.
  destruct (String.eqb k k') eqn:Hk.
  - apply String.eqb_eq in Hk as ->. apply dict_get_set_same.
  - now apply dict_get_set_other.
Qed.

(** [update] lets the last entry for a key win, over what the dict held. *)
Lemma dict_update_get (k : string) (other d : dict) :
  dict_get k (dict_update other d) =
  match dict_get k (rev other) with
  | Some v => Some v
  | None => dict_get k d
  end.
Proof.
  unfold dict_update. revert d. induction other as [|[k' v'] other IH]; intros d.
  - reflexivity.
  - cbn [fold_left rev fst snd]. rewrite IH, dict_get_app, dict_get_set. cbn [dict_get].
    destruct (dict_get k (rev other)); [reflexivity|].
    now destruct (String.eqb k k').
Qed.

(** X23. With a credential, [create_jira_issue] makes exactly one call, the
    POST of the new issue to [<base>/rest/api/2/issue]. The issue's fields
    are the project, summary, description and issue type, overridden and
    extended by the custom fields (the last entry for a name wins). It
    returns the [key] of the answer when the status is 201, and raises an
    [Exception] for any other status, 200 included. *)
Theorem create_jira_issue_contract (project_key : string)
    (summary description issue_type : json) (custom_fields : option dict)
    (jira_pat : option string) (W : writable) (pat : string) :
  get_jira_pat jira_pat (environment W) = (Returned pat, quiet) ->
  let fields := new_issue_fields project_key summary description issue_type custom_fields in
  let sent := create_call (environment W) pat fields in
  let result :=
    create_jira_issue project_key summary description issue_type custom_fields jira_pat W in
  snd result = {| client := []; calls := [sent] |} /\
  (forall name,
     dict_get name fields =
       match dict_get name (rev (match custom_fields with Some c => c | None => [] end)) with
       | Some v => Some v
       | None => dict_get name
                   (standard_fields project_key summary description issue_type)
       end) /\
  (status_code (answer W sent) = 201%Z ->
   fst result = item (json_body (answer W sent)) "key") /\
  (status_code (answer W sent) <> 201%Z ->
   fst result =
     Raised (Exception (fstr ["Failed to create issue: ";
                              str_of_Z (status_code (answer W sent)); " - ";
                              text (answer W sent)]))).
Proof.
  intros Hpat fields sent result. subst result.
  rewrite (create_jira_issue_run project_key summary description issue_type custom_fields
             jira_pat W pat Hpat).
  cbv zeta. fold fields. fold sent. cbn [fst snd].
  split; [reflexivity|]. split; [|split].
  - intros name. unfold fields, new_issue_fields.
    destruct custom_fields as [custom|]; [apply dict_update_get | reflexivity].
  - intros ->. reflexivity.
  - intros Hstatus. now destruct (Z.eqb_spec (status_code (answer W sent)) 201).
Qed.

Lemma create_jira_issue_contract_witness :
  exists message,
    fst (create_jira_issue "RHOAIENG" (JStr "Red teaming") (JStr "") (JStr "Story")
           (Some [("summary", JStr "Red teaming, second round")]) (Some "token") ok_store) =
      Raised (Exception message) /\
    exists fields,
      calls (snd (create_jira_issue "RHOAIENG" (JStr "Red teaming") (JStr "")
                    (JStr "Story")
                    (Some [("summary", JStr "Red teaming, second round")])
                    (Some "token") ok_store)) =
        [create_call (environment ok_store) "token" fields] /\
      dict_get "summary" fields = Some (JStr "Red teaming, second round").
Proof.
  destruct (create_jira_issue_contract "RHOAIENG" (JStr "Red teaming") (JStr "")
              (JStr "Story") (Some [("summary", JStr "Red teaming, second round")])
              (Some "token") ok_store "token" eq_refl)
    as (Hcalls & Hfields & _ & Hfail).
  eexists. split.
  - apply Hfail. discriminate.
  - eexists. split; [now rewrite Hcalls|]. now rewrite Hfields.
Defined.

Lemma post_only_run (url_of : environ -> string) (payload : json) (code : Z)
    (failure : string) (jira_pat : option string) (W : writable) (pat : string)
    (c : Calls bool) :
  get_jira_pat jira_pat (environment W) = (Returned pat, quiet) ->
  c = (pat <~ within (get_jira_pat jira_pat) ;;
       E <~ within ask ;;
       response <~ post (url_of E)
                     [("Authorization", fstr ["Bearer "; pat]);
                      ("Content-Type", "application/json")] payload ;;
       if negb (Z.eqb (status_code response) code) then
         wraise (Exception (fstr [failure; str_of_Z (status_code response); " - ";
                                  text response]))
       else wret true) ->
  let sent :=
    POST (url_of (environment W))
         [("Authorization", fstr ["Bearer "; pat]); ("Content-Type", "application/json")]
         payload in
  c W =
    (if negb (Z.eqb (status_code (answer W sent)) code) then
       Raised (Exception (fstr [failure; str_of_Z (status_code (answer W sent)); " - ";
                                text (answer W sent)]))
     else Returned true,
     {| client := []; calls := [sent] |}).
Proof.
  intros Hpat -> sent.
  rewrite wbind_run, (within_pat jira_pat W pat Hpat). cbn [fst snd client calls app].
  rewrite wbind_run. cbn [within ask fst snd client calls app map http_log wfile quiet].
  rewrite wbind_run. cbn [post fst snd client calls app]. fold sent.
  change (posted W _ _ _) with (answer W sent).
  destruct (negb (status_code (answer W sent) =? code)%Z); reflexivity.
Qed.

(** X24. With a credential, [add_jira_comment] and [transition_jira_issue]
    each make exactly one call, a POST to the issue's [comment] or
    [transitions] URL. The comment is accepted only with status 201, the
    transition only with status 204: with any other status, 200 included,
    they raise an [Exception] giving the status and the response text. *)
Theorem comment_and_transition_status (issue_key : string) (value : json)
    (jira_pat : option string) (W : writable) (pat : string) :
  get_jira_pat jira_pat (environment W) = (Returned pat, quiet) ->
  let headers := [("Authorization", fstr ["Bearer "; pat]);
                  ("Content-Type", "application/json")] in
  let comment :=
    POST (fstr [JIRA_BASE_URL (environment W); "/rest/api/2/issue/"; issue_key; "/comment"])
         headers (JObj [("body", value)]) in
  let transition :=
    POST (fstr [JIRA_BASE_URL (environment W); "/rest/api/2/issue/"; issue_key;
                "/transitions"])
         headers (JObj [("transition", JObj [("id", value)])]) in
  calls (snd (add_jira_comment issue_key value jira_pat W)) = [comment] /\
  calls (snd (transition_jira_issue issue_key value jira_pat W)) = [transition] /\
  (fst (add_jira_comment issue_key value jira_pat W) = Returned true <->
   status_code (answer W comment) = 201%Z) /\
  (fst (transition_jira_issue issue_key value jira_pat W) = Returned true <->
   status_code (answer W transition) = 204%Z) /\
  (status_code (answer W comment) <> 201%Z ->
   fst (add_jira_comment issue_key value jira_pat W) =
     Raised (Exception (fstr ["Failed to add comment: ";
                              str_of_Z (status_code (answer W comment)); " - ";
                              text (answer W comment)]))) /\
  (status_code (answer W transition) <> 204%Z ->
   fst (transition_jira_issue issue_key value jira_pat W) =
     Raised (Exception (fstr ["Failed to transition issue: ";
                              str_of_Z (status_code (answer W transition)); " - ";
                              text (answer W transition)]))).
Proof.
  intros Hpat headers comment transition.
  pose proof (post_only_run
                (fun E => fstr [JIRA_BASE_URL E; "/rest/api/2/issue/"; issue_key; "/comment"])
                (JObj [("body", value)]) 201 "Failed to add comment: " jira_pat W pat
                (add_jira_comment issue_key value jira_pat) Hpat eq_refl) as Hc.
  pose proof (post_only_run
                (fun E => fstr [JIRA_BASE_URL E; "/rest/api/2/issue/"; issue_key;
                                "/transitions"])
                (JObj [("transition", JObj [("id", value)])]) 204
                "Failed to transition issue: " jira_pat W pat
                (transition_jira_issue issue_key value jira_pat) Hpat eq_refl) as Ht.
  cbv beta zeta in Hc, Ht. fold headers in Hc, Ht. fold comment in Hc. fold transition in Ht.
  rewrite Hc, Ht. cbn [fst snd calls].
  split; [reflexivity|]. split; [reflexivity|].
  destruct (Z.eqb_spec (status_code (answer W comment)) 201) as [Hc1|Hc1];
    destruct (Z.eqb_spec (status_code (answer W transition)) 204) as [Ht1|Ht1];
    cbn [negb]; repeat split; intros; try reflexivity; try assumption;
    try contradiction; try congruence.
Qed.

Lemma comment_and_transition_status_witness :
  exists message,
    fst (add_jira_comment "RHOAIENG-1" (JStr "Looks good") (Some "token") ok_store) =
      Raised (Exception message) /\
    fst (add_jira_comment "RHOAIENG-1" (JStr "Looks good") (Some "token") creating_store) =
      Returned true.
Proof.
  destruct (comment_and_transition_status "RHOAIENG-1" (JStr "Looks good") (Some "token")
              ok_store "token" eq_refl) as (_ & _ & _ & _ & Hfail & _).
  destruct (comment_and_transition_status "RHOAIENG-1" (JStr "Looks good") (Some "token")
              creating_store "token" eq_refl) as (_ & _ & Hok & _).
  eexists. split.
  - apply Hfail. discriminate.
  - apply Hok. reflexivity.
Defined.

Lemma within_get_jira_issue (issue_key fields : string) (jira_pat : option string)
    (W : writable) (pat : string) :
  get_jira_pat jira_pat (environment W) = (Returned pat, quiet) ->
  let read := issue_read (environment W) pat issue_key fields in
  within (get_jira_issue issue_key fields jira_pat) W =
    (if negb (Z.eqb (status_code (answer W read)) 200) then
       Raised (Exception (fstr ["Failed to fetch issue: ";
                                str_of_Z (status_code (answer W read))]))
     else Returned (json_body (answer W read)),
     {| client := []; calls := [read] |}).
Proof.
  intros Hpat read. unfold within.
  rewrite (get_jira_issue_run issue_key fields jira_pat (environment W) pat Hpat).
  reflexivity.
Qed.

Lemma within_lift {A : Type} (c : outcome A) (W : writable) :
  within (lift c) W = (c, {| client := []; calls := [] |}).
Proof. reflexivity. Qed.

Lemma create_epic_run (summary description strat_key component assignee : json)
    (jira_pat : option string) (W : writable) (pat : string) :
  get_jira_pat jira_pat (environment W) = (Returned pat, quiet) ->
  let created :=
    create_call (environment W) pat
      (epic_fields summary description strat_key component assignee) in
  create_epic summary description strat_key component assignee jira_pat W =
    if negb (Z.eqb (status_code (answer W created)) 201) then
      (Raised (Exception (fstr ["Failed to create issue: ";
                                str_of_Z (status_code (answer W created)); " - ";
                                text (answer W created)])),
       {| client := []; calls := [created] |})
    else
      match item (json_body (answer W created)) "key" with
      | Raised e => (Raised e, {| client := []; calls := [created] |})
      | Returned key =>
          let read :=
            issue_read (environment W) pat (format (environment W) key) epic_read_fields in
          (if negb (Z.eqb (status_code (answer W read)) 200) then
             Raised (Exception (fstr ["Failed to fetch issue: ";
                                      str_of_Z (status_code (answer W read))]))
           else
             let? epic_data := build_issue_data (json_body (answer W read)) "epic" in
             Returned (dict_set "strat_key" strat_key epic_data),
           {| client := []; calls := [created; read] |})
      end.
Proof.
  intros Hpat created. unfold create_epic. cbv zeta.
  rewrite wbind_run.
  rewrite (create_jira_issue_run "RHOAIENG" summary description (JStr "Epic") _ jira_pat
             W pat Hpat).
  cbv zeta. fold (epic_fields summary description strat_key component assignee).
  fold created.
  destruct (negb (status_code (answer W created) =? 201)%Z); [reflexivity|].
  destruct (item (json_body (answer W created)) "key") as [key|e]; [|reflexivity].
  cbn [fst snd client calls app].
  rewrite wbind_run. cbn [within ask fst snd client calls app map http_log wfile quiet].
  rewrite wbind_run.
  rewrite (within_get_jira_issue (format (environment W) key) _ jira_pat W pat Hpat).
  cbv zeta. fold epic_read_fields.
  destruct (negb (status_code
                    (answer W (issue_read (environment W) pat
                                 (format (environment W) key) epic_read_fields)) =? 200)%Z);
    [reflexivity|].
  cbn [fst snd client calls app]. rewrite wbind_run, within_lift.
  destruct (build_issue_data _ "epic") as [epic_data|e]; reflexivity.
Qed.

(** X25. With a credential, [create_epic] first POSTs the new issue: an
    [Epic] of project RHOAIENG whose Epic Name is the summary and whose
    Parent Link is the STRAT key, with [components] and [assignee] set only
    when a component or an assignee is given. When the store does not
    answer 201, it raises and makes no other call. Otherwise it reads the
    created issue back; when that read fails it raises although the issue
    was created; when it succeeds the result is the normalized issue with
    [strat_key] set to the STRAT key given. *)
Theorem create_epic_contract (summary description strat_key component assignee : json)
    (jira_pat : option string) (W : writable) (pat : string) :
  get_jira_pat jira_pat (environment W) = (Returned pat, quiet) ->
  let fields := epic_fields summary description strat_key component assignee in
  let created := create_call (environment W) pat fields in
  let result := create_epic summary description strat_key component assignee jira_pat W in
  (dict_get "project" fields = Some (JObj [("key", JStr "RHOAIENG")]) /\
   dict_get "issuetype" fields = Some (JObj [("name", JStr "Epic")]) /\
   dict_get "customfield_12311141" fields = Some summary /\
   dict_get "customfield_12313140" fields = Some strat_key /\
   dict_get "components" fields =
     (if truthy component then Some (JArr [JObj [("name", component)]]) else None) /\
   dict_get "assignee" fields =
     (if truthy assignee then Some (JObj [("name", assignee)]) else None)) /\
  (status_code (answer W created) <> 201%Z ->
   calls (snd result) = [created] /\ exists message, fst result = Raised (Exception message)) /\
  (forall key,
     status_code (answer W created) = 201%Z ->
     item (json_body (answer W created)) "key" = Returned key ->
     let read :=
       issue_read (environment W) pat (format (environment W) key) epic_read_fields in
     calls (snd result) = [created; read] /\
     (status_code (answer W read) <> 200%Z ->
      fst result = Raised (Exception (fstr ["Failed to fetch issue: ";
                                            str_of_Z (status_code (answer W read))]))) /\
     (forall epic_data,
        status_code (answer W read) = 200%Z ->
        build_issue_data (json_body (answer W read)) "epic" = Returned epic_data ->
        fst result = Returned (dict_set "strat_key" strat_key epic_data) /\
        dict_get "strat_key" (dict_set "strat_key" strat_key epic_data) = Some strat_key /\
        dict_get "key" (dict_set "strat_key" strat_key epic_data) =
          Some (raw_key (json_body (answer W read))))).
Proof.
  intros Hpat fields created result. subst result.
  rewrite (create_epic_run summary description strat_key component assignee jira_pat W
             pat Hpat).
  cbv zeta. fold fields. fold created.
  split; [|split].
  - unfold fields, epic_fields, new_issue_fields, with_optional.
    destruct (truthy component), (truthy assignee); repeat split; reflexivity.
  - intros Hstatus. destruct (Z.eqb_spec (status_code (answer W created)) 201);
      [contradiction|]. cbn [negb fst snd calls]. split; [reflexivity | eauto].
  - intros key -> ->. cbn [Z.eqb Pos.eqb negb].
    split; [reflexivity|]. split.
    + intros Hread.
      destruct (Z.eqb_spec (status_code
                              (answer W (issue_read (environment W) pat
                                           (format (environment W) key)
                                           epic_read_fields))) 200);
        [contradiction | reflexivity].
    + intros epic_data -> Hdata. cbn [Z.eqb Pos.eqb negb fst]. rewrite Hdata.
      split; [reflexivity|]. split; [apply dict_get_set_same|].
      rewrite dict_get_set_other by reflexivity.
      exact (proj1 (build_issue_data_key _ _ _ Hdata)).
Qed.

Lemma create_epic_contract_witness :
  (exists epic_data,
     fst (create_epic (JStr "Red teaming") (JStr "") (JStr "RHAISTRAT-1") JNull
            (JStr "") (Some "token") creating_store) = Returned epic_data /\
     dict_get "strat_key" epic_data = Some (JStr "RHAISTRAT-1") /\
     dict_get "key" epic_data = Some (JStr "RHOAIENG-77")) /\
  fst (create_epic (JStr "Red teaming") (JStr "") (JStr "RHAISTRAT-1") JNull
         (JStr "") (Some "token") write_only_store) =
    Raised (Exception "Failed to fetch issue: 503").
Proof.
  split.
  - destruct (create_epic_contract (JStr "Red teaming") (JStr "") (JStr "RHAISTRAT-1")
                JNull (JStr "") (Some "token") creating_store "token" eq_refl)
      as (_ & _ & Hcreated).
    destruct (Hcreated (JStr "RHOAIENG-77") eq_refl eq_refl) as (_ & _ & Hread).
    assert (exists d, build_issue_data
                        (raw_issue "RHOAIENG-77" [("summary", JStr "Red teaming")])
                        "epic" = Returned d) as [d Hd] by (eexists; reflexivity).
    destruct (Hread d eq_refl Hd) as (Hresult & Hstrat & Hkey).
    eexists. split; [exact Hresult|]. split; [exact Hstrat | exact Hkey].
  - destruct (create_epic_contract (JStr "Red teaming") (JStr "") (JStr "RHAISTRAT-1")
                JNull (JStr "") (Some "token") write_only_store "token" eq_refl)
      as (_ & _ & Hcreated).
    destruct (Hcreated (JStr "RHOAIENG-77") eq_refl eq_refl) as (_ & Hfail & _).
    apply Hfail. discriminate.
Defined.

Lemma create_task_run (summary description epic_key issue_type component assignee : json)
    (jira_pat : option string) (W : writable) (pat : string) :
  get_jira_pat jira_pat (environment W) = (Returned pat, quiet) ->
  let created :=
    create_call (environment W) pat
      (task_fields summary description epic_key issue_type component assignee) in
  create_task summary description epic_key issue_type component assignee jira_pat W =
    if negb (Z.eqb (status_code (answer W created)) 201) then
      (Raised (Exception (fstr ["Failed to create issue: ";
                                str_of_Z (status_code (answer W created)); " - ";
                                text (answer W created)])),
       {| client := []; calls := [created] |})
    else
      match item (json_body (answer W created)) "key" with
      | Raised e => (Raised e, {| client := []; calls := [created] |})
      | Returned key =>
          let read :=
            issue_read (environment W) pat (format (environment W) key) task_read_fields in
          (if negb (Z.eqb (status_code (answer W read)) 200) then
             Raised (Exception (fstr ["Failed to fetch issue: ";
                                      str_of_Z (status_code (answer W read))]))
           else
             let? task_data := build_issue_data (json_body (answer W read)) "task" in
             let? issuetype := task_issuetype (json_body (answer W read)) in
             Returned (dict_set "issuetype" issuetype
                         (dict_set "epic_key" epic_key task_data)),
           {| client := []; calls := [created; read] |})
      end.
Proof.
  intros Hpat created. unfold create_task. cbv zeta.
  rewrite wbind_run.
  rewrite (create_jira_issue_run "RHOAIENG" summary description issue_type _ jira_pat
             W pat Hpat).
  cbv zeta. fold (task_fields summary description epic_key issue_type component assignee).
  fold created.
  destruct (negb (status_code (answer W created) =? 201)%Z); [reflexivity|].
  destruct (item (json_body (answer W created)) "key") as [key|e]; [|reflexivity].
  cbn [fst snd client calls app].
  rewrite wbind_run. cbn [within ask fst snd client calls app map http_log wfile quiet].
  rewrite wbind_run.
  rewrite (within_get_jira_issue (format (environment W) key) _ jira_pat W pat Hpat).
  cbv zeta. fold task_read_fields.
  destruct (negb (status_code
                    (answer W (issue_read (environment W) pat
                                 (format (environment W) key) task_read_fields)) =? 200)%Z);
    [reflexivity|].
  cbn [fst snd client calls app]. rewrite wbind_run, within_lift.
  destruct (build_issue_data _ "task") as [task_data|e]; [|reflexivity].
  cbn [fst snd client calls app obind]. rewrite wbind_run, within_lift.
  destruct (task_issuetype _) as [issuetype|e]; reflexivity.
Qed.

(** X26. With a credential, [create_task] first POSTs the new issue: an
    issue of project RHOAIENG of the type given, whose Epic Link is the
    Epic key, with [components] and [assignee] set only when given. When
    the store does not answer 201, it raises and makes no other call.
    Otherwise it reads the created issue back, and the result is the
    normalized issue with [epic_key] set to the Epic key given and
    [issuetype] set to the name of the issue's type in the store ([Task]
    when the store names none). *)
Theorem create_task_contract
    (summary description epic_key issue_type component assignee : json)
    (jira_pat : option string) (W : writable) (pat : string) :
  get_jira_pat jira_pat (environment W) = (Returned pat, quiet) ->
  let fields := task_fields summary description epic_key issue_type component assignee in
  let created := create_call (environment W) pat fields in
  let result :=
    create_task summary description epic_key issue_type component assignee jira_pat W in
  (dict_get "project" fields = Some (JObj [("key", JStr "RHOAIENG")]) /\
   dict_get "issuetype" fields = Some (JObj [("name", issue_type)]) /\
   dict_get "customfield_12311140" fields = Some epic_key /\
   dict_get "components" fields =
     (if truthy component then Some (JArr [JObj [("name", component)]]) else None) /\
   dict_get "assignee" fields =
     (if truthy assignee then Some (JObj [("name", assignee)]) else None)) /\
  (status_code (answer W created) <> 201%Z ->
   calls (snd result) = [created] /\ exists message, fst result = Raised (Exception message)) /\
  (forall key,
     status_code (answer W created) = 201%Z ->
     item (json_body (answer W created)) "key" = Returned key ->
     let read :=
       issue_read (environment W) pat (format (environment W) key) task_read_fields in
     calls (snd result) = [created; read] /\
     (forall task_data issuetype,
        status_code (answer W read) = 200%Z ->
        build_issue_data (json_body (answer W read)) "task" = Returned task_data ->
        task_issuetype (json_body (answer W read)) = Returned issuetype ->
        exists task,
          fst result = Returned task /\
          dict_get "epic_key" task = Some epic_key /\
          dict_get "issuetype" task = Some issuetype /\
          dict_get "key" task = Some (raw_key (json_body (answer W read))))).
Proof.
  intros Hpat fields created result. subst result.
  rewrite (create_task_run summary description epic_key issue_type component assignee
             jira_pat W pat Hpat).
  cbv zeta. fold fields. fold created.
  split; [|split].
  - unfold fields, task_fields, new_issue_fields, with_optional.
    destruct (truthy component), (truthy assignee); repeat split; reflexivity.
  - intros Hstatus. destruct (Z.eqb_spec (status_code (answer W created)) 201);
      [contradiction|]. cbn [negb fst snd calls]. split; [reflexivity | eauto].
  - intros key -> ->. cbn [Z.eqb Pos.eqb negb].
    split; [reflexivity|].
    intros task_data issuetype -> Hdata Htype. cbn [Z.eqb Pos.eqb negb fst].
    rewrite Hdata. cbn [obind]. rewrite Htype. cbn [obind].
    eexists. split; [reflexivity|]. split; [|split].
    + rewrite dict_get_set_other by reflexivity. apply dict_get_set_same.
    + apply dict_get_set_same.
    + rewrite !dict_get_set_other by reflexivity.
      exact (proj1 (build_issue_data_key _ _ _ Hdata)).
Qed.

Lemma create_task_contract_witness :
  exists task,
    fst (create_task (JStr "Red teaming") (JStr "") (JStr "RHOAIENG-1") (JStr "Story")
           (JStr "AI Safety") JNull (Some "token") creating_store) = Returned task /\
    dict_get "epic_key" task = Some (JStr "RHOAIENG-1") /\
    dict_get "issuetype" task = Some (JStr "Task").
Proof.
  destruct (create_task_contract (JStr "Red teaming") (JStr "") (JStr "RHOAIENG-1")
              (JStr "Story") (JStr "AI Safety") JNull (Some "token") creating_store
              "token" eq_refl) as (_ & _ & Hcreated).
  destruct (Hcreated (JStr "RHOAIENG-77") eq_refl eq_refl) as (_ & Hread).
  assert (exists d, build_issue_data
                      (raw_issue "RHOAIENG-77" [("summary", JStr "Red teaming")])
                      "task" = Returned d) as [d Hd] by (eexists; reflexivity).
  destruct (Hread d (JStr "Task") eq_refl Hd eq_refl) as (task & Hresult & Hepic & Htype & _).
  exists task. split; [exact Hresult|]. split; [exact Hepic | exact Htype].
Defined.

(** ** No search without parents *)

Lemma as_strs_nonempty (l : list json) (keys : list string) :
  as_strs l = Returned keys -> l <> [] -> keys <> [].
Proof.
  intros H Hl ->. apply as_strs_map in H. now destruct l.
Qed.

Lemma only_lift_bind {A B : Type} (P : environ -> request -> Prop) (o : outcome A)
    (k : A -> M B) :
  (forall a, o = Returned a -> only_sends P (k a)) -> only_sends P (bind (lift o) k).
Proof.
  intros Hk E q. rewrite bind_run. unfold lift. destruct o as [a|e]; [|intros []].
  rewrite tapp_quiet_l. cbn [snd]. apply (Hk a eq_refl).
Qed.

Lemma run_jira_query_sends (jql fields : string) (jira_pat : option string) :
  only_sends (fun _ q => search_request jql q) (run_jira_query jql fields jira_pat).
Proof.
  intros E q Hq. pose proof (get_jira_pat_run jira_pat E) as Hpat.
  destruct (fst (get_jira_pat jira_pat E)) as [pat|e].
  - destruct (run_jira_query_run jql fields jira_pat E pat Hpat) as [Ht _].
    rewrite Ht in Hq. destruct Hq as [<- | []].
    eexists _, _, _. reflexivity.
  - rewrite (run_jira_query_no_pat jql fields jira_pat E e Hpat) in Hq. destruct Hq.
Qed.

Lemma only_weaken {A : Type} (P Q : environ -> request -> Prop) (c : M A) :
  (forall E q, P E q -> Q E q) -> only_sends P c -> only_sends Q c.
Proof. intros HPQ Hc E q Hq. apply HPQ, Hc, Hq. Qed.

Lemma batch_level_names_parents {S : Type} (parent_keys : list json) (message : string)
    (jql : list string -> string) (field_list : string)
    (body : list string -> S -> json -> M S) (init : S) (jira_pat : option string) :
  (forall keys q, keys <> [] -> search_request (jql keys) q -> names_parents q) ->
  (forall keys s x, offline (body keys s x)) ->
  only_sends (fun _ => names_parents)
    (batch_level parent_keys message jql field_list body init jira_pat).
Proof.
  intros Hjql Hbody. unfold batch_level.
  destruct parent_keys as [|pk pks] eqn:Hpk; cbn [nonempty];
    [apply only_offline, offline_ret|].
  apply only_bind; [apply only_offline, offline_send | intros _].
  apply only_lift_bind. intros keys Hkeys.
  assert (keys <> []) as Hne by (apply (as_strs_nonempty _ _ Hkeys); discriminate).
  apply only_bind.
  - eapply only_weaken; [|apply run_jira_query_sends].
    intros E q Hq. exact (Hjql keys q Hne Hq).
  - intros issues. apply only_offline. offline. apply Hbody.
Qed.

Lemma epics_name_parents (keys : list string) (q : request) :
  keys <> [] -> search_request (epics_jql keys) q -> names_parents q.
Proof. intros Hne Hq. exists keys. auto. Qed.

Lemma tasks_name_parents (keys : list string) (q : request) :
  keys <> [] -> search_request (tasks_jql keys) q -> names_parents q.
Proof. intros Hne Hq. exists keys. auto. Qed.

(** What follows the top level's search in the two flows. *)
Lemma rest_of_log {A B : Type} (P : request -> Prop) (c : M A) (k : A -> M B)
    (E : environ) (first : request) (rest : list request) :
  (http_log (snd (c E)) = [] \/ exists q, http_log (snd (c E)) = [q]) ->
  (forall a, fst (c E) = Returned a -> only_sends (fun _ => P) (k a)) ->
  http_log (snd (bind c k E)) = first :: rest ->
  Forall P rest.
Proof.
  intros Hc Hk. rewrite bind_run.
  destruct (c E) as [[a|e] t]; cbn [fst snd] in *.
  - specialize (Hk a eq_refl E). unfold tapp. cbn [http_log].
    destruct Hc as [-> | [q ->]]; cbn [app]; intros Hlog.
    + rewrite Hlog in Hk. apply Forall_forall. intros x Hx. apply Hk. now right.
    + injection Hlog as _ <-. apply Forall_forall. exact Hk.
  - destruct Hc as [-> | [q ->]]; [discriminate|].
    intros [= _ <-]. constructor.
Qed.

Lemma run_jira_query_at_most_one (jql fields : string) (jira_pat : option string)
    (E : environ) :
  http_log (snd (run_jira_query jql fields jira_pat E)) = [] \/
  exists q, http_log (snd (run_jira_query jql fields jira_pat E)) = [q].
Proof.
  destruct (run_jira_query_cases jql fields jira_pat E) as [[e He] | (q0 & _ & Ht & _)].
  - left. now rewrite He.
  - right. exists q0. now rewrite Ht.
Qed.

Lemma fetch_rfes_at_most_one (component : string) (jira_pat : option string) (E : environ) :
  http_log (snd (fetch_rfes component jira_pat E)) = [] \/
  exists q, http_log (snd (fetch_rfes component jira_pat E)) = [q].
Proof.
  unfold fetch_rfes. cbv zeta. rewrite normalized_fetch_run. cbn [snd].
  apply run_jira_query_at_most_one.
Qed.

Lemma send_then_log {B : Type} (L : string) (data : json) (k : unit -> M B) (E : environ) :
  http_log (snd (bind (send_sse_event L data) k E)) = http_log (snd (k tt E)).
Proof. rewrite bind_run. reflexivity. Qed.

Ltac parents_step :=
  lazymatch goal with
  | |- only_sends _ (batch_level _ _ epics_jql _ _ _ _) =>
      apply batch_level_names_parents;
      [exact epics_name_parents | intros ? ? ?; cbv beta]
  | |- only_sends _ (batch_level _ _ tasks_jql _ _ _ _) =>
      apply batch_level_names_parents;
      [exact tasks_name_parents | intros ? ? ?; cbv beta]
  | |- offline (rfe_first_epic _ _ _ _) => apply offline_rfe_first_epic
  | |- offline (rfe_first_task _ _ _ _ _) => apply offline_rfe_first_task
  | |- offline (strat_first_epic _ _ _) => apply offline_strat_first_epic
  | |- offline (strat_first_task _ _ _ _) => apply offline_strat_first_task
  | |- only_sends _ (run_jira_query _ _ _) => fail
  | |- only_sends _ _ => only_step
  end.

Ltac name_parents := repeat (cbv beta zeta; parents_step).

Lemma rfe_first_rest_names_parents (jira_pat : option string) (component : string)
    (E : environ) (first : request) (rest : list request) :
  http_log (snd (stream_hierarchy_rfe_first jira_pat component E)) = first :: rest ->
  Forall names_parents rest.
Proof.
  unfold stream_hierarchy_rfe_first. rewrite send_then_log.
  apply rest_of_log; [apply fetch_rfes_at_most_one|].
  intros rfes _. destruct rfes as [|r rs]; cbn [nonempty negb]; [name_parents|].
  apply only_bind; [name_parents | intros total_rfes].
  apply only_bind; [name_parents | intros _].
  apply only_lift_bind. intros rfe_keys Hkeys. cbv zeta.
  assert (rfe_keys <> []) as Hne
      by (apply (as_strs_nonempty _ _ Hkeys); discriminate).
  apply only_bind.
  - eapply only_weaken; [|apply run_jira_query_sends].
    intros E' q Hq. exists rfe_keys. auto.
  - intros strat_issues. name_parents.
Qed.

Lemma strat_first_rest_names_parents (jira_pat : option string) (component : string)
    (E : environ) (first : request) (rest : list request) :
  http_log (snd (stream_hierarchy_strat_first jira_pat component E)) = first :: rest ->
  Forall names_parents rest.
Proof.
  unfold stream_hierarchy_strat_first. rewrite send_then_log. cbv zeta.
  apply rest_of_log; [apply run_jira_query_at_most_one|].
  intros strat_issues _. name_parents.
Qed.

(** X27. In the requests of a streamed flow, every search after the first
    names at least one parent key: it is the STRAT, Epic or Task search of
    the flow built from a list of keys that is not empty. A level whose
    parent level gave no key is skipped, not searched with an empty list. *)
Theorem lower_searches_name_parents (jira_pat : option string)
    (component top_level : string) (E : environ) (first : request)
    (rest : list request) :
  http_log (snd (stream_hierarchy jira_pat component top_level E)) = first :: rest ->
  Forall names_parents rest.
Proof.
  unfold stream_hierarchy. destruct (String.eqb top_level "strat").
  - apply strat_first_rest_names_parents.
  - apply rfe_first_rest_names_parents.
Qed.

Lemma lower_searches_name_parents_witness :
  exists first rest,
    http_log (snd (sample_flow "rfe")) = first :: rest /\
    List.length rest = 3%nat /\
    Forall names_parents rest.
Proof.
  assert (exists first rest,
             http_log (snd (sample_flow "rfe")) = first :: rest /\
             List.length rest = 3%nat) as (first & rest & Hlog & Hlen)
      by (eexists _, _; vm_compute; split; reflexivity).
  exists first, rest. split; [exact Hlog|]. split; [exact Hlen|].
  exact (lower_searches_name_parents (Some "token") "AI Safety" "rfe"
           (environ_of sample_store) first rest Hlog).
Defined.

(** ** Which children a flow streams *)




(** *** The by-parent dicts *)








(** *** Placing events *)



Lemma placed_weaken (rule rule' : json -> list written -> Prop) (records : list json)
    (evs : list written) :
  (forall x part, In x records -> rule x part -> rule' x part) ->
  placed rule records evs -> placed rule' records evs.
Proof.
  intros Hw (parts & Hall & ->). exists parts. split; [|reflexivity].
  induction Hall as [|x part l ps Hx Hall IH]; constructor.
  - apply Hw; [now left | exact Hx].
  - apply IH. intros y p Hy. apply Hw. now right.
Qed.






(** *** One iteration of each loop, when it returns *)











(** *** The loops, when they run to their end *)



Lemma data_key (x : json) (issue_type : string) (data : dict) :
  build_issue_data x issue_type = Returned data ->
  dict_get "key" data = Some (raw_key x).
Proof. intros H. now destruct (build_issue_data_key _ _ _ H). Qed.



Lemma epic_event_key (x : json) (data : dict) (chain : dict -> dict) :
  build_issue_data x "epic" = Returned data ->
  (forall d, dict_get "key" (chain d) = dict_get "key" d) ->
  dict_get "key" (chain data) = Some (raw_key x).
Proof. intros Hdata Hchain. rewrite Hchain. exact (data_key _ _ _ Hdata). Qed.








(** *** A flow that returns, level by level *)

Lemma plain_nil : plain [].
Proof. repeat split. Qed.





















(** A flow that raises is outside of this: when a record fails to
    normalise the flow ends there, and the records after it leave nothing,
    linked or not. On the example store with an Epic of unset priority put
    first, the Epic RHOAIENG-1, which names the streamed RHAISTRAT-1, is
    not streamed. *)
Lemma epic_after_failed_record_not_streamed :
  fst (stream_hierarchy (Some "token") "AI Safety" "strat"
         (environ_of unset_priority_epic_store)) =
    Raised (no_attribute JNull "get") /\
  map outline (wfile (snd (stream_hierarchy (Some "token") "AI Safety" "strat"
                             (environ_of unset_priority_epic_store)))) =
    [("progress", JNull); ("strat", JStr "RHAISTRAT-1"); ("strat", JStr "RHAISTRAT-2");
     ("progress", JNull)].
Proof. split; vm_compute; reflexivity. Qed.
